(** * OCIP web scraper: harvest, checkpoint and enrichment control logic

    A shallow embedding of the control logic of [Main.py] (the six phase
    scripts that are concatenated in it) and the properties checked on it.

    Layout:
    - [PyStr]   Python [str] values as sequences of code points, with the
                string operations the scripts use ([strip], [in], the
                [\s+] substitution, the pager regular expression);
    - [Text]    [clean_text];
    - [Py]      the dictionaries, slices and comparisons the scripts use;
    - [World]   the outside world (browser, operator, clock, files) as a
                handler of commands, and the state-and-exception monad the
                scripts run in;
    - [Phase1], [Phase2], [Phase3], [Phase5], [Phase6]  the functions of
                the phase scripts (Phase 4 repeats the control flow of
                Phase 2 on facilities);
    - the properties, one section per component. *)

From Stdlib Require Import List NArith ZArith Lia Bool String Ascii.
Import ListNotations.

(* ================================================================== *)
(** * Python strings                                                    *)
(* ================================================================== *)

Module PyStr.

Local Open Scope N_scope.

(** A Python [str] is a sequence of Unicode code points. *)
Definition codepoint := N.
Definition str := list codepoint.

(** String literals of the scripts (all of them are ASCII). *)
Definition lit (s : string) : str :=
  map N_of_ascii (list_ascii_of_string s).

Definition SPACE : codepoint := 32.
Definition NBSP : codepoint := 160.      (* '\xa0' *)

(** [str.isspace], which is also what [str.strip()] removes and what [\s]
    matches in a [str] pattern: CPython decides the three with the same
    table ([_PyUnicode_IsWhitespace]). *)
Definition is_space (c : codepoint) : bool :=
  ((9 <=? c) && (c <=? 13)) || ((28 <=? c) && (c <=? 32))
  || (c =? 133) || (c =? 160) || (c =? 5760)
  || ((8192 <=? c) && (c <=? 8202))
  || (c =? 8232) || (c =? 8233) || (c =? 8239) || (c =? 8287)
  || (c =? 12288).

(** The decimal digits of Unicode 14.0, the table of CPython 3.11: 66 runs
    of ten code points, each run from its zero to its nine.  The list
    holds the zeros. *)
Definition digit_zeros : list codepoint :=
  [48; 1632; 1776; 1984; 2406; 2534; 2662; 2790; 2918; 3046; 3174; 3302;
   3430; 3558; 3664; 3792; 3872; 4160; 4240; 6112; 6160; 6470; 6608; 6784;
   6800; 6992; 7088; 7232; 7248; 42528; 43216; 43264; 43472; 43504; 43600;
   44016; 65296; 66720; 68912; 69734; 69872; 69942; 70096; 70384; 70736;
   70864; 71248; 71360; 71472; 71904; 72016; 72784; 73040; 73120; 92768;
   92864; 93008; 120782; 120792; 120802; 120812; 120822; 123200; 123632;
   125264; 130032].

(** The value of a decimal digit: what [int()] reads it as. *)
Definition digit_value (c : codepoint) : option N :=
  match find (fun z => (z <=? c) && (c <? z + 10)) digit_zeros with
  | Some z => Some (c - z)
  | None => None
  end.

(** [\d] in a [str] pattern: any decimal digit of Unicode. *)
Definition is_digit (c : codepoint) : bool :=
  match digit_value c with
  | Some _ => true
  | None => false
  end.

Fixpoint str_eqb (a b : str) : bool :=
  match a, b with
  | [], [] => true
  | x :: a', y :: b' => (x =? y) && str_eqb a' b'
  | _, _ => false
  end.

(** [s.lstrip()], [s.rstrip()], [s.strip()]. *)
Fixpoint lstrip (s : str) : str :=
  match s with
  | [] => []
  | c :: t => if is_space c then lstrip t else s
  end.

Fixpoint rstrip (s : str) : str :=
  match s with
  | [] => []
  | c :: t =>
      match rstrip t with
      | [] => if is_space c then [] else [c]
      | t' => c :: t'
      end
  end.

Definition strip (s : str) : str := rstrip (lstrip s).

(** [re.sub(r'\s+', ' ', s)]: a left-to-right scan in which every maximal
    run of whitespace is replaced by one space.  [in_run] tells that the
    previous character belonged to the run being replaced. *)
Fixpoint sub_ws_from (in_run : bool) (s : str) : str :=
  match s with
  | [] => []
  | c :: t =>
      if is_space c
      then (if in_run then sub_ws_from true t else SPACE :: sub_ws_from true t)
      else c :: sub_ws_from false t
  end.

Definition re_sub_ws (s : str) : str := sub_ws_from false s.

(** [s.replace(old, new)] for one-character [old] and [new]. *)
Definition replace_char (old new : codepoint) (s : str) : str :=
  map (fun c => if c =? old then new else c) s.

(** [a.startswith(p)] and [p in a]. *)
Fixpoint starts_with (p a : str) : bool :=
  match p, a with
  | [], _ => true
  | x :: p', y :: a' => (x =? y) && starts_with p' a'
  | _ :: _, [] => false
  end.

Fixpoint contains (p a : str) : bool :=
  starts_with p a ||
  match a with
  | [] => false
  | _ :: a' => contains p a'
  end.

(** Longest prefix whose characters satisfy [f], and the rest. *)
Fixpoint span (f : codepoint -> bool) (s : str) : str * str :=
  match s with
  | [] => ([], [])
  | c :: t =>
      if f c then let (a, b) := span f t in (c :: a, b) else ([], s)
  end.

(** Remove the literal prefix [p], if it is there. *)
Fixpoint expect (p a : str) : option str :=
  match p, a with
  | [], _ => Some a
  | x :: p', y :: a' => if x =? y then expect p' a' else None
  | _ :: _, [] => None
  end.

(** [int(ds)] for a string of decimal digits ([None]: [ValueError]).
    [int] refuses a string of more than [sys.get_int_max_str_digits()]
    digits, 4300 unless the interpreter is told otherwise; zeros in front
    count. *)
Definition INT_MAX_STR_DIGITS : nat := 4300.

Definition int_of_digits (ds : str) : option N :=
  if Nat.ltb INT_MAX_STR_DIGITS (List.length ds) then None
  else
    Some (fold_left
            (fun acc c => 10 * acc + match digit_value c with
                                     | Some d => d
                                     | None => 0
                                     end) ds 0).

(** [re.match(r'(\d+)\s*-\s*(\d+)\s+of\s+(\d+)\s+items?', s)]: the three
    groups, when the pattern matches at the start of [s].  The character
    classes that follow each other in the pattern are disjoint, so the
    greedy scan below never has to give characters back. *)
Definition match_pager (s : str) : option (str * str * str) :=
  let (g1, r) := span is_digit s in
  match g1 with [] => None | _ =>
  match expect (lit "-") (lstrip r) with None => None | Some r =>
  let (g2, r) := span is_digit (lstrip r) in
  match g2 with [] => None | _ =>
  let (w, r) := span is_space r in
  match w with [] => None | _ =>
  match expect (lit "of") r with None => None | Some r =>
  let (w, r) := span is_space r in
  match w with [] => None | _ =>
  let (g3, r) := span is_digit r in
  match g3 with [] => None | _ =>
  let (w, r) := span is_space r in
  match w with [] => None | _ =>
  match expect (lit "item") r with None => None | Some _ =>
  Some (g1, g2, g3)
  end end end end end end end end end.

End PyStr.

(* ================================================================== *)
(** * Text normalisation (Phases 2, 4, 5 and 6)                         *)
(* ================================================================== *)

Module Text.
Import PyStr.

(** What a caller may pass for [text]: [None] or a string. *)
Inductive pytext :=
| PyNone
| PyStr (s : str).

(** [not text]. *)
Definition falsy (t : pytext) : bool :=
  match t with
  | PyNone => true
  | PyStr [] => true
  | PyStr (_ :: _) => false
  end.

(** [[
def clean_text(text):
    if not text:
        return ""
    text = re.sub(r'\s+', ' ', text.strip())
    text = text.replace('\xa0', ' ')
    return text
]]
    The four copies (Phases 2, 4, 5, 6) are the same. *)
Definition clean_text (text : pytext) : str :=
  if falsy text then []
  else match text with
       | PyNone => []
       | PyStr s => replace_char NBSP SPACE (re_sub_ws (strip s))
       end.

(** The shape of the texts [clean_text] returns. *)

(** A string is tidy when it is its own normal form: every whitespace
    character in it is a plain space, no space is first or last, and no two
    spaces are adjacent.  [space_ok] says whether a space may come next. *)
Fixpoint tidy (space_ok : bool) (r : str) : bool :=
  match r with
  | [] => true
  | c :: t =>
      if is_space c
      then ((c =? SPACE)%N) && space_ok
           && match t with [] => false | _ => true end
           && tidy false t
      else tidy true t
  end.

(** The last character, if any, is not whitespace. *)
Fixpoint ends_nonspace (s : str) : bool :=
  match s with
  | [] => true
  | c :: t => match t with
              | [] => negb (is_space c)
              | _ => ends_nonspace t
              end
  end.

End Text.

(* ================================================================== *)
(** * Python values used by the scripts                                 *)
(* ================================================================== *)

Module Py.
Import PyStr Text.
Local Open Scope Z_scope.

(** A scraped record is a dictionary from field names to strings (or
    [None], which [get_attribute] may return for a missing [href]); the
    association list keeps the insertion order, as a Python [dict] does. *)
Definition record := list (str * pytext).

(** [d.get(k)]: the value of the first binding of [k], or [None]. *)
Fixpoint get (k : str) (d : record) : option pytext :=
  match d with
  | [] => None
  | (k', v) :: d' => if str_eqb k k' then Some v else get k d'
  end.

(** [d.get(k, "")]. *)
Definition get_or_empty (k : str) (d : record) : pytext :=
  match get k d with
  | Some v => v
  | None => PyStr []
  end.

(** [a == b] on values that are [None] or strings. *)
Definition pytext_eqb (a b : pytext) : bool :=
  match a, b with
  | PyNone, PyNone => true
  | PyStr x, PyStr y => str_eqb x y
  | _, _ => false
  end.

(** [xs[k:]], with Python's reading of a negative [k]. *)
Definition slice_from {A} (xs : list A) (k : Z) : list A :=
  if k <? 0
  then skipn (Z.to_nat (Z.max 0 (Z.of_nat (List.length xs) + k))) xs
  else skipn (Z.to_nat k) xs.

(** [enumerate(xs, start=k)]. *)
Fixpoint enumerate {A} (xs : list A) (k : Z) : list (Z * A) :=
  match xs with
  | [] => []
  | x :: xs' => (k, x) :: enumerate xs' (k + 1)
  end.

(** What [for i, x in enumerate(xs[start_index:], start=start_index)]
    iterates over: the loop head of every phase. *)
Definition loop_items {A} (xs : list A) (start_index : Z) : list (Z * A) :=
  enumerate (slice_from xs start_index) start_index.

(** [d.get(k, "Unknown")]. *)
Definition get_or_unknown (k : str) (d : record) : pytext :=
  match get k d with
  | Some v => v
  | None => PyStr (lit "Unknown")
  end.

(** [not url or url == "Not Found"]. *)
Definition no_valid_url (url : pytext) : bool :=
  falsy url || pytext_eqb url (PyStr (lit "Not Found")).

(** [len(xs)]. *)
Definition len {A} (xs : list A) : Z := Z.of_nat (List.length xs).

(** [answer.strip().lower() == 'y']. *)
Definition says_yes (answer : str) : bool :=
  let a := strip answer in str_eqb a (lit "y") || str_eqb a (lit "Y").

(** [answer.lower() == 'y'] (no [strip]). *)
Definition says_yes_raw (answer : str) : bool :=
  str_eqb answer (lit "y") || str_eqb answer (lit "Y").

End Py.

(* ================================================================== *)
(** * The outside world and the monad the scripts run in                *)
(* ================================================================== *)

Module World.
Import PyStr Text.

(** The exception classes the scripts tell apart; [OtherException] stands
    for every other subclass of [Exception]. *)
Inductive exn :=
| TimeoutException
| NoSuchElementException
| StaleElementReferenceException
| ElementClickInterceptedException
| OtherException.

(** The page elements the scripts look up (by CSS selector, id or tag). *)
Inductive elem :=
| PagerInfo          (* span.k-pager-info.k-label *)
| NextBtn            (* a.k-pager-nav[aria-label='Go to the next page'] *)
| FirstBtn           (* a.k-pager-nav.k-pager-first[...] *)
| DropdownTrigger    (* span[aria-controls='HeiId_listbox'] *)
| Listbox            (* HeiId_listbox *)
| ListOption (i : nat)   (* the i-th <li> of the listbox *)
| Body.

(** What the scripts read from one [tr.k-master-row]: the texts of
    its [td] cells and the [href] of its links ([None] when the link is not
    in the row, [Some PyNone] when it has no [href]). *)
Record row := {
  cells : list str;
  manage_link : option pytext;
  profile_link : option pytext;
  keyword_link : option str;
      (* Phase 3: the first link whose href or title mentions
         Manage, Details, Edit or View *)
  yes_no : list str
      (* Phase 5: parse_yes_no_cell of the cells 6, 7 and 8 *)
}.

(** The calls made to Selenium.  Each of them may raise. *)
Inductive selenium :=
| FindElement (e : elem)
| FindOptions              (* listbox.find_elements(By.TAG_NAME, "li") *)
| FindRows                 (* driver.find_elements(..., "tr.k-master-row") *)
| RowsStable               (* Phase 3: wait_for_rows_stable(driver) *)
| ReadRow (i : nat)        (* the cells and links of the i-th row found *)
| Text (e : elem)
| AriaDisabled (e : elem)  (* e.get_attribute("aria-disabled") *)
| WaitClickable (e : elem)
| WaitVisible (e : elem)
| WaitMaskGone             (* until .k-loading-mask is invisible *)
| ScrollIntoView (e : elem)
| Click (e : elem)
| JsClick (e : elem)       (* execute_script("arguments[0].click();", e) *)
| Navigate (url : str)     (* driver.get(url) *)
| DetailPage (url : str)   (* the sections of one detail page *)
| GetDriver.               (* get_driver(): webdriver.Chrome(options=...) *)

Definition sel_val (c : selenium) : Type :=
  match c with
  | FindOptions | FindRows | RowsStable => nat
  | ReadRow _ => row
  | Text _ => str
  | AriaDisabled _ => option str
  | DetailPage _ => Py.record
  | _ => unit
  end.

(** The lines printed that the properties below refer to: the header of
    an item, [print(f"\n[{i + 1}/{total}] {name}")], and the line of a
    scraped page, [print(f"Page {current_page}: Scraped {n} ...")].  The
    other prints of the scripts are not modelled. *)
Inductive message :=
| ItemHeader (position total : Z) (name : pytext)
| PageLine (current_page found : Z).

(** The calls that do not raise: the clock, the operator, the console. *)
Inductive host :=
| Sleep (ms : N)           (* time.sleep(ms / 1000) *)
| Now                      (* datetime.now().isoformat() *)
| Input                    (* input(prompt) *)
| Print (m : message).

Definition host_val (h : host) : Type :=
  match h with
  | Sleep _ | Print _ => unit
  | Now | Input => str
  end.

(** The outside world: any state, and any reaction to each call.  Nothing
    is assumed about it; it may answer differently at every call. *)
Class Env := {
  St : Type;
  browser : forall c : selenium, St -> (exn + sel_val c) * St;
  operator : forall h : host, St -> host_val h * St
}.

Inductive event :=
| Sel (c : selenium)
| Hst (h : host).

(** A run knows the state of the outside world, the calls made so far (in
    order) and the files of the script. *)
Record world {E : Env} (F : Type) := {
  ext : St;
  trace : list event;
  files : F
}.
Arguments ext {E F} _.
Arguments trace {E F} _.
Arguments files {E F} _.

(** How a function ends: it returns, it raises, or the model ran out of
    fuel ([Diverge]; shown not to happen wherever a result is claimed). *)
Inductive outcome (A : Type) :=
| Ret (a : A)
| Raise (e : exn)
| Diverge.
Arguments Ret {A} _.
Arguments Raise {A} _.
Arguments Diverge {A}.

Definition M {E : Env} (F A : Type) : Type := world F -> outcome A * world F.

Section Monad.
Context {E : Env} {F : Type}.

Definition ret {A} (a : A) : M F A := fun w => (Ret a, w).

Definition bind {A B} (m : M F A) (k : A -> M F B) : M F B :=
  fun w =>
    match m w with
    | (Ret a, w') => k a w'
    | (Raise e, w') => (Raise e, w')
    | (Diverge, w') => (Diverge, w')
    end.

Definition raise {A} (e : exn) : M F A := fun w => (Raise e, w).

Definition diverge {A} : M F A := fun w => (Diverge, w).

(** [try: m  except ...: h e].  A handler that does not cover [e] raises
    it again. *)
Definition try_except {A} (m : M F A) (h : exn -> M F A) : M F A :=
  fun w =>
    match m w with
    | (Raise e, w') => h e w'
    | r => r
    end.

(** A call to Selenium. *)
Definition sel (c : selenium) : M F (sel_val c) :=
  fun w =>
    let (r, s) := browser c (ext w) in
    let w' := {| ext := s; trace := trace w ++ [Sel c]; files := files w |} in
    match r with
    | inl e => (Raise e, w')
    | inr v => (Ret v, w')
    end.

(** A call to the clock or the operator. *)
Definition ask (h : host) : M F (host_val h) :=
  fun w =>
    let (v, s) := operator h (ext w) in
    (Ret v, {| ext := s; trace := trace w ++ [Hst h]; files := files w |}).

Definition sleep (ms : N) : M F unit := ask (Sleep ms).

Definition print (m : message) : M F unit := ask (Print m).

Definition read_files : M F F := fun w => (Ret (files w), w).

Definition write_files (f : F -> F) : M F unit :=
  fun w => (Ret tt, {| ext := ext w; trace := trace w; files := f (files w) |}).

End Monad.

Declare Scope py_scope.
Delimit Scope py_scope with py.
Notation "x <- m ;; k" := (bind m (fun x => k))
  (at level 61, m at next level, right associativity) : py_scope.
Notation "' pat <- m ;; k" := (bind m (fun x => match x with pat => k end))
  (at level 61, pat pattern, m at next level, right associativity) : py_scope.
Notation "m ;; k" := (bind m (fun _ => k))
  (at level 61, right associativity) : py_scope.

(** What is on disk under a file name.  A document is typed: [Doc d] is
    a JSON document with the keys and the kinds of values that the
    scripts write under this name and read back from it. *)
Inductive content (D : Type) :=
| Absent                 (* open() raises FileNotFoundError *)
| Garbled                (* json.load raises JSONDecodeError *)
| Unreadable             (* open() or the decoding raises another
                            exception: PermissionError, UnicodeDecodeError *)
| Doc (d : D).
Arguments Absent {D}.
Arguments Garbled {D}.
Arguments Unreadable {D}.
Arguments Doc {D} _.

End World.

(* ================================================================== *)
(** * Phase 1 (Experts Meta): the metadata harvest                      *)
(* ================================================================== *)

Module Phase1.
Import PyStr Text Py World.
Local Open Scope Z_scope.
Local Open Scope py_scope.

(** Timing configuration, in milliseconds. *)
Definition PAGE_LOAD_WAIT : N := 2000.
Definition PAGINATION_WAIT : N := 1500.
Definition DROPDOWN_CLOSE_WAIT : N := 500.

(** The document [save_checkpoint] dumps. *)
Record checkpoint := {
  timestamp : str;
  current_index : Z;
  total_institutions : Z;
  experts_collected : Z;
  data : list record
}.

Record files := {
  CHECKPOINT_FILE : content checkpoint;
  OUTPUT_JSON : content (list record)
}.

(** Pager window [(start, end, total)]. *)
Definition window : Type := Z * Z * Z.

(** The regular expression of [parse_pagination_info] applied to the
    stripped label, and [int()] applied to its three groups: a
    [ValueError] of [int] is taken by the [except Exception] of the
    function, which returns [(0, 0, 0)].  Both arms of the [else] branch
    of the source return [(0, 0, 0)] too (they differ in a warning that is
    printed). *)
Definition parse_pager_text (info_text : str) : window :=
  match match_pager info_text with
  | Some (a, b, c) =>
      match int_of_digits a, int_of_digits b, int_of_digits c with
      | Some start, Some end_, Some total =>
          (Z.of_N start, Z.of_N end_, Z.of_N total)
      | _, _, _ => (0, 0, 0)
      end
  | None => (0, 0, 0)
  end.

(** [is_disabled != "true"] and [... == "true"]. *)
Definition is_true (a : option str) : bool :=
  match a with
  | Some v => str_eqb v (lit "true")
  | None => false
  end.

(** The record built from one row by [scrape_current_page]; [None] when
    the row has fewer than 9 cells. *)
Definition expert_record (institution_name : str) (r : row) (now : str)
  : option record :=
  if len (cells r) <? 9 then None
  else
    let cell i := PyStr (strip (nth i (cells r) [])) in
    let link l := match l with
                  | Some href => href
                  | None => PyStr (lit "Not Found")
                  end in
    Some [ (lit "Institution", PyStr institution_name);
           (lit "Name", cell 8%nat);
           (lit "Expert_Type", cell 6%nat);
           (lit "Position", cell 7%nat);
           (lit "Facility", cell 4%nat);
           (lit "Expert_ID", cell 1%nat);
           (lit "Manage_URL", link (manage_link r));
           (lit "Profile_URL", link (profile_link r));
           (lit "Scraped_At", PyStr now) ].

Section Script.
Context {E : Env}.
Local Abbreviation M := (World.M files).

(** [[
def wait_for_loading_complete(driver, timeout=LOADING_MASK_TIMEOUT):
    try:
        time.sleep(0.3)
        WebDriverWait(driver, timeout).until(EC.invisibility_of_element_located(...))
    except TimeoutException: print(...)
    except: pass
]] *)
Definition wait_for_loading_complete : M unit :=
  try_except (sleep 300 ;; sel WaitMaskGone) (fun _ => ret tt).

(** [parse_pagination_info(driver)]: [(0, 0, 0)] when the label is missing,
    unreadable or does not match. *)
Definition parse_pagination_info : M window :=
  try_except
    (sel (FindElement PagerInfo) ;;
     info_text <- sel (Text PagerInfo) ;;
     ret (parse_pager_text (strip info_text)))
    (fun _ => ret (0, 0, 0)).

(** [[
def has_next_page(driver):
    try:
        next_btn = driver.find_element(...)
        is_disabled = next_btn.get_attribute("aria-disabled")
        return is_disabled != "true"
    except NoSuchElementException: return False
    except Exception: return False
]] *)
Definition has_next_page : M bool :=
  try_except
    (sel (FindElement NextBtn) ;;
     is_disabled <- sel (AriaDisabled NextBtn) ;;
     ret (negb (is_true is_disabled)))
    (fun _ => ret false).

(** [btn.click()], falling back to a JavaScript click when the click is
    intercepted. *)
Definition click_or_js (e : elem) : M unit :=
  try_except (sel (Click e))
    (fun x => match x with
              | ElementClickInterceptedException => sel (JsClick e)
              | _ => raise x
              end).

(** [click_next_page(driver, wait)]. *)
Definition click_next_page : M bool :=
  try_except
    (sel (WaitClickable NextBtn) ;;
     a <- sel (AriaDisabled NextBtn) ;;
     if is_true a then ret false
     else
       sel (ScrollIntoView NextBtn) ;;
       sleep 200 ;;
       click_or_js NextBtn ;;
       wait_for_loading_complete ;;
       sleep PAGINATION_WAIT ;;
       ret true)
    (fun _ => ret false).

(** [[
def reset_to_first_page(driver, wait):
    try:
        start, end, total = parse_pagination_info(driver)
        if start <= 1:
            return True  # Already on first page
        first_page_btn = wait.until(EC.element_to_be_clickable(...))
        if first_page_btn.get_attribute("aria-disabled") == "true":
            return True  # Already on first page
        driver.execute_script("arguments[0].scrollIntoView(...)", first_page_btn)
        time.sleep(0.2)
        try: first_page_btn.click()
        except ElementClickInterceptedException: driver.execute_script(...)
        wait_for_loading_complete(driver)
        time.sleep(PAGINATION_WAIT)
        return True
    except TimeoutException: ... return False
    except Exception as e: ... return False
]] *)
Definition reset_to_first_page : M bool :=
  try_except
    ('(start, _, _) <- parse_pagination_info ;;
     if start <=? 1 then ret true
     else
       sel (WaitClickable FirstBtn) ;;
       a <- sel (AriaDisabled FirstBtn) ;;
       if is_true a then ret true
       else
         sel (ScrollIntoView FirstBtn) ;;
         sleep 200 ;;
         click_or_js FirstBtn ;;
         wait_for_loading_complete ;;
         sleep PAGINATION_WAIT ;;
         ret true)
    (fun _ => ret false).

(** [save_checkpoint(data, current_index, institution_names)]: only the
    number of institutions goes into the document. *)
Definition save_checkpoint (data : list record) (current_index : Z)
    (institution_names : list str) : M unit :=
  now <- ask Now ;;
  write_files (fun f =>
    {| CHECKPOINT_FILE :=
         Doc {| timestamp := now;
                current_index := current_index;
                total_institutions := len institution_names;
                experts_collected := len data;
                data := data |};
       OUTPUT_JSON := OUTPUT_JSON f |}).

(** [[
def load_checkpoint():
    try:
        with open(CHECKPOINT_FILE, 'r', encoding='utf-8') as f:
            return json.load(f)
    except FileNotFoundError:
        return None
    except json.JSONDecodeError:
        return None
]]
    Any other exception of the read goes to the caller. *)
Definition load_checkpoint : M (option checkpoint) :=
  f <- read_files ;;
  match CHECKPOINT_FILE f with
  | Doc cp => ret (Some cp)
  | Unreadable => raise OtherException
  | Absent | Garbled => ret None
  end.

(** The body of the [for opt in options] loop of [get_institution_names]:
    keep the stripped text unless it is empty or mentions "Select HEI". *)
Fixpoint collect_names (idx : list nat) (names : list str) : M (list str) :=
  match idx with
  | [] => ret names
  | i :: idx' =>
      t <- sel (Text (ListOption i)) ;;
      let text := strip t in
      match text with
      | [] => collect_names idx' names
      | _ => if contains (lit "Select HEI") text
             then collect_names idx' names
             else collect_names idx' (names ++ [text])
      end
  end.

(** [get_institution_names(driver, wait)]: [[]] on any failure. *)
Definition get_institution_names : M (list str) :=
  try_except
    (sel (WaitClickable DropdownTrigger) ;;
     sel (Click DropdownTrigger) ;;
     sel (WaitVisible Listbox) ;;
     sleep 500 ;;
     n <- sel FindOptions ;;
     names <- collect_names (seq 0 n) [] ;;
     sel (FindElement Body) ;;
     sel (Click Body) ;;
     sleep DROPDOWN_CLOSE_WAIT ;;
     ret names)
    (fun _ => ret []).

(** The test of the search loop of [select_institution]:
    [target_name in opt_text or opt_text in target_name]. *)
Definition option_matches (target_name opt_text : str) : bool :=
  contains target_name opt_text || contains opt_text target_name.

(** [for opt in all_options: ... break]: the first option that passes the
    test, if any.  The texts of the options after it are not read. *)
Fixpoint find_option (target_name : str) (idx : list nat) : M (option nat) :=
  match idx with
  | [] => ret None
  | i :: idx' =>
      t <- sel (Text (ListOption i)) ;;
      if option_matches target_name (strip t) then ret (Some i)
      else find_option target_name idx'
  end.

(** The handlers of [select_institution]: close the dropdown if possible,
    return [False]. *)
Definition close_dropdown_quietly : M bool :=
  try_except (sel (FindElement Body) ;; sel (Click Body)) (fun _ => ret tt) ;;
  ret false.

(** [select_institution(driver, wait, target_name)]. *)
Definition select_institution (target_name : str) : M bool :=
  try_except
    (sel (WaitClickable DropdownTrigger) ;;
     sel (Click DropdownTrigger) ;;
     sel (WaitVisible Listbox) ;;
     sleep 300 ;;
     n <- sel FindOptions ;;
     target_element <- find_option target_name (seq 0 n) ;;
     match target_element with
     | None =>
         sel (FindElement Body) ;;
         sel (Click Body) ;;
         ret false
     | Some i =>
         sel (JsClick (ListOption i)) ;;
         wait_for_loading_complete ;;
         sleep PAGE_LOAD_WAIT ;;
         ret true
     end)
    (fun _ => close_dropdown_quietly).

(** The [for row in rows] loop of [scrape_current_page]: a row that raises
    or has too few cells is skipped. *)
Fixpoint scrape_rows_of_page (institution_name : str) (idx : list nat)
    (page_data : list record) : M (list record) :=
  match idx with
  | [] => ret page_data
  | i :: idx' =>
      rec <- try_except
               (r <- sel (ReadRow i) ;;
                now <- ask Now ;;
                ret (expert_record institution_name r now))
               (fun _ => ret None) ;;
      match rec with
      | Some expert => scrape_rows_of_page institution_name idx' (page_data ++ [expert])
      | None => scrape_rows_of_page institution_name idx' page_data
      end
  end.

(** [scrape_current_page(driver, institution_name)]. *)
Definition scrape_current_page (institution_name : str) : M (list record) :=
  n <- try_except (sel FindRows) (fun _ => ret 0%nat) ;;
  scrape_rows_of_page institution_name (seq 0 n) [].

(** The [while True] loop of [scrape_all_pages_for_institution]; it yields
    the records and the page counter.
[[
    while True:
        page_experts = scrape_current_page(driver, institution_name)
        all_experts.extend(page_experts)
        print(f"Page {current_page}: Scraped {experts_on_page} experts ...")
        start, end, total = parse_pagination_info(driver)
        if end >= total: break
        if not has_next_page(driver): break
        if click_next_page(driver, wait): current_page += 1
        else: break
        if current_page > 50: break
]] *)
Fixpoint pages_loop (fuel : nat) (institution_name : str)
    (all_experts : list record) (current_page : Z) : M (list record * Z) :=
  match fuel with
  | O => diverge
  | S fuel' =>
      page_experts <- scrape_current_page institution_name ;;
      let all_experts := all_experts ++ page_experts in
      print (PageLine current_page (len page_experts)) ;;
      '(_, end_, total) <- parse_pagination_info ;;
      if end_ >=? total then ret (all_experts, current_page)
      else
        more <- has_next_page ;;
        if negb more then ret (all_experts, current_page)
        else
          clicked <- click_next_page ;;
          if clicked then
            let current_page := current_page + 1 in
            if current_page >? 50 then ret (all_experts, current_page)
            else pages_loop fuel' institution_name all_experts current_page
          else ret (all_experts, current_page)
  end.

(** [scrape_all_pages_for_institution(driver, wait, institution_name)]. *)
Definition scrape_all_pages_for_institution (fuel : nat)
    (institution_name : str) : M (list record) :=
  '(_, _, total) <- parse_pagination_info ;;
  if total =? 0 then ret []
  else
    '(all_experts, current_page) <- pages_loop fuel institution_name [] 1 ;;
    (if current_page >? 1 then reset_to_first_page ;; ret tt else ret tt) ;;
    ret all_experts.

(** The resume prompt of [main]:
[[
    master_list = []
    start_index = 0
    checkpoint = load_checkpoint()
    if checkpoint:
        resume = input("\nResume from checkpoint? (y/n): ").strip().lower()
        if resume == 'y':
            master_list = checkpoint['data']
            start_index = checkpoint['current_index']
]] *)
Definition resume_prompt : M (list record * Z) :=
  checkpoint <- load_checkpoint ;;
  match checkpoint with
  | Some cp =>
      resume <- ask Input ;;
      if says_yes resume then ret (data cp, current_index cp)
      else ret ([], 0)
  | None => ret ([], 0)
  end.

(** The body of the loop over the institutions, for the items left. *)
Fixpoint institutions_loop (fuel : nat) (institution_names : list str)
    (items : list (Z * str)) (master_list : list record)
  : M (list record) :=
  match items with
  | [] => ret master_list
  | (i, uni_name) :: items' =>
      print (ItemHeader (i + 1) (len institution_names) (PyStr uni_name)) ;;
      success <- select_institution uni_name ;;
      master_list <-
        (if success then
           experts <- scrape_all_pages_for_institution fuel uni_name ;;
           ret (master_list ++ experts)
         else ret master_list) ;;
      save_checkpoint master_list (i + 1) institution_names ;;
      sleep 500 ;;
      institutions_loop fuel institution_names items' master_list
  end.

Definition LOGIN_URL : str := lit "https://www.ocip.express/".

(** [main()], up to the write of [OUTPUT_JSON] (the spreadsheet export and
    the printed summary that follow are left out).  The browser is started
    and the checkpoint is read before the [try]: an exception of either
    ends [main].  The [except Exception] handler of the [try] only writes
    an emergency copy of the records.
[[
    driver = get_driver()
    wait = WebDriverWait(driver, 20)
    master_list = []
    start_index = 0
    checkpoint = load_checkpoint()
    if checkpoint: ...
    try:
        driver.get(LOGIN_URL)
        input("\n>>> Press ENTER here once you're on the Experts page...")
        institution_names = get_institution_names(driver, wait)
        if not institution_names:
            return
        for i, uni_name in enumerate(institution_names[start_index:], start=start_index):
            ...
        with open(OUTPUT_JSON, 'w', encoding='utf-8') as f:
            json.dump(master_list, f, indent=2, ensure_ascii=False)
]] *)
Definition main (fuel : nat) : M unit :=
  sel GetDriver ;;
  '(master_list, start_index) <- resume_prompt ;;
  try_except
    (sel (Navigate LOGIN_URL) ;;
     ask Input ;;
     institution_names <- get_institution_names ;;
     match institution_names with
     | [] => ret tt
     | _ =>
         master_list <- institutions_loop fuel institution_names
                          (loop_items institution_names start_index)
                          master_list ;;
         write_files (fun f =>
           {| CHECKPOINT_FILE := CHECKPOINT_FILE f;
              OUTPUT_JSON := Doc master_list |})
     end)
    (fun _ => ret tt).

End Script.
End Phase1.

(* ================================================================== *)
(** * Phase 2 (Experts Main): the enrichment of the expert list         *)
(* ================================================================== *)

Module Phase2.
Import PyStr Text Py World.
Local Open Scope Z_scope.
Local Open Scope py_scope.

(** Rate limiting: pause every [BATCH_SIZE] experts, for [BATCH_PAUSE]
    (10 s).  Durations are in milliseconds. *)
Definition BATCH_SIZE : Z := 50.
Definition BATCH_PAUSE : N := 10000.
Definition BETWEEN_EXPERTS_DELAY : N := 1000.

(** An entry of the error log. *)
Record error_entry := {
  index : Z;
  name : pytext;
  url : option pytext;
  reason : str
}.

Record checkpoint := {
  timestamp : str;
  current_index : Z;
  experts_processed : Z;
  errors_count : Z;
  data : list record
}.

Record files := {
  INPUT_FILE : content (list record);
  CHECKPOINT_FILE : content checkpoint;
  ERROR_LOG_FILE : content (list error_entry);
  OUTPUT_FILE : content (list record)
}.

(** [os.path.exists(path)]. *)
Definition file_exists {D} (c : content D) : bool :=
  match c with
  | Absent => false
  | _ => true
  end.

Section Script.
Context {E : Env}.
Local Abbreviation M := (World.M files).

(** [[
def load_master_list(filepath):
    try:
        with open(filepath, 'r', encoding='utf-8') as f:
            data = json.load(f)
        return data
    except FileNotFoundError:
        return None
    except json.JSONDecodeError as e:
        return None
]]
    Any other exception of the read goes to the caller. *)
Definition load_master_list : M (option (list record)) :=
  f <- read_files ;;
  match INPUT_FILE f with
  | Doc d => ret (Some d)
  | Unreadable => raise OtherException
  | Absent | Garbled => ret None
  end.

(** [save_checkpoint(processed_data, current_index, errors)] rewrites the
    checkpoint and the error log. *)
Definition save_checkpoint (processed_data : list record)
    (current_index : Z) (errors : list error_entry) : M unit :=
  now <- ask Now ;;
  write_files (fun f =>
    {| INPUT_FILE := INPUT_FILE f;
       CHECKPOINT_FILE :=
         Doc {| timestamp := now;
                current_index := current_index;
                experts_processed := len processed_data;
                errors_count := len errors;
                data := processed_data |};
       ERROR_LOG_FILE := Doc errors;
       OUTPUT_FILE := OUTPUT_FILE f |}).

(** [[
def load_checkpoint():
    try:
        with open(CHECKPOINT_FILE, 'r', encoding='utf-8') as f:
            return json.load(f)
    except (FileNotFoundError, json.JSONDecodeError):
        return None
]] *)
Definition load_checkpoint : M (option checkpoint) :=
  f <- read_files ;;
  match CHECKPOINT_FILE f with
  | Doc cp => ret (Some cp)
  | Unreadable => raise OtherException
  | Absent | Garbled => ret None
  end.

(** [extract_expert_full_profile(driver, wait, expert_basic_info)]: [None]
    without a usable URL, on a page-load timeout and on any exception;
    otherwise the profile, which starts with the [Meta] block.  The nine
    section extractors are the answer of the [DetailPage] call. *)
Definition extract_expert_full_profile (expert : record)
  : M (option record) :=
  match get_or_empty (lit "Manage_URL") expert with
  | PyNone => ret None
  | PyStr u =>
      if no_valid_url (PyStr u) then ret None
      else
        try_except
          (sections <- sel (DetailPage u) ;;
           now <- ask Now ;;
           ret (Some ((lit "Source_URL", PyStr u)
                      :: (lit "Scraped_At", PyStr now) :: sections)))
          (fun _ => ret None)
  end.

(** The loop of [main] over the experts left:
[[
        for i, expert in enumerate(master_list[start_index:], start=start_index):
            expert_name = expert.get("Name", "Unknown")
            url = expert.get("Manage_URL", "")
            print(f"\n[{i + 1}/{total}] {expert_name} ({institution})")
            if not url or url == "Not Found":
                errors.append({...})
                continue
            profile = extract_expert_full_profile(driver, wait, expert)
            if profile: processed_data.append(profile)
            else: errors.append({...})
            if (i + 1) % 10 == 0:
                save_checkpoint(processed_data, i + 1, errors)
            if (i + 1) % BATCH_SIZE == 0 and i + 1 < total:
                time.sleep(BATCH_PAUSE)
            time.sleep(BETWEEN_EXPERTS_DELAY)
]] *)
Fixpoint experts_loop (total : Z) (items : list (Z * record))
    (processed_data : list record) (errors : list error_entry)
  : M (list record * list error_entry) :=
  match items with
  | [] => ret (processed_data, errors)
  | (i, expert) :: items' =>
      let expert_name := get_or_unknown (lit "Name") expert in
      let url := get_or_empty (lit "Manage_URL") expert in
      print (ItemHeader (i + 1) total expert_name) ;;
      if no_valid_url url then
        experts_loop total items' processed_data
          (errors ++ [ {| index := i; name := expert_name; url := None;
                          reason := lit "No valid Manage URL" |} ])
      else
        profile <- extract_expert_full_profile expert ;;
        let '(processed_data, errors) :=
          match profile with
          | Some p => (processed_data ++ [p], errors)
          | None =>
              (processed_data,
               errors ++ [ {| index := i; name := expert_name;
                              url := Some url;
                              reason := lit "Extraction failed" |} ])
          end in
        (if (i + 1) mod 10 =? 0
         then save_checkpoint processed_data (i + 1) errors
         else ret tt) ;;
        (if ((i + 1) mod BATCH_SIZE =? 0) && (i + 1 <? total)
         then sleep BATCH_PAUSE
         else ret tt) ;;
        sleep BETWEEN_EXPERTS_DELAY ;;
        experts_loop total items' processed_data errors
  end.

(** The resume prompt of [main]:
[[
    processed_data = []; errors = []; start_index = 0
    checkpoint = load_checkpoint()
    if checkpoint:
        resume = input("\nResume from checkpoint? (y/n): ").strip().lower()
        if resume == 'y':
            processed_data = checkpoint['data']
            start_index = checkpoint['current_index']
            try:
                with open(ERROR_LOG_FILE, 'r') as f: errors = json.load(f)
            except: errors = []
]] *)
Definition resume_prompt : M (list record * list error_entry * Z) :=
  checkpoint <- load_checkpoint ;;
  match checkpoint with
  | Some cp =>
      resume <- ask Input ;;
      if says_yes resume then
        f <- read_files ;;
        let errors := match ERROR_LOG_FILE f with
                      | Doc errs => errs
                      | _ => []
                      end in
        ret (data cp, errors, current_index cp)
      else ret ([], [], 0)
  | None => ret ([], [], 0)
  end.

(** [[
        if os.path.exists(CHECKPOINT_FILE) and len(errors) == 0:
            os.remove(CHECKPOINT_FILE)
]] *)
Definition cleanup_checkpoint (errors : list error_entry) : M unit :=
  f <- read_files ;;
  if file_exists (CHECKPOINT_FILE f) && (len errors =? 0)
  then write_files (fun f =>
         {| INPUT_FILE := INPUT_FILE f;
            CHECKPOINT_FILE := Absent;
            ERROR_LOG_FILE := ERROR_LOG_FILE f;
            OUTPUT_FILE := OUTPUT_FILE f |})
  else ret tt.

(** The final save: the output, and the error log when there are errors. *)
Definition final_save (processed_data : list record)
    (errors : list error_entry) : M unit :=
  write_files (fun f =>
    {| INPUT_FILE := INPUT_FILE f;
       CHECKPOINT_FILE := CHECKPOINT_FILE f;
       ERROR_LOG_FILE := match errors with
                         | [] => ERROR_LOG_FILE f
                         | _ => Doc errors
                         end;
       OUTPUT_FILE := Doc processed_data |}).

Definition LOGIN_URL : str := lit "https://www.ocip.express/".

(** [main()] (the printed summary is left out).  The input is read, the
    browser is started and the checkpoint is read before the [try]: an
    exception of any of them ends [main].  The [except Exception] handler
    of the [try] only writes an emergency copy of the profiles.
[[
    master_list = load_master_list(INPUT_FILE)
    if not master_list:
        return
    driver = get_driver()
    ...
    checkpoint = load_checkpoint()
    if checkpoint: ...
    try:
        driver.get("https://www.ocip.express/")
        input("\n>>> Press ENTER here once you're logged in...")
        total = len(master_list)
        for i, expert in enumerate(master_list[start_index:], start=start_index):
            ...
]] *)
Definition main : M unit :=
  master_list <- load_master_list ;;
  match master_list with
  | None | Some [] => ret tt
  | Some master_list =>
      sel GetDriver ;;
      '(processed_data, errors, start_index) <- resume_prompt ;;
      try_except
        (sel (Navigate LOGIN_URL) ;;
         ask Input ;;
         let total := len master_list in
         '(processed_data, errors) <-
            experts_loop total (loop_items master_list start_index)
              processed_data errors ;;
         final_save processed_data errors ;;
         cleanup_checkpoint errors)
        (fun _ => ret tt)
  end.

End Script.
End Phase2.

(* ================================================================== *)
(** * Phase 3 (Facilities Meta), version 2.0                            *)
(* ================================================================== *)

Module Phase3.
Import PyStr Text Py World.
Local Open Scope Z_scope.
Local Open Scope py_scope.

Definition PAGE_LOAD_WAIT : N := 1500.
Definition PAGINATION_WAIT : N := 2000.
Definition DROPDOWN_CLOSE_WAIT : N := 700.
Definition EMPTY_RETRY_WAIT : N := 500.
Definition EMPTY_MAX_RETRIES : nat := 3.

(** An entry of [empty_institutions]: [{"index", "name", "reason"}]. *)
Record empty_entry := {
  index : Z;
  name : str;
  reason : str
}.

Record checkpoint := {
  timestamp : str;
  current_index : Z;
  total_institutions : Z;
  facilities_collected : Z;
  institution_names : list str;
  empty_institutions : list empty_entry;
  data : list record
}.

Record files := {
  CHECKPOINT_FILE : content checkpoint;
  OUTPUT_JSON : content (list record)
}.

(** [r.get("Institution") != uni_name]: the records the re-visit keeps. *)
Definition other_institution (uni_name : str) (r : record) : bool :=
  match get (lit "Institution") r with
  | Some (PyStr s) => negb (str_eqb s uni_name)
  | _ => true
  end.

(** The [Manage_URL] that [scrape_rows] settles on: the link of the last
    cell ([href or "Not Found"]), else the first keyword link of the row. *)
Definition manage_url_of (r : row) : str :=
  let first := match manage_link r with
               | Some (PyStr (c :: h)) => c :: h
               | _ => lit "Not Found"
               end in
  if str_eqb first (lit "Not Found")
  then match keyword_link r with
       | Some href => href
       | None => lit "Not Found"
       end
  else first.

(** The record built from one row by [scrape_rows]; [None] when the row has
    no cells. *)
Definition facility_record (institution_name : str) (r : row) (now : str)
  : option record :=
  match cells r with
  | [] => None
  | _ =>
      let cell_text i := PyStr (strip (nth i (cells r) [])) in
      Some [ (lit "Institution", PyStr institution_name);
             (lit "Branch", cell_text 0%nat);
             (lit "Facility_Name", cell_text 1%nat);
             (lit "Facility_Type", cell_text 2%nat);
             (lit "Manage_URL", PyStr (manage_url_of r));
             (lit "Scraped_At", PyStr now) ]
  end.

Section Script.
Context {E : Env}.
Local Abbreviation M := (World.M files).

(** [wait_for_loading_complete(driver)]. *)
Definition wait_for_loading_complete : M unit :=
  try_except (sleep 400 ;; sel WaitMaskGone ;; sleep 300) (fun _ => ret tt).

(** [wait_for_rows_stable(driver)]: the rows on the page once their number
    has stopped changing.  Its polling loop is bounded by the wall clock
    ([while time.time() < deadline], with a sleep of one second in every
    round); it is one call here, answered by the outside world with the
    number of rows.  Like the source, it returns no rows when the lookup
    raises. *)
Definition wait_for_rows_stable : M nat :=
  try_except (sel RowsStable) (fun _ => ret 0%nat).

Definition parse_pagination_info : M Phase1.window :=
  try_except
    (sel (FindElement PagerInfo) ;;
     text <- sel (Text PagerInfo) ;;
     ret (Phase1.parse_pager_text (strip text)))
    (fun _ => ret (0, 0, 0)).

(** The retry loop of [wait_for_rows_with_retry], for the attempts left:
[[
    for attempt in range(1, EMPTY_MAX_RETRIES + 1):
        time.sleep(EMPTY_RETRY_WAIT)
        wait_for_loading_complete(driver)
        rows = wait_for_rows_stable(driver)
        if rows: return rows, False
        start, end, total = parse_pagination_info(driver)
        if total > 0:
            time.sleep(EMPTY_RETRY_WAIT * 2)
            wait_for_loading_complete(driver)
            rows = wait_for_rows_stable(driver)
            if rows: return rows, False
    return [], True
]] *)
Fixpoint retry_rows (attempts : nat) : M (nat * bool) :=
  match attempts with
  | O => ret (0%nat, true)
  | S attempts' =>
      sleep EMPTY_RETRY_WAIT ;;
      wait_for_loading_complete ;;
      rows <- wait_for_rows_stable ;;
      match rows with
      | S _ => ret (rows, false)
      | O =>
          '(_, _, total) <- parse_pagination_info ;;
          if total >? 0 then
            sleep (EMPTY_RETRY_WAIT * 2) ;;
            wait_for_loading_complete ;;
            rows <- wait_for_rows_stable ;;
            match rows with
            | S _ => ret (rows, false)
            | O => retry_rows attempts'
            end
          else retry_rows attempts'
      end
  end.

(** [wait_for_rows_with_retry(driver, institution_name)]: the rows and
    whether the page was declared empty. *)
Definition wait_for_rows_with_retry : M (nat * bool) :=
  rows <- wait_for_rows_stable ;;
  match rows with
  | S _ => ret (rows, false)
  | O => retry_rows EMPTY_MAX_RETRIES
  end.

Definition has_next_page : M bool :=
  try_except
    (sel (FindElement NextBtn) ;;
     a <- sel (AriaDisabled NextBtn) ;;
     ret (negb (Phase1.is_true a)))
    (fun _ => ret false).

(** [click_next_page(driver, wait)]; any failure of the click falls back
    to a JavaScript click. *)
Definition click_next_page : M bool :=
  try_except
    (sel (WaitClickable NextBtn) ;;
     a <- sel (AriaDisabled NextBtn) ;;
     if Phase1.is_true a then ret false
     else
       sel (ScrollIntoView NextBtn) ;;
       sleep 300 ;;
       try_except (sel (Click NextBtn)) (fun _ => sel (JsClick NextBtn)) ;;
       wait_for_loading_complete ;;
       sleep PAGINATION_WAIT ;;
       ret true)
    (fun _ => ret false).

Definition reset_to_first_page : M bool :=
  try_except
    ('(start, _, _) <- parse_pagination_info ;;
     if start <=? 1 then ret true
     else
       sel (WaitClickable FirstBtn) ;;
       a <- sel (AriaDisabled FirstBtn) ;;
       if Phase1.is_true a then ret true
       else
         sel (JsClick FirstBtn) ;;
         wait_for_loading_complete ;;
         sleep PAGINATION_WAIT ;;
         ret true)
    (fun _ => ret false).

(** [save_checkpoint(data, current_index, institution_names,
    empty_institutions)]: the names themselves are in the document. *)
Definition save_checkpoint (data : list record) (current_index : Z)
    (institution_names : list str) (empty_institutions : list empty_entry)
  : M unit :=
  now <- ask Now ;;
  write_files (fun f =>
    {| CHECKPOINT_FILE :=
         Doc {| timestamp := now;
                current_index := current_index;
                total_institutions := len institution_names;
                facilities_collected := len data;
                institution_names := institution_names;
                empty_institutions := empty_institutions;
                data := data |};
       OUTPUT_JSON := OUTPUT_JSON f |}).

(** [[
def load_checkpoint():
    try:
        with open(CHECKPOINT_FILE, 'r', encoding='utf-8') as f:
            return json.load(f)
    except Exception:
        return None
]] *)
Definition load_checkpoint : M (option checkpoint) :=
  f <- read_files ;;
  match CHECKPOINT_FILE f with
  | Doc cp => ret (Some cp)
  | Absent | Garbled | Unreadable => ret None
  end.

Fixpoint collect_names (idx : list nat) (names : list str) : M (list str) :=
  match idx with
  | [] => ret names
  | i :: idx' =>
      t <- sel (Text (ListOption i)) ;;
      let text := strip t in
      match text with
      | [] => collect_names idx' names
      | _ => if contains (lit "Select HEI") text
             then collect_names idx' names
             else collect_names idx' (names ++ [text])
      end
  end.

Definition get_institution_names : M (list str) :=
  try_except
    (sel (WaitClickable DropdownTrigger) ;;
     sel (Click DropdownTrigger) ;;
     sel (WaitVisible Listbox) ;;
     sleep 600 ;;
     n <- sel FindOptions ;;
     names <- collect_names (seq 0 n) [] ;;
     sel (FindElement Body) ;;
     sel (Click Body) ;;
     sleep DROPDOWN_CLOSE_WAIT ;;
     ret names)
    (fun _ => ret []).

(** [[
        for opt in listbox.find_elements(By.TAG_NAME, "li"):
            if target_name in opt.text:
                driver.execute_script("arguments[0].click();", opt)
                wait_for_loading_complete(driver)
                time.sleep(PAGE_LOAD_WAIT)
                return True
]] *)
Fixpoint find_option (target_name : str) (idx : list nat) : M (option nat) :=
  match idx with
  | [] => ret None
  | i :: idx' =>
      t <- sel (Text (ListOption i)) ;;
      if contains target_name t then ret (Some i)
      else find_option target_name idx'
  end.

Definition close_dropdown_quietly : M bool :=
  try_except (sel (FindElement Body) ;; sel (Click Body)) (fun _ => ret tt) ;;
  ret false.

(** [select_institution(driver, wait, target_name)]. *)
Definition select_institution (target_name : str) : M bool :=
  try_except
    (sel (WaitClickable DropdownTrigger) ;;
     sel (Click DropdownTrigger) ;;
     sel (WaitVisible Listbox) ;;
     sleep 400 ;;
     n <- sel FindOptions ;;
     found <- find_option target_name (seq 0 n) ;;
     match found with
     | Some i =>
         sel (JsClick (ListOption i)) ;;
         wait_for_loading_complete ;;
         sleep PAGE_LOAD_WAIT ;;
         ret true
     | None =>
         sel (FindElement Body) ;;
         sel (Click Body) ;;
         ret false
     end)
    (fun _ => close_dropdown_quietly).

(** [scrape_rows(rows, institution_name)]: a row that raises or has no
    cells is skipped. *)
Fixpoint scrape_rows (idx : list nat) (institution_name : str)
    (page_data : list record) : M (list record) :=
  match idx with
  | [] => ret page_data
  | i :: idx' =>
      rec <- try_except
               (r <- sel (ReadRow i) ;;
                now <- ask Now ;;
                ret (facility_record institution_name r now))
               (fun _ => ret None) ;;
      match rec with
      | Some facility => scrape_rows idx' institution_name (page_data ++ [facility])
      | None => scrape_rows idx' institution_name page_data
      end
  end.

(** The [while True] loop of [scrape_all_pages_for_institution]:
[[
    while True:
        page_data = scrape_rows(rows, institution_name)
        all_facilities.extend(page_data)
        print(f"Page {current_page}: {len(page_data)} records ...")
        start, end, total_now = parse_pagination_info(driver)
        if not has_next_page(driver) or (total_now > 0 and end >= total_now):
            break
        if not click_next_page(driver, wait):
            break
        rows = wait_for_rows_stable(driver)
        if not rows:
            time.sleep(EMPTY_RETRY_WAIT)
            wait_for_loading_complete(driver)
            rows = wait_for_rows_stable(driver)
            if not rows:
                break
        current_page += 1
        if current_page > 200:   # absolute safety
            break
]] *)
Fixpoint pages_loop (fuel : nat) (institution_name : str) (rows : nat)
    (all_facilities : list record) (current_page : Z)
  : M (list record * Z) :=
  match fuel with
  | O => diverge
  | S fuel' =>
      page_data <- scrape_rows (seq 0 rows) institution_name [] ;;
      let all_facilities := all_facilities ++ page_data in
      print (PageLine current_page (len page_data)) ;;
      '(_, end_, total_now) <- parse_pagination_info ;;
      more <- has_next_page ;;
      if negb more || ((total_now >? 0) && (end_ >=? total_now))
      then ret (all_facilities, current_page)
      else
        clicked <- click_next_page ;;
        if negb clicked then ret (all_facilities, current_page)
        else
          rows <- wait_for_rows_stable ;;
          rows <- match rows with
                  | S _ => ret rows
                  | O =>
                      sleep EMPTY_RETRY_WAIT ;;
                      wait_for_loading_complete ;;
                      wait_for_rows_stable
                  end ;;
          match rows with
          | O => ret (all_facilities, current_page)
          | S _ =>
              let current_page := current_page + 1 in
              if current_page >? 200 then ret (all_facilities, current_page)
              else pages_loop fuel' institution_name rows all_facilities
                     current_page
          end
  end.

(** [scrape_all_pages_for_institution(driver, wait, institution_name)]. *)
Definition scrape_all_pages_for_institution (fuel : nat)
    (institution_name : str) : M (list record) :=
  '(rows, is_empty) <- wait_for_rows_with_retry ;;
  first <-
    (if is_empty : bool then
       '(_, _, total) <- parse_pagination_info ;;
       if total =? 0 then ret None
       else
         sleep 10000 ;;
         wait_for_loading_complete ;;
         rows <- wait_for_rows_stable ;;
         match rows with
         | O => ret None
         | S _ => ret (Some rows)
         end
     else ret (Some rows)) ;;
  match first with
  | None => ret []
  | Some rows =>
      parse_pagination_info ;;
      '(all_facilities, current_page) <-
         pages_loop fuel institution_name rows [] 1 ;;
      (if current_page >? 1 then reset_to_first_page ;; ret tt else ret tt) ;;
      ret all_facilities
  end.

(** [scrape_institution(driver, wait, uni_name, idx, total_count)]: [None]
    is a selection error, distinct from no records. *)
Definition scrape_institution (fuel : nat) (uni_name : str) (idx : Z)
    (total_count : Z) : M (option (list record)) :=
  print (ItemHeader (idx + 1) total_count (PyStr uni_name)) ;;
  selected <- select_institution uni_name ;;
  if negb selected then ret None
  else
    data <- scrape_all_pages_for_institution fuel uni_name ;;
    ret (Some data).

(** The body of the loop of [_revisit_targets] for one target:
[[
        uni_name = item["name"]
        idx      = item["index"]
        master_list[:] = [r for r in master_list if r.get("Institution") != uni_name]
        data = scrape_institution(driver, wait, uni_name, idx, len(institution_names))
        if data is None: still_empty.append(item)
        elif len(data) == 0: still_empty.append(item)
        else: master_list.extend(data)
        save_checkpoint(master_list, idx + 1, institution_names,
                        [e for e in old_empty if e["name"] != uni_name])
        time.sleep(0.5)
]] *)
Definition revisit_one (fuel : nat) (institution_names : list str)
    (old_empty : list empty_entry) (item : empty_entry)
    (master_list : list record) (still_empty : list empty_entry)
  : M (list record * list empty_entry) :=
  let uni_name := name item in
  let idx := index item in
  let master_list := filter (other_institution uni_name) master_list in
  data <- scrape_institution fuel uni_name idx (len institution_names) ;;
  let '(master_list, still_empty) :=
    match data with
    | None => (master_list, still_empty ++ [item])
    | Some [] => (master_list, still_empty ++ [item])
    | Some d => (master_list ++ d, still_empty)
    end in
  save_checkpoint master_list (idx + 1) institution_names
    (filter (fun e => negb (str_eqb (name e) uni_name)) old_empty) ;;
  sleep 500 ;;
  ret (master_list, still_empty).

(** [_revisit_targets(driver, wait, master_list, targets,
    institution_names, old_empty)]: the list, which the source updates in
    place, and the entries that are still empty. *)
Fixpoint _revisit_targets (fuel : nat) (master_list : list record)
    (targets : list empty_entry) (institution_names : list str)
    (old_empty : list empty_entry) (still_empty : list empty_entry)
  : M (list record * list empty_entry) :=
  match targets with
  | [] => ret (master_list, still_empty)
  | item :: targets' =>
      '(master_list, still_empty) <-
         revisit_one fuel institution_names old_empty item master_list
           still_empty ;;
      _revisit_targets fuel master_list targets' institution_names
        old_empty still_empty
  end.

(** The resume prompt of [main], before the browser is opened:
[[
    checkpoint = load_checkpoint()
    if checkpoint:
        ans = input("\n  Resume from checkpoint? (y/n): ").strip().lower()
        if ans == 'y':
            master_list        = checkpoint.get('data', [])
            start_index        = checkpoint.get('current_index', 0)
            institution_names  = checkpoint.get('institution_names', [])
            empty_institutions = checkpoint.get('empty_institutions', [])
]] *)
Definition resume_prompt
  : M (list record * Z * list str * list empty_entry) :=
  checkpoint <- load_checkpoint ;;
  match checkpoint with
  | Some cp =>
      ans <- ask Input ;;
      if says_yes ans
      then ret (data cp, current_index cp, institution_names cp,
                empty_institutions cp)
      else ret ([], 0, [], [])
  | None => ret ([], 0, [], [])
  end.

(** [[
        if not institution_names:
            institution_names = get_institution_names(driver, wait)
]] *)
Definition scope_list (institution_names : list str) : M (list str) :=
  match institution_names with
  | [] => get_institution_names
  | _ => ret institution_names
  end.

(** The main scrape loop, for the items left. *)
Fixpoint institutions_loop (fuel : nat) (institution_names : list str)
    (items : list (Z * str)) (master_list : list record)
    (empty_institutions : list empty_entry)
  : M (list record * list empty_entry) :=
  match items with
  | [] => ret (master_list, empty_institutions)
  | (i, uni_name) :: items' =>
      data <- scrape_institution fuel uni_name i (len institution_names) ;;
      let '(master_list, empty_institutions) :=
        match data with
        | None =>
            (master_list,
             empty_institutions
               ++ [ {| index := i; name := uni_name;
                       reason := lit "selection_failed" |} ])
        | Some [] =>
            (master_list,
             empty_institutions
               ++ [ {| index := i; name := uni_name;
                       reason := lit "no_data" |} ])
        | Some d => (master_list ++ d, empty_institutions)
        end in
      save_checkpoint master_list (i + 1) institution_names
        empty_institutions ;;
      sleep 500 ;;
      institutions_loop fuel institution_names items' master_list
        empty_institutions
  end.

Definition LOGIN_URL : str := lit "https://www.ocip.express/".
Definition TARGET_URL : str := lit "https://www.ocip.express/FacilityAdmin/Index".

(** [main()] up to the first [save_results] (the interactive re-visit
    menu that follows calls [_revisit_targets]).  The checkpoint prompt
    comes first, then the browser is started, both before the [try].  The
    [except Exception] handler of the [try] saves the checkpoint with
    [start_index] and the results. *)
Definition main (fuel : nat) : M unit :=
  '(master_list, start_index, institution_names, empty_institutions) <-
     resume_prompt ;;
  sel GetDriver ;;
  try_except
    (sel (Navigate LOGIN_URL) ;;
     ask Input ;;
     sel (Navigate TARGET_URL) ;;
     wait_for_loading_complete ;;
     sleep PAGE_LOAD_WAIT ;;
     institution_names <- scope_list institution_names ;;
     match institution_names with
     | [] => ret tt
     | _ =>
         '(master_list, _) <-
            institutions_loop fuel institution_names
              (loop_items institution_names start_index)
              master_list empty_institutions ;;
         write_files (fun f =>
           {| CHECKPOINT_FILE := CHECKPOINT_FILE f;
              OUTPUT_JSON := Doc master_list |})
     end)
    (fun _ =>
       save_checkpoint master_list start_index institution_names
         empty_institutions ;;
       write_files (fun f =>
         {| CHECKPOINT_FILE := CHECKPOINT_FILE f;
            OUTPUT_JSON := Doc master_list |})).

End Script.
End Phase3.

(* ================================================================== *)
(** * Phase 5 (Organizations Meta): one global table                    *)
(* ================================================================== *)

Module Phase5.
Import PyStr Text Py World.
Local Open Scope Z_scope.
Local Open Scope py_scope.

Definition PAGE_LOAD_WAIT : N := 2000.
Definition PAGINATION_WAIT : N := 1500.

Record checkpoint := {
  timestamp : str;
  last_page_scraped : Z;
  total_items_in_table : Z;
  organizations_collected : Z;
  data : list record
}.

Record files := {
  CHECKPOINT_FILE : content checkpoint;
  OUTPUT_JSON : content (list record)
}.

(** The record built from one row by [scrape_current_page]; [None] when
    the row has fewer than 10 cells or no organization name. *)
Definition organization_record (r : row) (now : str) : option record :=
  if len (cells r) <? 10 then None
  else
    let cell i := clean_text (PyStr (nth i (cells r) [])) in
    let flag i := PyStr (nth i (yes_no r) (lit "No")) in
    let manage_url := match manage_link r with
                      | Some (PyStr (c :: h)) => c :: h
                      | _ => lit "Not Found"
                      end in
    match cell 3%nat with
    | [] => None
    | organization_name =>
        Some [ (lit "Organization_Name", PyStr organization_name);
               (lit "Provinces", PyStr (cell 4%nat));
               (lit "Sectors", PyStr (cell 5%nat));
               (lit "Requests", flag 0%nat);
               (lit "Projects", flag 1%nat);
               (lit "Enabled", flag 2%nat);
               (lit "Manage_URL", PyStr manage_url);
               (lit "Scraped_At", PyStr now) ]
    end.

(** [url in existing_urls]. *)
Definition url_in (u : pytext) (existing_urls : list pytext) : bool :=
  existsb (pytext_eqb u) existing_urls.

(** [[
            for item in page_data:
                if item['Manage_URL'] not in existing_urls:
                    master_list.append(item)
                    existing_urls.add(item['Manage_URL'])
]]
    The items of a scraped page always carry [Manage_URL]. *)
Fixpoint add_new (page_data : list record) (master_list : list record)
    (existing_urls : list pytext) : list record * list pytext :=
  match page_data with
  | [] => (master_list, existing_urls)
  | item :: rest =>
      let u := get_or_empty (lit "Manage_URL") item in
      if url_in u existing_urls then add_new rest master_list existing_urls
      else add_new rest (master_list ++ [item]) (u :: existing_urls)
  end.

Section Script.
Context {E : Env}.
Local Abbreviation M := (World.M files).

Definition wait_for_loading_complete : M unit :=
  try_except (sleep 300 ;; sel WaitMaskGone) (fun _ => ret tt).

Definition parse_pagination_info : M Phase1.window :=
  try_except
    (sel (FindElement PagerInfo) ;;
     info_text <- sel (Text PagerInfo) ;;
     ret (Phase1.parse_pager_text (strip info_text)))
    (fun _ => ret (0, 0, 0)).

Definition has_next_page : M bool :=
  try_except
    (sel (FindElement NextBtn) ;;
     a <- sel (AriaDisabled NextBtn) ;;
     ret (negb (Phase1.is_true a)))
    (fun _ => ret false).

Definition click_next_page : M bool :=
  try_except
    (sel (WaitClickable NextBtn) ;;
     a <- sel (AriaDisabled NextBtn) ;;
     if Phase1.is_true a then ret false
     else
       sel (ScrollIntoView NextBtn) ;;
       sleep 200 ;;
       try_except (sel (Click NextBtn)) (fun _ => sel (JsClick NextBtn)) ;;
       wait_for_loading_complete ;;
       sleep PAGINATION_WAIT ;;
       ret true)
    (fun _ => ret false).

(** [save_checkpoint(data, current_page, total_items)]. *)
Definition save_checkpoint (data : list record) (current_page : Z)
    (total_items : Z) : M unit :=
  now <- ask Now ;;
  write_files (fun f =>
    {| CHECKPOINT_FILE :=
         Doc {| timestamp := now;
                last_page_scraped := current_page;
                total_items_in_table := total_items;
                organizations_collected := len data;
                data := data |};
       OUTPUT_JSON := OUTPUT_JSON f |}).

Fixpoint scrape_rows_of_page (idx : list nat) (page_data : list record)
  : M (list record) :=
  match idx with
  | [] => ret page_data
  | i :: idx' =>
      rec <- try_except
               (r <- sel (ReadRow i) ;;
                now <- ask Now ;;
                ret (organization_record r now))
               (fun _ => ret None) ;;
      match rec with
      | Some org => scrape_rows_of_page idx' (page_data ++ [org])
      | None => scrape_rows_of_page idx' page_data
      end
  end.

(** [scrape_current_page(driver)]. *)
Definition scrape_current_page : M (list record) :=
  n <- try_except (sel FindRows) (fun _ => ret 0%nat) ;;
  scrape_rows_of_page (seq 0 n) [].

(** The pagination loop of [main]:
[[
        while True:
            page_data = scrape_current_page(driver)
            ... add the records whose Manage_URL is new ...
            print(f"\n      Page {current_page}: Found {len(page_data)} rows, ...")
            save_checkpoint(master_list, current_page, total)
            start, end, total = parse_pagination_info(driver)
            if end >= total: break
            if not has_next_page(driver): break
            if click_next_page(driver, wait): current_page += 1
            else: break
            if current_page > 500: break
]] *)
Fixpoint pages_loop (fuel : nat) (master_list : list record)
    (existing_urls : list pytext) (current_page : Z) (total : Z)
  : M (list record * Z) :=
  match fuel with
  | O => diverge
  | S fuel' =>
      page_data <- scrape_current_page ;;
      let '(master_list, existing_urls) :=
        add_new page_data master_list existing_urls in
      print (PageLine current_page (len page_data)) ;;
      save_checkpoint master_list current_page total ;;
      '(_, end_, total) <- parse_pagination_info ;;
      if end_ >=? total then ret (master_list, current_page)
      else
        more <- has_next_page ;;
        if negb more then ret (master_list, current_page)
        else
          clicked <- click_next_page ;;
          if clicked then
            let current_page := current_page + 1 in
            if current_page >? 500 then ret (master_list, current_page)
            else pages_loop fuel' master_list existing_urls current_page total
          else ret (master_list, current_page)
  end.

End Script.
End Phase5.

(* ================================================================== *)
(** * Phase 6 (Organizations Main): the enrichment of the organizations *)
(* ================================================================== *)

Module Phase6.
Import PyStr Text Py World.
Local Open Scope Z_scope.
Local Open Scope py_scope.

Definition BATCH_SIZE : Z := 50.
Definition BATCH_PAUSE : N := 10000.
Definition BETWEEN_ORGS_DELAY : N := 1000.

Record error_entry := {
  index : Z;
  name : pytext;
  url : option pytext;
  reason : str;
  timestamp : str
}.

(** The checkpoint document; its [progress_percent] (a rounded float that
    nothing reads back but a print) is left out. *)
Record checkpoint := {
  cp_timestamp : str;
  current_index : Z;
  total_organizations : Z;
  organizations_processed : Z;
  errors_count : Z;
  data : list record
}.

Record files := {
  INPUT_FILE : content (list record);
  CHECKPOINT_FILE : content checkpoint;
  ERROR_LOG_FILE : content (list error_entry);
  OUTPUT_FILE : content (list record)
}.

Section Script.
Context {E : Env}.
Local Abbreviation M := (World.M files).

(** [load_master_list(filepath)] is the one of Phase 2: it takes
    [FileNotFoundError] and [json.JSONDecodeError] only. *)
Definition load_master_list : M (option (list record)) :=
  f <- read_files ;;
  match INPUT_FILE f with
  | Doc d => ret (Some d)
  | Unreadable => raise OtherException
  | Absent | Garbled => ret None
  end.

(** [save_checkpoint(processed_data, current_index, errors, total)]. *)
Definition save_checkpoint (processed_data : list record)
    (current_index : Z) (errors : list error_entry) (total : Z) : M unit :=
  now <- ask Now ;;
  write_files (fun f =>
    {| INPUT_FILE := INPUT_FILE f;
       CHECKPOINT_FILE :=
         Doc {| cp_timestamp := now;
                current_index := current_index;
                total_organizations := total;
                organizations_processed := len processed_data;
                errors_count := len errors;
                data := processed_data |};
       ERROR_LOG_FILE := Doc errors;
       OUTPUT_FILE := OUTPUT_FILE f |}).

(** [load_checkpoint()]: [except (FileNotFoundError, json.JSONDecodeError)]
    as in Phase 2. *)
Definition load_checkpoint : M (option checkpoint) :=
  f <- read_files ;;
  match CHECKPOINT_FILE f with
  | Doc cp => ret (Some cp)
  | Unreadable => raise OtherException
  | Absent | Garbled => ret None
  end.

(** [extract_organization_full_profile(driver, wait, org_basic_info)]. *)
Definition extract_organization_full_profile (org : record)
  : M (option record) :=
  match get_or_empty (lit "Manage_URL") org with
  | PyNone => ret None
  | PyStr u =>
      if no_valid_url (PyStr u) then ret None
      else
        try_except
          (sections <- sel (DetailPage u) ;;
           now <- ask Now ;;
           ret (Some ((lit "Source_URL", PyStr u)
                      :: (lit "Scraped_At", PyStr now) :: sections)))
          (fun _ => ret None)
  end.

(** How the loop over the organizations is left: after its last item, or
    by the [TypeError] that [len(url)] raises at the item of index [i],
    whose [Manage_URL] is [null].  Nothing else in the body raises.  The
    handler of [main] that takes the exception reads [processed_data],
    [errors] and [i] as the loop left them, so the loop returns them with
    the way it ended. *)
Inductive loop_end :=
| Completed
| TypeErrorAt (i : Z).

(** The loop of [main] over the organizations left:
[[
        for i, org in enumerate(master_list[start_index:], start=start_index):
            org_name = org.get("Organization_Name", "Unknown")
            url = org.get("Manage_URL", "")
            print(f"\n[{i + 1}/{total}] {org_name}")
            print(f"      URL: {url[:60]}..." if len(url) > 60 else f"      URL: {url}")
            if not url or url == "Not Found":
                errors.append({...})
                save_checkpoint(processed_data, i + 1, errors, total)
                continue
            profile = extract_organization_full_profile(driver, wait, org)
            if profile: processed_data.append(profile)
            else: errors.append({...})
            save_checkpoint(processed_data, i + 1, errors, total)
            if (i + 1) % BATCH_SIZE == 0 and i + 1 < total:
                time.sleep(BATCH_PAUSE)
            time.sleep(BETWEEN_ORGS_DELAY)
]] *)
Fixpoint orgs_loop (total : Z) (items : list (Z * record))
    (processed_data : list record) (errors : list error_entry)
  : M (list record * list error_entry * loop_end) :=
  match items with
  | [] => ret (processed_data, errors, Completed)
  | (i, org) :: items' =>
      let org_name := get_or_unknown (lit "Organization_Name") org in
      let url := get_or_empty (lit "Manage_URL") org in
      print (ItemHeader (i + 1) total org_name) ;;
      match url with
      | PyNone => ret (processed_data, errors, TypeErrorAt i)
      | PyStr _ =>
          if no_valid_url url then
            now <- ask Now ;;
            let errors :=
              errors ++ [ {| index := i; name := org_name; url := None;
                             reason := lit "No valid Manage URL";
                             timestamp := now |} ] in
            save_checkpoint processed_data (i + 1) errors total ;;
            orgs_loop total items' processed_data errors
          else
            profile <- extract_organization_full_profile org ;;
            r <- match profile with
                 | Some p => ret (processed_data ++ [p], errors)
                 | None =>
                     now <- ask Now ;;
                     ret (processed_data,
                          errors ++ [ {| index := i; name := org_name;
                                         url := Some url;
                                         reason := lit "Extraction failed";
                                         timestamp := now |} ])
                 end ;;
            let '(processed_data, errors) := r in
            save_checkpoint processed_data (i + 1) errors total ;;
            (if ((i + 1) mod BATCH_SIZE =? 0) && (i + 1 <? total)
             then sleep BATCH_PAUSE
             else ret tt) ;;
            sleep BETWEEN_ORGS_DELAY ;;
            orgs_loop total items' processed_data errors
      end
  end.

Definition resume_prompt : M (list record * list error_entry * Z) :=
  checkpoint <- load_checkpoint ;;
  match checkpoint with
  | Some cp =>
      resume <- ask Input ;;
      if says_yes resume then
        f <- read_files ;;
        let errors := match ERROR_LOG_FILE f with
                      | Doc errs => errs
                      | _ => []
                      end in
        ret (data cp, errors, current_index cp)
      else ret ([], [], 0)
  | None => ret ([], [], 0)
  end.

(** [[
        # Clean up checkpoint file on full success
        if os.path.exists(CHECKPOINT_FILE) and len(errors) == 0 and len(processed_data) == total:
            os.remove(CHECKPOINT_FILE)
]] *)
Definition cleanup_checkpoint (processed_data : list record)
    (errors : list error_entry) (total : Z) : M unit :=
  f <- read_files ;;
  if Phase2.file_exists (CHECKPOINT_FILE f) && (len errors =? 0)
     && (len processed_data =? total)
  then write_files (fun f =>
         {| INPUT_FILE := INPUT_FILE f;
            CHECKPOINT_FILE := Absent;
            ERROR_LOG_FILE := ERROR_LOG_FILE f;
            OUTPUT_FILE := OUTPUT_FILE f |})
  else ret tt.

Definition final_save (processed_data : list record)
    (errors : list error_entry) : M unit :=
  write_files (fun f =>
    {| INPUT_FILE := INPUT_FILE f;
       CHECKPOINT_FILE := CHECKPOINT_FILE f;
       ERROR_LOG_FILE := match errors with
                         | [] => ERROR_LOG_FILE f
                         | _ => Doc errors
                         end;
       OUTPUT_FILE := Doc processed_data |}).

(** [main()] (the printed summary is left out).  The input is read, the
    browser is started and the checkpoint is read before the [try]: an
    exception of any of them ends [main].  The [except Exception] handler
    of the [try] saves the checkpoint again (and writes an emergency copy
    of the profiles, which is not modelled):
[[
    except Exception as e:
        ...
        current_idx = i + 1 if 'i' in dir() else start_index
        save_checkpoint(processed_data, current_idx, errors, total)
]]
    It is reached from the first [driver.get], before the loop has bound
    [i], and from the [TypeError] of the loop. *)
Definition main : M unit :=
  master_list <- load_master_list ;;
  match master_list with
  | None | Some [] => ret tt
  | Some master_list =>
      sel GetDriver ;;
      let total := len master_list in
      '(processed_data, errors, start_index) <- resume_prompt ;;
      try_except
        (sel (Navigate Phase2.LOGIN_URL) ;;
         ask Input ;;
         '(processed_data, errors, how) <-
            orgs_loop total (loop_items master_list start_index)
              processed_data errors ;;
         match how with
         | Completed =>
             final_save processed_data errors ;;
             cleanup_checkpoint processed_data errors total
         | TypeErrorAt i =>
             save_checkpoint processed_data (i + 1) errors total
         end)
        (fun _ => save_checkpoint processed_data start_index errors total)
  end.

End Script.
End Phase6.

(* ================================================================== *)
(** * What a run shows: readings of the trace                          *)
(* ================================================================== *)

Module Observe.
Import PyStr Text Py World.
Local Open Scope Z_scope.

(** The item headers printed, in order: position and name. *)
Definition header_of (e : event) : list (Z * pytext) :=
  match e with
  | Hst (Print (ItemHeader position _ name)) => [(position, name)]
  | _ => []
  end.

Definition headers (tr : list event) : list (Z * pytext) :=
  flat_map header_of tr.

(** The pages scraped: one [PageLine] is printed for each. *)
Definition is_page_line (e : event) : bool :=
  match e with
  | Hst (Print (PageLine _ _)) => true
  | _ => false
  end.

Definition pages_scraped (tr : list event) : nat :=
  List.length (filter is_page_line tr).

(** The cool-down pauses of the enrichment phases: the positions of the
    items after which [time.sleep(BATCH_PAUSE)] was called, [last] being
    the position of the item whose header was printed last. *)
Fixpoint pauses_from (last : Z) (tr : list event) : list Z :=
  match tr with
  | [] => []
  | Hst (Print (ItemHeader position _ _)) :: tr' => pauses_from position tr'
  | Hst (Sleep ms) :: tr' =>
      if (ms =? Phase2.BATCH_PAUSE)%N then last :: pauses_from last tr'
      else pauses_from last tr'
  | _ :: tr' => pauses_from last tr'
  end.

(** The positions after which the enrichment loop owes a pause: the items
    with a usable reference whose position is a multiple of [BATCH_SIZE]
    and is not the last one. *)
Definition due_pauses (total : Z) (items : list (Z * record)) : list Z :=
  flat_map
    (fun it =>
       let position := fst it + 1 in
       if no_valid_url (get_or_empty (lit "Manage_URL") (snd it)) then []
       else if (position mod Phase2.BATCH_SIZE =? 0) && (position <? total)
            then [position] else [])
    items.

(** The events that are not prints: what the helper functions of the
    harvest phases emit. *)
Definition silent (e : event) : bool :=
  match e with
  | Hst (Print _) => false
  | _ => true
  end.

(** The events that are neither a print nor a cool-down pause: what the
    helper functions of the enrichment phases emit. *)
Definition steady (e : event) : bool :=
  match e with
  | Hst (Print _) => false
  | Hst (Sleep ms) => negb (ms =? Phase2.BATCH_PAUSE)%N
  | _ => true
  end.

(** The events that are not item headers: what the harvest of one scope
    emits. *)
Definition quiet (e : event) : bool :=
  match e with
  | Hst (Print (ItemHeader _ _ _)) => false
  | _ => true
  end.

(** The events that leave the next-page button alone. *)
Definition spares_next (e : event) : bool :=
  match e with
  | Sel (FindElement NextBtn) | Sel (AriaDisabled NextBtn)
  | Sel (WaitClickable NextBtn) | Sel (ScrollIntoView NextBtn)
  | Sel (Click NextBtn) | Sel (JsClick NextBtn) => false
  | _ => true
  end.

(** A record carries the identity of the institution [uni_name]: it is
    one of those the re-visit of [uni_name] removes. *)
Definition mine (uni_name : str) (r : record) : Prop :=
  Phase3.other_institution uni_name r = false.

(** The options of the dropdown that were clicked. *)
Definition clicked_option (e : event) : list nat :=
  match e with
  | Sel (JsClick (ListOption i)) => [i]
  | _ => []
  end.

Definition clicked_options (tr : list event) : list nat :=
  flat_map clicked_option tr.

(** The first option, in display order, whose text passes [test]. *)
Fixpoint first_match (test : str -> bool) (texts : list str) (i : nat)
  : option nat :=
  match texts with
  | [] => None
  | t :: texts' => if test t then Some i else first_match test texts' (S i)
  end.

(** The dropdown shows the options [texts], whenever it is asked. *)
Definition shows_options (E : Env) (texts : list str) : Prop :=
  (forall s, fst (browser FindOptions s) = inr (List.length texts))
  /\ (forall s i, fst (browser (Text (ListOption i)) s) = inr (nth i texts [])).

(** An exact match, if the list has one. *)
Definition exact_match (target : str) (texts : list str) : option nat :=
  first_match (str_eqb target) texts 0.

(** The dropdown opens whenever it is asked to. *)
Definition opens_dropdown (E : Env) : Prop :=
  forall s,
    fst (browser (WaitClickable DropdownTrigger) s) = inr tt
    /\ fst (browser (Click DropdownTrigger) s) = inr tt
    /\ fst (browser (WaitVisible Listbox) s) = inr tt.

(** The page can be clicked, to close the dropdown. *)
Definition closes_dropdown (E : Env) : Prop :=
  forall s,
    fst (browser (FindElement Body) s) = inr tt
    /\ fst (browser (Click Body) s) = inr tt.

(** The browser starts, every page loads, and the operator answers [y]
    to every prompt. *)
Definition obliging (E : Env) : Prop :=
  (forall s, fst (browser GetDriver s) = inr tt)
  /\ (forall s u, fst (browser (Navigate u) s) = inr tt)
  /\ (forall s, says_yes (fst (operator Input s)) = true).

(** The calls that [get_institution_names] makes whatever the dropdown
    shows. *)
Definition enumeration_calls : list selenium :=
  [ WaitClickable DropdownTrigger; Click DropdownTrigger; WaitVisible Listbox;
    FindOptions; FindElement Body; Click Body ].

(** The events that are not the click of an option. *)
Definition unclicked (e : event) : bool :=
  match e with
  | Sel (JsClick (ListOption _)) => false
  | _ => true
  end.

End Observe.

(* ================================================================== *)
(** * A simulated portal                                                *)
(* ================================================================== *)

(** A small deterministic portal, used to run the scripts on concrete
    inputs: a dropdown, a grid with a pager, an operator who types the
    answers of a list. *)
Module Sim.
Import PyStr Text Py World.

Record portal := {
  options : list str;        (* the texts of the dropdown *)
  labels : list str;         (* the pager label of each page *)
  endless : str;             (* the label of every page after those *)
  page : nat;                (* the page shown, from 0 *)
  rows_per_page : nat;
  sample_row : row;
  first_button_works : bool;
  failing_details : list str;   (* detail pages that do not load *)
  answers : list str         (* what the operator will type *)
}.

Definition on_page (n : nat) (s : portal) : portal :=
  {| options := options s; labels := labels s; endless := endless s;
     page := n; rows_per_page := rows_per_page s;
     sample_row := sample_row s;
     first_button_works := first_button_works s;
     failing_details := failing_details s;
     answers := answers s |}.

Definition last_page (s : portal) : bool :=
  Nat.leb (List.length (labels s)) (S (page s)) &&
  negb (Nat.eqb (List.length (labels s)) 0).

Definition disabled (b : bool) : option str :=
  if b then Some (lit "true") else None.

Definition react (c : selenium) (s : portal) : (exn + sel_val c) * portal :=
  match c return (exn + sel_val c) * portal with
  | FindElement _ => (inr tt, s)
  | FindOptions => (inr (List.length (options s)), s)
  | FindRows => (inr (rows_per_page s), s)
  | RowsStable => (inr (rows_per_page s), s)
  | ReadRow _ => (inr (sample_row s), s)
  | Text PagerInfo => (inr (nth (page s) (labels s) (endless s)), s)
  | Text (ListOption i) => (inr (nth i (options s) []), s)
  | Text _ => (inr [], s)
  | AriaDisabled NextBtn => (inr (disabled (last_page s)), s)
  | AriaDisabled FirstBtn => (inr (disabled (Nat.eqb (page s) 0)), s)
  | AriaDisabled _ => (inr None, s)
  | WaitClickable FirstBtn =>
      if first_button_works s then (inr tt, s)
      else (inl TimeoutException, s)
  | WaitClickable _ => (inr tt, s)
  | WaitVisible _ => (inr tt, s)
  | WaitMaskGone => (inr tt, s)
  | ScrollIntoView _ => (inr tt, s)
  | Click NextBtn | JsClick NextBtn => (inr tt, on_page (S (page s)) s)
  | Click FirstBtn | JsClick FirstBtn => (inr tt, on_page 0 s)
  | Click _ | JsClick _ => (inr tt, s)
  | Navigate _ => (inr tt, s)
  | DetailPage u =>
      if existsb (str_eqb u) (failing_details s)
      then (inl TimeoutException, s)
      else (inr [], s)
  | GetDriver => (inr tt, s)
  end.

Definition type_answer (s : portal) : str * portal :=
  match answers s with
  | [] => ([], s)
  | a :: rest =>
      (a, {| options := options s; labels := labels s;
             endless := endless s; page := page s;
             rows_per_page := rows_per_page s;
             sample_row := sample_row s;
             first_button_works := first_button_works s;
             failing_details := failing_details s;
             answers := rest |})
  end.

Definition attend (h : host) (s : portal) : host_val h * portal :=
  match h return host_val h * portal with
  | Sleep _ => (tt, s)
  | Now => (lit "2026-01-01T00:00:00", s)
  | Input => type_answer s
  | Print _ => (tt, s)
  end.

#[local] Instance portal_env : Env :=
  {| St := portal; browser := react; operator := attend |}.

(** The start of a run: nothing called yet. *)
Definition start {F} (s : portal) (f : F) : world F :=
  {| ext := s; trace := []; files := f |}.

(** A portal that is only a dropdown with the options [texts]. *)
Definition listbox_react (texts : list str) (c : selenium) (s : unit)
  : (exn + sel_val c) * unit :=
  match c return (exn + sel_val c) * unit with
  | FindOptions => (inr (List.length texts), s)
  | FindRows | RowsStable => (inr 0%nat, s)
  | ReadRow _ =>
      (inr {| cells := []; manage_link := None; profile_link := None;
              keyword_link := None; yes_no := [] |}, s)
  | Text (ListOption i) => (inr (nth i texts []), s)
  | Text _ => (inr [], s)
  | AriaDisabled _ => (inr None, s)
  | DetailPage _ => (inr [], s)
  | _ => (inr tt, s)
  end.

Definition listbox_attend (h : host) (s : unit) : host_val h * unit :=
  match h return host_val h * unit with
  | Sleep _ => (tt, s)
  | Now => ([], s)
  | Input => ([], s)
  | Print _ => (tt, s)
  end.

Definition listbox_env (texts : list str) : Env :=
  {| St := unit; browser := listbox_react texts;
     operator := listbox_attend |}.

(** A record of the expert list with a usable reference, and one without
    (what Phase 1 writes when the row has no link). *)
Definition expert : record :=
  [ (lit "Institution", PyStr (lit "Algoma University"));
    (lit "Name", PyStr (lit "Ada"));
    (lit "Manage_URL", PyStr (lit "https://www.ocip.express/Expert/Details/1")) ].

Definition expert_without_link : record :=
  [ (lit "Institution", PyStr (lit "Algoma University"));
    (lit "Name", PyStr (lit "Bob"));
    (lit "Manage_URL", PyStr (lit "Not Found")) ].

(** A grid of 163 rows in pages of 100, as its pager labels it. *)
Definition two_pages : list str :=
  [lit "1 - 100 of 163 items"; lit "101 - 163 of 163 items"].

(** A portal with the dropdown [opts] and a grid whose pages carry
    [pager_labels], on its first page, with no rows to read. *)
Definition portal_with (opts pager_labels : list str) (typed : list str)
  : portal :=
  {| options := opts; labels := pager_labels;
     endless := lit "No items to display"; page := 0;
     rows_per_page := 0;
     sample_row := {| cells := []; manage_link := None; profile_link := None;
                      keyword_link := None; yes_no := [] |};
     first_button_works := true;
     failing_details := [];
     answers := typed |}.

(** The same grid with a first-page button that never becomes clickable. *)
Definition stuck (s : portal) : portal :=
  {| options := options s; labels := labels s; endless := endless s;
     page := page s; rows_per_page := rows_per_page s;
     sample_row := sample_row s;
     first_button_works := false;
     failing_details := failing_details s;
     answers := answers s |}.

(** A grid that always announces more rows and always offers a next page. *)
Definition endless_portal : portal :=
  {| options := []; labels := [];
     endless := lit "1 - 100 of 100000 items"; page := 0;
     rows_per_page := 0;
     sample_row := {| cells := []; manage_link := None; profile_link := None;
                      keyword_link := None; yes_no := [] |};
     first_button_works := true;
     failing_details := [];
     answers := [] |}.

(** Forty institution names. *)
Definition forty_names : list str :=
  map (fun i => lit "HEI " ++ [N.of_nat (33 + i)]) (seq 0 40).

Definition p1_files (cp : content Phase1.checkpoint) : Phase1.files :=
  {| Phase1.CHECKPOINT_FILE := cp; Phase1.OUTPUT_JSON := Absent |}.

Definition p3_files (cp : content Phase3.checkpoint) : Phase3.files :=
  {| Phase3.CHECKPOINT_FILE := cp; Phase3.OUTPUT_JSON := Absent |}.

Definition p5_files : Phase5.files :=
  {| Phase5.CHECKPOINT_FILE := Absent; Phase5.OUTPUT_JSON := Absent |}.

(** A Phase 1 checkpoint taken after [k] institutions, with no record. *)
Definition p1_checkpoint_at (k total : Z) : Phase1.checkpoint :=
  {| Phase1.timestamp := lit "2026-01-01T00:00:00";
     Phase1.current_index := k;
     Phase1.total_institutions := total;
     Phase1.experts_collected := 0;
     Phase1.data := [] |}.

(** Worlds for the page loops. *)
Definition algoma : str := lit "Algoma University".
Definition brock : str := lit "Brock University".
Definition carleton : str := lit "Carleton University".
Definition aurora : str := lit "Aurora College".

(** The grid of 163 rows on its second and last page. *)
Definition second_page : world Phase1.files :=
  start (on_page 1 (portal_with [algoma] two_pages [])) (p1_files Absent).

(** The grid of 163 rows, first page, with a first-page button that never
    becomes clickable. *)
Definition stuck_grid : world Phase1.files :=
  start (stuck (portal_with [algoma; brock] two_pages [])) (p1_files Absent).

(** The same grid with a first-page button that works. *)
Definition working_grid : world Phase1.files :=
  start (portal_with [algoma; brock] two_pages []) (p1_files Absent).

Definition endless_grid1 : world Phase1.files :=
  start endless_portal (p1_files Absent).

Definition endless_grid5 : world Phase5.files :=
  start endless_portal p5_files.

(** Dropdowns in which an option that contains the target, or is contained
    in it, comes before the option equal to it. *)
Definition york : str := lit "York University".
Definition york_options : list str := [lit "York"; york].
Definition glendon_options : list str :=
  [lit "York University Glendon"; york].

Definition york_first : world Phase1.files :=
  start (portal_with york_options [] []) (p1_files Absent).

Definition glendon_first : world Phase3.files :=
  start (portal_with glendon_options [] []) (p3_files Absent).

(** A world that is only the dropdown [texts]. *)
Definition listbox_start {F} (texts : list str) (f : F)
  : @world (listbox_env texts) F :=
  @Build_world (listbox_env texts) F tt [] f.

Definition ontario : list str := [lit "Select HEI..."; algoma; brock].

(** The same dropdown, with an operator who answers [y] to every prompt. *)
Definition willing_attend (h : host) (s : unit) : host_val h * unit :=
  match h return host_val h * unit with
  | Sleep _ => (tt, s)
  | Now => ([], s)
  | Input => (lit "y", s)
  | Print _ => (tt, s)
  end.

Definition willing_env (texts : list str) : Env :=
  {| St := unit; browser := listbox_react texts;
     operator := willing_attend |}.

Definition willing_start {F} (texts : list str) (f : F)
  : @world (willing_env texts) F :=
  @Build_world (willing_env texts) F tt [] f.

(** 120 records that all have a usable reference. *)
Definition master_without_gap : list record := repeat expert 120.

(** 120 records of which the 50th has no usable reference. *)
Definition master_with_gap : list record :=
  repeat expert 49 ++ [expert_without_link] ++ repeat expert 70.

Definition p2_files (input : list record) : Phase2.files :=
  {| Phase2.INPUT_FILE := Doc input; Phase2.CHECKPOINT_FILE := Absent;
     Phase2.ERROR_LOG_FILE := Absent; Phase2.OUTPUT_FILE := Absent |}.

Definition p6_files (input : list record) : Phase6.files :=
  {| Phase6.INPUT_FILE := Doc input; Phase6.CHECKPOINT_FILE := Absent;
     Phase6.ERROR_LOG_FILE := Absent; Phase6.OUTPUT_FILE := Absent |}.

Definition other_expert : record :=
  [ (lit "Institution", PyStr brock);
    (lit "Name", PyStr (lit "Cy"));
    (lit "Manage_URL", PyStr (lit "https://www.ocip.express/Expert/Details/2")) ].

Definition two_experts : list record := [expert; other_expert].

(** A Phase 2 checkpoint taken after [k] experts, with no profile, and
    the files of a run that finds it. *)
Definition p2_checkpoint_at (k : Z) : Phase2.checkpoint :=
  {| Phase2.timestamp := lit "2026-01-01T00:00:00";
     Phase2.current_index := k;
     Phase2.experts_processed := 0;
     Phase2.errors_count := 0;
     Phase2.data := [] |}.

Definition p2_files_at (input : list record) (k : Z) : Phase2.files :=
  {| Phase2.INPUT_FILE := Doc input;
     Phase2.CHECKPOINT_FILE := Doc (p2_checkpoint_at k);
     Phase2.ERROR_LOG_FILE := Absent; Phase2.OUTPUT_FILE := Absent |}.

(** What the interrupt handler of Phase 2 leaves when the run is stopped
    during the first of two items: [save_checkpoint(processed_data, i + 1,
    errors)] with nothing processed, [i = 0] and no error. *)
Definition p2_interrupted : Phase2.files :=
  files (snd (Phase2.save_checkpoint [] 1 []
                (start (portal_with [] [] []) (p2_files two_experts)))).

(** The next run, the operator answering [y] to the resume prompt. *)
Definition p2_resumed : world Phase2.files :=
  start (portal_with [] [] [lit "y"]) p2_interrupted.

(** The same for Phase 6. *)
Definition p6_interrupted : Phase6.files :=
  files (snd (Phase6.save_checkpoint [] 1 [] 2
                (start (portal_with [] [] []) (p6_files two_experts)))).

Definition p6_resumed : world Phase6.files :=
  start (portal_with [] [] [lit "y"]) p6_interrupted.

(** A harvest stopped after two of the three institutions of the dropdown;
    by the next run the dropdown has a new first option. *)
Definition names_then : list str := [algoma; brock; carleton].
Definition names_now : list str := [aurora; algoma; brock; carleton].

Definition p1_stopped : Phase1.files :=
  files (snd (Phase1.save_checkpoint [] 2 names_then
                (start (portal_with names_then [] []) (p1_files Absent)))).

Definition p1_resumed : world Phase1.files :=
  start (portal_with names_now [] [lit "y"]) p1_stopped.

Definition p3_stopped : Phase3.files :=
  files (snd (Phase3.save_checkpoint [] 2 names_then []
                (start (portal_with names_then [] []) (p3_files Absent)))).

Definition p3_resumed : world Phase3.files :=
  start (portal_with names_now [] [lit "y"]) p3_stopped.

(** A row of the facility grid, with its link in the last cell. *)
Definition facility_row : row :=
  {| cells := [lit "ALG"; lit " Soil Lab "; lit "Laboratory"; lit "Yes";
               lit "No"; lit "Yes"; lit "Manage"];
     manage_link :=
       Some (PyStr (lit "https://www.ocip.express/Facility/Details/7"));
     profile_link := None; keyword_link := None; yes_no := [] |}.

(** A row of the organization grid without a link. *)
Definition organization_row : row :=
  {| cells := [lit ""; lit ""; lit ""; lit "Acme  Ltd"; lit "ON"; lit "Mining";
               lit ""; lit ""; lit ""; lit ""];
     manage_link := None; profile_link := None; keyword_link := None;
     yes_no := [lit "Yes"; lit "No"; lit "Yes"] |}.

(** A grid of organizations: one page of three rows that are the same. *)
Definition organizations_grid : world Phase5.files :=
  start {| options := []; labels := [lit "1 - 3 of 3 items"];
           endless := lit "No items to display"; page := 0;
           rows_per_page := 3; sample_row := organization_row;
           first_button_works := true; failing_details := [];
           answers := [] |} p5_files.

(** A fresh start of the enrichment of two experts; the page of the
    second one does not load. *)
Definition p2_fresh : world Phase2.files :=
  start {| options := []; labels := [];
           endless := lit "No items to display"; page := 0;
           rows_per_page := 0; sample_row := organization_row;
           first_button_works := true;
           failing_details := [lit "https://www.ocip.express/Expert/Details/2"];
           answers := [] |} (p2_files two_experts).

Definition p6_fresh : world Phase6.files :=
  start {| options := []; labels := [];
           endless := lit "No items to display"; page := 0;
           rows_per_page := 0; sample_row := organization_row;
           first_button_works := true;
           failing_details := [lit "https://www.ocip.express/Expert/Details/2"];
           answers := [] |} (p6_files two_experts).

(** A record of the organization list whose [Manage_URL] is [null], and a
    fresh start of the enrichment of a list that has it in the middle. *)
Definition organization_without_address : record :=
  [ (lit "Organization_Name", PyStr (lit "Acme Ltd"));
    (lit "Manage_URL", PyNone) ].

Definition p6_null_address : world Phase6.files :=
  start (portal_with [] [] [])
    (p6_files [expert; organization_without_address; other_expert]).

(** The start of the harvest of the facilities of two institutions. *)
Definition p3_start : world Phase3.files :=
  start (portal_with [algoma; brock] [] []) (p3_files Absent).

Definition empty_row : row :=
  {| cells := []; manage_link := None; profile_link := None;
     keyword_link := None; yes_no := [] |}.

End Sim.

(* ================================================================== *)
(** * From the lists to the detail phases                               *)
(* ================================================================== *)

(** The [Meta] block with which each detail phase starts a profile: the
    address and the time, and what it copies from the record of the list
    ([expert_basic_info.get(key, "")]). *)
Module Handover.
Import PyStr Text Py.

(** Phase 2, [extract_expert_full_profile]:
[[
            "Meta": {
                "Source_URL": url,
                "Scraped_At": datetime.now().isoformat(),
                "Institution": expert_basic_info.get("Institution", ""),
                "Name_From_List": expert_basic_info.get("Name", ""),
                "Expert_ID": expert_basic_info.get("Expert_ID", ""),
                "Profile_URL": expert_basic_info.get("Profile_URL", "")
            }
]] *)
Definition expert_meta (url : pytext) (now : str)
    (expert_basic_info : record) : record :=
  [ (lit "Source_URL", url);
    (lit "Scraped_At", PyStr now);
    (lit "Institution", get_or_empty (lit "Institution") expert_basic_info);
    (lit "Name_From_List", get_or_empty (lit "Name") expert_basic_info);
    (lit "Expert_ID", get_or_empty (lit "Expert_ID") expert_basic_info);
    (lit "Profile_URL", get_or_empty (lit "Profile_URL") expert_basic_info) ].

(** Phase 4, [extract_facility_full_profile]:
[[
            "Meta": {
                "Source_URL": url,
                "Scraped_At": datetime.now().isoformat(),
                "Institution": facility_basic_info.get("Institution", ""),
                "Facility_Name_From_List": facility_basic_info.get("Facility_Name", ""),
                "Facility_ID": facility_basic_info.get("Facility_ID", ""),
                "Type_From_List": facility_basic_info.get("Type", "")
            }
]] *)
Definition facility_meta (url : pytext) (now : str)
    (facility_basic_info : record) : record :=
  [ (lit "Source_URL", url);
    (lit "Scraped_At", PyStr now);
    (lit "Institution", get_or_empty (lit "Institution") facility_basic_info);
    (lit "Facility_Name_From_List",
       get_or_empty (lit "Facility_Name") facility_basic_info);
    (lit "Facility_ID", get_or_empty (lit "Facility_ID") facility_basic_info);
    (lit "Type_From_List", get_or_empty (lit "Type") facility_basic_info) ].

(** Phase 6, [extract_organization_full_profile]:
[[
            "Meta": {
                "Source_URL": url,
                "Scraped_At": datetime.now().isoformat(),
                "Organization_Name_From_List": org_basic_info.get("Organization_Name", ""),
                "Provinces_From_List": org_basic_info.get("Provinces", ""),
                "Sectors_From_List": org_basic_info.get("Sectors", "")
            }
]] *)
Definition organization_meta (url : pytext) (now : str)
    (org_basic_info : record) : record :=
  [ (lit "Source_URL", url);
    (lit "Scraped_At", PyStr now);
    (lit "Organization_Name_From_List",
       get_or_empty (lit "Organization_Name") org_basic_info);
    (lit "Provinces_From_List", get_or_empty (lit "Provinces") org_basic_info);
    (lit "Sectors_From_List", get_or_empty (lit "Sectors") org_basic_info) ].

(** The keys of a dictionary, in order. *)
Definition keys (d : record) : list str := map fst d.

End Handover.

(* ================================================================== *)
(** * More readings of a trace                                          *)
(* ================================================================== *)

Module Watch.
Import PyStr Text Py World.
Local Open Scope Z_scope.

(** The detail pages opened, in order. *)
Definition visit_of (e : event) : list str :=
  match e with
  | Sel (DetailPage u) => [u]
  | _ => []
  end.

Definition visited (tr : list event) : list str := flat_map visit_of tr.

(** The events that open no detail page. *)
Definition off_page (e : event) : bool :=
  match e with
  | Sel (DetailPage _) => false
  | _ => true
  end.

(** The addresses an enrichment loop has to open: those of the items with
    a usable [Manage_URL], in order. *)
Definition due_visits (items : list (Z * record)) : list str :=
  flat_map
    (fun it =>
       match get_or_empty (lit "Manage_URL") (snd it) with
       | PyStr u => if no_valid_url (PyStr u) then [] else [u]
       | PyNone => []
       end)
    items.

(** The number of times the rows were polled. *)
Definition is_poll (e : event) : bool :=
  match e with
  | Sel RowsStable => true
  | _ => false
  end.

Definition polls (tr : list event) : nat := List.length (filter is_poll tr).

(** The events that are not a poll of the rows. *)
Definition no_poll (e : event) : bool := negb (is_poll e).

(** The events that are a call to the browser. *)
Definition is_browser_call (e : event) : bool :=
  match e with
  | Sel _ => true
  | Hst _ => false
  end.

(** Any event. *)
Definition any_event (e : event) : bool := true.

(** [text and "Select HEI" not in text], for a stripped [text]: what
    [get_institution_names] keeps. *)
Definition keep_name (text : str) : bool :=
  match text with
  | [] => false
  | _ => negb (contains (lit "Select HEI") text)
  end.

(** The names [get_institution_names] makes of the texts of the
    options. *)
Definition names_of (texts : list str) : list str :=
  filter keep_name (map strip texts).

(** [item['Manage_URL']] of a scraped record. *)
Definition url_of (r : record) : pytext := get_or_empty (lit "Manage_URL") r.

(** A name [get_institution_names] keeps: stripped, not empty, and not the
    placeholder of the dropdown. *)
Definition kept_name (n : str) : Prop :=
  n <> [] /\ strip n = n /\ contains (lit "Select HEI") n = false.

(** A record carries the institution [name]. *)
Definition tagged (name : str) (r : record) : Prop :=
  get (lit "Institution") r = Some (PyStr name).

(** An entry of [empty_institutions] that the main loop of Phase 3 writes
    for the institution [uni] of index [i]. *)
Definition entry_of (i : Z) (uni : str) (e : Phase3.empty_entry) : Prop :=
  Phase3.index e = i /\ Phase3.name e = uni
  /\ (Phase3.reason e = lit "selection_failed"
      \/ Phase3.reason e = lit "no_data").

(** What became of the items of an enrichment loop, in order: a profile or
    an entry of the error list for each. *)
Definition profiles_of {A B} (os : list (A + B)) : list A :=
  flat_map (fun o => match o with inl a => [a] | inr _ => [] end) os.

Definition errors_of {A B} (os : list (A + B)) : list B :=
  flat_map (fun o => match o with inl _ => [] | inr b => [b] end) os.

(** A profile of the item: the item has a usable address, and the profile
    starts from it. *)
Definition profile_for (it : Z * record) (p : record) : Prop :=
  no_valid_url (url_of (snd it)) = false
  /\ get (lit "Source_URL") p = Some (url_of (snd it)).

(** The entry of the error list that Phase 2 writes for the item: it has
    no usable address, or the extraction failed. *)
Definition expert_error_for (it : Z * record) (e : Phase2.error_entry)
  : Prop :=
  Phase2.index e = fst it
  /\ Phase2.name e = get_or_unknown (lit "Name") (snd it)
  /\ ((no_valid_url (url_of (snd it)) = true
       /\ Phase2.url e = None
       /\ Phase2.reason e = lit "No valid Manage URL")
      \/ (no_valid_url (url_of (snd it)) = false
          /\ Phase2.url e = Some (url_of (snd it))
          /\ Phase2.reason e = lit "Extraction failed")).

Definition expert_outcome (it : Z * record)
    (o : record + Phase2.error_entry) : Prop :=
  match o with
  | inl p => profile_for it p
  | inr e => expert_error_for it e
  end.

(** The same for Phase 6. *)
Definition organization_error_for (it : Z * record)
    (e : Phase6.error_entry) : Prop :=
  Phase6.index e = fst it
  /\ Phase6.name e = get_or_unknown (lit "Organization_Name") (snd it)
  /\ ((no_valid_url (url_of (snd it)) = true
       /\ Phase6.url e = None
       /\ Phase6.reason e = lit "No valid Manage URL")
      \/ (no_valid_url (url_of (snd it)) = false
          /\ Phase6.url e = Some (url_of (snd it))
          /\ Phase6.reason e = lit "Extraction failed")).

Definition organization_outcome (it : Z * record)
    (o : record + Phase6.error_entry) : Prop :=
  match o with
  | inl p => profile_for it p
  | inr e => organization_error_for it e
  end.

(** The items that the loop of Phase 6 gets to: those up to the first one
    whose [Manage_URL] is [null], that one included; and the way the loop
    is left. *)
Fixpoint reached (items : list (Z * record)) : list (Z * record) :=
  match items with
  | [] => []
  | it :: items' =>
      match url_of (snd it) with
      | PyNone => [it]
      | PyStr _ => it :: reached items'
      end
  end.

Fixpoint ending (items : list (Z * record)) : Phase6.loop_end :=
  match items with
  | [] => Phase6.Completed
  | it :: items' =>
      match url_of (snd it) with
      | PyNone => Phase6.TypeErrorAt (fst it)
      | PyStr _ => ending items'
      end
  end.

(** The items that the loop of Phase 6 finishes: those before the first
    one whose [Manage_URL] is [null]. *)
Fixpoint finished (items : list (Z * record)) : list (Z * record) :=
  match items with
  | [] => []
  | it :: items' =>
      match url_of (snd it) with
      | PyNone => []
      | PyStr _ => it :: finished items'
      end
  end.

(** A record that carries none of the [names]: one that a re-visit of
    these institutions does not remove. *)
Definition apart (names : list str) (r : record) : bool :=
  forallb (fun n => Phase3.other_institution n r) names.

End Watch.

(* ================================================================== *)
(** * Yes/No cells                                                      *)
(* ================================================================== *)

(** The cells that show a flag as an icon, a checkbox or a word, and the
    three readers of such cells. *)
Module Flags.
Import PyStr Text.
Local Open Scope N_scope.

(** What the browser shows of a cell: its [span.k-icon] with the two
    attributes the readers ask for ([get_attribute] gives [None] for an
    attribute that is not there), its [input[type='checkbox']], and its
    text.  [None] for the icon or the checkbox: [find_element] raises
    [NoSuchElementException]. *)
Record icon := {
  icon_class : option str;
  icon_title : option str
}.

Record checkbox := {
  is_selected : bool;
  checked : option str
}.

Record cell := {
  cell_icon : option icon;
  cell_checkbox : option checkbox;
  cell_text : str
}.

(** [a or ""] and the truth value of an attribute. *)
Definition or_empty (a : option str) : str :=
  match a with
  | Some s => s
  | None => []
  end.

Definition truthy (a : option str) : bool :=
  match a with
  | Some (_ :: _) => true
  | _ => false
  end.

(** [t in [...]] for a list of strings. *)
Definition text_in (t : str) (l : list str) : bool := existsb (str_eqb t) l.

(** [s.lower()] on the letters A to Z; any other character is left as it
    is.  Python lowers other letters as well, but none of them to a letter
    of the words the text is compared with below, and it keeps an empty
    string empty and no other, so the comparisons decide the same. *)
Definition lower_char (c : codepoint) : codepoint :=
  if (65 <=? c) && (c <=? 90) then c + 32 else c.

Definition lower (s : str) : str := map lower_char s.

(** Phases 2 and 4:
[[
def parse_yes_no(element):
    try:
        icon = element.find_element(By.CSS_SELECTOR, "span.k-icon")
        title = icon.get_attribute("title")
        if title:
            return title
        classes = icon.get_attribute("class")
        if "k-i-checkbox-checked" in classes:
            return "Yes"
        elif "k-i-checkbox" in classes:
            return "No"
    except:
        pass
    return clean_text(element.text)
]]
    With no [class] attribute, [in] raises [TypeError], which the bare
    [except] takes like the missing icon. *)
Module P2.

Definition parse_yes_no (element : cell) : str :=
  let fallback := clean_text (PyStr (cell_text element)) in
  match cell_icon element with
  | None => fallback
  | Some icon =>
      match icon_title icon with
      | Some (c :: t) => c :: t
      | _ =>
          match icon_class icon with
          | None => fallback
          | Some classes =>
              if contains (lit "k-i-checkbox-checked") classes
              then lit "Yes"
              else if contains (lit "k-i-checkbox") classes
              then lit "No"
              else fallback
          end
      end
  end.

End P2.

(** Phase 6: the same, with two more class names:
[[
        if "k-i-checkbox-checked" in classes or "k-i-check" in classes:
            return "Yes"
        elif "k-i-checkbox" in classes or "k-i-close" in classes:
            return "No"
]] *)
Module P6.

Definition parse_yes_no (element : cell) : str :=
  let fallback := clean_text (PyStr (cell_text element)) in
  match cell_icon element with
  | None => fallback
  | Some icon =>
      match icon_title icon with
      | Some (c :: t) => c :: t
      | _ =>
          match icon_class icon with
          | None => fallback
          | Some classes =>
              if contains (lit "k-i-checkbox-checked") classes
                 || contains (lit "k-i-check") classes
              then lit "Yes"
              else if contains (lit "k-i-checkbox") classes
                      || contains (lit "k-i-close") classes
              then lit "No"
              else fallback
          end
      end
  end.

End P6.

(** Phase 5:
[[
def parse_yes_no_cell(cell):
    try:
        icon = cell.find_element(By.CSS_SELECTOR, "span.k-icon")
        icon_class = icon.get_attribute("class") or ""
        icon_title = icon.get_attribute("title") or ""
        if icon_title:
            return icon_title
        if "k-i-checkbox-checked" in icon_class or "k-i-check" in icon_class:
            return "Yes"
        elif "k-i-checkbox" in icon_class or "k-i-close" in icon_class or "k-i-x" in icon_class:
            return "No"
    except NoSuchElementException:
        pass
    try:
        checkbox = cell.find_element(By.CSS_SELECTOR, "input[type='checkbox']")
        if checkbox.is_selected() or checkbox.get_attribute("checked"):
            return "Yes"
        else:
            return "No"
    except NoSuchElementException:
        pass
    text = clean_text(cell.text).lower()
    if text in ["yes", "true", "1", "✓", "✔"]:
        return "Yes"
    elif text in ["no", "false", "0", "✗", "✘", ""]:
        return "No"
    return clean_text(cell.text) if cell.text else "No"
]]
    The four marks are the code points 10003, 10004, 10007 and 10008. *)
Module P5.

Definition yes_words : list str :=
  [lit "yes"; lit "true"; lit "1"; [10003]; [10004]].

Definition no_words : list str :=
  [lit "no"; lit "false"; lit "0"; [10007]; [10008]; []].

(** The first [try] block: what it returns, or [None] when it falls
    through to the second. *)
Definition read_icon (c : cell) : option str :=
  match cell_icon c with
  | None => None
  | Some icon =>
      let icon_class := or_empty (icon_class icon) in
      let icon_title := or_empty (icon_title icon) in
      match icon_title with
      | _ :: _ => Some icon_title
      | [] =>
          if contains (lit "k-i-checkbox-checked") icon_class
             || contains (lit "k-i-check") icon_class
          then Some (lit "Yes")
          else if contains (lit "k-i-checkbox") icon_class
                  || contains (lit "k-i-close") icon_class
                  || contains (lit "k-i-x") icon_class
          then Some (lit "No")
          else None
      end
  end.

(** The second [try] block. *)
Definition read_checkbox (c : cell) : option str :=
  match cell_checkbox c with
  | None => None
  | Some checkbox =>
      if is_selected checkbox || truthy (checked checkbox)
      then Some (lit "Yes")
      else Some (lit "No")
  end.

(** The fallback on the text. *)
Definition read_text (c : cell) : str :=
  let text := lower (clean_text (PyStr (cell_text c))) in
  if text_in text yes_words then lit "Yes"
  else if text_in text no_words then lit "No"
  else match cell_text c with
       | _ :: _ => clean_text (PyStr (cell_text c))
       | [] => lit "No"
       end.

Definition parse_yes_no_cell (c : cell) : str :=
  match read_icon c with
  | Some flag => flag
  | None =>
      match read_checkbox c with
      | Some flag => flag
      | None => read_text c
      end
  end.

End P5.

(** An icon without a title, as a cell. *)
Definition icon_cell (classes : str) (text : str) : cell :=
  {| cell_icon := Some {| icon_class := Some classes; icon_title := None |};
     cell_checkbox := None;
     cell_text := text |}.

End Flags.

(* ================================================================== *)
(** * Properties of the text normalisation                              *)
(* ================================================================== *)

Section TextFacts.
Import PyStr Text.
Local Open Scope N_scope.

Lemma rstrip_nil_inv s c :
  rstrip (c :: s) = [] -> is_space c = true /\ rstrip s = [].
Proof.
  simpl. destruct (rstrip s) eqn:E.
  - destruct (is_space c); [auto | discriminate].
  - discriminate.
Qed.

Lemma rstrip_ends_nonspace s : ends_nonspace (rstrip s) = true.
Proof.
  induction s as [|c t IH]; simpl; [reflexivity|].
  destruct (rstrip t) as [|d t'] eqn:E.
  - destruct (is_space c) eqn:Hc; simpl; [reflexivity | now rewrite Hc].
  - exact IH.
Qed.

Lemma rstrip_head c t :
  is_space c = false -> exists t', rstrip (c :: t) = c :: t'.
Proof.
  intros Hc. simpl. destruct (rstrip t) as [|d t'].
  - rewrite Hc. now exists [].
  - now exists (d :: t').
Qed.

Lemma lstrip_head s :
  lstrip s = [] \/ exists c t, lstrip s = c :: t /\ is_space c = false.
Proof.
  induction s as [|c t IH]; simpl; [now left|].
  destruct (is_space c) eqn:Hc; [exact IH|].
  right. now exists c, t.
Qed.

(** [s.strip()] is empty or starts and ends with a visible character. *)
Lemma strip_shape s :
  strip s = [] \/
  exists c t, strip s = c :: t /\ is_space c = false
              /\ ends_nonspace (c :: t) = true.
Proof.
  unfold strip. destruct (lstrip_head s) as [E | (c & t & E & Hc)].
  - rewrite E. now left.
  - rewrite E. destruct (rstrip_head c t Hc) as [t' E'].
    right. exists c, t'. repeat split; trivial.
    rewrite <- E'. apply rstrip_ends_nonspace.
Qed.

Lemma sub_ws_nonempty b s :
  s <> [] -> ends_nonspace s = true -> sub_ws_from b s <> [].
Proof.
  revert b. induction s as [|c t IH]; intros b Hne He; [congruence|].
  simpl. destruct (is_space c) eqn:Hc.
  - assert (Ht : t <> []).
    { intros ->. simpl in He. now rewrite Hc in He. }
    assert (He' : ends_nonspace t = true).
    { simpl in He. destruct t; [congruence | exact He]. }
    destruct b; [now apply IH | discriminate].
  - discriminate.
Qed.

Lemma ends_nonspace_tail c t :
  t <> [] -> ends_nonspace (c :: t) = true -> ends_nonspace t = true.
Proof. intros Ht He. simpl in He. destruct t; [congruence | exact He]. Qed.

(** The scan produces tidy text out of text that does not end in
    whitespace; a run that is being replaced must not be the end. *)
Lemma sub_ws_tidy s : forall b,
  ends_nonspace s = true -> (b = true -> s <> []) ->
  tidy (negb b) (sub_ws_from b s) = true.
Proof.
  induction s as [|c t IH]; intros b He Hb; [reflexivity|].
  simpl. destruct (is_space c) eqn:Hc.
  - assert (Ht : t <> []).
    { intros ->. simpl in He. now rewrite Hc in He. }
    pose proof (ends_nonspace_tail c t Ht He) as He'.
    destruct b.
    + apply (IH true); auto.
    + simpl. pose proof (sub_ws_nonempty true t Ht He') as Hne.
      destruct (sub_ws_from true t) as [|d r] eqn:E; [congruence|].
      rewrite <- E. apply (IH true); auto.
  - simpl. rewrite Hc.
    destruct t as [|d t'] eqn:Et; [reflexivity|].
    rewrite <- Et in *. apply (IH false).
    + apply (ends_nonspace_tail c _); [subst; discriminate | exact He].
    + discriminate.
Qed.

Lemma tidy_weaken b r : tidy b r = true -> tidy true r = true.
Proof.
  destruct r as [|c t]; [reflexivity|]. simpl.
  destruct (is_space c); [|auto].
  rewrite !andb_true_iff. intros [[[H1 _] H3] H4]. auto.
Qed.

Lemma tidy_lstrip r : tidy false r = true -> lstrip r = r.
Proof.
  destruct r as [|c t]; [reflexivity|]. simpl.
  destruct (is_space c); [|reflexivity].
  rewrite andb_false_r. discriminate.
Qed.

Lemma tidy_rstrip r : forall b, tidy b r = true -> rstrip r = r.
Proof.
  induction r as [|c t IH]; intros b H; [reflexivity|].
  simpl in *. destruct (is_space c) eqn:Hc.
  - rewrite !andb_true_iff in H. destruct H as [[[_ _] Hne] Ht].
    rewrite (IH _ Ht). destruct t; [discriminate | reflexivity].
  - rewrite (IH _ H). destruct t; reflexivity.
Qed.

Lemma tidy_sub_ws r : forall b, tidy b r = true -> sub_ws_from false r = r.
Proof.
  induction r as [|c t IH]; intros b H; [reflexivity|].
  simpl in *. destruct (is_space c) eqn:Hc.
  - rewrite !andb_true_iff in H. destruct H as [[[Hc32 _] Hne] Ht].
    apply N.eqb_eq in Hc32. subst c. f_equal.
    destruct t as [|d t']; [discriminate|].
    rewrite <- (IH _ Ht) at 2. simpl in *.
    destruct (is_space d); [|reflexivity].
    rewrite andb_false_r in Ht. discriminate.
  - f_equal. exact (IH _ H).
Qed.

Lemma tidy_replace r : forall b,
  tidy b r = true -> replace_char NBSP SPACE r = r.
Proof.
  induction r as [|c t IH]; intros b H; [reflexivity|].
  simpl in *. destruct (c =? NBSP) eqn:E.
  - apply N.eqb_eq in E. subst c. simpl in H. discriminate.
  - f_equal. destruct (is_space c).
    + rewrite !andb_true_iff in H. destruct H as [_ Ht]. exact (IH _ Ht).
    + exact (IH _ H).
Qed.

Lemma strip_sub_tidy s : tidy false (re_sub_ws (strip s)) = true.
Proof.
  unfold re_sub_ws.
  destruct (strip_shape s) as [E | (c & t & E & Hc & He)]; rewrite E;
    [reflexivity|].
  simpl. rewrite Hc. simpl. rewrite Hc.
  destruct t as [|d t'] eqn:Et; [reflexivity|]. rewrite <- Et in *.
  apply (sub_ws_tidy t false); [|discriminate].
  apply (ends_nonspace_tail c _); [subst; discriminate | exact He].
Qed.

Lemma clean_text_tidy t : tidy false (clean_text t) = true.
Proof.
  unfold clean_text. destruct (falsy t); [reflexivity|].
  destruct t as [|s]; [reflexivity|].
  rewrite (tidy_replace _ _ (strip_sub_tidy s)). apply strip_sub_tidy.
Qed.

Lemma clean_text_of_tidy r :
  tidy false r = true -> clean_text (PyStr r) = r.
Proof.
  intros H. unfold clean_text. destruct r as [|c t]; [reflexivity|].
  cbn [falsy]. unfold strip, re_sub_ws.
  rewrite (tidy_lstrip _ H), (tidy_rstrip _ _ H), (tidy_sub_ws _ _ H).
  exact (tidy_replace _ _ H).
Qed.

(** Claim C10.  [clean_text] is idempotent: cleaning the text it returned
    gives that text back, for every argument ([None] or a string); and for
    every falsy argument ([None] or the empty string) it returns the empty
    string. *)
Theorem clean_text_idempotent :
  (forall t : pytext, clean_text (PyStr (clean_text t)) = clean_text t)
  /\ clean_text PyNone = []
  /\ clean_text (PyStr []) = []
  /\ (forall t : pytext, falsy t = true -> clean_text t = []).
Proof.
  split; [|split; [|split]]; try reflexivity.
  - intros t. apply clean_text_of_tidy, clean_text_tidy.
  - intros t H. unfold clean_text. now rewrite H.
Qed.

Example clean_text_sample :
  clean_text (PyStr ([9; 32] ++ lit "Dr." ++ [160; 160; 10] ++ lit "Ada  L." ++ [32]))
  = lit "Dr. Ada L.".
Proof. reflexivity. Qed.

End TextFacts.

(* ================================================================== *)
(** * Readings of a trace                                               *)
(* ================================================================== *)

Section ObserveFacts.
Import PyStr Text Py World Observe.

Lemma silent_quiet e : silent e = true -> quiet e = true.
Proof. destruct e as [c|[ms| | |m]]; cbn; try easy. Qed.

Lemma steady_silent e : steady e = true -> silent e = true.
Proof. destruct e as [c|[ms| | |m]]; cbn; try easy. Qed.

Lemma silent_all_quiet new : forallb silent new = true -> forallb quiet new = true.
Proof.
  rewrite !forallb_forall. intros H e He. apply silent_quiet, H, He.
Qed.

Lemma steady_all_quiet new : forallb steady new = true -> forallb quiet new = true.
Proof.
  rewrite !forallb_forall. intros H e He.
  apply silent_quiet, steady_silent, H, He.
Qed.

Lemma pages_scraped_app a b :
  pages_scraped (a ++ b) = (pages_scraped a + pages_scraped b)%nat.
Proof. unfold pages_scraped. now rewrite filter_app, length_app. Qed.

Lemma silent_pages new : forallb silent new = true -> pages_scraped new = 0%nat.
Proof.
  unfold pages_scraped. induction new as [|e t IH]; [reflexivity|].
  cbn. intros H. apply andb_true_iff in H. destruct H as [He Ht].
  destruct e as [c|[ms| | |m]]; cbn in *; auto; discriminate.
Qed.

Lemma pages_scraped_line c f :
  pages_scraped [Hst (Print (PageLine c f))] = 1%nat.
Proof. reflexivity. Qed.

Lemma headers_app a b : headers (a ++ b) = headers a ++ headers b.
Proof. unfold headers. apply flat_map_app. Qed.

Lemma quiet_headers new : forallb quiet new = true -> headers new = [].
Proof.
  unfold headers. induction new as [|e t IH]; [reflexivity|].
  cbn. intros H. apply andb_true_iff in H. destruct H as [He Ht].
  rewrite (IH Ht). destruct e as [c|[ms| | |[q u n|q f]]]; cbn in *;
    auto; discriminate.
Qed.

Lemma pauses_from_pause last tr :
  pauses_from last (Hst (Sleep Phase2.BATCH_PAUSE) :: tr)
  = last :: pauses_from last tr.
Proof. reflexivity. Qed.

Lemma pauses_from_header last q u n tr :
  pauses_from last (Hst (Print (ItemHeader q u n)) :: tr) = pauses_from q tr.
Proof. reflexivity. Qed.

Lemma steady_pauses_app a b last :
  forallb steady a = true -> pauses_from last (a ++ b) = pauses_from last b.
Proof.
  revert last. induction a as [|e t IH]; intros last H; [reflexivity|].
  cbn in H. apply andb_true_iff in H. destruct H as [He Ht].
  destruct e as [c|[ms| | |[q u n|q f]]]; cbn in *; auto; try discriminate.
  apply negb_true_iff in He. rewrite He. auto.
Qed.

End ObserveFacts.


(* ================================================================== *)
(** * Reasoning about runs                                              *)
(* ================================================================== *)

Section RunFacts.
Import World.
Context {E : Env} {F : Type}.
Variable p : event -> bool.

(** A computation is calm when it does not run out of fuel and every event
    it emits satisfies [p]; it is safe when, moreover, it returns. *)
Definition calm {A} (m : M F A) : Prop :=
  forall w, fst (m w) <> Diverge /\
    exists new, trace (snd (m w)) = trace w ++ new /\ forallb p new = true.

Definition safe {A} (m : M F A) : Prop :=
  forall w, exists a w' new,
    m w = (Ret a, w') /\ trace w' = trace w ++ new /\ forallb p new = true.

Lemma safe_calm {A} (m : M F A) : safe m -> calm m.
Proof.
  intros H w. destruct (H w) as (a & w' & new & -> & Ht & Hp).
  split; [discriminate | now exists new].
Qed.

Lemma safe_ret {A} (a : A) : safe (ret a).
Proof. intros w. exists a, w, []. now rewrite app_nil_r. Qed.

Lemma calm_raise {A} (e : exn) : calm (raise (A:=A) e).
Proof.
  intros w. split; [discriminate|]. exists []. now rewrite app_nil_r.
Qed.

Lemma safe_ask (h : host) : p (Hst h) = true -> safe (ask h).
Proof.
  intros Hp w. unfold ask. destruct (operator h (ext w)) as [v s'].
  do 2 eexists. exists [Hst h]. cbn. now rewrite Hp.
Qed.

Lemma safe_sleep (ms : N) : p (Hst (Sleep ms)) = true -> safe (sleep ms).
Proof. exact (safe_ask (Sleep ms)). Qed.

Lemma safe_print (m : message) : p (Hst (Print m)) = true -> safe (print m).
Proof. exact (safe_ask (Print m)). Qed.

Lemma calm_sel (c : selenium) : p (Sel c) = true -> calm (sel c).
Proof.
  intros Hp w. unfold sel. destruct (browser c (ext w)) as [[e|v] s'];
    (split; [discriminate|]); exists [Sel c]; cbn; now rewrite Hp.
Qed.

Lemma safe_read_files : safe (read_files (F:=F)).
Proof. intros w. exists (files w), w, []. now rewrite app_nil_r. Qed.

Lemma safe_write_files (f : F -> F) : safe (write_files f).
Proof.
  intros w. do 2 eexists. exists []. cbn. now rewrite app_nil_r.
Qed.

Lemma safe_bind {A B} (m : M F A) (k : A -> M F B) :
  safe m -> (forall a, safe (k a)) -> safe (bind m k).
Proof.
  intros Hm Hk w. destruct (Hm w) as (a & w1 & n1 & E1 & T1 & P1).
  destruct (Hk a w1) as (b & w2 & n2 & E2 & T2 & P2).
  exists b, w2, (n1 ++ n2). unfold bind. rewrite E1, E2.
  split; [reflexivity|]. split.
  - now rewrite T2, T1, app_assoc.
  - now rewrite forallb_app, P1, P2.
Qed.

Lemma calm_bind {A B} (m : M F A) (k : A -> M F B) :
  calm m -> (forall a, calm (k a)) -> calm (bind m k).
Proof.
  intros Hm Hk w. destruct (Hm w) as (D1 & n1 & T1 & P1).
  unfold bind. destruct (m w) as [[a|e|] w1] eqn:E1; cbn in *.
  - destruct (Hk a w1) as (D2 & n2 & T2 & P2). split; [exact D2|].
    exists (n1 ++ n2). split.
    + now rewrite T2, T1, app_assoc.
    + now rewrite forallb_app, P1, P2.
  - split; [discriminate | now exists n1].
  - congruence.
Qed.

Lemma calm_try {A} (m : M F A) (h : exn -> M F A) :
  calm m -> (forall e, calm (h e)) -> calm (try_except m h).
Proof.
  intros Hm Hh w. destruct (Hm w) as (D1 & n1 & T1 & P1).
  unfold try_except. destruct (m w) as [[a|e|] w1] eqn:E1; cbn in *.
  - split; [discriminate | now exists n1].
  - destruct (Hh e w1) as (D2 & n2 & T2 & P2). split; [exact D2|].
    exists (n1 ++ n2). split.
    + now rewrite T2, T1, app_assoc.
    + now rewrite forallb_app, P1, P2.
  - congruence.
Qed.

Lemma safe_inv {A} (m : M F A) (w : world F) :
  safe m ->
  exists a w' new, m w = (Ret a, w') /\ trace w' = trace w ++ new
                   /\ forallb p new = true.
Proof. intros H. exact (H w). Qed.

(** A [try] whose handlers all return is a block that returns. *)
Lemma safe_try {A} (m : M F A) (h : exn -> M F A) :
  calm m -> (forall e, safe (h e)) -> safe (try_except m h).
Proof.
  intros Hm Hh w. destruct (Hm w) as (D1 & n1 & T1 & P1).
  unfold try_except. destruct (m w) as [[a|e|] w1] eqn:E1; cbn in *.
  - now exists a, w1, n1.
  - destruct (Hh e w1) as (b & w2 & n2 & E2 & T2 & P2).
    exists b, w2, (n1 ++ n2). split; [exact E2|]. split.
    + now rewrite T2, T1, app_assoc.
    + now rewrite forallb_app, P1, P2.
  - congruence.
Qed.

End RunFacts.

Lemma bind_ret_eq {E : World.Env} {F A B} (m : World.M F A)
    (k : A -> World.M F B) w a w1 :
  m w = (World.Ret a, w1) -> World.bind m k w = k a w1.
Proof. intros H. unfold World.bind. now rewrite H. Qed.

Lemma print_run {E : World.Env} {F} (msg : World.message) (w : World.world F) :
  exists w1, World.print msg w = (World.Ret tt, w1)
             /\ World.trace w1 = World.trace w ++ [World.Hst (World.Print msg)].
Proof.
  unfold World.print, World.ask.
  destruct (World.operator (World.Print msg) (World.ext w)) as [[] s'].
  eexists. split; reflexivity.
Qed.

Lemma sleep_run {E : World.Env} {F} (ms : N) (w : World.world F) :
  exists w1, World.sleep ms w = (World.Ret tt, w1)
             /\ World.trace w1 = World.trace w ++ [World.Hst (World.Sleep ms)].
Proof.
  unfold World.sleep, World.ask.
  destruct (World.operator (World.Sleep ms) (World.ext w)) as [[] s'].
  eexists. split; reflexivity.
Qed.

Lemma bind_raise_eq {E : World.Env} {F A B} (m : World.M F A)
    (k : A -> World.M F B) w e w1 :
  m w = (World.Raise e, w1) -> World.bind m k w = (World.Raise e, w1).
Proof. intros H. unfold World.bind. now rewrite H. Qed.

(** A call to the browser returns or raises, is recorded, and leaves the
    files alone. *)
Lemma sel_cases {E : World.Env} {F} (c : World.selenium) (w : World.world F) :
  (exists v w1, World.sel c w = (World.Ret v, w1)
                /\ World.trace w1 = World.trace w ++ [World.Sel c]
                /\ fst (World.browser c (World.ext w)) = inr v
                /\ World.files w1 = World.files w)
  \/ (exists e w1, World.sel c w = (World.Raise e, w1)
                   /\ World.trace w1 = World.trace w ++ [World.Sel c]
                   /\ fst (World.browser c (World.ext w)) = inl e
                   /\ World.files w1 = World.files w).
Proof.
  unfold World.sel. destruct (World.browser c (World.ext w)) as [[e|v] s].
  - right. do 2 eexists. repeat split.
  - left. do 2 eexists. repeat split.
Qed.

(** A question to the operator returns the answer and is recorded. *)
Lemma ask_run_trace {E : World.Env} {F} (h : World.host) (w : World.world F) :
  exists w1, World.ask h w = (World.Ret (fst (World.operator h (World.ext w))), w1)
             /\ World.trace w1 = World.trace w ++ [World.Hst h]
             /\ World.files w1 = World.files w.
Proof.
  unfold World.ask. destruct (World.operator h (World.ext w)) as [v s'].
  eexists. repeat split.
Qed.

Lemma safe_weaken {E : World.Env} {F A} (p q : World.event -> bool)
    (m : World.M F A) :
  (forall e, p e = true -> q e = true) -> safe p m -> safe q m.
Proof.
  intros Hpq H w. destruct (H w) as (a & w' & new & Em & T & P).
  exists a, w', new. repeat split; trivial.
  rewrite forallb_forall in *. auto.
Qed.

(** One step of a proof that a script is calm or safe: follow its
    structure. *)
Ltac run_step :=
  match goal with
  | |- safe _ (World.ret _) => apply safe_ret
  | |- calm _ (World.ret _) => apply safe_calm, safe_ret
  | |- calm _ (World.raise _) => apply calm_raise
  | |- safe ?p (World.ask ?h) => exact (safe_ask p h eq_refl)
  | |- calm ?p (World.ask ?h) => exact (safe_calm p _ (safe_ask p h eq_refl))
  | |- safe _ (World.sleep _) => apply safe_sleep; reflexivity
  | |- calm _ (World.sleep _) => apply safe_calm, safe_sleep; reflexivity
  | |- safe _ (World.print _) => apply safe_print; reflexivity
  | |- calm _ (World.print _) => apply safe_calm, safe_print; reflexivity
  | |- calm ?p (World.sel ?c) => exact (calm_sel p c eq_refl)
  | |- safe _ World.read_files => apply safe_read_files
  | |- calm _ World.read_files => apply safe_calm, safe_read_files
  | |- safe _ (World.write_files _) => apply safe_write_files
  | |- calm _ (World.write_files _) => apply safe_calm, safe_write_files
  | |- safe _ (World.bind _ _) => apply safe_bind; [| intros ?]
  | |- calm _ (World.bind _ _) => apply calm_bind; [| intros ?]
  | |- safe _ (World.try_except _ _) => apply safe_try; [| intros ?]
  | |- calm _ (World.try_except _ _) => apply calm_try; [| intros ?]
  | |- safe _ (match ?x with _ => _ end) => destruct x
  | |- calm _ (match ?x with _ => _ end) => destruct x
  | |- safe _ _ =>
      solve [ eauto with runs
            | apply (safe_weaken Observe.silent Observe.quiet);
              [exact silent_quiet | eauto with runs]
            | apply (safe_weaken Observe.steady Observe.silent);
              [exact steady_silent | eauto with runs] ]
  | |- calm _ _ =>
      solve [ eauto with runs
            | apply safe_calm; eauto with runs
            | apply safe_calm, (safe_weaken Observe.silent Observe.quiet);
              [exact silent_quiet | eauto with runs]
            | apply safe_calm, (safe_weaken Observe.steady Observe.silent);
              [exact steady_silent | eauto with runs] ]
  end.

Ltac run_auto := repeat run_step.

(** Run the first call of a sequence: a print, or a call known to be safe
    for the events [p]. *)
Ltac run_bind_for p :=
  match goal with
  | |- context [World.bind (World.print ?msg) ?k ?w] =>
      let w1 := fresh "w" in
      let Em := fresh "Em" in
      let T := fresh "T" in
      destruct (print_run msg w) as (w1 & Em & T);
      rewrite (bind_ret_eq (World.print msg) k w tt w1 Em); clear Em
  | |- context [World.bind ?m ?k ?w] =>
      let S := fresh "S" in
      assert (S : safe p m) by run_auto;
      let a := fresh "a" in
      let w1 := fresh "w" in
      let n := fresh "n" in
      let Em := fresh "Em" in
      let T := fresh "T" in
      let P := fresh "P" in
      destruct (S w) as (a & w1 & n & Em & T & P); clear S;
      rewrite (bind_ret_eq m k w a w1 Em)
  end.

(** Run a sleep and keep the event it is. *)
Ltac run_sleep :=
  match goal with
  | |- context [World.bind (World.sleep ?ms) ?k ?w] =>
      let w1 := fresh "w" in
      let Em := fresh "Em" in
      let T := fresh "T" in
      destruct (sleep_run ms w) as (w1 & Em & T);
      rewrite (bind_ret_eq (World.sleep ms) k w tt w1 Em); clear Em
  end.

(** Run a call to the browser: it returns or it raises. *)
Ltac step_sel :=
  match goal with
  | |- context [World.bind (World.sel ?c) ?k ?w] =>
      let v := fresh "v" in
      let e := fresh "e" in
      let w1 := fresh "w" in
      let Es := fresh "Es" in
      let T := fresh "T" in
      let B := fresh "B" in
      let K := fresh "K" in
      destruct (sel_cases c w)
        as [(v & w1 & Es & T & B & K)|(e & w1 & Es & T & B & K)];
      [ rewrite (bind_ret_eq (World.sel c) k w v w1 Es)
      | rewrite (bind_raise_eq (World.sel c) k w e w1 Es) ]
  end.

Ltac run_bind := run_bind_for Observe.silent.
Ltac run_bind_quiet := run_bind_for Observe.quiet.
Ltac run_bind_steady := run_bind_for Observe.steady.

(** The trace at the end is the trace at the start and what each call
    added. *)
Ltac trace_chain :=
  repeat match goal with
         | H : World.trace ?w = _ |- context [World.trace ?w] => rewrite H
         end;
  rewrite <- ?app_assoc; reflexivity.

Ltac all_quiet :=
  rewrite ?forallb_app;
  repeat match goal with
         | H : forallb Observe.silent ?n = true |- _ =>
             rewrite (silent_all_quiet n H); clear H
         end;
  repeat match goal with
         | H : forallb Observe.quiet ?n = true |- _ => rewrite H; clear H
         end;
  reflexivity.

Ltac no_headers :=
  rewrite ?headers_app;
  repeat match goal with
         | H : forallb Observe.steady ?n = true |- _ =>
             rewrite (quiet_headers n (steady_all_quiet n H)); clear H
         end;
  repeat match goal with
         | H : forallb Observe.silent ?n = true |- _ =>
             rewrite (quiet_headers n (silent_all_quiet n H)); clear H
         end;
  repeat match goal with
         | H : forallb Observe.quiet ?n = true |- _ =>
             rewrite (quiet_headers n H); clear H
         end;
  cbn [Observe.headers Observe.header_of flat_map app].

Ltac find_pauses :=
  repeat first
    [ rewrite steady_pauses_app by assumption
    | rewrite pauses_from_header
    | rewrite pauses_from_pause
    | progress change Phase6.BATCH_PAUSE with Phase2.BATCH_PAUSE
    | progress cbn [app] ].

Ltac count_pages :=
  rewrite ?pages_scraped_app;
  repeat match goal with
         | H : forallb Observe.silent ?n = true |- _ =>
             rewrite (silent_pages n H); clear H
         end;
  rewrite ?pages_scraped_line; try lia.

Create HintDb runs.

(* ================================================================== *)
(** * Properties of Phase 1                                             *)
(* ================================================================== *)

Section Phase1Facts.
Import PyStr Text Py World Observe Phase1.
Context {E : Env}.
Local Open Scope Z_scope.

Lemma wait_for_loading_complete_safe : safe silent wait_for_loading_complete.
Proof. unfold wait_for_loading_complete. run_auto. Qed.
Hint Resolve wait_for_loading_complete_safe : runs.

Lemma parse_pagination_info_safe : safe silent parse_pagination_info.
Proof. unfold parse_pagination_info. run_auto. Qed.
Hint Resolve parse_pagination_info_safe : runs.

Lemma has_next_page_safe : safe silent has_next_page.
Proof. unfold has_next_page. run_auto. Qed.
Hint Resolve has_next_page_safe : runs.

Lemma click_or_js_calm e : calm silent (click_or_js e).
Proof. unfold click_or_js. run_auto. Qed.
Hint Resolve click_or_js_calm : runs.

Lemma click_next_page_safe : safe silent click_next_page.
Proof. unfold click_next_page. run_auto. Qed.
Hint Resolve click_next_page_safe : runs.

Lemma reset_to_first_page_safe : safe silent reset_to_first_page.
Proof. unfold reset_to_first_page. run_auto. Qed.
Hint Resolve reset_to_first_page_safe : runs.

Lemma save_checkpoint_safe d i names : safe silent (save_checkpoint d i names).
Proof. unfold save_checkpoint. run_auto. Qed.
Hint Resolve save_checkpoint_safe : runs.

Lemma load_checkpoint_calm : calm silent load_checkpoint.
Proof. unfold load_checkpoint. run_auto. Qed.
Hint Resolve load_checkpoint_calm : runs.

Lemma collect_names_calm idx : forall names, calm silent (collect_names idx names).
Proof.
  induction idx as [|i idx IH]; intros names; cbn [collect_names]; run_auto.
  all: destruct (contains _ _); apply IH.
Qed.
Hint Resolve collect_names_calm : runs.

Lemma get_institution_names_safe : safe silent get_institution_names.
Proof. unfold get_institution_names. run_auto. Qed.
Hint Resolve get_institution_names_safe : runs.

Lemma find_option_calm target idx : calm silent (find_option target idx).
Proof.
  induction idx as [|i idx IH]; cbn [find_option]; run_auto.
Qed.
Hint Resolve find_option_calm : runs.

Lemma close_dropdown_quietly_safe : safe silent close_dropdown_quietly.
Proof. unfold close_dropdown_quietly. run_auto. Qed.
Hint Resolve close_dropdown_quietly_safe : runs.

Lemma select_institution_safe target : safe silent (select_institution target).
Proof. unfold select_institution. run_auto. Qed.
Hint Resolve select_institution_safe : runs.

Lemma scrape_rows_of_page_safe name idx : forall page_data,
  safe silent (scrape_rows_of_page name idx page_data).
Proof.
  induction idx as [|i idx IH]; intros page_data; cbn [scrape_rows_of_page];
    run_auto.
Qed.
Hint Resolve scrape_rows_of_page_safe : runs.

Lemma scrape_current_page_safe name : safe silent (scrape_current_page name).
Proof. unfold scrape_current_page. run_auto. Qed.
Hint Resolve scrape_current_page_safe : runs.

(** The page loop returns, with enough fuel for the pages the safety limit
    allows; it scrapes at most as many pages as are left below the limit,
    and its counter is the page it started on plus the pages it moved. *)
Lemma pages_loop_spec : forall fuel name all cp w,
  1 <= cp <= 50 -> 51 - cp <= Z.of_nat fuel ->
  exists all' cp' w' new,
    pages_loop fuel name all cp w = (Ret (all', cp'), w')
    /\ trace w' = trace w ++ new
    /\ forallb quiet new = true
    /\ (1 <= pages_scraped new)%nat
    /\ Z.of_nat (pages_scraped new) <= 51 - cp
    /\ cp + Z.of_nat (pages_scraped new) - 1 <= cp'
    /\ cp' <= cp + Z.of_nat (pages_scraped new).
Proof.
  induction fuel as [|fuel IH]; intros name all cp w Hcp Hfuel; [lia|].
  cbn [pages_loop].
  run_bind. run_bind. run_bind. destruct a0 as [[start end_] total].
  destruct (end_ >=? total).
  { do 3 eexists. eexists. split; [reflexivity|]. split; [trace_chain|].
    split; [all_quiet|]. count_pages. }
  run_bind. destruct a0; cbn [negb].
  2:{ do 3 eexists. eexists. split; [reflexivity|]. split; [trace_chain|].
      split; [all_quiet|]. count_pages. }
  run_bind. destruct a0.
  2:{ do 3 eexists. eexists. split; [reflexivity|]. split; [trace_chain|].
      split; [all_quiet|]. count_pages. }
  destruct (cp + 1 >? 50) eqn:Hlim.
  { do 3 eexists. eexists. split; [reflexivity|]. split; [trace_chain|].
    split; [all_quiet|]. count_pages. }
  assert (Hcp' : 1 <= cp + 1 <= 50) by lia.
  match goal with
  | |- context [pages_loop fuel _ ?al _ ?wc] =>
      destruct (IH name al (cp + 1) wc Hcp' ltac:(lia))
        as (all' & cp' & w' & new & Er & Tr & Pr & H1 & H2 & H3 & H4)
  end.
  exists all', cp', w'. eexists. split; [exact Er|]. split; [trace_chain|].
  split; [all_quiet|]. count_pages.
Qed.

(** The harvest of one institution returns; it scrapes at most 50 pages;
    and when it scraped more than one, the last thing it did, after the
    last page, was a complete call of [reset_to_first_page]. *)
Lemma scrape_all_pages_spec : forall extra name w,
  exists recs w' new,
    scrape_all_pages_for_institution (50 + extra) name w = (Ret recs, w')
    /\ trace w' = trace w ++ new
    /\ forallb quiet new = true
    /\ (pages_scraped new <= 50)%nat
    /\ ((1 < pages_scraped new)%nat ->
        exists w1 before ok,
          trace w1 = trace w ++ before
          /\ pages_scraped before = pages_scraped new
          /\ reset_to_first_page w1 = (Ret ok, w')).
Proof.
  intros extra name w. unfold scrape_all_pages_for_institution.
  run_bind. destruct a as [[start end_] total].
  destruct (total =? 0).
  { do 2 eexists. eexists. split; [reflexivity|]. split; [trace_chain|].
    split; [all_quiet|]. count_pages. }
  destruct (pages_loop_spec (50 + extra) name [] 1 w0 ltac:(lia) ltac:(lia))
    as (all' & cp' & w1 & new & Er & Tr & Pr & H1 & H2 & H3 & H4).
  rewrite (bind_ret_eq _ _ _ _ _ Er).
  destruct (cp' >? 1) eqn:Hcp.
  - destruct (reset_to_first_page_safe w1) as (ok & w2 & n2 & Ereset & T2 & P2).
    unfold bind at 1. unfold bind at 1. rewrite Ereset. cbn [ret].
    exists all', w2. eexists. split; [reflexivity|]. split; [trace_chain|].
    split; [all_quiet|]. split; [count_pages|]. intros _.
    exists w1. eexists. exists ok. split; [trace_chain|].
    split; [count_pages | exact Ereset].
  - unfold bind at 1. cbn [ret].
    exists all', w1. eexists. split; [reflexivity|]. split; [trace_chain|].
    split; [all_quiet|]. split; [count_pages|]. count_pages.
Qed.

Lemma scrape_all_pages_safe extra name :
  safe quiet (scrape_all_pages_for_institution (50 + extra) name).
Proof.
  intros w. destruct (scrape_all_pages_spec extra name w)
    as (recs & w' & new & Er & T & P & _).
  now exists recs, w', new.
Qed.
Hint Resolve scrape_all_pages_safe : runs.

(** The loop over the institutions prints one header per item, in order:
    the position [i + 1] and the name. *)
Lemma institutions_loop_headers : forall items extra names ml w,
  exists ml' w' new,
    institutions_loop (50 + extra) names items ml w = (Ret ml', w')
    /\ trace w' = trace w ++ new
    /\ headers new = map (fun it => (fst it + 1, PyStr (snd it))) items.
Proof.
  induction items as [|[i uni] items IH]; intros extra names ml w.
  - exists ml, w, []. cbn. now rewrite app_nil_r.
  - cbn [institutions_loop].
    run_bind. run_bind. run_bind_quiet. run_bind. run_bind.
    match goal with
    | |- context [institutions_loop _ _ _ ?m ?wc] =>
        destruct (IH extra names m wc) as (ml' & w' & new & Er & Tr & Hh)
    end.
    exists ml', w'. eexists. split; [exact Er|]. split; [trace_chain|].
    no_headers. now rewrite Hh.
Qed.

End Phase1Facts.

(* ================================================================== *)
(** * Properties of the enrichment phases                               *)
(* ================================================================== *)

Section Phase2Facts.
Import PyStr Text Py World Observe Phase2.
Context {E : Env}.
Local Open Scope Z_scope.

Lemma p2_save_checkpoint_safe pd i errs : safe steady (save_checkpoint pd i errs).
Proof. unfold save_checkpoint. run_auto. Qed.
Hint Resolve p2_save_checkpoint_safe : runs.

Lemma extract_expert_full_profile_safe expert :
  safe steady (extract_expert_full_profile expert).
Proof. unfold extract_expert_full_profile. run_auto. Qed.
Hint Resolve extract_expert_full_profile_safe : runs.

(** The loop over the experts returns; it prints one header per item, in
    order; it pauses after the positions of [due_pauses], and only there. *)
Lemma experts_loop_spec : forall items total pd errs w,
  exists r w' new,
    experts_loop total items pd errs w = (Ret r, w')
    /\ trace w' = trace w ++ new
    /\ headers new
       = map (fun it => (fst it + 1, get_or_unknown (lit "Name") (snd it)))
             items
    /\ forall last, pauses_from last new = due_pauses total items.
Proof.
  induction items as [|[i expert] items IH]; intros total pd errs w.
  - exists (pd, errs), w, []. cbn. now rewrite app_nil_r.
  - cbn [experts_loop]. unfold due_pauses. cbn [flat_map fst snd].
    fold (due_pauses total items).
    run_bind_steady.
    destruct (no_valid_url (get_or_empty (lit "Manage_URL") expert)) eqn:Hurl.
    + match goal with
      | |- context [experts_loop _ _ ?d ?e ?wc] =>
          destruct (IH total d e wc) as (r & w' & new & Er & Tr & Hh & Hp)
      end.
      exists r, w'. eexists. split; [exact Er|]. split; [trace_chain|].
      split; [no_headers; now rewrite Hh|].
      intros last. cbn. apply Hp.
    + run_bind_steady.
      assert (Hstep : forall pd' errs' wc,
        trace wc = trace w ++ [Hst (Print (ItemHeader (i + 1) total
                     (get_or_unknown (lit "Name") expert)))] ++ n ->
        exists r w' new,
          ((if (i + 1) mod 10 =? 0
            then save_checkpoint pd' (i + 1) errs' else ret tt) ;;
           (if ((i + 1) mod BATCH_SIZE =? 0) && (i + 1 <? total)
            then sleep BATCH_PAUSE else ret tt) ;;
           sleep BETWEEN_EXPERTS_DELAY ;;
           experts_loop total items pd' errs')%py wc = (Ret r, w')
          /\ trace w' = trace w ++ new
          /\ headers new
             = (i + 1, get_or_unknown (lit "Name") expert)
               :: map (fun it => (fst it + 1,
                                  get_or_unknown (lit "Name") (snd it))) items
          /\ forall last, pauses_from last new
             = (if ((i + 1) mod BATCH_SIZE =? 0) && (i + 1 <? total)
                then [i + 1] else []) ++ due_pauses total items).
      { intros pd' errs' wc Twc. run_bind_steady.
        destruct (((i + 1) mod BATCH_SIZE =? 0) && (i + 1 <? total)).
        - run_sleep. run_bind_steady.
          match goal with
          | |- context [experts_loop _ _ ?d ?e ?wx] =>
              destruct (IH total d e wx) as (r & w' & new & Er & Tr & Hh & Hp)
          end.
          exists r, w'. eexists. split; [exact Er|]. split; [trace_chain|].
          split.
          + pose proof (steady_all_quiet _ P) as Q.
            no_headers. now rewrite Hh.
          + intros last. cbn [app pauses_from].
            find_pauses. now rewrite Hp.
        - run_bind_steady. run_bind_steady.
          match goal with
          | |- context [experts_loop _ _ ?d ?e ?wx] =>
              destruct (IH total d e wx) as (r & w' & new & Er & Tr & Hh & Hp)
          end.
          exists r, w'. eexists. split; [exact Er|]. split; [trace_chain|].
          split.
          + pose proof (steady_all_quiet _ P) as Q.
            no_headers. now rewrite Hh.
          + intros last. cbn [app pauses_from].
            find_pauses. now rewrite Hp. }
      destruct a as [prof|]; apply Hstep; trace_chain.
Qed.

End Phase2Facts.

Section Phase6Facts.
Import PyStr Text Py World Observe Phase6.
Context {E : Env}.
Local Open Scope Z_scope.

Lemma p6_save_checkpoint_safe pd i errs total :
  safe steady (save_checkpoint pd i errs total).
Proof. unfold save_checkpoint. run_auto. Qed.
Hint Resolve p6_save_checkpoint_safe : runs.

Lemma extract_organization_full_profile_safe org :
  safe steady (extract_organization_full_profile org).
Proof. unfold extract_organization_full_profile. run_auto. Qed.
Hint Resolve extract_organization_full_profile_safe : runs.

(** The loop over the organizations: as for the experts, over the items
    it gets to. *)
Lemma orgs_loop_spec : forall items total pd errs w,
  exists pd' errs' w' new,
    orgs_loop total items pd errs w
    = (Ret (pd', errs', Watch.ending items), w')
    /\ trace w' = trace w ++ new
    /\ headers new
       = map (fun it => (fst it + 1,
                         get_or_unknown (lit "Organization_Name") (snd it)))
             (Watch.reached items)
    /\ forall last, pauses_from last new
                    = due_pauses total (Watch.reached items).
Proof.
  induction items as [|[i org] items IH]; intros total pd errs w.
  - exists pd, errs, w, []. cbn. now rewrite app_nil_r.
  - cbn [orgs_loop Watch.reached Watch.ending fst snd]. unfold Watch.url_of.
    run_bind_steady.
    destruct (get_or_empty (lit "Manage_URL") org) as [|u] eqn:Hget.
    { exists pd, errs, w0. eexists. split; [reflexivity|].
      split; [trace_chain|]. split.
      - no_headers. reflexivity.
      - intros last. unfold due_pauses. cbn [flat_map fst snd].
        rewrite Hget. cbn [no_valid_url app]. find_pauses. reflexivity. }
    unfold due_pauses. cbn [flat_map fst snd].
    fold (due_pauses total (Watch.reached items)). rewrite Hget.
    destruct (no_valid_url (PyStr u)) eqn:Hurl.
    + run_bind_steady. run_bind_steady.
      match goal with
      | |- context [orgs_loop _ _ ?d ?e ?wc] =>
          destruct (IH total d e wc)
            as (pd2 & errs2 & w' & new & Er & Tr & Hh & Hp)
      end.
      exists pd2, errs2, w'. eexists. split; [exact Er|]. split; [trace_chain|].
      split.
      * pose proof (steady_all_quiet _ P) as Q.
        pose proof (steady_all_quiet _ P0) as Q0.
        no_headers. now rewrite Hh.
      * intros last. cbn [app pauses_from].
        find_pauses. now rewrite Hp.
    + run_bind_steady. run_bind_steady. destruct a0 as [pd' errs']. run_bind_steady.
      change BATCH_SIZE with Phase2.BATCH_SIZE.
      destruct (((i + 1) mod Phase2.BATCH_SIZE =? 0) && (i + 1 <? total)).
      * run_sleep. run_bind_steady.
        match goal with
        | |- context [orgs_loop _ _ ?d ?e ?wx] =>
            destruct (IH total d e wx)
              as (pd2 & errs2 & w' & new & Er & Tr & Hh & Hp)
        end.
        exists pd2, errs2, w'. eexists. split; [exact Er|]. split; [trace_chain|].
        split.
        -- pose proof (steady_all_quiet _ P) as Q.
           pose proof (steady_all_quiet _ P0) as Q0.
           pose proof (steady_all_quiet _ P1) as Q1.
           pose proof (steady_all_quiet _ P2) as Q2.
           no_headers. now rewrite Hh.
        -- intros last. cbn [app pauses_from].
           find_pauses. now rewrite Hp.
      * run_bind_steady. run_bind_steady.
        match goal with
        | |- context [orgs_loop _ _ ?d ?e ?wx] =>
            destruct (IH total d e wx)
              as (pd2 & errs2 & w' & new & Er & Tr & Hh & Hp)
        end.
        exists pd2, errs2, w'. eexists. split; [exact Er|]. split; [trace_chain|].
        split.
        -- pose proof (steady_all_quiet _ P) as Q.
           pose proof (steady_all_quiet _ P0) as Q0.
           pose proof (steady_all_quiet _ P1) as Q1.
           pose proof (steady_all_quiet _ P2) as Q2.
           pose proof (steady_all_quiet _ P3) as Q3.
           no_headers. now rewrite Hh.
        -- intros last. cbn [app pauses_from].
           find_pauses. now rewrite Hp.
Qed.

End Phase6Facts.

(* ================================================================== *)
(** * Properties of Phase 3                                             *)
(* ================================================================== *)

Section Phase3Facts.
Import PyStr Text Py World Observe Phase3.
Context {E : Env}.
Local Open Scope Z_scope.

Lemma str_eqb_refl (a : str) : str_eqb a a = true.
Proof.
  induction a as [|c a IH]; [reflexivity|]. cbn. now rewrite N.eqb_refl.
Qed.

Lemma p3_wait_for_loading_complete_safe : safe silent wait_for_loading_complete.
Proof. unfold wait_for_loading_complete. run_auto. Qed.
Hint Resolve p3_wait_for_loading_complete_safe : runs.

Lemma wait_for_rows_stable_safe : safe silent wait_for_rows_stable.
Proof. unfold wait_for_rows_stable. run_auto. Qed.
Hint Resolve wait_for_rows_stable_safe : runs.

Lemma p3_parse_pagination_info_safe : safe silent parse_pagination_info.
Proof. unfold parse_pagination_info. run_auto. Qed.
Hint Resolve p3_parse_pagination_info_safe : runs.

Lemma retry_rows_safe attempts : safe silent (retry_rows attempts).
Proof.
  induction attempts as [|n IH]; cbn [retry_rows]; run_auto.
Qed.
Hint Resolve retry_rows_safe : runs.

Lemma wait_for_rows_with_retry_safe : safe silent wait_for_rows_with_retry.
Proof. unfold wait_for_rows_with_retry. run_auto. Qed.
Hint Resolve wait_for_rows_with_retry_safe : runs.

Lemma p3_has_next_page_safe : safe silent has_next_page.
Proof. unfold has_next_page. run_auto. Qed.
Hint Resolve p3_has_next_page_safe : runs.

Lemma p3_click_next_page_safe : safe silent click_next_page.
Proof. unfold click_next_page. run_auto. Qed.
Hint Resolve p3_click_next_page_safe : runs.

Lemma p3_reset_to_first_page_safe : safe silent reset_to_first_page.
Proof. unfold reset_to_first_page. run_auto. Qed.
Hint Resolve p3_reset_to_first_page_safe : runs.

Lemma p3_save_checkpoint_safe d i names empties :
  safe silent (save_checkpoint d i names empties).
Proof. unfold save_checkpoint. run_auto. Qed.
Hint Resolve p3_save_checkpoint_safe : runs.

Lemma p3_find_option_calm target idx : calm silent (find_option target idx).
Proof. induction idx as [|i idx IH]; cbn [find_option]; run_auto. Qed.
Hint Resolve p3_find_option_calm : runs.

Lemma p3_close_dropdown_quietly_safe : safe silent close_dropdown_quietly.
Proof. unfold close_dropdown_quietly. run_auto. Qed.
Hint Resolve p3_close_dropdown_quietly_safe : runs.

Lemma p3_select_institution_safe target :
  safe silent (select_institution target).
Proof. unfold select_institution. run_auto. Qed.
Hint Resolve p3_select_institution_safe : runs.

Lemma facility_record_mine name r now rec :
  facility_record name r now = Some rec -> mine name rec.
Proof.
  unfold facility_record. destruct (cells r); [discriminate|].
  intros [= <-]. unfold mine, other_institution. cbn.
  now rewrite str_eqb_refl.
Qed.

(** The records [scrape_rows] adds carry the institution it was given. *)
Lemma scrape_rows_spec name idx : forall page_data w,
  Forall (mine name) page_data ->
  exists page_data' w' new,
    scrape_rows idx name page_data w = (Ret page_data', w')
    /\ trace w' = trace w ++ new
    /\ forallb silent new = true
    /\ Forall (mine name) page_data'.
Proof.
  induction idx as [|i idx IH]; intros page_data w Hm; cbn [scrape_rows].
  - exists page_data, w, []. rewrite app_nil_r. auto.
  - unfold bind at 1, try_except, bind at 1, sel.
    destruct (browser (ReadRow i) (ext w)) as [[e|r] s1]; cbn [ret].
    + match goal with
      | |- context [scrape_rows idx name page_data ?wc] =>
          destruct (IH page_data wc Hm) as (pd & w' & new & Er & Tr & Pr & Hr)
      end.
      exists pd, w'. eexists. split; [exact Er|].
      split; [rewrite Tr; cbn [trace]; rewrite <- app_assoc; reflexivity|].
      split; [cbn; exact Pr | exact Hr].
    + unfold bind at 1, ask.
      destruct (operator Now _) as [now s2]. cbn [ret].
      destruct (facility_record name r now) as [rec|] eqn:Hrec.
      * assert (Hm' : Forall (mine name) (page_data ++ [rec])).
        { apply Forall_app. split; [exact Hm|]. constructor; [|constructor].
          eapply facility_record_mine, Hrec. }
        match goal with
        | |- context [scrape_rows idx name _ ?wc] =>
            destruct (IH _ wc Hm') as (pd & w' & new & Er & Tr & Pr & Hr)
        end.
        exists pd, w'. eexists. split; [exact Er|].
        split; [rewrite Tr; cbn [trace]; rewrite <- !app_assoc; reflexivity|].
        split; [cbn; exact Pr | exact Hr].
      * match goal with
        | |- context [scrape_rows idx name page_data ?wc] =>
            destruct (IH page_data wc Hm) as (pd & w' & new & Er & Tr & Pr & Hr)
        end.
        exists pd, w'. eexists. split; [exact Er|].
        split; [rewrite Tr; cbn [trace]; rewrite <- !app_assoc; reflexivity|].
        split; [cbn; exact Pr | exact Hr].
Qed.

(** The page loop of Phase 3 returns with fuel for 200 pages, scrapes at
    most the pages left below that limit, and only adds records of the
    institution it was given. *)
Lemma p3_pages_loop_spec : forall fuel name rows all cp w,
  1 <= cp <= 200 -> 201 - cp <= Z.of_nat fuel ->
  Forall (mine name) all ->
  exists all' cp' w' new,
    pages_loop fuel name rows all cp w = (Ret (all', cp'), w')
    /\ trace w' = trace w ++ new
    /\ forallb quiet new = true
    /\ Forall (mine name) all'
    /\ (1 <= pages_scraped new)%nat
    /\ Z.of_nat (pages_scraped new) <= 201 - cp.
Proof.
  induction fuel as [|fuel IH]; intros name rows all cp w Hcp Hfuel Hm; [lia|].
  cbn [pages_loop].
  destruct (scrape_rows_spec name (seq 0 rows) [] w (Forall_nil _))
    as (page & w0 & n0 & E0 & T0 & P0 & Hpage).
  rewrite (bind_ret_eq _ _ _ _ _ E0).
  assert (Hall : Forall (mine name) (all ++ page))
    by (apply Forall_app; now split).
  run_bind. run_bind. destruct a as [[start end_] total_now].
  run_bind.
  destruct (negb a || (total_now >? 0) && (end_ >=? total_now)).
  { do 3 eexists. eexists. split; [reflexivity|]. split; [trace_chain|].
    split; [all_quiet|]. split; [exact Hall|]. count_pages. }
  run_bind. destruct a0; cbn [negb].
  2:{ do 3 eexists. eexists. split; [reflexivity|]. split; [trace_chain|].
      split; [all_quiet|]. split; [exact Hall|]. count_pages. }
  run_bind. run_bind. destruct a1 as [|rows'].
  { do 3 eexists. eexists. split; [reflexivity|]. split; [trace_chain|].
    split; [all_quiet|]. split; [exact Hall|]. count_pages. }
  destruct (cp + 1 >? 200) eqn:Hlim.
  { do 3 eexists. eexists. split; [reflexivity|]. split; [trace_chain|].
    split; [all_quiet|]. split; [exact Hall|]. count_pages. }
  assert (Hcp' : 1 <= cp + 1 <= 200) by lia.
  match goal with
  | |- context [pages_loop fuel _ ?r ?al _ ?wc] =>
      destruct (IH name r al (cp + 1) wc Hcp' ltac:(lia) Hall)
        as (all' & cp' & w' & new & Er & Tr & Pr & Hr & H1 & H2)
  end.
  exists all', cp', w'. eexists. split; [exact Er|]. split; [trace_chain|].
  split; [all_quiet|]. split; [exact Hr|]. count_pages.
Qed.

(** The harvest of one institution in Phase 3. *)
Lemma p3_scrape_all_pages_spec : forall extra name w,
  exists recs w' new,
    scrape_all_pages_for_institution (200 + extra) name w = (Ret recs, w')
    /\ trace w' = trace w ++ new
    /\ forallb quiet new = true
    /\ Forall (mine name) recs
    /\ (pages_scraped new <= 200)%nat.
Proof.
  intros extra name w. unfold scrape_all_pages_for_institution.
  run_bind. destruct a as [rows is_empty]. run_bind.
  destruct a as [rows'|].
  2:{ do 2 eexists. eexists. split; [reflexivity|]. split; [trace_chain|].
      split; [all_quiet|]. split; [constructor|]. count_pages. }
  run_bind.
  match goal with
  | |- context [bind (pages_loop _ _ _ _ _) _ ?wc] =>
      destruct (p3_pages_loop_spec (200 + extra) name rows' [] 1 wc
                  ltac:(lia) ltac:(lia) (Forall_nil _))
        as (all' & cp' & w3 & new & Er & Tr & Pr & Hr & H1 & H2)
  end.
  rewrite (bind_ret_eq _ _ _ _ _ Er).
  run_bind.
  do 2 eexists. eexists. split; [reflexivity|]. split; [trace_chain|].
  split; [all_quiet|]. split; [exact Hr|]. count_pages.
Qed.

Lemma p3_scrape_all_pages_safe extra name :
  safe quiet (scrape_all_pages_for_institution (200 + extra) name).
Proof.
  intros w. destruct (p3_scrape_all_pages_spec extra name w)
    as (recs & w' & new & Er & T & P & _).
  now exists recs, w', new.
Qed.
Hint Resolve p3_scrape_all_pages_safe : runs.

(** [scrape_institution] returns, and what it fetched is attributed to
    the institution it was asked for. *)
Lemma scrape_institution_spec : forall extra name idx total w,
  exists data w' new,
    scrape_institution (200 + extra) name idx total w = (Ret data, w')
    /\ trace w' = trace w ++ new
    /\ headers new = [(idx + 1, PyStr name)]
    /\ match data with
       | Some recs => Forall (mine name) recs
       | None => True
       end.
Proof.
  intros extra name idx total w. unfold scrape_institution.
  run_bind. run_bind. destruct a; cbn [negb].
  - destruct (p3_scrape_all_pages_spec extra name w1)
      as (recs & w2 & new & Er & Tr & Pr & Hr & _).
    rewrite (bind_ret_eq _ _ _ _ _ Er).
    do 2 eexists. eexists. split; [reflexivity|]. split; [trace_chain|].
    split; [no_headers; reflexivity | exact Hr].
  - do 2 eexists. eexists. split; [reflexivity|]. split; [trace_chain|].
    split; [no_headers; reflexivity | exact I].
Qed.

Lemma filter_mine_out name (l : list record) :
  Forall (mine name) l -> filter (other_institution name) l = [].
Proof.
  induction 1 as [|r l Hr _ IH]; [reflexivity|]. cbn.
  unfold mine in Hr. now rewrite Hr.
Qed.

Lemma filter_mine_in name (l : list record) :
  Forall (mine name) l ->
  filter (fun r => negb (other_institution name r)) l = l.
Proof.
  induction 1 as [|r l Hr _ IH]; [reflexivity|]. cbn.
  unfold mine in Hr. rewrite Hr. cbn. now rewrite IH.
Qed.

Lemma filter_twice {A} (f : A -> bool) (l : list A) :
  filter f (filter f l) = filter f l.
Proof.
  induction l as [|x l IH]; [reflexivity|]. cbn.
  destruct (f x) eqn:Hx; cbn; [now rewrite Hx, IH | exact IH].
Qed.

Lemma filter_then_not {A} (f : A -> bool) (l : list A) :
  filter (fun x => negb (f x)) (filter f l) = [].
Proof.
  induction l as [|x l IH]; [reflexivity|]. cbn.
  destruct (f x) eqn:Hx; cbn; [now rewrite Hx | exact IH].
Qed.

(** Claim C6.  Re-visiting the institution of [item]: every record that
    carries its name is removed from the collection, the institution is
    scraped again, and what was fetched is appended.  Afterwards the records
    of the collection that carry the name are exactly the records fetched by
    this visit (none when the selection failed or nothing was found), so no
    record of an earlier attempt survives; the records of the other
    institutions are the same as before. *)
Theorem revisit_replaces_records_of_scope :
  forall extra names old_empty item master_list still_empty w,
  exists data master_list' still_empty' w',
    fst (scrape_institution (200 + extra) (name item) (index item)
           (len names) w) = Ret data
    /\ revisit_one (200 + extra) names old_empty item master_list
         still_empty w = (Ret (master_list', still_empty'), w')
    /\ let fetched := match data with Some d => d | None => [] end in
       master_list'
       = filter (other_institution (name item)) master_list ++ fetched
       /\ Forall (mine (name item)) fetched
       /\ filter (fun r => negb (other_institution (name item) r))
            master_list' = fetched
       /\ filter (other_institution (name item)) master_list'
          = filter (other_institution (name item)) master_list.
Proof.
  intros extra names old_empty item ml se w.
  destruct (scrape_institution_spec extra (name item) (index item)
              (len names) w) as (data & w1 & new & Er & Tr & Hh & Hd).
  exists data.
  assert (Hf : Forall (mine (name item))
                 match data with Some d => d | None => [] end)
    by (destruct data; [exact Hd | constructor]).
  unfold revisit_one. rewrite (bind_ret_eq _ _ _ _ _ Er).
  assert (Hgoal : forall (ml' : list record) (se' : list empty_entry),
    ml' = filter (other_institution (name item)) ml
          ++ match data with Some d => d | None => [] end ->
    exists master_list' still_empty' w',
      fst (Ret data, w1) = Ret data /\
      (save_checkpoint ml' (index item + 1) names
         (filter (fun e => negb (str_eqb (name e) (name item))) old_empty) ;;
       sleep 500 ;; ret (ml', se'))%py w1
      = (Ret (master_list', still_empty'), w')
      /\ master_list'
         = filter (other_institution (name item)) ml
           ++ match data with Some d => d | None => [] end
      /\ Forall (mine (name item))
           match data with Some d => d | None => [] end
      /\ filter (fun r => negb (other_institution (name item) r)) master_list'
         = match data with Some d => d | None => [] end
      /\ filter (other_institution (name item)) master_list'
         = filter (other_institution (name item)) ml).
  { intros ml' se' ->. run_bind. run_bind.
    do 3 eexists. split; [reflexivity|].
    split; [reflexivity|]. split; [reflexivity|].
    split; [exact Hf|]. rewrite !filter_app. split.
    - now rewrite filter_then_not, (filter_mine_in _ _ Hf).
    - now rewrite filter_twice, (filter_mine_out _ _ Hf), app_nil_r. }
  rewrite Er.
  destruct data as [[|r d]|]; cbv beta iota; apply Hgoal;
    rewrite ?app_nil_r; reflexivity.
Qed.

End Phase3Facts.

(* ================================================================== *)
(** * Properties of Phase 5                                             *)
(* ================================================================== *)

Section Phase5Facts.
Import PyStr Text Py World Observe Phase5.
Context {E : Env}.
Local Open Scope Z_scope.

Lemma p5_wait_for_loading_complete_safe : safe silent wait_for_loading_complete.
Proof. unfold wait_for_loading_complete. run_auto. Qed.
Hint Resolve p5_wait_for_loading_complete_safe : runs.

Lemma p5_parse_pagination_info_safe : safe silent parse_pagination_info.
Proof. unfold parse_pagination_info. run_auto. Qed.
Hint Resolve p5_parse_pagination_info_safe : runs.

Lemma p5_has_next_page_safe : safe silent has_next_page.
Proof. unfold has_next_page. run_auto. Qed.
Hint Resolve p5_has_next_page_safe : runs.

Lemma p5_click_next_page_safe : safe silent click_next_page.
Proof. unfold click_next_page. run_auto. Qed.
Hint Resolve p5_click_next_page_safe : runs.

Lemma p5_save_checkpoint_safe d c t : safe silent (save_checkpoint d c t).
Proof. unfold save_checkpoint. run_auto. Qed.
Hint Resolve p5_save_checkpoint_safe : runs.

Lemma p5_scrape_rows_of_page_safe idx : forall page_data,
  safe silent (scrape_rows_of_page idx page_data).
Proof.
  induction idx as [|i idx IH]; intros page_data; cbn [scrape_rows_of_page];
    run_auto.
Qed.
Hint Resolve p5_scrape_rows_of_page_safe : runs.

Lemma p5_scrape_current_page_safe : safe silent scrape_current_page.
Proof. unfold scrape_current_page. run_auto. Qed.
Hint Resolve p5_scrape_current_page_safe : runs.

(** The pagination loop of Phase 5 returns with fuel for 500 pages and
    scrapes at most the pages left below that limit. *)
Lemma p5_pages_loop_spec : forall fuel ml urls cp total w,
  1 <= cp <= 500 -> 501 - cp <= Z.of_nat fuel ->
  exists ml' cp' w' new,
    pages_loop fuel ml urls cp total w = (Ret (ml', cp'), w')
    /\ trace w' = trace w ++ new
    /\ forallb quiet new = true
    /\ (1 <= pages_scraped new)%nat
    /\ Z.of_nat (pages_scraped new) <= 501 - cp.
Proof.
  induction fuel as [|fuel IH]; intros ml urls cp total w Hcp Hfuel; [lia|].
  cbn [pages_loop].
  run_bind. destruct (add_new a ml urls) as [ml1 urls1].
  run_bind. run_bind. run_bind. destruct a1 as [[start end_] total'].
  destruct (end_ >=? total').
  { do 3 eexists. eexists. split; [reflexivity|]. split; [trace_chain|].
    split; [all_quiet|]. count_pages. }
  run_bind. destruct a1; cbn [negb].
  2:{ do 3 eexists. eexists. split; [reflexivity|]. split; [trace_chain|].
      split; [all_quiet|]. count_pages. }
  run_bind. destruct a1.
  2:{ do 3 eexists. eexists. split; [reflexivity|]. split; [trace_chain|].
      split; [all_quiet|]. count_pages. }
  destruct (cp + 1 >? 500) eqn:Hlim.
  { do 3 eexists. eexists. split; [reflexivity|]. split; [trace_chain|].
    split; [all_quiet|]. count_pages. }
  assert (Hcp' : 1 <= cp + 1 <= 500) by lia.
  match goal with
  | |- context [pages_loop fuel ?m ?u _ ?t ?wc] =>
      destruct (IH m u (cp + 1) t wc Hcp' ltac:(lia))
        as (ml' & cp' & w' & new & Er & Tr & Pr & H1 & H2)
  end.
  exists ml', cp', w'. eexists. split; [exact Er|]. split; [trace_chain|].
  split; [all_quiet|]. count_pages.
Qed.

End Phase5Facts.

(* ================================================================== *)
(** * Resuming from a checkpoint                                        *)
(* ================================================================== *)

Section ResumeFacts.
Import PyStr Text Py World Observe.
Local Open Scope Z_scope.

Lemma enumerate_nth_error {A} (xs : list A) : forall k j,
  nth_error (enumerate xs k) j
  = option_map (fun x => (k + Z.of_nat j, x)) (nth_error xs j).
Proof.
  induction xs as [|x xs IH]; intros k j.
  - now destruct j.
  - destruct j as [|j]; cbn [enumerate nth_error option_map].
    + do 2 f_equal. lia.
    + rewrite IH. destruct (nth_error xs j); cbn; [|reflexivity].
      do 2 f_equal. lia.
Qed.

Lemma slice_from_nonneg {A} (xs : list A) k :
  0 <= k -> slice_from xs k = skipn (Z.to_nat k) xs.
Proof.
  intros Hk. unfold slice_from.
  destruct (k <? 0) eqn:H; [lia | reflexivity].
Qed.

(** The [j]-th item of the loop is the item of index [k + j] of the list,
    under that index. *)
Lemma loop_items_nth_error {A} (xs : list A) k j :
  0 <= k ->
  nth_error (loop_items xs k) j
  = option_map (fun x => (k + Z.of_nat j, x))
      (nth_error xs (Z.to_nat k + j)).
Proof.
  intros Hk. unfold loop_items.
  now rewrite enumerate_nth_error, slice_from_nonneg, nth_error_skipn.
Qed.

(** No item of an index below [k] is in the loop. *)
Lemma loop_items_from {A} (xs : list A) k i x :
  0 <= k -> In (i, x) (loop_items xs k) ->
  k <= i /\ nth_error xs (Z.to_nat i) = Some x.
Proof.
  intros Hk Hin. apply In_nth_error in Hin. destruct Hin as [j Hj].
  rewrite loop_items_nth_error in Hj by exact Hk.
  destruct (nth_error xs (Z.to_nat k + j)) eqn:Hn; [|discriminate].
  cbn in Hj. injection Hj as <- <-. split; [lia|].
  rewrite <- Hn. f_equal. lia.
Qed.

Context {E : Env}.

Lemma p1_resume_prompt_yes cp (w : world Phase1.files) :
  Phase1.CHECKPOINT_FILE (files w) = Doc cp ->
  says_yes (fst (operator Input (ext w))) = true ->
  fst (Phase1.resume_prompt w) = Ret (Phase1.data cp, Phase1.current_index cp).
Proof.
  intros Hf Hy. unfold Phase1.resume_prompt, Phase1.load_checkpoint.
  unfold bind at 1, bind at 1, read_files. rewrite Hf. cbn [ret].
  unfold bind, ask. destruct (operator Input (ext w)) as [ans s].
  cbn in Hy. now rewrite Hy.
Qed.

Lemma p2_resume_prompt_yes cp (w : world Phase2.files) :
  Phase2.CHECKPOINT_FILE (files w) = Doc cp ->
  says_yes (fst (operator Input (ext w))) = true ->
  exists errors,
    fst (Phase2.resume_prompt w)
    = Ret (Phase2.data cp, errors, Phase2.current_index cp).
Proof.
  intros Hf Hy. unfold Phase2.resume_prompt, Phase2.load_checkpoint.
  unfold bind at 1, bind at 1, read_files. rewrite Hf. cbn [ret].
  unfold bind, ask. destruct (operator Input (ext w)) as [ans s].
  cbn in Hy. rewrite Hy. cbn. eexists. reflexivity.
Qed.

End ResumeFacts.

(* ================================================================== *)
(** * Pagination: stopping, the page ceiling, the reset                 *)
(* ================================================================== *)

Section PaginationFacts.
Import PyStr Text Py World Observe.
Context {E : Env}.
Local Open Scope Z_scope.

Lemma p1_scrape_rows_spares_next name idx : forall page_data,
  safe spares_next (Phase1.scrape_rows_of_page name idx page_data).
Proof.
  induction idx as [|i idx IH]; intros page_data;
    cbn [Phase1.scrape_rows_of_page]; run_auto.
Qed.
Hint Resolve p1_scrape_rows_spares_next : runs.

Lemma p1_scrape_current_page_spares_next name :
  safe spares_next (Phase1.scrape_current_page name).
Proof. unfold Phase1.scrape_current_page. run_auto. Qed.

Lemma p1_parse_spares_next : safe spares_next Phase1.parse_pagination_info.
Proof. unfold Phase1.parse_pagination_info. run_auto. Qed.

(** Claim C3.  The label "1 - 100 of 163 items" parses to the window
    (1, 100, 163), and "101 - 163 of 163 items" to (101, 163, 163).  In the
    page loop of Phase 1, once the page is scraped and the pager is read: if
    the window read has [end >= total], the loop returns at once, in the
    state reached by reading the pager: the next-page button is neither
    looked up nor clicked, whatever its state. *)
Theorem pagination_stops_at_last_window :
  Phase1.parse_pager_text (lit "1 - 100 of 163 items") = (1, 100, 163)
  /\ Phase1.parse_pager_text (lit "101 - 163 of 163 items") = (101, 163, 163)
  /\ forall fuel name all current_page (w : world Phase1.files),
     exists page w0 w1,
       Phase1.scrape_current_page name w = (Ret page, w0)
       /\ print (PageLine current_page (len page)) w0 = (Ret tt, w1)
       /\ forall start end_ total w2,
            Phase1.parse_pagination_info w1
            = (Ret (start, end_, total), w2) ->
            total <= end_ ->
            Phase1.pages_loop (S fuel) name all current_page w
            = (Ret (all ++ page, current_page), w2)
            /\ exists new, trace w2 = trace w ++ new
                           /\ forallb spares_next new = true.
Proof.
  split; [reflexivity|]. split; [reflexivity|].
  intros fuel name all cp w.
  destruct (p1_scrape_current_page_spares_next name w)
    as (page & w0 & n0 & E0 & T0 & P0).
  destruct (print_run (PageLine cp (len page)) w0) as (w1 & E1 & T1).
  exists page, w0, w1. split; [exact E0|].
  split; [exact E1|].
  intros start end_ total w2 Hparse Hlast.
  destruct (p1_parse_spares_next w1) as (a & w2' & n2 & E2 & T2 & P2).
  rewrite Hparse in E2. injection E2 as <- <-.
  split.
  - cbn [Phase1.pages_loop].
    rewrite (bind_ret_eq _ _ _ _ _ E0), (bind_ret_eq _ _ _ _ _ E1),
      (bind_ret_eq _ _ _ _ _ Hparse).
    destruct (end_ >=? total) eqn:Hge; [reflexivity | lia].
  - eexists. split; [trace_chain|].
    rewrite !forallb_app, P0, P2. reflexivity.
Qed.

(** Claim C4, amended.  For every behaviour of the portal (every state,
    every reaction to every call), each page loop returns once it has fuel
    for its own safety limit, and it has scraped at most that many pages:
    50 in Phase 1, 200 in Phase 3 and 500 in Phase 5 (not 200 in all of
    them). *)
Theorem page_ceiling_of_each_phase (extra : nat) :
  (forall name (w : world Phase1.files),
     exists recs w' new,
       Phase1.scrape_all_pages_for_institution (50 + extra) name w
       = (Ret recs, w')
       /\ trace w' = trace w ++ new
       /\ (pages_scraped new <= 50)%nat)
  /\ (forall name (w : world Phase3.files),
     exists recs w' new,
       Phase3.scrape_all_pages_for_institution (200 + extra) name w
       = (Ret recs, w')
       /\ trace w' = trace w ++ new
       /\ (pages_scraped new <= 200)%nat)
  /\ (forall master_list urls total (w : world Phase5.files),
     exists r w' new,
       Phase5.pages_loop (500 + extra) master_list urls 1 total w
       = (Ret r, w')
       /\ trace w' = trace w ++ new
       /\ (pages_scraped new <= 500)%nat).
Proof.
  repeat split.
  - intros name w. destruct (scrape_all_pages_spec extra name w)
      as (recs & w' & new & Er & Tr & _ & Hp & _).
    now exists recs, w', new.
  - intros name w. destruct (p3_scrape_all_pages_spec extra name w)
      as (recs & w' & new & Er & Tr & _ & _ & Hp).
    now exists recs, w', new.
  - intros ml urls total w.
    destruct (p5_pages_loop_spec (500 + extra) ml urls 1 total w
                ltac:(lia) ltac:(lia))
      as (ml' & cp' & w' & new & Er & Tr & _ & _ & Hp).
    exists (ml', cp'), w', new. repeat split; trivial. lia.
Qed.

End PaginationFacts.

(* ================================================================== *)
(** * The reset after several pages                                     *)
(* ================================================================== *)

Section ResetFacts.
Import PyStr Text Py World Observe Phase1.
Context {E : Env}.
Local Open Scope Z_scope.

Lemma reset_on_first_page (w1 : world files) start end_ total w2 :
  parse_pagination_info w1 = (Ret (start, end_, total), w2) ->
  start <= 1 ->
  reset_to_first_page w1 = (Ret true, w2).
Proof.
  intros Hp Hs. unfold reset_to_first_page, try_except.
  rewrite (bind_ret_eq _ _ _ _ _ Hp).
  destruct (start <=? 1) eqn:H; [reflexivity | lia].
Qed.

Lemma reset_gives_up (w1 : world files) start end_ total w2 x :
  parse_pagination_info w1 = (Ret (start, end_, total), w2) ->
  1 < start ->
  fst (browser (WaitClickable FirstBtn) (ext w2)) = inl x ->
  exists w3,
    reset_to_first_page w1 = (Ret false, w3)
    /\ ext w3 = snd (browser (WaitClickable FirstBtn) (ext w2)).
Proof.
  intros Hp Hs Hb. unfold reset_to_first_page, try_except.
  rewrite (bind_ret_eq _ _ _ _ _ Hp).
  destruct (start <=? 1) eqn:H; [lia|].
  unfold bind at 1, sel.
  destruct (browser (WaitClickable FirstBtn) (ext w2)) as [r s3].
  cbn in Hb. subst r. cbn. eexists. split; reflexivity.
Qed.

(** Claim C5, amended.  For every scope of which Phase 1 scraped more than
    one page, the last thing [scrape_all_pages_for_institution] does, after
    the last page and before it returns (hence before the next scope is
    selected), is one complete call of [reset_to_first_page], whose result
    it does not look at.  That call leaves the grid alone when the pager
    already reads a start of at most 1; and when the first-page button does
    not become clickable it returns [False] with the grid left as it was:
    the window start is then not 1, and the harvest goes on. *)
Theorem reset_attempted_after_several_pages (extra : nat) :
  (forall name (w : world files),
     exists recs w' new,
       scrape_all_pages_for_institution (50 + extra) name w = (Ret recs, w')
       /\ trace w' = trace w ++ new
       /\ ((1 < pages_scraped new)%nat ->
           exists w1 before ok,
             trace w1 = trace w ++ before
             /\ pages_scraped before = pages_scraped new
             /\ reset_to_first_page w1 = (Ret ok, w')))
  /\ (forall (w1 : world files) start end_ total w2,
        parse_pagination_info w1 = (Ret (start, end_, total), w2) ->
        start <= 1 ->
        reset_to_first_page w1 = (Ret true, w2))
  /\ (forall (w1 : world files) start end_ total w2 x,
        parse_pagination_info w1 = (Ret (start, end_, total), w2) ->
        1 < start ->
        fst (browser (WaitClickable FirstBtn) (ext w2)) = inl x ->
        exists w3,
          reset_to_first_page w1 = (Ret false, w3)
          /\ ext w3 = snd (browser (WaitClickable FirstBtn) (ext w2))).
Proof.
  split; [|split].
  - intros name w. destruct (scrape_all_pages_spec extra name w)
      as (recs & w' & new & Er & Tr & _ & _ & Hreset).
    now exists recs, w', new.
  - exact reset_on_first_page.
  - exact reset_gives_up.
Qed.

End ResetFacts.

(* ================================================================== *)
(** * Selecting a scope                                                 *)
(* ================================================================== *)

Section SelectFacts.
Import PyStr Text Py World Observe.
Context {E : Env}.

Lemma bind_inv {F A B} (m : M F A) (k : A -> M F B) w b w' :
  bind m k w = (Ret b, w') ->
  exists a w1, m w = (Ret a, w1) /\ k a w1 = (Ret b, w').
Proof.
  unfold bind. destruct (m w) as [[a|e|] w1]; intros H; try discriminate.
  now exists a, w1.
Qed.

Lemma sel_inv {F} (c : selenium) (w : world F) v w' :
  sel c w = (Ret v, w') -> fst (browser c (ext w)) = inr v.
Proof.
  unfold sel. destruct (browser c (ext w)) as [[e|v'] s]; intros H;
    [discriminate|]. now injection H as <- _.
Qed.

Lemma first_match_seq (test : str -> bool) (l : list str) : forall pre,
  find (fun i => test (nth i (pre ++ l) []))
       (seq (List.length pre) (List.length l))
  = first_match test l (List.length pre).
Proof.
  induction l as [|x l IH]; intros pre; [reflexivity|].
  cbn [List.length seq find first_match]. rewrite nth_middle.
  destruct (test x); [reflexivity|].
  specialize (IH (pre ++ [x])). rewrite <- app_assoc in IH. cbn in IH.
  rewrite length_app in IH. cbn in IH. rewrite Nat.add_1_r in IH. exact IH.
Qed.

Lemma first_match_all (test : str -> bool) (texts : list str) :
  find (fun i => test (nth i texts [])) (seq 0 (List.length texts))
  = first_match test texts 0.
Proof. exact (first_match_seq test texts []). Qed.

Section Listbox.
Variable texts : list str.
Hypothesis shown : shows_options E texts.

Lemma p1_find_option_shown target idx (w : world Phase1.files) :
  fst (Phase1.find_option target idx w)
  = Ret (find (fun i => Phase1.option_matches target (strip (nth i texts [])))
           idx).
Proof.
  revert w. induction idx as [|i idx IH]; intros w; [reflexivity|].
  cbn [Phase1.find_option find]. unfold bind, sel.
  pose proof (proj2 shown (ext w) i) as Ht.
  destruct (browser (Text (ListOption i)) (ext w)) as [r s]. cbn in Ht.
  subst r. destruct (Phase1.option_matches _ _); [reflexivity | apply IH].
Qed.

Lemma p3_find_option_shown target idx (w : world Phase3.files) :
  fst (Phase3.find_option target idx w)
  = Ret (find (fun i => contains target (nth i texts [])) idx).
Proof.
  revert w. induction idx as [|i idx IH]; intros w; [reflexivity|].
  cbn [Phase3.find_option find]. unfold bind, sel.
  pose proof (proj2 shown (ext w) i) as Ht.
  destruct (browser (Text (ListOption i)) (ext w)) as [r s]. cbn in Ht.
  subst r. destruct (contains _ _); [reflexivity | apply IH].
Qed.

Lemma p1_close_dropdown_false (w : world Phase1.files) :
  fst (Phase1.close_dropdown_quietly w) = Ret false.
Proof.
  destruct (close_dropdown_quietly_safe w) as (b & w' & n & Hr & _).
  rewrite Hr. unfold Phase1.close_dropdown_quietly in Hr.
  apply bind_inv in Hr. destruct Hr as (a & w1 & _ & Hr).
  now injection Hr as <- _.
Qed.

Lemma p3_close_dropdown_false (w : world Phase3.files) :
  fst (Phase3.close_dropdown_quietly w) = Ret false.
Proof.
  destruct (p3_close_dropdown_quietly_safe w) as (b & w' & n & Hr & _).
  rewrite Hr. unfold Phase3.close_dropdown_quietly in Hr.
  apply bind_inv in Hr. destruct Hr as (a & w1 & _ & Hr).
  now injection Hr as <- _.
Qed.

Lemma p1_select_none target (w : world Phase1.files) :
  first_match (fun t => Phase1.option_matches target (strip t)) texts 0 = None ->
  fst (Phase1.select_institution target w) = Ret false.
Proof.
  intros Hnone.
  destruct (select_institution_safe target w) as (b & w' & n & Hr & _).
  rewrite Hr. cbn [fst]. f_equal.
  unfold Phase1.select_institution, try_except in Hr.
  match type of Hr with
  | match ?body w with _ => _ end = _ => destruct (body w) as [[b0|e|] w0] eqn:Hb
  end.
  - injection Hr as <- <-.
    repeat (apply bind_inv in Hb; destruct Hb as (? & ? & ? & Hb)).
    match goal with
    | H : sel FindOptions _ = (Ret ?n, _) |- _ =>
        apply sel_inv in H; rewrite (proj1 shown) in H; injection H as <-
    end.
    match goal with
    | H : Phase1.find_option _ _ ?wx = (Ret ?t, _) |- _ =>
        pose proof (p1_find_option_shown target (seq 0 (List.length texts)) wx)
          as Hfind; rewrite H in Hfind; cbn [fst] in Hfind;
        pose proof (first_match_all
                      (fun t => Phase1.option_matches target (strip t)) texts)
          as Hall; cbv beta in Hall; rewrite Hall, Hnone in Hfind;
        injection Hfind as ->
    end.
    repeat (apply bind_inv in Hb; destruct Hb as (? & ? & ? & Hb)).
    now injection Hb as <- _.
  - pose proof (p1_close_dropdown_false w0) as Hc. rewrite Hr in Hc.
    now injection Hc.
  - discriminate.
Qed.

Lemma p3_select_none target (w : world Phase3.files) :
  first_match (contains target) texts 0 = None ->
  fst (Phase3.select_institution target w) = Ret false.
Proof.
  intros Hnone.
  destruct (p3_select_institution_safe target w) as (b & w' & n & Hr & _).
  rewrite Hr. cbn [fst]. f_equal.
  unfold Phase3.select_institution, try_except in Hr.
  match type of Hr with
  | match ?body w with _ => _ end = _ => destruct (body w) as [[b0|e|] w0] eqn:Hb
  end.
  - injection Hr as <- <-.
    repeat (apply bind_inv in Hb; destruct Hb as (? & ? & ? & Hb)).
    match goal with
    | H : sel FindOptions _ = (Ret ?n, _) |- _ =>
        apply sel_inv in H; rewrite (proj1 shown) in H; injection H as <-
    end.
    match goal with
    | H : Phase3.find_option _ _ ?wx = (Ret ?t, _) |- _ =>
        pose proof (p3_find_option_shown target (seq 0 (List.length texts)) wx)
          as Hfind; rewrite H in Hfind; cbn [fst] in Hfind;
        pose proof (first_match_all (contains target) texts) as Hall;
        rewrite Hall, Hnone in Hfind; injection Hfind as ->
    end.
    repeat (apply bind_inv in Hb; destruct Hb as (? & ? & ? & Hb)).
    now injection Hb as <- _.
  - pose proof (p3_close_dropdown_false w0) as Hc. rewrite Hr in Hc.
    now injection Hc.
  - discriminate.
Qed.

End Listbox.

Lemma unclicked_none n : forallb unclicked n = true -> clicked_options n = [].
Proof.
  induction n as [|e n IH]; [reflexivity|]. cbn [forallb].
  intros H. apply andb_true_iff in H. destruct H as [He Hn].
  change (clicked_options (e :: n)) with (clicked_option e ++ clicked_options n).
  rewrite (IH Hn). destruct e as [[]|]; try reflexivity.
  destruct e; try reflexivity. discriminate.
Qed.

Lemma clicked_options_app a b :
  clicked_options (a ++ b) = clicked_options a ++ clicked_options b.
Proof. unfold clicked_options. apply flat_map_app. Qed.

(** A leaf of the run in which the handler has the last word. *)
Ltac handled close_run :=
  match goal with
  | |- context [?close ?wx] =>
      let w' := fresh "w" in
      let n := fresh "n" in
      let Hr := fresh "Hr" in
      let Tn := fresh "Tn" in
      let Cn := fresh "Cn" in
      destruct (close_run wx) as (w' & n & Hr & Tn & Cn);
      rewrite Hr; exists false, w'; eexists;
      split; [reflexivity|]; split; [trace_chain|];
      rewrite ?clicked_options_app;
      repeat match goal with
             | H : Observe.clicked_options _ = [] |- _ => rewrite H; clear H
             end;
      cbn [Observe.clicked_options Observe.clicked_option flat_map app]
  end.

Ltac refuted :=
  let Ho := fresh "Ho" in
  let Hc := fresh "Hc" in
  intros Ho Hc;
  match goal with
  | B : fst (World.browser _ ?s) = inl _ |- _ =>
      first [ destruct (Ho s) as (? & ? & ?); congruence
            | rewrite Hc in B; discriminate ]
  end.

Lemma p1_find_option_unclicked target idx :
  calm unclicked (Phase1.find_option target idx).
Proof.
  induction idx as [|i idx IH]; cbn [Phase1.find_option]; run_auto.
Qed.

Lemma p1_close_unclicked (w : world Phase1.files) :
  exists w' n,
    Phase1.close_dropdown_quietly w = (Ret false, w')
    /\ trace w' = trace w ++ n /\ clicked_options n = [].
Proof.
  assert (S : safe unclicked Phase1.close_dropdown_quietly)
    by (unfold Phase1.close_dropdown_quietly; run_auto).
  destruct (S w) as (b & w' & n & Hr & T & P).
  pose proof (p1_close_dropdown_false w) as Hb. rewrite Hr in Hb.
  injection Hb as ->. exists w', n. repeat split; trivial.
  now apply unclicked_none.
Qed.

Lemma p1_wait_unclicked (w : world Phase1.files) :
  exists w' n,
    Phase1.wait_for_loading_complete w = (Ret tt, w')
    /\ trace w' = trace w ++ n /\ clicked_options n = [].
Proof.
  assert (S : safe unclicked Phase1.wait_for_loading_complete)
    by (unfold Phase1.wait_for_loading_complete; run_auto).
  destruct (S w) as ([] & w' & n & Hr & T & P).
  exists w', n. repeat split; trivial. now apply unclicked_none.
Qed.

(** The search of the option, on a dropdown that shows [texts]. *)
Lemma p1_find_option_run texts (shown : shows_options E texts) target
    (w : world Phase1.files) :
  exists w' n,
    Phase1.find_option target (seq 0 (List.length texts)) w
    = (Ret (first_match
              (fun t => Phase1.option_matches target (strip t)) texts 0), w')
    /\ trace w' = trace w ++ n /\ clicked_options n = [].
Proof.
  destruct (p1_find_option_unclicked target (seq 0 (List.length texts)) w)
    as (_ & n & T & P).
  pose proof (p1_find_option_shown texts shown target
                (seq 0 (List.length texts)) w) as Hf.
  rewrite (first_match_all
             (fun t => Phase1.option_matches target (strip t)) texts) in Hf.
  destruct (Phase1.find_option target (seq 0 (List.length texts)) w)
    as [o w'] eqn:Er.
  cbn [fst snd] in *. subst o. exists w', n. repeat split; trivial.
  now apply unclicked_none.
Qed.

Lemma p1_select_found texts (shown : shows_options E texts) target i
    (w : world Phase1.files) :
  first_match (fun t => Phase1.option_matches target (strip t)) texts 0
  = Some i ->
  exists b w' new,
    Phase1.select_institution target w = (Ret b, w')
    /\ trace w' = trace w ++ new
    /\ (clicked_options new = [] \/ clicked_options new = [i])
    /\ (b = true -> clicked_options new = [i])
    /\ (opens_dropdown E ->
        (forall s, fst (browser (JsClick (ListOption i)) s) = inr tt) ->
        b = true).
Proof.
  intros Hsome. unfold Phase1.select_institution, try_except.
  step_sel.
  2:{ handled p1_close_unclicked.
      split; [now left|]. split; [discriminate | refuted]. }
  step_sel.
  2:{ handled p1_close_unclicked.
      split; [now left|]. split; [discriminate | refuted]. }
  step_sel.
  2:{ handled p1_close_unclicked.
      split; [now left|]. split; [discriminate | refuted]. }
  run_sleep.
  step_sel.
  2:{ match goal with
      | H : fst (browser FindOptions _) = inl _ |- _ =>
          rewrite (proj1 shown) in H; discriminate
      end. }
  match goal with
  | H : fst (browser FindOptions _) = inr _ |- _ =>
      rewrite (proj1 shown) in H; injection H as <-
  end.
  match goal with
  | |- context [bind (Phase1.find_option _ _) ?k ?wx] =>
      destruct (p1_find_option_run texts shown target wx)
        as (wf & nf & Ef & Tf & Cf);
      rewrite (bind_ret_eq _ k wx _ wf Ef)
  end.
  rewrite Hsome.
  step_sel.
  2:{ handled p1_close_unclicked.
      split; [now right|]. split; [discriminate | refuted]. }
  match goal with
  | |- context [bind Phase1.wait_for_loading_complete ?k ?wx] =>
      destruct (p1_wait_unclicked wx) as (wl & nl & El & Tl & Cl);
      rewrite (bind_ret_eq _ k wx tt wl El)
  end.
  run_sleep.
  exists true. eexists. eexists. split; [reflexivity|].
  split; [trace_chain|].
  rewrite ?clicked_options_app, Cf, Cl.
  cbn [clicked_options clicked_option flat_map app].
  split; [now right|]. split; reflexivity.
Qed.


(** The same for Phase 3. *)
Lemma p3_find_option_unclicked target idx :
  calm unclicked (Phase3.find_option target idx).
Proof.
  induction idx as [|i idx IH]; cbn [Phase3.find_option]; run_auto.
Qed.

Lemma p3_close_unclicked (w : world Phase3.files) :
  exists w' n,
    Phase3.close_dropdown_quietly w = (Ret false, w')
    /\ trace w' = trace w ++ n /\ clicked_options n = [].
Proof.
  assert (S : safe unclicked Phase3.close_dropdown_quietly)
    by (unfold Phase3.close_dropdown_quietly; run_auto).
  destruct (S w) as (b & w' & n & Hr & T & P).
  pose proof (p3_close_dropdown_false w) as Hb. rewrite Hr in Hb.
  injection Hb as ->. exists w', n. repeat split; trivial.
  now apply unclicked_none.
Qed.

Lemma p3_wait_unclicked (w : world Phase3.files) :
  exists w' n,
    Phase3.wait_for_loading_complete w = (Ret tt, w')
    /\ trace w' = trace w ++ n /\ clicked_options n = [].
Proof.
  assert (S : safe unclicked Phase3.wait_for_loading_complete)
    by (unfold Phase3.wait_for_loading_complete; run_auto).
  destruct (S w) as ([] & w' & n & Hr & T & P).
  exists w', n. repeat split; trivial. now apply unclicked_none.
Qed.

Lemma p3_find_option_run texts (shown : shows_options E texts) target
    (w : world Phase3.files) :
  exists w' n,
    Phase3.find_option target (seq 0 (List.length texts)) w
    = (Ret (first_match (contains target) texts 0), w')
    /\ trace w' = trace w ++ n /\ clicked_options n = [].
Proof.
  destruct (p3_find_option_unclicked target (seq 0 (List.length texts)) w)
    as (_ & n & T & P).
  pose proof (p3_find_option_shown texts shown target
                (seq 0 (List.length texts)) w) as Hf.
  rewrite (first_match_all (contains target) texts) in Hf.
  destruct (Phase3.find_option target (seq 0 (List.length texts)) w)
    as [o w'] eqn:Er.
  cbn [fst snd] in *. subst o. exists w', n. repeat split; trivial.
  now apply unclicked_none.
Qed.

Lemma p3_select_found texts (shown : shows_options E texts) target i
    (w : world Phase3.files) :
  first_match (contains target) texts 0 = Some i ->
  exists b w' new,
    Phase3.select_institution target w = (Ret b, w')
    /\ trace w' = trace w ++ new
    /\ (clicked_options new = [] \/ clicked_options new = [i])
    /\ (b = true -> clicked_options new = [i])
    /\ (opens_dropdown E ->
        (forall s, fst (browser (JsClick (ListOption i)) s) = inr tt) ->
        b = true).
Proof.
  intros Hsome. unfold Phase3.select_institution, try_except.
  step_sel.
  2:{ handled p3_close_unclicked.
      split; [now left|]. split; [discriminate | refuted]. }
  step_sel.
  2:{ handled p3_close_unclicked.
      split; [now left|]. split; [discriminate | refuted]. }
  step_sel.
  2:{ handled p3_close_unclicked.
      split; [now left|]. split; [discriminate | refuted]. }
  run_sleep.
  step_sel.
  2:{ match goal with
      | H : fst (browser FindOptions _) = inl _ |- _ =>
          rewrite (proj1 shown) in H; discriminate
      end. }
  match goal with
  | H : fst (browser FindOptions _) = inr _ |- _ =>
      rewrite (proj1 shown) in H; injection H as <-
  end.
  match goal with
  | |- context [bind (Phase3.find_option _ _) ?k ?wx] =>
      destruct (p3_find_option_run texts shown target wx)
        as (wf & nf & Ef & Tf & Cf);
      rewrite (bind_ret_eq _ k wx _ wf Ef)
  end.
  rewrite Hsome.
  step_sel.
  2:{ handled p3_close_unclicked.
      split; [now right|]. split; [discriminate | refuted]. }
  match goal with
  | |- context [bind Phase3.wait_for_loading_complete ?k ?wx] =>
      destruct (p3_wait_unclicked wx) as (wl & nl & El & Tl & Cl);
      rewrite (bind_ret_eq _ k wx tt wl El)
  end.
  run_sleep.
  exists true. eexists. eexists. split; [reflexivity|].
  split; [trace_chain|].
  rewrite ?clicked_options_app, Cf, Cl.
  cbn [clicked_options clicked_option flat_map app].
  split; [now right|]. split; reflexivity.
Qed.

(** Claim C7, amended.  [select_institution] always returns a boolean: it
    does not raise, whatever the portal does (Phases 1 and 3).  It makes one
    pass over the options in display order and stops at the first one whose
    text passes a substring test: in Phase 1 the target is in the stripped
    text or the stripped text is in the target, in Phase 3 the target is in
    the text.  There is no exact-match pass before that.  When no option
    passes the test it returns [False].  When the option [i] is the first
    that passes it, no other option is ever clicked; [True] is returned
    only after the click of the option [i]; and [True] is returned when the
    dropdown opens and that click succeeds. *)
Theorem select_institution_takes_first_substring_match :
  (forall target (w : world Phase1.files),
     exists b w', Phase1.select_institution target w = (Ret b, w'))
  /\ (forall target (w : world Phase3.files),
     exists b w', Phase3.select_institution target w = (Ret b, w'))
  /\ forall texts, shows_options E texts -> forall target,
     (forall w : world Phase1.files,
        fst (Phase1.find_option target (seq 0 (List.length texts)) w)
        = Ret (first_match
                 (fun t => Phase1.option_matches target (strip t)) texts 0))
     /\ (forall w : world Phase3.files,
        fst (Phase3.find_option target (seq 0 (List.length texts)) w)
        = Ret (first_match (contains target) texts 0))
     /\ (first_match (fun t => Phase1.option_matches target (strip t)) texts 0
         = None ->
         forall w : world Phase1.files,
           fst (Phase1.select_institution target w) = Ret false)
     /\ (first_match (contains target) texts 0 = None ->
         forall w : world Phase3.files,
           fst (Phase3.select_institution target w) = Ret false)
     /\ (forall i,
         first_match (fun t => Phase1.option_matches target (strip t)) texts 0
         = Some i ->
         forall w : world Phase1.files,
           exists b w' new,
             Phase1.select_institution target w = (Ret b, w')
             /\ trace w' = trace w ++ new
             /\ (clicked_options new = [] \/ clicked_options new = [i])
             /\ (b = true -> clicked_options new = [i])
             /\ (opens_dropdown E ->
                 (forall s, fst (browser (JsClick (ListOption i)) s) = inr tt) ->
                 b = true))
     /\ (forall i,
         first_match (contains target) texts 0 = Some i ->
         forall w : world Phase3.files,
           exists b w' new,
             Phase3.select_institution target w = (Ret b, w')
             /\ trace w' = trace w ++ new
             /\ (clicked_options new = [] \/ clicked_options new = [i])
             /\ (b = true -> clicked_options new = [i])
             /\ (opens_dropdown E ->
                 (forall s, fst (browser (JsClick (ListOption i)) s) = inr tt) ->
                 b = true)).
Proof.
  split; [|split].
  - intros target w.
    destruct (select_institution_safe target w) as (b & w' & n & Hr & _).
    now exists b, w'.
  - intros target w.
    destruct (p3_select_institution_safe target w) as (b & w' & n & Hr & _).
    now exists b, w'.
  - intros texts Hshown target.
    split; [|split; [|split; [|split; [|split]]]].
    + intros w. rewrite (p1_find_option_shown texts Hshown).
      f_equal.
      exact (first_match_all
               (fun t => Phase1.option_matches target (strip t)) texts).
    + intros w. rewrite (p3_find_option_shown texts Hshown).
      f_equal. exact (first_match_all (contains target) texts).
    + intros Hnone w. now apply (p1_select_none texts Hshown).
    + intros Hnone w. now apply (p3_select_none texts Hshown).
    + intros i Hsome w. now apply (p1_select_found texts Hshown).
    + intros i Hsome w. now apply (p3_select_found texts Hshown).
Qed.

End SelectFacts.

(* ================================================================== *)
(** * The cool-down pauses of the enrichment phases                     *)
(* ================================================================== *)

Section PauseFacts.
Import PyStr Text Py World Observe.
Local Open Scope Z_scope.

Lemma due_pauses_in total : forall xs k j,
  In j (due_pauses total (enumerate xs k)) <->
  exists n item,
    nth_error xs n = Some item /\ j = k + Z.of_nat n + 1
    /\ no_valid_url (get_or_empty (lit "Manage_URL") item) = false
    /\ j mod Phase2.BATCH_SIZE = 0 /\ j < total.
Proof.
  induction xs as [|x xs IH]; intros k j.
  - cbn. split; [tauto|]. intros (n & item & Hn & _). now destruct n.
  - unfold due_pauses. cbn [enumerate flat_map fst snd].
    fold (due_pauses total (enumerate xs (k + 1))).
    rewrite in_app_iff, IH. split.
    + intros [Hhere | (n & item & Hn & Hj & Hrest)].
      * destruct (no_valid_url _) eqn:Hu; [contradiction|].
        destruct ((k + 1) mod Phase2.BATCH_SIZE =? 0) eqn:Hm; cbn in Hhere;
          [|contradiction].
        destruct (k + 1 <? total) eqn:Hl; cbn in Hhere; [|contradiction].
        destruct Hhere as [<-|[]]. exists 0%nat, x.
        repeat split; trivial; lia.
      * exists (S n), item. repeat split; try tauto. lia.
    + intros (n & item & Hn & Hj & Hu & Hm & Hl). destruct n as [|n].
      * left. cbn in Hn. injection Hn as ->. rewrite Hu.
        replace (k + 1) with j by lia.
        apply Z.eqb_eq in Hm. rewrite Hm.
        apply Z.ltb_lt in Hl. rewrite Hl. now left.
      * right. exists n, item. repeat split; trivial. lia.
Qed.

Context {E : Env}.

(** Where the enrichment loops pause.  In the loops of Phases 2 and 6
    (Phase 4 repeats Phase 2), [time.sleep(BATCH_PAUSE)] is called exactly
    after the items of [due_pauses]: over the whole list of [n] items,
    after the item of 1-based position [j] if and only if [j] is a
    positive multiple of [BATCH_SIZE], [j < n], and the item has a usable
    detail reference: an item without one is skipped by [continue] before
    the pause.  The loop of Phase 6 pauses so over the items it gets to. *)
Lemma pauses_of_the_enrichment_loops :
  (forall total items processed errors (w : world Phase2.files),
     exists r w' new,
       Phase2.experts_loop total items processed errors w = (Ret r, w')
       /\ trace w' = trace w ++ new
       /\ forall last, pauses_from last new = due_pauses total items)
  /\ (forall total items processed errors (w : world Phase6.files),
     exists r w' new,
       Phase6.orgs_loop total items processed errors w = (Ret r, w')
       /\ trace w' = trace w ++ new
       /\ forall last,
            pauses_from last new = due_pauses total (Watch.reached items))
  /\ (forall master j,
     In j (due_pauses (len master) (loop_items master 0)) <->
     (0 < j < len master /\ j mod Phase2.BATCH_SIZE = 0
      /\ exists item,
           nth_error master (Z.to_nat (j - 1)) = Some item
           /\ no_valid_url (get_or_empty (lit "Manage_URL") item) = false)).
Proof.
  split; [|split].
  - intros total items pd errs w.
    destruct (experts_loop_spec items total pd errs w)
      as (r & w' & new & Er & Tr & _ & Hp).
    now exists r, w', new.
  - intros total items pd errs w.
    destruct (orgs_loop_spec items total pd errs w)
      as (pd' & errs' & w' & new & Er & Tr & _ & Hp).
    now exists (pd', errs', Watch.ending items), w', new.
  - intros master j. unfold loop_items.
    rewrite slice_from_nonneg by lia. cbn [Z.to_nat skipn].
    rewrite due_pauses_in. split.
    + intros (n & item & Hn & Hj & Hu & Hm & Hl).
      repeat split; try lia; trivial.
      exists item. split; [|exact Hu].
      rewrite <- Hn. f_equal. lia.
    + intros ((Hpos & Hl) & Hm & item & Hn & Hu).
      exists (Z.to_nat (j - 1)), item. repeat split; trivial. lia.
Qed.

End PauseFacts.

(* ================================================================== *)
(** * Runs on the simulated portal                                      *)
(* ================================================================== *)

Section Runs.
Import PyStr Text Py World Observe.
Local Open Scope Z_scope.
Local Existing Instance Sim.portal_env.

(** Claim C3 on the grid of 163 rows: on the second page the pager reads
    (101, 163, 163); the next-page button is there, disabled; the page loop
    scrapes the page and returns without a call on that button. *)
Lemma pagination_stops_on_second_page :
  fst (Sim.react (AriaDisabled NextBtn) (ext Sim.second_page))
  = inr (Some (lit "true"))
  /\ fst (Phase1.pages_loop 1 Sim.algoma [] 2 Sim.second_page) = Ret ([], 2)
  /\ forallb spares_next
       (trace (snd (Phase1.pages_loop 1 Sim.algoma [] 2 Sim.second_page)))
     = true.
Proof.
  destruct (@pagination_stops_at_last_window Sim.portal_env) as (_ & _ & H).
  destruct (H 0%nat Sim.algoma [] 2 Sim.second_page)
    as (page & w0 & w1 & E0 & E1 & Hstop).
  vm_compute in E0. injection E0 as <- <-.
  vm_compute in E1. injection E1 as <-.
  edestruct (Hstop 101 163 163) as (Hloop & new & Tr & Hq);
    [vm_compute; reflexivity | lia |].
  split; [reflexivity|]. rewrite Hloop. split; [reflexivity|].
  cbn [snd]. rewrite Tr. exact Hq.
Defined.

(** Claim C4, counterexample: on a grid that always announces more rows
    and always offers a next page, the page loop of Phase 5 scrapes 500
    pages, more than 200; the one of Phase 1 stops after 50. *)
Lemma phase5_scrapes_500_pages :
  pages_scraped (trace (snd (Phase5.pages_loop 500 [] [] 1 0 Sim.endless_grid5)))
  = 500%nat
  /\ pages_scraped
       (trace (snd (Phase1.scrape_all_pages_for_institution 50 Sim.algoma
                      Sim.endless_grid1)))
     = 50%nat.
Proof. split; vm_compute; reflexivity. Qed.

(** Claim C5, counterexample: the grid of 163 rows whose first-page button
    never becomes clickable.  Phase 1 scrapes the two pages of the first
    institution and goes on; when the iteration of the first institution is
    over, which is when the second one is selected, the pager still reads
    the window (101, 163, 163): its start is not 1. *)
Lemma reset_failure_leaves_second_window :
  pages_scraped
    (trace (snd (Phase1.scrape_all_pages_for_institution 50 Sim.algoma
                   Sim.stuck_grid)))
  = 2%nat
  /\ fst (Phase1.institutions_loop 50 [Sim.algoma; Sim.brock]
            [(0, Sim.algoma)] [] Sim.stuck_grid)
     = Ret []
  /\ fst (Phase1.parse_pagination_info
            (snd (Phase1.institutions_loop 50 [Sim.algoma; Sim.brock]
                    [(0, Sim.algoma)] [] Sim.stuck_grid)))
     = Ret (101, 163, 163).
Proof. repeat split; vm_compute; reflexivity. Qed.

(** Claim C5 where the first-page button works: after the two pages of the
    first institution the reset is called, and the pager reads the window
    (1, 100, 163) when the second institution is selected. *)
Lemma reset_after_two_pages :
  (exists w1 before ok,
     trace w1 = before
     /\ pages_scraped before = 2%nat
     /\ Phase1.reset_to_first_page w1
        = (Ret ok,
           snd (Phase1.scrape_all_pages_for_institution 50 Sim.algoma
                  Sim.working_grid)))
  /\ fst (Phase1.parse_pagination_info
            (snd (Phase1.institutions_loop 50 [Sim.algoma; Sim.brock]
                    [(0, Sim.algoma)] [] Sim.working_grid)))
     = Ret (1, 100, 163).
Proof.
  split; [|vm_compute; reflexivity].
  destruct (@reset_attempted_after_several_pages Sim.portal_env 0) as (H & _).
  destruct (H Sim.algoma Sim.working_grid)
    as (recs & w' & new & Er & Tr & Hreset).
  change (50 + 0)%nat with 50%nat in Er. rewrite Er. cbn [snd].
  assert (Hnew : new = trace w').
  { rewrite Tr. reflexivity. }
  assert (Hpages : pages_scraped new = 2%nat).
  { rewrite Hnew. change w' with (snd (Ret recs, w')). rewrite <- Er.
    vm_compute. reflexivity. }
  destruct Hreset as (w1 & before & ok & Tb & Pb & Hr).
  { rewrite Hpages. lia. }
  exists w1, before, ok. split; [exact Tb|]. split; [|exact Hr].
  rewrite Pb. exact Hpages.
Defined.

(** Claim C7, counterexample: a dropdown that lists an option equal to the
    target after an option that is part of the target (Phase 1) or that the
    target is part of (Phase 3).  [select_institution] returns [True] having
    clicked the first option, not the equal one. *)
Lemma select_prefers_first_substring_to_exact :
  exact_match Sim.york Sim.york_options = Some 1%nat
  /\ fst (Phase1.select_institution Sim.york Sim.york_first) = Ret true
  /\ clicked_options
       (trace (snd (Phase1.select_institution Sim.york Sim.york_first)))
     = [0%nat]
  /\ exact_match Sim.york Sim.glendon_options = Some 1%nat
  /\ fst (Phase3.select_institution Sim.york Sim.glendon_first) = Ret true
  /\ clicked_options
       (trace (snd (Phase3.select_institution Sim.york Sim.glendon_first)))
     = [0%nat].
Proof. repeat split; vm_compute; reflexivity. Qed.

(** Claim C7 on a dropdown of three options: the search for "Brock
    University" stops at the option 2, its selection clicks the option 2
    and returns [True], and the selection of "Trent University", which no
    option matches, returns [False]. *)
Lemma select_on_three_options :
  shows_options (Sim.listbox_env Sim.ontario) Sim.ontario
  /\ fst (Phase1.find_option Sim.brock (seq 0 3)
            (Sim.listbox_start Sim.ontario (Sim.p1_files Absent)))
     = Ret (Some 2%nat)
  /\ fst (Phase3.find_option Sim.brock (seq 0 3)
            (Sim.listbox_start Sim.ontario (Sim.p3_files Absent)))
     = Ret (Some 2%nat)
  /\ fst (Phase1.select_institution (lit "Trent University")
            (Sim.listbox_start Sim.ontario (Sim.p1_files Absent)))
     = Ret false
  /\ fst (Phase3.select_institution (lit "Trent University")
            (Sim.listbox_start Sim.ontario (Sim.p3_files Absent)))
     = Ret false
  /\ (exists w' new,
        Phase1.select_institution Sim.brock
          (Sim.listbox_start Sim.ontario (Sim.p1_files Absent))
        = (Ret true, w')
        /\ trace w' = new /\ clicked_options new = [2%nat])
  /\ (exists w' new,
        Phase3.select_institution Sim.brock
          (Sim.listbox_start Sim.ontario (Sim.p3_files Absent))
        = (Ret true, w')
        /\ trace w' = new /\ clicked_options new = [2%nat]).
Proof.
  assert (Hshown : shows_options (Sim.listbox_env Sim.ontario) Sim.ontario).
  { split; intros; reflexivity. }
  assert (Hopens : opens_dropdown (Sim.listbox_env Sim.ontario)).
  { intros s. repeat split. }
  destruct (@select_institution_takes_first_substring_match
              (Sim.listbox_env Sim.ontario)) as (_ & _ & H).
  split; [exact Hshown|].
  destruct (H Sim.ontario Hshown Sim.brock) as (H1 & H3 & _ & _ & S1 & S3).
  destruct (H Sim.ontario Hshown (lit "Trent University"))
    as (_ & _ & N1 & N3 & _).
  split; [|split; [|split; [|split; [|split]]]].
  - etransitivity;
      [exact (H1 (Sim.listbox_start Sim.ontario (Sim.p1_files Absent)))
      | reflexivity].
  - etransitivity;
      [exact (H3 (Sim.listbox_start Sim.ontario (Sim.p3_files Absent)))
      | reflexivity].
  - apply N1. reflexivity.
  - apply N3. reflexivity.
  - destruct (S1 2%nat eq_refl
                (Sim.listbox_start Sim.ontario (Sim.p1_files Absent)))
      as (b & w' & new & Er & Tr & _ & Hc & Ht).
    assert (Hb : b = true) by (apply Ht; [exact Hopens | reflexivity]).
    subst b. exists w', new. split; [exact Er|]. split; [exact Tr|].
    now apply Hc.
  - destruct (S3 2%nat eq_refl
                (Sim.listbox_start Sim.ontario (Sim.p3_files Absent)))
      as (b & w' & new & Er & Tr & _ & Hc & Ht).
    assert (Hb : b = true) by (apply Ht; [exact Hopens | reflexivity]).
    subst b. exists w', new. split; [exact Er|]. split; [exact Tr|].
    now apply Hc.
Defined.

(** Claim C9, at an input where the code departs from it.  The source
    announces the pause with the comment "pause every BATCH_SIZE experts".
    On 120 items that all have a usable reference, the loops of Phases 2
    and 6 pause twice, after the items 50 and 100.  On 120 items of which
    the 50th has no usable reference, they pause once, after the item 100:
    the [continue] of the item without reference comes before the pause.
    A whole run of [main] on that input does the same. *)
Theorem pause_skipped_after_item_without_link :
  len Sim.master_without_gap = 120
  /\ pauses_from 0
       (trace (snd (Phase2.experts_loop 120
                      (loop_items Sim.master_without_gap 0) [] []
                      (Sim.start (Sim.portal_with [] [] [])
                         (Sim.p2_files Sim.master_without_gap)))))
     = [50; 100]
  /\ pauses_from 0
       (trace (snd (Phase6.orgs_loop 120
                      (loop_items Sim.master_without_gap 0) [] []
                      (Sim.start (Sim.portal_with [] [] [])
                         (Sim.p6_files Sim.master_without_gap)))))
     = [50; 100]
  /\ nth_error Sim.master_with_gap 49 = Some Sim.expert_without_link
  /\ len Sim.master_with_gap = 120
  /\ pauses_from 0
       (trace (snd (Phase2.experts_loop 120
                      (loop_items Sim.master_with_gap 0) [] []
                      (Sim.start (Sim.portal_with [] [] [])
                         (Sim.p2_files Sim.master_with_gap)))))
     = [100]
  /\ pauses_from 0
       (trace (snd (Phase6.orgs_loop 120
                      (loop_items Sim.master_with_gap 0) [] []
                      (Sim.start (Sim.portal_with [] [] [])
                         (Sim.p6_files Sim.master_with_gap)))))
     = [100]
  /\ fst (Phase2.main (Sim.start (Sim.portal_with [] [] [])
                         (Sim.p2_files Sim.master_with_gap)))
     = Ret tt
  /\ pauses_from 0
       (trace (snd (Phase2.main
                      (Sim.start (Sim.portal_with [] [] [])
                         (Sim.p2_files Sim.master_with_gap)))))
     = [100]
  /\ fst (Phase6.main (Sim.start (Sim.portal_with [] [] [])
                         (Sim.p6_files Sim.master_with_gap)))
     = Ret tt
  /\ pauses_from 0
       (trace (snd (Phase6.main
                      (Sim.start (Sim.portal_with [] [] [])
                         (Sim.p6_files Sim.master_with_gap)))))
     = [100].
Proof. repeat split; vm_compute; reflexivity. Qed.

(** Claim C8: the guard of the cleanup of Phase 2 (Phase 4 has the same
    lines) does not look at the number of items processed, the one of
    Phase 6 does.  A run of Phase 2 over two experts that was interrupted
    during the first one left a checkpoint with [current_index = 1] and no
    profile; the resumed run processes the second expert only, writes one
    profile out of two, has no error, and deletes the checkpoint.  Phase 6
    keeps its checkpoint on the same input. *)
Theorem phase2_cleanup_ignores_item_count :
  (forall (E : Env) errors (w : @world E Phase2.files),
     Phase2.CHECKPOINT_FILE
       (files (snd (Phase2.cleanup_checkpoint (E:=E) errors w)))
     = if Phase2.file_exists (Phase2.CHECKPOINT_FILE (files w))
          && (len errors =? 0)
       then Absent else Phase2.CHECKPOINT_FILE (files w))
  /\ (forall (E : Env) processed_data errors total
        (w : @world E Phase6.files),
     Phase6.CHECKPOINT_FILE
       (files (snd (Phase6.cleanup_checkpoint (E:=E) processed_data errors
                      total w)))
     = if Phase2.file_exists (Phase6.CHECKPOINT_FILE (files w))
          && (len errors =? 0) && (len processed_data =? total)
       then Absent else Phase6.CHECKPOINT_FILE (files w))
  /\ Phase2.INPUT_FILE (files Sim.p2_resumed) = Doc Sim.two_experts
  /\ option_map Phase2.current_index
       (match Phase2.CHECKPOINT_FILE (files Sim.p2_resumed) with
        | Doc cp => Some cp
        | _ => None
        end) = Some 1
  /\ fst (Phase2.main Sim.p2_resumed) = Ret tt
  /\ headers (trace (snd (Phase2.main Sim.p2_resumed)))
     = [(2, PyStr (lit "Cy"))]
  /\ (exists profile,
        Phase2.OUTPUT_FILE (files (snd (Phase2.main Sim.p2_resumed)))
        = Doc [profile])
  /\ Phase2.CHECKPOINT_FILE (files (snd (Phase2.main Sim.p2_resumed)))
     = Absent
  /\ (exists profile,
        Phase6.OUTPUT_FILE (files (snd (Phase6.main Sim.p6_resumed)))
        = Doc [profile])
  /\ Phase2.file_exists
       (Phase6.CHECKPOINT_FILE (files (snd (Phase6.main Sim.p6_resumed))))
     = true.
Proof.
  split; [|split].
  - intros E0 errors w. unfold Phase2.cleanup_checkpoint, bind, read_files.
    cbn [fst snd]. destruct (_ && _); reflexivity.
  - intros E0 pd errors total w.
    unfold Phase6.cleanup_checkpoint, bind, read_files.
    cbn [fst snd]. destruct (_ && _ && _); reflexivity.
  - repeat split; try (vm_compute; reflexivity);
      eexists; vm_compute; reflexivity.
Qed.

(** Claim C2: the checkpoint of Phase 1 holds the number of institutions,
    not their names, so two lists of the same length leave the same
    checkpoint, and the resumed run enumerates the dropdown again.  A
    harvest of [Algoma; Brock; Carleton] stopped after two institutions;
    the dropdown then gained a first option.  The resumed run of Phase 1
    harvests Brock again, then Carleton, and never the new option; the
    resumed run of Phase 3 (v2.0), whose checkpoint holds the names,
    harvests Carleton as the third of three. *)
Theorem phase1_checkpoint_omits_scope_list :
  (forall (E : Env) data k names names' (w : @world E Phase1.files),
     len names = len names' ->
     Phase1.save_checkpoint (E:=E) data k names w
     = Phase1.save_checkpoint (E:=E) data k names' w)
  /\ Sim.p1_stopped = Sim.p1_files (Doc (Sim.p1_checkpoint_at 2 3))
  /\ fst (Phase1.main 50 Sim.p1_resumed) = Ret tt
  /\ headers (trace (snd (Phase1.main 50 Sim.p1_resumed)))
     = [(3, PyStr Sim.brock); (4, PyStr Sim.carleton)]
  /\ option_map Phase3.institution_names
       (match Phase3.CHECKPOINT_FILE Sim.p3_stopped with
        | Doc cp => Some cp
        | _ => None
        end) = Some Sim.names_then
  /\ fst (Phase3.main 200 Sim.p3_resumed) = Ret tt
  /\ headers (trace (snd (Phase3.main 200 Sim.p3_resumed)))
     = [(3, PyStr Sim.carleton)].
Proof.
  split.
  - intros E0 data k names names' w Hlen.
    unfold Phase1.save_checkpoint. rewrite Hlen. reflexivity.
  - repeat split; vm_compute; reflexivity.
Qed.

End Runs.

(* ================================================================== *)
(** * The label of the pager and the shape of cleaned text              *)
(* ================================================================== *)

Section LabelFacts.
Import PyStr Text.
Local Open Scope N_scope.

Lemma tidy_spaces r : forall b,
  tidy b r = true -> Forall (fun c => is_space c = true -> c = SPACE) r.
Proof.
  induction r as [|c t IH]; intros b H; [constructor|].
  simpl in H. destruct (is_space c) eqn:Hc.
  - rewrite !andb_true_iff in H. destruct H as [[[H1 _] _] Ht].
    constructor; [intros _; now apply N.eqb_eq | exact (IH _ Ht)].
  - constructor; [congruence | exact (IH _ H)].
Qed.

Lemma tidy_ends r : forall b, tidy b r = true -> ends_nonspace r = true.
Proof.
  induction r as [|c t IH]; intros b H; [reflexivity|].
  simpl in *. destruct (is_space c) eqn:Hc.
  - rewrite !andb_true_iff in H. destruct H as [[[_ _] Hne] Ht].
    destruct t; [discriminate | exact (IH _ Ht)].
  - destruct t; [reflexivity | exact (IH _ H)].
Qed.

Lemma ends_nonspace_last r :
  r <> [] -> ends_nonspace r = true -> is_space (last r 0) = false.
Proof.
  induction r as [|c t IH]; intros Hne H; [congruence|].
  destruct t as [|d t'].
  - simpl in *. now destruct (is_space c).
  - change (last (c :: d :: t') 0) with (last (d :: t') 0).
    apply IH; [discriminate | exact H].
Qed.

Lemma tidy_apart r : forall b i,
  tidy b r = true ->
  is_space (nth i r 0) = true -> is_space (nth (S i) r 0) = false.
Proof.
  induction r as [|c t IH]; intros b i H Hi.
  - now destruct i.
  - simpl in H. destruct i as [|i].
    + cbn [nth] in *. rewrite Hi in H.
      rewrite !andb_true_iff in H. destruct H as [_ Ht].
      destruct t as [|d t']; [reflexivity|]. cbn [nth]. simpl in Ht.
      destruct (is_space d); [|reflexivity].
      rewrite andb_false_r in Ht. discriminate.
    + cbn [nth] in Hi. change (nth (S (S i)) (c :: t) 0) with (nth (S i) t 0).
      destruct (is_space c).
      * rewrite !andb_true_iff in H. destruct H as [_ Ht].
        exact (IH _ _ Ht Hi).
      * exact (IH _ _ H Hi).
Qed.

(** The text [clean_text] returns, for every argument: each whitespace
    character in it is a plain space (no tab, line break or non-breaking
    space is left), it neither starts nor ends with one, and no two follow
    each other.  The strings of that shape are the strings [clean_text]
    returns unchanged. *)
Theorem clean_text_normal_form :
  (forall t, Forall (fun c => is_space c = true -> c = SPACE) (clean_text t))
  /\ (forall t, is_space (hd 0 (clean_text t)) = false)
  /\ (forall t, is_space (last (clean_text t) 0) = false)
  /\ (forall t i, is_space (nth i (clean_text t) 0) = true ->
                  is_space (nth (S i) (clean_text t) 0) = false)
  /\ (forall s, clean_text (PyStr s) = s <-> tidy false s = true).
Proof.
  split; [|split; [|split; [|split]]].
  - intros t. exact (tidy_spaces _ _ (clean_text_tidy t)).
  - intros t. pose proof (clean_text_tidy t) as H.
    destruct (clean_text t) as [|c r]; [reflexivity|]. simpl in *.
    destruct (is_space c); [|reflexivity].
    rewrite andb_false_r in H. discriminate.
  - intros t. destruct (clean_text t) as [|c r] eqn:Ec; [reflexivity|].
    apply ends_nonspace_last; [discriminate|].
    rewrite <- Ec. exact (tidy_ends _ _ (clean_text_tidy t)).
  - intros t i. exact (tidy_apart _ _ i (clean_text_tidy t)).
  - intros s. split.
    + intros Hs. rewrite <- Hs. apply clean_text_tidy.
    + apply clean_text_of_tidy.
Qed.

(** The first character, if any, does not satisfy [f]. *)
Definition stops (f : codepoint -> bool) (b : str) : Prop :=
  match b with
  | [] => True
  | c :: _ => f c = false
  end.

Lemma span_app f a b :
  forallb f a = true -> stops f b -> span f (a ++ b) = (a, b).
Proof.
  induction a as [|c a IH]; intros Ha Hb.
  - destruct b as [|d b]; [reflexivity|]. simpl in *. now rewrite Hb.
  - simpl in *. apply andb_true_iff in Ha. destruct Ha as [Hc Ha].
    now rewrite Hc, IH.
Qed.

Lemma span_inv f s : forall a b,
  span f s = (a, b) -> s = a ++ b /\ forallb f a = true /\ stops f b.
Proof.
  induction s as [|c s IH]; intros a b H; simpl in H.
  - injection H as <- <-. repeat split.
  - destruct (f c) eqn:Hc.
    + destruct (span f s) as [a' b'] eqn:Hs. injection H as <- <-.
      destruct (IH a' b' eq_refl) as (-> & Ha & Hb).
      repeat split; trivial. simpl. now rewrite Hc.
    + injection H as <- <-. repeat split. exact Hc.
Qed.

Lemma lstrip_app w b :
  forallb is_space w = true -> stops is_space b -> lstrip (w ++ b) = b.
Proof.
  induction w as [|c w IH]; intros Hw Hb.
  - destruct b as [|d b]; [reflexivity|]. simpl in *. now rewrite Hb.
  - simpl in *. apply andb_true_iff in Hw. destruct Hw as [Hc Hw].
    now rewrite Hc, IH.
Qed.

Lemma lstrip_inv s :
  exists w, s = w ++ lstrip s /\ forallb is_space w = true
            /\ stops is_space (lstrip s).
Proof.
  induction s as [|c s IH].
  - exists []. repeat split.
  - simpl. destruct (is_space c) eqn:Hc.
    + destruct IH as (w & Hs & Hw & Hstop). exists (c :: w).
      repeat split; trivial; simpl; [now f_equal | now rewrite Hc].
    + exists []. repeat split. exact Hc.
Qed.

Lemma expect_app p r : expect p (p ++ r) = Some r.
Proof.
  induction p as [|c p IH]; [now destruct r|]. simpl.
  now rewrite N.eqb_refl.
Qed.

Lemma expect_inv p : forall a r, expect p a = Some r -> a = p ++ r.
Proof.
  induction p as [|c p IH]; intros a r H.
  - destruct a; now injection H as <-.
  - destruct a as [|d a]; [discriminate|]. simpl in H.
    destruct (c =? d) eqn:Hcd; [|discriminate].
    apply N.eqb_eq in Hcd. subst d. simpl. f_equal. now apply IH.
Qed.

(** The whitespace characters, one by one. *)
Definition spaces : list codepoint :=
  [9; 10; 11; 12; 13; 28; 29; 30; 31; 32; 133; 160; 5760; 8192; 8193; 8194;
   8195; 8196; 8197; 8198; 8199; 8200; 8201; 8202; 8232; 8233; 8239; 8287;
   12288].

Lemma space_listed c : is_space c = true -> In c spaces.
Proof.
  unfold is_space. intros H.
  repeat (apply orb_true_iff in H; destruct H as [H|H]).
  all: try (apply N.eqb_eq in H; subst c; cbn; tauto).
  all: apply andb_true_iff in H; destruct H as [H1 H2];
    apply N.leb_le in H1, H2.
  - assert (D : c = 9 \/ c = 10 \/ c = 11 \/ c = 12 \/ c = 13) by lia.
    repeat (destruct D as [->|D]); try subst c; cbn; tauto.
  - assert (D : c = 28 \/ c = 29 \/ c = 30 \/ c = 31 \/ c = 32) by lia.
    repeat (destruct D as [->|D]); try subst c; cbn; tauto.
  - assert (D : c = 8192 \/ c = 8193 \/ c = 8194 \/ c = 8195 \/ c = 8196
                \/ c = 8197 \/ c = 8198 \/ c = 8199 \/ c = 8200
                \/ c = 8201 \/ c = 8202) by lia.
    repeat (destruct D as [->|D]); try subst c; cbn; tauto.
Qed.

Lemma spaces_not_digits : Forall (fun c => is_digit c = false) spaces.
Proof. repeat constructor. Qed.

(** No decimal digit is a whitespace character. *)
Lemma space_not_digit c : is_space c = true -> is_digit c = false.
Proof.
  intros H. apply space_listed in H.
  exact (proj1 (Forall_forall _ _) spaces_not_digits c H).
Qed.

Lemma digit_not_space c : is_digit c = true -> is_space c = false.
Proof.
  intros H. destruct (is_space c) eqn:Hs; [|reflexivity].
  rewrite (space_not_digit c Hs) in H. discriminate.
Qed.

(** [int] within its limit reads a numeral digit by digit, the last digit
    being the units. *)
Lemma int_of_digits_short ds :
  (List.length ds <= INT_MAX_STR_DIGITS)%nat ->
  exists n, int_of_digits ds = Some n.
Proof.
  intros H. unfold int_of_digits.
  destruct (Nat.ltb_spec INT_MAX_STR_DIGITS (List.length ds)) as [Hl|Hl];
    [|eexists; reflexivity].
  exfalso. exact (proj1 (Nat.lt_nge _ _) Hl H).
Qed.

Lemma int_of_digits_long ds :
  (INT_MAX_STR_DIGITS < List.length ds)%nat -> int_of_digits ds = None.
Proof.
  intros H. unfold int_of_digits.
  destruct (Nat.ltb_spec INT_MAX_STR_DIGITS (List.length ds)) as [Hl|Hl];
    [reflexivity|].
  exfalso. exact (proj1 (Nat.lt_nge _ _) H Hl).
Qed.

Lemma int_of_digits_snoc ds d v n :
  digit_value d = Some v ->
  int_of_digits (ds ++ [d]) = Some n ->
  exists m, int_of_digits ds = Some m /\ n = 10 * m + v.
Proof.
  unfold int_of_digits. intros Hd.
  destruct (Nat.ltb_spec INT_MAX_STR_DIGITS (List.length (ds ++ [d])))
    as [Hl|Hl]; [discriminate|].
  intros [= <-]. rewrite length_app in Hl. cbn [List.length] in Hl.
  destruct (Nat.ltb_spec INT_MAX_STR_DIGITS (List.length ds)) as [Hs|Hs].
  - exfalso. apply (proj1 (Nat.lt_nge _ _) Hs).
    apply Nat.le_trans with (2 := Hl). rewrite Nat.add_1_r.
    apply Nat.le_succ_diag_r.
  - eexists. split; [reflexivity|].
    rewrite fold_left_app. cbn [fold_left]. now rewrite Hd.
Qed.

Lemma stops_digits_then g rest (f : codepoint -> bool) :
  g <> [] -> forallb is_digit g = true ->
  (forall c, is_digit c = true -> f c = false) -> stops f (g ++ rest).
Proof.
  intros Hne Hg Hf. destruct g as [|c g]; [congruence|]. simpl in *.
  apply andb_true_iff in Hg. now apply Hf.
Qed.

Lemma stops_blanks_then w rest :
  w <> [] -> forallb is_space w = true -> stops is_digit (w ++ rest).
Proof.
  intros Hne Hw. destruct w as [|c w]; [congruence|]. simpl in *.
  apply andb_true_iff in Hw. now apply space_not_digit.
Qed.

(** The scan of the pager label is the regular expression of
    [parse_pagination_info]: it yields the groups [(g1, g2, g3)] exactly on
    the strings that are [g1], optional blanks, a dash, optional blanks,
    [g2], blanks, [of], blanks, [g3], blanks, [item] and anything after it,
    the groups being non-empty runs of decimal digits (of any script).
    On those, when no group has more than 4300 digits,
    [parse_pager_text] gives the three numbers that [int] reads, and
    [(0, 0, 0)] when one has; on every other label, [(0, 0, 0)].  [int]
    reads a numeral in base ten, the last digit being the units, and the
    ASCII digits with their usual values. *)
Theorem pager_label_matches :
  forall s g1 g2 g3,
    (match_pager s = Some (g1, g2, g3) <->
     exists w1 w2 w3 w4 w5 tail,
       s = g1 ++ w1 ++ lit "-" ++ w2 ++ g2 ++ w3 ++ lit "of" ++ w4 ++ g3
              ++ w5 ++ lit "item" ++ tail
       /\ (g1 <> [] /\ forallb is_digit g1 = true)
       /\ (g2 <> [] /\ forallb is_digit g2 = true)
       /\ (g3 <> [] /\ forallb is_digit g3 = true)
       /\ forallb is_space w1 = true /\ forallb is_space w2 = true
       /\ (w3 <> [] /\ forallb is_space w3 = true)
       /\ (w4 <> [] /\ forallb is_space w4 = true)
       /\ (w5 <> [] /\ forallb is_space w5 = true))
    /\ (match_pager s = Some (g1, g2, g3) ->
        (List.length g1 <= 4300 /\ List.length g2 <= 4300
         /\ List.length g3 <= 4300)%nat ->
        exists a b c,
          int_of_digits g1 = Some a /\ int_of_digits g2 = Some b
          /\ int_of_digits g3 = Some c
          /\ Phase1.parse_pager_text s = (Z.of_N a, Z.of_N b, Z.of_N c))
    /\ (match_pager s = Some (g1, g2, g3) ->
        (4300 < List.length g1 \/ 4300 < List.length g2
         \/ 4300 < List.length g3)%nat ->
        Phase1.parse_pager_text s = (0, 0, 0)%Z)
    /\ (match_pager s = None -> Phase1.parse_pager_text s = (0, 0, 0)%Z)
    /\ (forall ds d v n,
          digit_value d = Some v ->
          int_of_digits (ds ++ [d]) = Some n ->
          exists m, int_of_digits ds = Some m /\ n = 10 * m + v)
    /\ int_of_digits [] = Some 0
    /\ map digit_value (lit "0123456789")
       = map Some [0; 1; 2; 3; 4; 5; 6; 7; 8; 9].
Proof.
  intros s g1 g2 g3. split; [|split; [|split; [|split; [|split; [|split]]]]].
  2:{ intros H (L1 & L2 & L3). unfold Phase1.parse_pager_text. rewrite H.
      destruct (int_of_digits_short g1 L1) as (a & ->).
      destruct (int_of_digits_short g2 L2) as (b & ->).
      destruct (int_of_digits_short g3 L3) as (c & ->).
      now exists a, b, c. }
  2:{ intros H L. unfold Phase1.parse_pager_text. rewrite H.
      destruct L as [L|[L|L]]; rewrite (int_of_digits_long _ L).
      - reflexivity.
      - now destruct (int_of_digits g1).
      - now destruct (int_of_digits g1), (int_of_digits g2). }
  2:{ intros H. unfold Phase1.parse_pager_text. now rewrite H. }
  2:{ exact int_of_digits_snoc. }
  2:{ reflexivity. }
  2:{ reflexivity. }
  split.
  - unfold match_pager.
    destruct (span is_digit s) as [a1 r1] eqn:S1.
    destruct a1 as [|d1 a1]; [discriminate|].
    destruct (expect (lit "-") (lstrip r1)) as [r2|] eqn:X1; [|discriminate].
    destruct (span is_digit (lstrip r2)) as [a2 r3] eqn:S2.
    destruct a2 as [|d2 a2]; [discriminate|].
    destruct (span is_space r3) as [b3 r4] eqn:S3.
    destruct b3 as [|e3 b3]; [discriminate|].
    destruct (expect (lit "of") r4) as [r5|] eqn:X2; [|discriminate].
    destruct (span is_space r5) as [b4 r6] eqn:S4.
    destruct b4 as [|e4 b4]; [discriminate|].
    destruct (span is_digit r6) as [a3 r7] eqn:S5.
    destruct a3 as [|d3 a3]; [discriminate|].
    destruct (span is_space r7) as [b5 r8] eqn:S6.
    destruct b5 as [|e5 b5]; [discriminate|].
    destruct (expect (lit "item") r8) as [tail|] eqn:X3; [|discriminate].
    intros [= <- <- <-].
    apply span_inv in S1, S2, S3, S4, S5, S6.
    destruct S1 as (-> & G1 & _). destruct S2 as (L2 & G2 & _).
    destruct S3 as (-> & W3 & _). destruct S4 as (-> & W4 & _).
    destruct S5 as (-> & G3 & _). destruct S6 as (-> & W5 & _).
    apply expect_inv in X1, X2, X3. subst r4 r8.
    destruct (lstrip_inv r1) as (w1 & E1 & W1 & _).
    destruct (lstrip_inv r2) as (w2 & E2 & W2 & _).
    exists w1, w2, (e3 :: b3), (e4 :: b4), (e5 :: b5), tail.
    split.
    { rewrite E1, X1, E2, L2. rewrite <- ?app_assoc. reflexivity. }
    repeat split; trivial; discriminate.
  - intros (w1 & w2 & w3 & w4 & w5 & tail & -> & (N1 & G1) & (N2 & G2)
            & (N3 & G3) & W1 & W2 & (M3 & W3) & (M4 & W4) & (M5 & W5)).
    unfold match_pager.
    rewrite (span_app is_digit g1).
    2: exact G1.
    2:{ destruct w1 as [|c w1]; [reflexivity|]. simpl in *.
        apply andb_true_iff in W1. now apply space_not_digit. }
    destruct g1 as [|d1 g1]; [congruence|].
    rewrite (lstrip_app w1) by (trivial; reflexivity).
    rewrite expect_app.
    rewrite (lstrip_app w2).
    2: exact W2.
    2:{ apply stops_digits_then; trivial. exact digit_not_space. }
    rewrite (span_app is_digit g2).
    2: exact G2.
    2:{ now apply stops_blanks_then. }
    destruct g2 as [|d2 g2]; [congruence|].
    rewrite (span_app is_space w3) by (trivial; reflexivity).
    destruct w3 as [|e3 w3]; [congruence|].
    rewrite expect_app.
    rewrite (span_app is_space w4).
    2: exact W4.
    2:{ apply stops_digits_then; trivial. exact digit_not_space. }
    destruct w4 as [|e4 w4]; [congruence|].
    rewrite (span_app is_digit g3).
    2: exact G3.
    2:{ now apply stops_blanks_then. }
    destruct g3 as [|d3 g3]; [congruence|].
    rewrite (span_app is_space w5) by (trivial; reflexivity).
    destruct w5 as [|e5 w5]; [congruence|].
    rewrite expect_app. reflexivity.
Qed.

End LabelFacts.

(* ================================================================== *)
(** * What the detail phases receive from the lists                     *)
(* ================================================================== *)

Section HandoverFacts.
Import PyStr Text Py World Handover.

(** Every record that [scrape_rows] of Phase 3 (v2.0) writes has the keys
    [Institution, Branch, Facility_Name, Facility_Type, Manage_URL,
    Scraped_At]; the [Meta] block Phase 4 builds from it copies the
    institution and the facility name, and its [Facility_ID] and
    [Type_From_List] are always the empty string, because the keys
    [Facility_ID] and [Type] it reads are not among those. *)
Theorem facility_meta_of_phase3_record :
  forall institution_name r now rec url now',
    Phase3.facility_record institution_name r now = Some rec ->
    keys rec = [lit "Institution"; lit "Branch"; lit "Facility_Name";
                lit "Facility_Type"; lit "Manage_URL"; lit "Scraped_At"]
    /\ get (lit "Facility_ID") rec = None
    /\ get (lit "Type") rec = None
    /\ get (lit "Facility_ID") (facility_meta url now' rec) = Some (PyStr [])
    /\ get (lit "Type_From_List") (facility_meta url now' rec)
       = Some (PyStr [])
    /\ get (lit "Institution") (facility_meta url now' rec)
       = Some (PyStr institution_name)
    /\ get (lit "Facility_Name_From_List") (facility_meta url now' rec)
       = Some (PyStr (strip (nth 1 (cells r) []))).
Proof.
  intros name r now rec url now' H. unfold Phase3.facility_record in H.
  destruct (cells r) as [|c cs]; [discriminate|].
  injection H as <-. repeat split.
Qed.

(** Phases 1 and 5 write every key that the [Meta] blocks of Phases 2 and
    6 read: the block of an expert carries the institution, the name, the
    identifier and the profile address of the row, the block of an
    organization its name, provinces and sectors. *)
Theorem meta_of_expert_and_organization_records :
  (forall institution_name r now rec url now',
     Phase1.expert_record institution_name r now = Some rec ->
     get (lit "Institution") (expert_meta url now' rec)
     = Some (PyStr institution_name)
     /\ get (lit "Name_From_List") (expert_meta url now' rec)
        = Some (PyStr (strip (nth 8 (cells r) [])))
     /\ get (lit "Expert_ID") (expert_meta url now' rec)
        = Some (PyStr (strip (nth 1 (cells r) [])))
     /\ get (lit "Profile_URL") (expert_meta url now' rec)
        = Some (match profile_link r with
                | Some href => href
                | None => PyStr (lit "Not Found")
                end))
  /\ (forall r now rec url now',
     Phase5.organization_record r now = Some rec ->
     get (lit "Organization_Name_From_List") (organization_meta url now' rec)
     = Some (PyStr (clean_text (PyStr (nth 3 (cells r) []))))
     /\ get (lit "Provinces_From_List") (organization_meta url now' rec)
        = Some (PyStr (clean_text (PyStr (nth 4 (cells r) []))))
     /\ get (lit "Sectors_From_List") (organization_meta url now' rec)
        = Some (PyStr (clean_text (PyStr (nth 5 (cells r) []))))).
Proof.
  split.
  - intros name r now rec url now' H. unfold Phase1.expert_record in H.
    destruct (Z.ltb _ _); [discriminate|]. injection H as <-.
    repeat split.
  - intros r now rec url now' H. unfold Phase5.organization_record in H.
    destruct (Z.ltb _ _); [discriminate|].
    destruct (clean_text (PyStr (nth 3 (cells r) []))) as [|c n] eqn:Hn;
      [discriminate|].
    injection H as <-. repeat split.
Qed.

End HandoverFacts.

(* ================================================================== *)
(** * What a script leaves on disk                                      *)
(* ================================================================== *)

Section KeepFacts.
Import World.
Context {E : Env} {F V : Type}.
Variable view : F -> V.

(** A computation keeps a view of the files when that view is the same
    after it as before, however it ends. *)
Definition keeps {A} (m : M F A) : Prop :=
  forall w, view (files (snd (m w))) = view (files w).

Lemma keeps_ret {A} (a : A) : keeps (ret a).
Proof. intros w. reflexivity. Qed.

Lemma keeps_raise {A} (e : exn) : keeps (raise (A:=A) e).
Proof. intros w. reflexivity. Qed.

Lemma keeps_diverge {A} : keeps (diverge (A:=A)).
Proof. intros w. reflexivity. Qed.

Lemma keeps_sel (c : selenium) : keeps (sel c).
Proof.
  intros w. unfold sel. now destruct (browser c (ext w)) as [[e|v] s'].
Qed.

Lemma keeps_ask (h : host) : keeps (ask h).
Proof. intros w. unfold ask. now destruct (operator h (ext w)). Qed.

Lemma keeps_read_files : keeps (read_files (F:=F)).
Proof. intros w. reflexivity. Qed.

Lemma keeps_write_files (f : F -> F) :
  (forall x, view (f x) = view x) -> keeps (write_files f).
Proof. intros H w. apply H. Qed.

Lemma keeps_bind {A B} (m : M F A) (k : A -> M F B) :
  keeps m -> (forall a, keeps (k a)) -> keeps (bind m k).
Proof.
  intros Hm Hk w. specialize (Hm w). unfold bind.
  destruct (m w) as [[a|e|] w1]; cbn [snd] in *; trivial.
  now rewrite Hk.
Qed.

Lemma keeps_try {A} (m : M F A) (h : exn -> M F A) :
  keeps m -> (forall e, keeps (h e)) -> keeps (try_except m h).
Proof.
  intros Hm Hh w. specialize (Hm w). unfold try_except.
  destruct (m w) as [[a|e|] w1]; cbn [snd] in *; trivial.
  now rewrite Hh.
Qed.

(** A computation that returns and keeps the view. *)
Lemma run_both (p : event -> bool) {A} (m : M F A) :
  safe p m -> keeps m ->
  forall w, exists a w',
    m w = (Ret a, w') /\ view (files w') = view (files w)
    /\ exists new, trace w' = trace w ++ new /\ forallb p new = true.
Proof.
  intros S K w. destruct (S w) as (a & w' & new & Em & T & P).
  exists a, w'. split; [exact Em|]. split.
  - specialize (K w). now rewrite Em in K.
  - now exists new.
Qed.

End KeepFacts.

Lemma print_run_files {E : World.Env} {F} (msg : World.message)
    (w : World.world F) :
  exists w1, World.print msg w = (World.Ret tt, w1)
             /\ World.trace w1 = World.trace w ++ [World.Hst (World.Print msg)]
             /\ World.files w1 = World.files w.
Proof.
  unfold World.print, World.ask.
  destruct (World.operator (World.Print msg) (World.ext w)) as [[] s'].
  eexists. repeat split.
Qed.

Lemma ask_run_files {E : World.Env} {F} (h : World.host) (w : World.world F) :
  exists v w1, World.ask h w = (World.Ret v, w1)
               /\ World.files w1 = World.files w.
Proof.
  unfold World.ask. destruct (World.operator h (World.ext w)) as [v s'].
  do 2 eexists. split; reflexivity.
Qed.

Lemma sel_run_files {E : World.Env} {F} (c : World.selenium)
    (w : World.world F) v :
  fst (World.browser c (World.ext w)) = inr v ->
  exists w1, World.sel c w = (World.Ret v, w1)
             /\ World.files w1 = World.files w.
Proof.
  unfold World.sel. destruct (World.browser c (World.ext w)) as [r s'].
  cbn [fst]. intros ->. eexists. split; reflexivity.
Qed.

Create HintDb keepers.

Ltac keep_step :=
  match goal with
  | |- keeps _ (World.ret _) => apply keeps_ret
  | |- keeps _ (World.raise _) => apply keeps_raise
  | |- keeps _ World.diverge => apply keeps_diverge
  | |- keeps ?v (World.sleep ?ms) => exact (keeps_ask v (World.Sleep ms))
  | |- keeps ?v (World.print ?m) => exact (keeps_ask v (World.Print m))
  | |- keeps ?v (World.ask ?h) => exact (keeps_ask v h)
  | |- keeps ?v (World.sel ?c) => exact (keeps_sel v c)
  | |- keeps _ World.read_files => apply keeps_read_files
  | |- keeps _ (World.write_files _) =>
      apply keeps_write_files; intros ?; reflexivity
  | |- keeps _ (World.bind _ _) => apply keeps_bind; [| intros ?]
  | |- keeps _ (World.try_except _ _) => apply keeps_try; [| intros ?]
  | |- keeps _ (match ?x with _ => _ end) => destruct x
  | |- keeps _ _ => solve [eauto with keepers]
  end.

Ltac keep_auto := repeat keep_step.

(** Run the first call of a sequence, keeping what it leaves on disk. *)
Ltac run_kept p v :=
  match goal with
  | |- context [World.bind (World.print ?msg) ?k ?w] =>
      let w1 := fresh "w" in
      let Em := fresh "Em" in
      let T := fresh "T" in
      let Kf := fresh "Kf" in
      destruct (print_run_files msg w) as (w1 & Em & T & Kf);
      rewrite (bind_ret_eq (World.print msg) k w tt w1 Em); clear Em
  | |- context [World.bind ?m ?k ?w] =>
      let S := fresh "S" in
      assert (S : safe p m) by run_auto;
      let K := fresh "K" in
      assert (K : keeps v m) by keep_auto;
      let a := fresh "a" in
      let w1 := fresh "w" in
      let n := fresh "n" in
      let Em := fresh "Em" in
      let Kf := fresh "Kf" in
      let T := fresh "T" in
      let P := fresh "P" in
      destruct (run_both v p m S K w) as (a & w1 & Em & Kf & n & T & P);
      clear S K;
      rewrite (bind_ret_eq m k w a w1 Em)
  end.

(** The same, keeping the equation of the call under the name [Em]. *)
Ltac run_kept_as p v Em :=
  match goal with
  | |- context [World.bind ?m ?k ?w] =>
      let S := fresh "S" in
      assert (S : safe p m) by run_auto;
      let K := fresh "K" in
      assert (K : keeps v m) by keep_auto;
      let a := fresh "a" in
      let w1 := fresh "w" in
      let n := fresh "n" in
      let Kf := fresh "Kf" in
      let T := fresh "T" in
      let P := fresh "P" in
      destruct (run_both v p m S K w) as (a & w1 & Em & Kf & n & T & P);
      clear S K;
      rewrite (bind_ret_eq m k w a w1 Em)
  end.

(* ================================================================== *)
(** * What a script returns                                             *)
(* ================================================================== *)

Section ValueFacts.
Import World.
Context {E : Env} {F : Type}.

(** Whenever the computation returns, what it returns satisfies [Q]. *)
Definition ensures {A} (Q : A -> Prop) (m : M F A) : Prop :=
  forall w a w', m w = (Ret a, w') -> Q a.

Lemma ensures_ret {A} (Q : A -> Prop) (a : A) : Q a -> ensures Q (ret a).
Proof. intros H w a' w' [= <- _]. exact H. Qed.

Lemma ensures_raise {A} (Q : A -> Prop) (e : exn) : ensures Q (raise e).
Proof. intros w a w' H. discriminate. Qed.

Lemma ensures_diverge {A} (Q : A -> Prop) : ensures Q diverge.
Proof. intros w a w' H. discriminate. Qed.

Lemma ensures_bind_with {A B} (P : A -> Prop) (Q : B -> Prop)
    (m : M F A) (k : A -> M F B) :
  ensures P m -> (forall a, P a -> ensures Q (k a)) -> ensures Q (bind m k).
Proof.
  intros Hm Hk w b w'. unfold bind.
  destruct (m w) as [[a|e|] w1] eqn:Em; intros H; try discriminate.
  exact (Hk a (Hm _ _ _ Em) _ _ _ H).
Qed.

Lemma ensures_bind {A B} (Q : B -> Prop) (m : M F A) (k : A -> M F B) :
  (forall a, ensures Q (k a)) -> ensures Q (bind m k).
Proof.
  intros Hk. apply (ensures_bind_with (fun _ => True)); [|auto].
  intros w a w' _. exact I.
Qed.

Lemma ensures_try {A} (Q : A -> Prop) (m : M F A) (h : exn -> M F A) :
  ensures Q m -> (forall e, ensures Q (h e)) -> ensures Q (try_except m h).
Proof.
  intros Hm Hh w a w'. unfold try_except.
  destruct (m w) as [[a0|e|] w1] eqn:Em; intros H; try discriminate.
  - injection H as <- <-. exact (Hm _ _ _ Em).
  - exact (Hh e _ _ _ H).
Qed.

Lemma ensures_weaken {A} (P Q : A -> Prop) (m : M F A) :
  (forall a, P a -> Q a) -> ensures P m -> ensures Q m.
Proof. intros HPQ Hm w a w' H. exact (HPQ _ (Hm _ _ _ H)). Qed.

End ValueFacts.

Create HintDb values.

Ltac value_step :=
  match goal with
  | |- ensures _ (World.ret _) => apply ensures_ret
  | |- ensures _ (World.raise _) => apply ensures_raise
  | |- ensures _ World.diverge => apply ensures_diverge
  | |- ensures _ (World.bind _ _) => apply ensures_bind; intros ?
  | |- ensures _ (World.try_except _ _) => apply ensures_try; [| intros ?]
  | |- ensures _ (match ?x with _ => _ end) => destruct x eqn:?
  end.

Ltac value_auto := repeat value_step.

(* ================================================================== *)
(** * The checkpoint of the harvest of Phase 1                          *)
(* ================================================================== *)

Section Phase1Disk.
Import PyStr Text Py World Observe Phase1.
Context {E : Env}.
Local Open Scope Z_scope.

Hint Resolve wait_for_loading_complete_safe parse_pagination_info_safe
  has_next_page_safe click_or_js_calm click_next_page_safe
  reset_to_first_page_safe save_checkpoint_safe load_checkpoint_calm
  collect_names_calm get_institution_names_safe find_option_calm
  close_dropdown_quietly_safe select_institution_safe
  scrape_rows_of_page_safe scrape_current_page_safe scrape_all_pages_safe
  : runs.

(** The helpers of Phase 1 write no file. *)
Lemma p1_wait_keeps : keeps (fun f : files => f) wait_for_loading_complete.
Proof. unfold wait_for_loading_complete. keep_auto. Qed.
Hint Resolve p1_wait_keeps : keepers.

Lemma p1_parse_keeps : keeps (fun f : files => f) parse_pagination_info.
Proof. unfold parse_pagination_info. keep_auto. Qed.
Hint Resolve p1_parse_keeps : keepers.

Lemma p1_has_next_keeps : keeps (fun f : files => f) has_next_page.
Proof. unfold has_next_page. keep_auto. Qed.
Hint Resolve p1_has_next_keeps : keepers.

Lemma p1_click_or_js_keeps e : keeps (fun f : files => f) (click_or_js e).
Proof. unfold click_or_js. keep_auto. Qed.
Hint Resolve p1_click_or_js_keeps : keepers.

Lemma p1_click_next_keeps : keeps (fun f : files => f) click_next_page.
Proof. unfold click_next_page. keep_auto. Qed.
Hint Resolve p1_click_next_keeps : keepers.

Lemma p1_reset_keeps : keeps (fun f : files => f) reset_to_first_page.
Proof. unfold reset_to_first_page. keep_auto. Qed.
Hint Resolve p1_reset_keeps : keepers.

Lemma p1_collect_names_keeps idx : forall names,
  keeps (fun f : files => f) (collect_names idx names).
Proof.
  induction idx as [|i idx IH]; intros names; cbn [collect_names]; keep_auto.
Qed.
Hint Resolve p1_collect_names_keeps : keepers.

Lemma p1_get_names_keeps : keeps (fun f : files => f) get_institution_names.
Proof. unfold get_institution_names. keep_auto. Qed.
Hint Resolve p1_get_names_keeps : keepers.

Lemma p1_find_option_keeps target idx :
  keeps (fun f : files => f) (find_option target idx).
Proof. induction idx as [|i idx IH]; cbn [find_option]; keep_auto. Qed.
Hint Resolve p1_find_option_keeps : keepers.

Lemma p1_close_dropdown_keeps :
  keeps (fun f : files => f) close_dropdown_quietly.
Proof. unfold close_dropdown_quietly. keep_auto. Qed.
Hint Resolve p1_close_dropdown_keeps : keepers.

Lemma p1_select_keeps target :
  keeps (fun f : files => f) (select_institution target).
Proof. unfold select_institution. keep_auto. Qed.
Hint Resolve p1_select_keeps : keepers.

Lemma p1_scrape_rows_keeps name idx : forall page_data,
  keeps (fun f : files => f) (scrape_rows_of_page name idx page_data).
Proof.
  induction idx as [|i idx IH]; intros page_data;
    cbn [scrape_rows_of_page]; keep_auto.
Qed.
Hint Resolve p1_scrape_rows_keeps : keepers.

Lemma p1_scrape_page_keeps name :
  keeps (fun f : files => f) (scrape_current_page name).
Proof. unfold scrape_current_page. keep_auto. Qed.
Hint Resolve p1_scrape_page_keeps : keepers.

Lemma p1_pages_loop_keeps fuel : forall name all cp,
  keeps (fun f : files => f) (pages_loop fuel name all cp).
Proof.
  induction fuel as [|fuel IH]; intros name all cp; cbn [pages_loop];
    keep_auto.
Qed.
Hint Resolve p1_pages_loop_keeps : keepers.

Lemma p1_scrape_all_keeps fuel name :
  keeps (fun f : files => f) (scrape_all_pages_for_institution fuel name).
Proof. unfold scrape_all_pages_for_institution. keep_auto. Qed.
Hint Resolve p1_scrape_all_keeps : keepers.

(** The records of Phase 1 carry the institution they were scraped for. *)
Lemma expert_record_tagged name r now rec :
  expert_record name r now = Some rec -> Watch.tagged name rec.
Proof.
  unfold expert_record. destruct (Z.ltb _ _); [discriminate|].
  intros [= <-]. reflexivity.
Qed.

Lemma p1_scrape_rows_tagged name idx : forall page_data,
  Forall (Watch.tagged name) page_data ->
  ensures (Forall (Watch.tagged name))
    (scrape_rows_of_page name idx page_data).
Proof.
  induction idx as [|i idx IH]; intros page_data Hp;
    cbn [scrape_rows_of_page].
  - now apply ensures_ret.
  - apply (ensures_bind_with
             (fun rec => match rec with
                         | Some x => Watch.tagged name x
                         | None => True
                         end)).
    + value_auto; [|exact I].
      destruct (expert_record name _ _) eqn:Hrec; [|exact I].
      exact (expert_record_tagged _ _ _ _ Hrec).
    + intros [x|] Hx; apply IH; [|exact Hp].
      apply Forall_app. split; [exact Hp | now constructor].
Qed.

Lemma p1_scrape_page_tagged name :
  ensures (Forall (Watch.tagged name)) (scrape_current_page name).
Proof.
  unfold scrape_current_page. apply ensures_bind. intros n.
  now apply p1_scrape_rows_tagged.
Qed.

Lemma p1_pages_loop_tagged fuel : forall name all cp,
  Forall (Watch.tagged name) all ->
  ensures (fun r => Forall (Watch.tagged name) (fst r))
    (pages_loop fuel name all cp).
Proof.
  induction fuel as [|fuel IH]; intros name all cp Hall; cbn [pages_loop].
  - apply ensures_diverge.
  - apply (ensures_bind_with (Forall (Watch.tagged name)));
      [apply p1_scrape_page_tagged|].
    intros page Hpage.
    assert (Hall' : Forall (Watch.tagged name) (all ++ page))
      by (apply Forall_app; now split).
    value_auto; try exact Hall'. now apply IH.
Qed.

Lemma p1_scrape_all_tagged fuel name :
  ensures (Forall (Watch.tagged name))
    (scrape_all_pages_for_institution fuel name).
Proof.
  unfold scrape_all_pages_for_institution.
  apply ensures_bind. intros [[start end_] total].
  destruct (total =? 0); [now apply ensures_ret|].
  apply (ensures_bind_with (fun r => Forall (Watch.tagged name) (fst r)));
    [now apply p1_pages_loop_tagged|].
  intros [all cp] Hall. value_auto; exact Hall.
Qed.

(** What [save_checkpoint] leaves on disk. *)
Lemma p1_save_checkpoint_run d i names (w : world files) :
  exists now w1,
    save_checkpoint d i names w = (Ret tt, w1)
    /\ World.files w1
       = {| CHECKPOINT_FILE :=
              Doc {| timestamp := now; current_index := i;
                     total_institutions := len names;
                     experts_collected := len d; data := d |};
            OUTPUT_JSON := OUTPUT_JSON (World.files w) |}.
Proof.
  unfold save_checkpoint, bind, ask, write_files.
  destruct (operator Now (ext w)) as [now s]. cbn.
  exists now. eexists. split; reflexivity.
Qed.

(** The loop over the institutions: what it returns and what it leaves on
    disk. *)
Lemma p1_institutions_loop_ledger : forall items extra names ml w,
  exists ml' w',
    institutions_loop (50 + extra) names items ml w = (Ret ml', w')
    /\ (exists added,
          ml' = ml ++ added
          /\ Forall (fun r => exists it, In it items
                                         /\ Watch.tagged (snd it) r) added)
    /\ OUTPUT_JSON (World.files w') = OUTPUT_JSON (World.files w)
    /\ match items with
       | [] => ml' = ml /\ World.files w' = World.files w
       | _ =>
           exists now,
             CHECKPOINT_FILE (World.files w')
             = Doc {| timestamp := now;
                      current_index := fst (last items (0, [])) + 1;
                      total_institutions := len names;
                      experts_collected := len ml';
                      data := ml' |}
       end.
Proof.
  induction items as [|[i uni] items IH]; intros extra names ml w.
  - exists ml, w. split; [reflexivity|]. split.
    + exists []. now rewrite app_nil_r.
    + repeat split.
  - cbn [institutions_loop].
    run_kept silent (fun f : files => f).
    run_kept silent (fun f : files => f).
    assert (Hstep : forall added1 wc,
      World.files wc = World.files w ->
      Forall (Watch.tagged uni) added1 ->
      exists ml' w',
        (save_checkpoint (ml ++ added1) (i + 1) names ;;
         sleep 500 ;;
         institutions_loop (50 + extra) names items (ml ++ added1))%py wc
        = (Ret ml', w')
        /\ (exists added,
              ml' = ml ++ added
              /\ Forall (fun r => exists it, In it ((i, uni) :: items)
                                             /\ Watch.tagged (snd it) r)
                   added)
        /\ OUTPUT_JSON (World.files w') = OUTPUT_JSON (World.files w)
        /\ exists now,
             CHECKPOINT_FILE (World.files w')
             = Doc {| timestamp := now;
                      current_index
                      := fst (last ((i, uni) :: items) (0, [])) + 1;
                      total_institutions := len names;
                      experts_collected := len ml';
                      data := ml' |}).
    { intros added1 wc Hf Hadd.
      destruct (p1_save_checkpoint_run (ml ++ added1) (i + 1) names wc)
        as (now & wd & Es & Fs).
      rewrite (bind_ret_eq _ _ _ _ _ Es).
      run_kept silent (fun f : files => f). cbv beta in *.
      match goal with
      | |- context [institutions_loop _ _ _ ?m ?wx] =>
          destruct (IH extra names m wx)
            as (ml' & w' & Er & (added & Hml & Hfa) & Ho & Hc)
      end.
      exists ml', w'. split; [exact Er|]. split; [|split].
      - exists (added1 ++ added). split; [now rewrite app_assoc|].
        apply Forall_app. split.
        + eapply Forall_impl; [|exact Hadd]. intros r Hr.
          exists (i, uni). split; [now left | exact Hr].
        + eapply Forall_impl; [|exact Hfa]. intros r (it & Hin & Hr).
          exists it. split; [now right | exact Hr].
      - rewrite Ho. match goal with H : World.files _ = World.files wd |- _ => rewrite H end.
        rewrite Fs. cbn. now rewrite Hf.
      - destruct items as [|it items'].
        + destruct Hc as [-> Hfw]. exists now. rewrite Hfw.
          match goal with H : World.files _ = World.files wd |- _ => rewrite H end.
          rewrite Fs. reflexivity.
        + destruct Hc as (now' & Hc). exists now'. exact Hc. }
    cbv beta in *.
    destruct a.
    + assert (Hq : ensures
                (fun a => exists experts,
                   a = ml ++ experts /\ Forall (Watch.tagged uni) experts)
                (experts <- scrape_all_pages_for_institution (50 + extra) uni ;;
                 ret (ml ++ experts))%py).
      { apply (ensures_bind_with (Forall (Watch.tagged uni)));
          [apply p1_scrape_all_tagged|].
        intros experts He. apply ensures_ret. now exists experts. }
      run_kept_as quiet (fun f : files => f) Hrun. cbv beta in *.
      destruct (Hq _ _ _ Hrun) as (experts & -> & He).
      apply Hstep; [congruence | exact He].
    + rewrite (bind_ret_eq (ret ml) _ w1 ml w1 eq_refl).
      specialize (Hstep [] w1 ltac:(congruence) (Forall_nil _)).
      rewrite app_nil_r in Hstep. exact Hstep.
Qed.

(** After the loop of Phase 1 over the institutions (which are not none),
    the checkpoint on disk is the state of the loop: it holds exactly the
    records returned and their number, and its [current_index] is the
    position after the last institution of the loop, whether or not the
    selection and the harvest of an institution succeeded.  The output
    file is not written. *)
Theorem phase1_checkpoint_after_loop :
  forall items extra names master_list (w : world files),
    items <> [] ->
    exists master_list' w' now,
      institutions_loop (50 + extra) names items master_list w
      = (Ret master_list', w')
      /\ World.files w'
         = {| CHECKPOINT_FILE :=
                Doc {| timestamp := now;
                       current_index := fst (last items (0, [])) + 1;
                       total_institutions := len names;
                       experts_collected := len master_list';
                       data := master_list' |};
              OUTPUT_JSON := OUTPUT_JSON (World.files w) |}.
Proof.
  intros items extra names ml w Hne.
  destruct (p1_institutions_loop_ledger items extra names ml w)
    as (ml' & w' & Er & _ & Ho & Hc).
  destruct items as [|it items]; [congruence|].
  destruct Hc as (now & Hc).
  exists ml', w', now. split; [exact Er|].
  destruct (World.files w') as [cpf outf]. cbn in *. now subst.
Qed.

(** The loop of Phase 1 only adds records, after those it was given, and
    every record it adds carries, under [Institution], the name of one of
    the institutions of the loop. *)
Theorem phase1_records_carry_their_institution :
  forall items extra names master_list (w : world files),
    exists added,
      fst (institutions_loop (50 + extra) names items master_list w)
      = Ret (master_list ++ added)
      /\ Forall (fun r => exists it, In it items
                                     /\ Watch.tagged (snd it) r) added.
Proof.
  intros items extra names ml w.
  destruct (p1_institutions_loop_ledger items extra names ml w)
    as (ml' & w' & Er & (added & -> & Hfa) & _).
  exists added. rewrite Er. split; [reflexivity | exact Hfa].
Qed.

End Phase1Disk.

(* ================================================================== *)
(** * The checkpoint and the ledger of the harvest of Phase 3           *)
(* ================================================================== *)

Section Phase3Disk.
Import PyStr Text Py World Observe Phase3.
Context {E : Env}.
Local Open Scope Z_scope.

Hint Resolve p3_wait_for_loading_complete_safe wait_for_rows_stable_safe
  p3_parse_pagination_info_safe retry_rows_safe wait_for_rows_with_retry_safe
  p3_has_next_page_safe p3_click_next_page_safe p3_reset_to_first_page_safe
  p3_save_checkpoint_safe p3_find_option_calm p3_close_dropdown_quietly_safe
  p3_select_institution_safe p3_scrape_all_pages_safe : runs.

(** The helpers of Phase 3 write no file. *)
Lemma p3_wait_keeps : keeps (fun f : files => f) wait_for_loading_complete.
Proof. unfold wait_for_loading_complete. keep_auto. Qed.
Hint Resolve p3_wait_keeps : keepers.

Lemma p3_rows_stable_keeps : keeps (fun f : files => f) wait_for_rows_stable.
Proof. unfold wait_for_rows_stable. keep_auto. Qed.
Hint Resolve p3_rows_stable_keeps : keepers.

Lemma p3_parse_keeps : keeps (fun f : files => f) parse_pagination_info.
Proof. unfold parse_pagination_info. keep_auto. Qed.
Hint Resolve p3_parse_keeps : keepers.

Lemma p3_retry_rows_keeps attempts :
  keeps (fun f : files => f) (retry_rows attempts).
Proof.
  induction attempts as [|n IH]; cbn [retry_rows]; keep_auto.
Qed.
Hint Resolve p3_retry_rows_keeps : keepers.

Lemma p3_rows_with_retry_keeps :
  keeps (fun f : files => f) wait_for_rows_with_retry.
Proof. unfold wait_for_rows_with_retry. keep_auto. Qed.
Hint Resolve p3_rows_with_retry_keeps : keepers.

Lemma p3_has_next_keeps : keeps (fun f : files => f) has_next_page.
Proof. unfold has_next_page. keep_auto. Qed.
Hint Resolve p3_has_next_keeps : keepers.

Lemma p3_click_next_keeps : keeps (fun f : files => f) click_next_page.
Proof. unfold click_next_page. keep_auto. Qed.
Hint Resolve p3_click_next_keeps : keepers.

Lemma p3_reset_keeps : keeps (fun f : files => f) reset_to_first_page.
Proof. unfold reset_to_first_page. keep_auto. Qed.
Hint Resolve p3_reset_keeps : keepers.

Lemma p3_find_option_keeps target idx :
  keeps (fun f : files => f) (find_option target idx).
Proof. induction idx as [|i idx IH]; cbn [find_option]; keep_auto. Qed.
Hint Resolve p3_find_option_keeps : keepers.

Lemma p3_close_dropdown_keeps :
  keeps (fun f : files => f) close_dropdown_quietly.
Proof. unfold close_dropdown_quietly. keep_auto. Qed.
Hint Resolve p3_close_dropdown_keeps : keepers.

Lemma p3_select_keeps target :
  keeps (fun f : files => f) (select_institution target).
Proof. unfold select_institution. keep_auto. Qed.
Hint Resolve p3_select_keeps : keepers.

Lemma p3_scrape_rows_keeps idx : forall name page_data,
  keeps (fun f : files => f) (scrape_rows idx name page_data).
Proof.
  induction idx as [|i idx IH]; intros name page_data; cbn [scrape_rows];
    keep_auto.
Qed.
Hint Resolve p3_scrape_rows_keeps : keepers.

Lemma p3_pages_loop_keeps fuel : forall name rows all cp,
  keeps (fun f : files => f) (pages_loop fuel name rows all cp).
Proof.
  induction fuel as [|fuel IH]; intros name rows all cp; cbn [pages_loop];
    keep_auto.
Qed.
Hint Resolve p3_pages_loop_keeps : keepers.

Lemma p3_scrape_all_keeps fuel name :
  keeps (fun f : files => f) (scrape_all_pages_for_institution fuel name).
Proof. unfold scrape_all_pages_for_institution. keep_auto. Qed.
Hint Resolve p3_scrape_all_keeps : keepers.

Lemma p3_scrape_institution_keeps fuel uni idx total :
  keeps (fun f : files => f) (scrape_institution fuel uni idx total).
Proof. unfold scrape_institution. keep_auto. Qed.
Hint Resolve p3_scrape_institution_keeps : keepers.

(** [scrape_institution] returns, what it fetched is attributed to the
    institution, and it writes no file. *)
Lemma p3_scrape_institution_run extra uni idx total (w : world files) :
  exists data w1,
    scrape_institution (200 + extra) uni idx total w = (Ret data, w1)
    /\ World.files w1 = World.files w
    /\ Forall (mine uni) (match data with Some d => d | None => [] end).
Proof.
  destruct (scrape_institution_spec extra uni idx total w)
    as (data & w1 & new & Er & _ & _ & Hd).
  exists data, w1. split; [exact Er|]. split.
  - pose proof (p3_scrape_institution_keeps (200 + extra) uni idx total w)
      as K. now rewrite Er in K.
  - destruct data; [exact Hd | constructor].
Qed.

(** What [save_checkpoint] leaves on disk. *)
Lemma p3_save_checkpoint_run d i names empties (w : world files) :
  exists now w1,
    save_checkpoint d i names empties w = (Ret tt, w1)
    /\ World.files w1
       = {| CHECKPOINT_FILE :=
              Doc {| timestamp := now; current_index := i;
                     total_institutions := len names;
                     facilities_collected := len d;
                     institution_names := names;
                     empty_institutions := empties;
                     data := d |};
            OUTPUT_JSON := OUTPUT_JSON (World.files w) |}.
Proof.
  unfold save_checkpoint, bind, ask, write_files.
  destruct (operator Now (ext w)) as [now s]. cbn.
  exists now. eexists. split; reflexivity.
Qed.

(** The main loop of Phase 3: what it returns and what it leaves on
    disk. *)
Lemma p3_institutions_loop_ledger : forall items extra names ml empties w,
  exists ml' empties' w',
    institutions_loop (200 + extra) names items ml empties w
    = (Ret (ml', empties'), w')
    /\ (exists added newe,
          ml' = ml ++ added /\ empties' = empties ++ newe
          /\ Forall (fun r => exists it, In it items /\ mine (snd it) r) added
          /\ Forall (fun e => exists it, In it items
                                         /\ Watch.entry_of (fst it) (snd it) e) newe
          /\ Forall (fun it =>
                       (exists e, In e newe /\ Watch.entry_of (fst it) (snd it) e)
                       \/ (exists r, In r added /\ mine (snd it) r)) items)
    /\ OUTPUT_JSON (World.files w') = OUTPUT_JSON (World.files w)
    /\ match items with
       | [] => ml' = ml /\ empties' = empties
               /\ World.files w' = World.files w
       | _ =>
           exists now,
             CHECKPOINT_FILE (World.files w')
             = Doc {| timestamp := now;
                      current_index := fst (last items (0, [])) + 1;
                      total_institutions := len names;
                      facilities_collected := len ml';
                      institution_names := names;
                      empty_institutions := empties';
                      data := ml' |}
       end.
Proof.
  induction items as [|[i uni] items IH]; intros extra names ml empties w.
  - exists ml, empties, w. split; [reflexivity|]. split.
    + exists [], []. rewrite !app_nil_r. repeat split; constructor.
    + repeat split.
  - cbn [institutions_loop].
    destruct (p3_scrape_institution_run extra uni i (len names) w)
      as (data & w1 & Er & Kf & Hd).
    rewrite (bind_ret_eq _ _ _ _ _ Er).
    assert (Hstep : forall added1 newe1 wc,
      World.files wc = World.files w ->
      Forall (mine uni) added1 ->
      Forall (Watch.entry_of i uni) newe1 ->
      ((exists e, In e newe1) \/ (exists r, In r added1)) ->
      exists ml' empties' w',
        (save_checkpoint (ml ++ added1) (i + 1) names (empties ++ newe1) ;;
         sleep 500 ;;
         institutions_loop (200 + extra) names items (ml ++ added1)
           (empties ++ newe1))%py wc
        = (Ret (ml', empties'), w')
        /\ (exists added newe,
              ml' = ml ++ added /\ empties' = empties ++ newe
              /\ Forall (fun r => exists it, In it ((i, uni) :: items)
                                             /\ mine (snd it) r) added
              /\ Forall (fun e => exists it, In it ((i, uni) :: items)
                                   /\ Watch.entry_of (fst it) (snd it) e) newe
              /\ Forall (fun it =>
                   (exists e, In e newe /\ Watch.entry_of (fst it) (snd it) e)
                   \/ (exists r, In r added /\ mine (snd it) r))
                   ((i, uni) :: items))
        /\ OUTPUT_JSON (World.files w') = OUTPUT_JSON (World.files w)
        /\ exists now,
             CHECKPOINT_FILE (World.files w')
             = Doc {| timestamp := now;
                      current_index
                      := fst (last ((i, uni) :: items) (0, [])) + 1;
                      total_institutions := len names;
                      facilities_collected := len ml';
                      institution_names := names;
                      empty_institutions := empties';
                      data := ml' |}).
    { intros added1 newe1 wc Hf Hadd Hnew Hone.
      destruct (p3_save_checkpoint_run (ml ++ added1) (i + 1) names
                  (empties ++ newe1) wc) as (now & wd & Es & Fs).
      rewrite (bind_ret_eq _ _ _ _ _ Es).
      run_kept silent (fun f : files => f). cbv beta in *.
      match goal with
      | |- context [institutions_loop _ _ _ ?m ?e ?wx] =>
          destruct (IH extra names m e wx)
            as (ml' & em' & w' & Er' & (added & newe & Hml & Hem & Hfa & Hfe
                                        & Hacc) & Ho & Hc)
      end.
      exists ml', em', w'. split; [exact Er'|]. split; [|split].
      - exists (added1 ++ added), (newe1 ++ newe).
        split; [now rewrite app_assoc|]. split; [now rewrite app_assoc|].
        split; [|split].
        + apply Forall_app. split.
          * eapply Forall_impl; [|exact Hadd]. intros r Hr.
            exists (i, uni). split; [now left | exact Hr].
          * eapply Forall_impl; [|exact Hfa]. intros r (it & Hin & Hr).
            exists it. split; [now right | exact Hr].
        + apply Forall_app. split.
          * eapply Forall_impl; [|exact Hnew]. intros e He.
            exists (i, uni). split; [now left | exact He].
          * eapply Forall_impl; [|exact Hfe]. intros e (it & Hin & He).
            exists it. split; [now right | exact He].
        + constructor.
          * cbn [fst snd]. destruct Hone as [(e & He) | (r & Hr)].
            -- left. exists e. split; [apply in_or_app; now left|].
               rewrite Forall_forall in Hnew. now apply Hnew.
            -- right. exists r. split; [apply in_or_app; now left|].
               rewrite Forall_forall in Hadd. now apply Hadd.
          * eapply Forall_impl; [|exact Hacc].
            intros it [(e & He & Hen) | (r & Hr & Hm)].
            -- left. exists e. split; [apply in_or_app; now right | exact Hen].
            -- right. exists r. split; [apply in_or_app; now right | exact Hm].
      - rewrite Ho.
        match goal with H : World.files _ = World.files wd |- _ => rewrite H end.
        rewrite Fs. cbn. now rewrite Hf.
      - destruct items as [|it items'].
        + destruct Hc as (-> & -> & Hfw). exists now. rewrite Hfw.
          match goal with H : World.files _ = World.files wd |- _ => rewrite H end.
          rewrite Fs. reflexivity.
        + destruct Hc as (now' & Hc). exists now'. exact Hc. }
    destruct data as [[|r d]|].
    + specialize (Hstep [] [ {| index := i; name := uni;
                                reason := lit "no_data" |} ] w1 Kf
                    (Forall_nil _)).
      rewrite app_nil_r in Hstep. apply Hstep.
      * constructor; [|constructor]. repeat split. now right.
      * left. eexists. now left.
    + specialize (Hstep (r :: d) [] w1 Kf Hd (Forall_nil _)).
      rewrite app_nil_r in Hstep. apply Hstep.
      right. exists r. now left.
    + specialize (Hstep [] [ {| index := i; name := uni;
                                reason := lit "selection_failed" |} ] w1 Kf
                    (Forall_nil _)).
      rewrite app_nil_r in Hstep. apply Hstep.
      * constructor; [|constructor]. repeat split. now left.
      * left. eexists. now left.
Qed.

(** After the main loop of Phase 3 (v2.0) over the institutions (which
    are not none), the checkpoint on disk is the state of the loop: the
    records and the empty institutions returned, the names of all the
    institutions, and the position after the last institution of the
    loop.  The output file is not written. *)
Theorem phase3_checkpoint_after_loop :
  forall items extra names master_list empties (w : world files),
    items <> [] ->
    exists master_list' empties' w' now,
      institutions_loop (200 + extra) names items master_list empties w
      = (Ret (master_list', empties'), w')
      /\ World.files w'
         = {| CHECKPOINT_FILE :=
                Doc {| timestamp := now;
                       current_index := fst (last items (0, [])) + 1;
                       total_institutions := len names;
                       facilities_collected := len master_list';
                       institution_names := names;
                       empty_institutions := empties';
                       data := master_list' |};
              OUTPUT_JSON := OUTPUT_JSON (World.files w) |}.
Proof.
  intros items extra names ml empties w Hne.
  destruct (p3_institutions_loop_ledger items extra names ml empties w)
    as (ml' & em' & w' & Er & _ & Ho & Hc).
  destruct items as [|it items]; [congruence|].
  destruct Hc as (now & Hc).
  exists ml', em', w', now. split; [exact Er|].
  destruct (World.files w') as [cpf outf]. cbn in *. now subst.
Qed.

(** The main loop of Phase 3 (v2.0) accounts for every institution: it
    only appends records and entries of [empty_institutions]; every
    record added carries the name of an institution of the loop; every
    entry added has the index and the name of one, with the reason
    [selection_failed] or [no_data]; and every institution of the loop has
    an entry or at least one record. *)
Theorem phase3_every_institution_accounted :
  forall items extra names master_list empties (w : world files),
    exists added newe,
      fst (institutions_loop (200 + extra) names items master_list empties w)
      = Ret (master_list ++ added, empties ++ newe)
      /\ Forall (fun r => exists it, In it items /\ mine (snd it) r) added
      /\ Forall (fun e => exists it, In it items
                                     /\ Watch.entry_of (fst it) (snd it) e)
           newe
      /\ Forall (fun it =>
                   (exists e, In e newe /\ Watch.entry_of (fst it) (snd it) e)
                   \/ (exists r, In r added /\ mine (snd it) r)) items.
Proof.
  intros items extra names ml empties w.
  destruct (p3_institutions_loop_ledger items extra names ml empties w)
    as (ml' & em' & w' & Er & (added & newe & -> & -> & H1 & H2 & H3) & _).
  exists added, newe. rewrite Er. repeat split; assumption.
Qed.

Lemma filter_andb {A} (f g : A -> bool) (l : list A) :
  filter (fun x => f x && g x) l = filter f (filter g l).
Proof.
  induction l as [|x l IH]; [reflexivity|]. cbn.
  destruct (g x); cbn; [|rewrite andb_false_r; exact IH].
  rewrite andb_true_r. destruct (f x); now rewrite IH.
Qed.

Lemma filter_swap {A} (f g : A -> bool) (l : list A) :
  filter f (filter g l) = filter g (filter f l).
Proof.
  rewrite <- !filter_andb. apply filter_ext. intros x. apply andb_comm.
Qed.

Lemma filter_none {A} (P : A -> Prop) (f : A -> bool) (l : list A) :
  (forall x, P x -> f x = false) -> Forall P l -> filter f l = [].
Proof.
  intros H. induction 1 as [|x l Hx _ IH]; [reflexivity|]. cbn.
  now rewrite (H x Hx).
Qed.

Lemma Forall_filter {A} (P : A -> Prop) (f : A -> bool) (l : list A) :
  Forall P l -> Forall P (filter f l).
Proof.
  induction 1 as [|x l Hx _ IH]; [constructor|]. cbn.
  destruct (f x); [now constructor | exact IH].
Qed.

(** The re-visit of one institution: what it returns and what it leaves
    on disk. *)
Lemma revisit_one_run extra names old_empty item ml still (w : world files) :
  exists fetched news now w',
    revisit_one (200 + extra) names old_empty item ml still w
    = (Ret (filter (other_institution (name item)) ml ++ fetched,
            still ++ news), w')
    /\ Forall (mine (name item)) fetched
    /\ (news = [] \/ news = [item])
    /\ World.files w'
       = {| CHECKPOINT_FILE :=
              Doc {| timestamp := now;
                     current_index := index item + 1;
                     total_institutions := len names;
                     facilities_collected
                     := len (filter (other_institution (name item)) ml
                             ++ fetched);
                     institution_names := names;
                     empty_institutions
                     := filter (fun e => negb (str_eqb (name e) (name item)))
                          old_empty;
                     data := filter (other_institution (name item)) ml
                             ++ fetched |};
            OUTPUT_JSON := OUTPUT_JSON (World.files w) |}.
Proof.
  unfold revisit_one.
  destruct (p3_scrape_institution_run extra (name item) (index item)
              (len names) w) as (data & w1 & Er & Kf & Hd).
  rewrite (bind_ret_eq _ _ _ _ _ Er).
  assert (Hstep : forall fetched news,
    Forall (mine (name item)) fetched -> (news = [] \/ news = [item]) ->
    exists fetched' news' now w',
      (save_checkpoint (filter (other_institution (name item)) ml ++ fetched)
         (index item + 1) names
         (filter (fun e => negb (str_eqb (name e) (name item))) old_empty) ;;
       sleep 500 ;;
       ret (filter (other_institution (name item)) ml ++ fetched,
            still ++ news))%py w1
      = (Ret (filter (other_institution (name item)) ml ++ fetched',
              still ++ news'), w')
      /\ Forall (mine (name item)) fetched'
      /\ (news' = [] \/ news' = [item])
      /\ World.files w'
         = {| CHECKPOINT_FILE :=
                Doc {| timestamp := now;
                       current_index := index item + 1;
                       total_institutions := len names;
                       facilities_collected
                       := len (filter (other_institution (name item)) ml
                               ++ fetched');
                       institution_names := names;
                       empty_institutions
                       := filter
                            (fun e => negb (str_eqb (name e) (name item)))
                            old_empty;
                       data := filter (other_institution (name item)) ml
                               ++ fetched' |};
              OUTPUT_JSON := OUTPUT_JSON (World.files w) |}).
  { intros fetched news Hf Hn.
    match goal with
    | |- context [bind (save_checkpoint ?d ?i ?ns ?es) _ ?wc] =>
        destruct (p3_save_checkpoint_run d i ns es wc) as (now & wd & Es & Fs);
        rewrite (bind_ret_eq _ _ _ _ _ Es)
    end.
    run_kept silent (fun f : files => f). cbv beta in *.
    exists fetched, news, now. eexists. split; [reflexivity|].
    split; [exact Hf|]. split; [exact Hn|].
    match goal with H : World.files _ = World.files wd |- _ => rewrite H end.
    rewrite Fs. now rewrite Kf. }
  destruct data as [[|r d]|]; cbv beta iota.
  - specialize (Hstep [] [item] (Forall_nil _) (or_intror eq_refl)).
    rewrite app_nil_r in Hstep. exact Hstep.
  - specialize (Hstep (r :: d) [] Hd (or_introl eq_refl)).
    rewrite app_nil_r in Hstep. exact Hstep.
  - specialize (Hstep [] [item] (Forall_nil _) (or_intror eq_refl)).
    rewrite app_nil_r in Hstep. exact Hstep.
Qed.

Lemma last_cons_default {A} (l : list A) : forall a d,
  last (a :: l) d = last l a.
Proof.
  induction l as [|b l IH]; intros a d; [reflexivity|].
  change (last (a :: b :: l) d) with (last (b :: l) d).
  rewrite (IH b d), (IH b a). reflexivity.
Qed.

(** The re-visit of a list of institutions. *)
Lemma revisit_targets_ledger : forall targets extra names old_empty ml still w,
  exists ml' news w',
    _revisit_targets (200 + extra) ml targets names old_empty still w
    = (Ret (ml', still ++ news), w')
    /\ filter (Watch.apart (map name targets)) ml'
       = filter (Watch.apart (map name targets)) ml
    /\ Forall (fun r => In r ml \/ exists t, In t targets /\ mine (name t) r)
         ml'
    /\ Forall (fun e => In e targets) news
    /\ OUTPUT_JSON (World.files w') = OUTPUT_JSON (World.files w)
    /\ match targets with
       | [] => ml' = ml /\ news = [] /\ World.files w' = World.files w
       | t0 :: ts =>
           exists now,
             CHECKPOINT_FILE (World.files w')
             = Doc {| timestamp := now;
                      current_index := index (last ts t0) + 1;
                      total_institutions := len names;
                      facilities_collected := len ml';
                      institution_names := names;
                      empty_institutions
                      := filter (fun e => negb (str_eqb (name e)
                                                  (name (last ts t0))))
                           old_empty;
                      data := ml' |}
       end.
Proof.
  induction targets as [|t ts IH]; intros extra names old_empty ml still w.
  - exists ml, [], w. cbn [_revisit_targets]. rewrite app_nil_r.
    split; [reflexivity|]. split; [reflexivity|].
    split; [apply Forall_forall; auto|]. repeat split. constructor.
  - cbn [_revisit_targets].
    destruct (revisit_one_run extra names old_empty t ml still w)
      as (fetched & news1 & now & w1 & Er & Hf & Hn & Fs).
    rewrite (bind_ret_eq _ _ _ _ _ Er). cbv beta iota.
    destruct (IH extra names old_empty
                (filter (other_institution (name t)) ml ++ fetched)
                (still ++ news1) w1)
      as (ml' & news & w' & Er' & Hfil & Hall & Hnews & Ho & Hc).
    exists ml', (news1 ++ news), w'.
    split; [now rewrite app_assoc|]. split; [|split; [|split; [|split]]].
    + cbn [map]. unfold Watch.apart. cbn [forallb].
      fold (Watch.apart (map name ts)).
      rewrite !(filter_andb (other_institution (name t))
                  (Watch.apart (map name ts))).
      rewrite Hfil, filter_app, filter_app.
      rewrite (filter_none (mine (name t)) (other_institution (name t))
                 (filter (Watch.apart (map name ts)) fetched)).
      * rewrite app_nil_r, (filter_swap (Watch.apart (map name ts))).
        now rewrite filter_twice.
      * intros x Hx. exact Hx.
      * now apply Forall_filter.
    + eapply Forall_impl; [|exact Hall]. intros r [Hin | (t' & Ht' & Hm)].
      * apply in_app_or in Hin. destruct Hin as [Hin | Hin].
        -- left. apply filter_In in Hin. tauto.
        -- right. exists t. split; [now left|].
           rewrite Forall_forall in Hf. now apply Hf.
      * right. exists t'. split; [now right | exact Hm].
    + apply Forall_app. split.
      * destruct Hn as [-> | ->]; [constructor|].
        constructor; [now left | constructor].
      * eapply Forall_impl; [|exact Hnews]. intros e He. now right.
    + rewrite Ho, Fs. reflexivity.
    + destruct ts as [|t1 ts'].
      * destruct Hc as (-> & _ & Hfw). exists now. rewrite Hfw, Fs.
        reflexivity.
      * destruct Hc as (now' & Hc). exists now'.
        rewrite (last_cons_default ts' t1 t). exact Hc.
Qed.

(** [_revisit_targets] returns; the records of the institutions that are
    not re-visited stay as they were, in the same order; every record of
    the collection afterwards was there before or carries the name of a
    re-visited institution; and the entries it returns as still empty are
    among the targets. *)
Theorem revisit_spares_other_institutions :
  forall targets extra names old_empty master_list (w : world files),
    exists master_list' still_empty w',
      _revisit_targets (200 + extra) master_list targets names old_empty []
        w
      = (Ret (master_list', still_empty), w')
      /\ filter (Watch.apart (map name targets)) master_list'
         = filter (Watch.apart (map name targets)) master_list
      /\ Forall (fun r => In r master_list
                          \/ exists t, In t targets /\ mine (name t) r)
           master_list'
      /\ Forall (fun e => In e targets) still_empty.
Proof.
  intros targets extra names old_empty ml w.
  destruct (revisit_targets_ledger targets extra names old_empty ml [] w)
    as (ml' & news & w' & Er & H1 & H2 & H3 & _).
  exists ml', news, w'. repeat split; assumption.
Qed.

(** The checkpoint that a re-visit leaves: its [current_index] is the
    position after the last target, not the position the main loop had
    reached, and its [empty_institutions] is the list of before the
    re-visit without the entries that carry the name of the last target
    (the other targets are still in it, whatever their re-visit gave). *)
Theorem revisit_rewrites_checkpoint :
  forall t ts extra names old_empty master_list (w : world files),
    exists master_list' still_empty w' now,
      _revisit_targets (200 + extra) master_list (t :: ts) names old_empty
        [] w
      = (Ret (master_list', still_empty), w')
      /\ World.files w'
         = {| CHECKPOINT_FILE :=
                Doc {| timestamp := now;
                       current_index := index (last ts t) + 1;
                       total_institutions := len names;
                       facilities_collected := len master_list';
                       institution_names := names;
                       empty_institutions
                       := filter (fun e => negb (str_eqb (name e)
                                                   (name (last ts t))))
                            old_empty;
                       data := master_list' |};
              OUTPUT_JSON := OUTPUT_JSON (World.files w) |}.
Proof.
  intros t ts extra names old_empty ml w.
  destruct (revisit_targets_ledger (t :: ts) extra names old_empty ml [] w)
    as (ml' & news & w' & Er & _ & _ & _ & Ho & (now & Hc)).
  exists ml', news, w', now. split; [exact Er|].
  destruct (World.files w') as [cpf outf]. cbn in *. now subst.
Qed.

End Phase3Disk.

(* ================================================================== *)
(** * The ledger of the enrichment loops                                *)
(* ================================================================== *)

Section WatchFacts.
Import World Watch.

Lemma visited_app a b : visited (a ++ b) = visited a ++ visited b.
Proof. unfold visited. apply flat_map_app. Qed.

Lemma off_page_visited n : forallb off_page n = true -> visited n = [].
Proof.
  induction n as [|e n IH]; [reflexivity|]. cbn [forallb].
  intros H. apply andb_true_iff in H. destruct H as [He Hn].
  change (visited (e :: n)) with (visit_of e ++ visited n).
  rewrite (IH Hn). destruct e as [[]|]; try reflexivity; discriminate.
Qed.

End WatchFacts.

Ltac count_visits :=
  rewrite ?visited_app;
  repeat match goal with
         | H : forallb Watch.off_page ?n = true |- _ =>
             rewrite (off_page_visited n H); clear H
         end;
  cbn [Watch.visited Watch.visit_of flat_map app].

Section Phase2Ledger.
Import PyStr Text Py World Observe Watch Phase2.
Context {E : Env}.
Local Open Scope Z_scope.

Lemma p2_save_checkpoint_off pd i errs :
  safe off_page (save_checkpoint pd i errs).
Proof. unfold save_checkpoint. run_auto. Qed.
Hint Resolve p2_save_checkpoint_off : runs.

(** The profile, when there is one, starts from the address of the
    expert. *)
Lemma extract_expert_source expert :
  ensures (fun prof => match prof with
                       | Some p => get (lit "Source_URL") p
                                   = Some (url_of expert)
                       | None => True
                       end)
    (extract_expert_full_profile expert).
Proof.
  unfold extract_expert_full_profile, url_of.
  destruct (get_or_empty (lit "Manage_URL") expert) as [|u] eqn:Hu;
    [now apply ensures_ret|].
  destruct (no_valid_url (PyStr u)); [now apply ensures_ret|].
  value_auto; [reflexivity | exact I].
Qed.

(** With a usable address, the extraction opens that page and no other. *)
Lemma extract_expert_visit expert (w : world files) :
  no_valid_url (url_of expert) = false ->
  exists u prof w1 n,
    url_of expert = PyStr u
    /\ extract_expert_full_profile expert w = (Ret prof, w1)
    /\ trace w1 = trace w ++ n
    /\ visited n = [u].
Proof.
  unfold extract_expert_full_profile, url_of. intros Hu.
  destruct (get_or_empty (lit "Manage_URL") expert) as [|u]; [discriminate|].
  rewrite Hu. exists u.
  unfold try_except, bind, sel, ask.
  destruct (browser (DetailPage u) (ext w)) as [[e|sections] s1].
  - cbn. do 3 eexists. repeat split.
  - cbn [ext]. destruct (operator Now s1) as [now s2]. cbn.
    do 3 eexists. split; [reflexivity|]. split; [reflexivity|].
    split; [rewrite <- app_assoc; reflexivity | reflexivity].
Qed.

(** The loop over the experts: for each item, in order, a profile or an
    entry of the error list. *)
Lemma experts_loop_outcomes : forall items total pd errs,
  ensures (fun r => exists os,
             r = (pd ++ profiles_of os, errs ++ errors_of os)
             /\ Forall2 expert_outcome items os)
    (experts_loop total items pd errs).
Proof.
  induction items as [|[i expert] items IH]; intros total pd errs;
    cbn [experts_loop].
  - apply ensures_ret. exists []. cbn. rewrite !app_nil_r.
    split; [reflexivity | constructor].
  - apply ensures_bind. intros _.
    destruct (no_valid_url (get_or_empty (lit "Manage_URL") expert)) eqn:Hu.
    + eapply ensures_weaken; [|apply IH]. cbv beta.
      intros r (os & -> & HF).
      eexists (inr _ :: os). cbn [profiles_of errors_of flat_map app].
      fold (profiles_of os). fold (errors_of os).
      rewrite <- app_assoc. split; [reflexivity|].
      constructor; [|exact HF]. cbn. repeat split. left. repeat split.
      exact Hu.
    + apply (ensures_bind_with
               (fun prof => match prof with
                            | Some p => get (lit "Source_URL") p
                                        = Some (url_of expert)
                            | None => True
                            end)); [apply extract_expert_source|].
      intros [p|] Hp; cbv beta iota;
        do 3 (apply ensures_bind; intros ?);
        (eapply ensures_weaken; [|apply IH]); cbv beta;
        intros r (os & -> & HF).
      * exists (inl p :: os). cbn [profiles_of errors_of flat_map app].
        fold (profiles_of os). fold (@errors_of record error_entry os).
        rewrite <- app_assoc. split; [reflexivity|].
        constructor; [|exact HF]. split; [exact Hu | exact Hp].
      * eexists (inr _ :: os). cbn [profiles_of errors_of flat_map app].
        fold (profiles_of os). fold (errors_of os).
        rewrite <- app_assoc. split; [reflexivity|].
        constructor; [|exact HF]. cbn. repeat split. right. repeat split.
        exact Hu.
Qed.

(** The loop over the experts opens the pages of the items that have a
    usable address, in order, and no other page. *)
Lemma experts_loop_visits : forall items total pd errs w,
  exists r w' new,
    experts_loop total items pd errs w = (Ret r, w')
    /\ trace w' = trace w ++ new
    /\ visited new = due_visits items.
Proof.
  induction items as [|[i expert] items IH]; intros total pd errs w.
  - exists (pd, errs), w, []. cbn. now rewrite app_nil_r.
  - cbn [experts_loop]. unfold due_visits. cbn [flat_map fst snd].
    fold (due_visits items).
    run_bind_for off_page.
    destruct (no_valid_url (get_or_empty (lit "Manage_URL") expert)) eqn:Hu.
    + match goal with
      | |- context [experts_loop _ _ ?d ?e ?wc] =>
          destruct (IH total d e wc) as (r & w' & new & Er & Tr & Hv)
      end.
      exists r, w'. eexists. split; [exact Er|]. split; [trace_chain|].
      count_visits. rewrite Hv.
      destruct (get_or_empty (lit "Manage_URL") expert); [reflexivity|].
      now rewrite Hu.
    + destruct (extract_expert_visit expert w0 Hu)
        as (u & prof & w1 & n & Hurl & Ex & Tx & Vx).
      rewrite (bind_ret_eq _ _ _ _ _ Ex).
      unfold url_of in Hurl. rewrite Hurl in *. rewrite Hu.
      destruct prof as [p|]; cbv beta iota;
        run_bind_for off_page; run_bind_for off_page; run_bind_for off_page;
        match goal with
        | |- context [experts_loop _ _ ?d ?e ?wc] =>
            destruct (IH total d e wc) as (r & w' & new & Er & Tr & Hv)
        end;
        exists r, w'; eexists; (split; [exact Er|]);
        (split; [trace_chain|]);
        count_visits; rewrite Vx, Hv; reflexivity.
Qed.

End Phase2Ledger.

Section Phase6Ledger.
Import PyStr Text Py World Observe Watch Phase6.
Context {E : Env}.
Local Open Scope Z_scope.

Lemma p6_save_checkpoint_off pd i errs total :
  safe off_page (save_checkpoint pd i errs total).
Proof. unfold save_checkpoint. run_auto. Qed.
Hint Resolve p6_save_checkpoint_off : runs.

Lemma extract_organization_source org :
  ensures (fun prof => match prof with
                       | Some p => get (lit "Source_URL") p
                                   = Some (url_of org)
                       | None => True
                       end)
    (extract_organization_full_profile org).
Proof.
  unfold extract_organization_full_profile, url_of.
  destruct (get_or_empty (lit "Manage_URL") org) as [|u] eqn:Hu;
    [now apply ensures_ret|].
  destruct (no_valid_url (PyStr u)); [now apply ensures_ret|].
  value_auto; [reflexivity | exact I].
Qed.

Lemma extract_organization_visit org (w : world files) :
  no_valid_url (url_of org) = false ->
  exists u prof w1 n,
    url_of org = PyStr u
    /\ extract_organization_full_profile org w = (Ret prof, w1)
    /\ trace w1 = trace w ++ n
    /\ visited n = [u]
    /\ World.files w1 = World.files w.
Proof.
  unfold extract_organization_full_profile, url_of. intros Hu.
  destruct (get_or_empty (lit "Manage_URL") org) as [|u]; [discriminate|].
  rewrite Hu. exists u.
  unfold try_except, bind, sel, ask.
  destruct (browser (DetailPage u) (ext w)) as [[e|sections] s1].
  - cbn. do 3 eexists. repeat split.
  - cbn [ext]. destruct (operator Now s1) as [now s2]. cbn.
    do 3 eexists. split; [reflexivity|]. split; [reflexivity|].
    split; [rewrite <- app_assoc; reflexivity | split; reflexivity].
Qed.

(** When no address is [null] the loop gets to every item and finishes
    it; otherwise it finishes the items before the first such one. *)
Lemma finished_all items :
  Forall (fun it => url_of (snd it) <> PyNone) items ->
  finished items = items /\ reached items = items
  /\ ending items = Completed.
Proof.
  induction 1 as [|it items Hit _ IH]; [repeat split|].
  cbn [finished reached ending]. destruct (url_of (snd it)); [congruence|].
  destruct IH as (-> & -> & ->). repeat split.
Qed.

Lemma finished_until done i org rest :
  Forall (fun it => url_of (snd it) <> PyNone) done ->
  url_of org = PyNone ->
  finished (done ++ (i, org) :: rest) = done
  /\ reached (done ++ (i, org) :: rest) = done ++ [(i, org)]
  /\ ending (done ++ (i, org) :: rest) = TypeErrorAt i.
Proof.
  intros Hd Ho. induction Hd as [|it done Hit _ IH].
  - cbn [app finished reached ending snd fst]. rewrite Ho. repeat split.
  - cbn [app finished reached ending].
    destruct (url_of (snd it)); [congruence|].
    destruct IH as (-> & -> & ->). repeat split.
Qed.

Lemma orgs_loop_outcomes : forall items total pd errs,
  ensures (fun r => exists os,
             r = (pd ++ profiles_of os, errs ++ errors_of os, ending items)
             /\ Forall2 organization_outcome (finished items) os)
    (orgs_loop total items pd errs).
Proof.
  induction items as [|[i org] items IH]; intros total pd errs;
    cbn [orgs_loop finished ending fst snd].
  - apply ensures_ret. exists []. cbn. rewrite !app_nil_r.
    split; [reflexivity | constructor].
  - apply ensures_bind. intros _. unfold url_of at 1 2.
    destruct (get_or_empty (lit "Manage_URL") org) as [|u] eqn:Hget.
    { apply ensures_ret. exists []. cbn. rewrite !app_nil_r.
      split; [reflexivity | constructor]. }
    assert (Hurl : url_of org = PyStr u) by exact Hget.
    destruct (no_valid_url (PyStr u)) eqn:Hu.
    + apply ensures_bind. intros now. apply ensures_bind. intros _.
      eapply ensures_weaken; [|apply IH]. cbv beta.
      intros r (os & -> & HF).
      eexists (inr _ :: os). cbn [profiles_of errors_of flat_map app].
      fold (profiles_of os). fold (errors_of os).
      rewrite <- app_assoc. split; [reflexivity|].
      constructor; [|exact HF]. cbn. repeat split. left. repeat split.
      cbn [snd]. now rewrite Hurl.
    + apply (ensures_bind_with
               (fun prof => match prof with
                            | Some p => get (lit "Source_URL") p
                                        = Some (url_of org)
                            | None => True
                            end)); [apply extract_organization_source|].
      intros [p|] Hp.
      * apply (ensures_bind_with (fun r => r = (pd ++ [p], errs)));
          [now apply ensures_ret|].
        intros r ->. cbv beta iota.
        do 3 (apply ensures_bind; intros ?).
        eapply ensures_weaken; [|apply IH]. cbv beta.
        intros r (os & -> & HF).
        exists (inl p :: os). cbn [profiles_of errors_of flat_map app].
        fold (profiles_of os). fold (@errors_of record error_entry os).
        rewrite <- app_assoc. split; [reflexivity|].
        constructor; [|exact HF]. split; [|exact Hp].
        cbn [snd]. now rewrite Hurl.
      * apply (ensures_bind_with
                 (fun r => exists e, r = (pd, errs ++ [e])
                                     /\ organization_error_for (i, org) e)).
        { apply ensures_bind. intros now. apply ensures_ret.
          eexists. split; [reflexivity|]. cbn. repeat split.
          right. cbn [snd]. rewrite Hurl. repeat split. exact Hu. }
        intros r (e & -> & He). cbv beta iota.
        do 3 (apply ensures_bind; intros ?).
        eapply ensures_weaken; [|apply IH]. cbv beta.
        intros r (os & -> & HF).
        exists (inr e :: os). cbn [profiles_of errors_of flat_map app].
        fold (profiles_of os). fold (errors_of os).
        rewrite <- app_assoc. split; [reflexivity|].
        constructor; [exact He | exact HF].
Qed.

(** What [save_checkpoint] leaves on disk. *)
Lemma p6_save_checkpoint_run pd i errs total (w : world files) :
  exists now w1,
    save_checkpoint pd i errs total w = (Ret tt, w1)
    /\ trace w1 = trace w ++ [Hst Now]
    /\ World.files w1
       = {| INPUT_FILE := INPUT_FILE (World.files w);
            CHECKPOINT_FILE :=
              Doc {| cp_timestamp := now; current_index := i;
                     total_organizations := total;
                     organizations_processed := len pd;
                     errors_count := len errs; data := pd |};
            ERROR_LOG_FILE := Doc errs;
            OUTPUT_FILE := OUTPUT_FILE (World.files w) |}.
Proof.
  unfold save_checkpoint, bind, ask, write_files.
  destruct (operator Now (ext w)) as [now s]. cbn.
  exists now. eexists. repeat split.
Qed.

(** The loop over the organizations: the pages it opens and what it
    leaves on disk. *)
Lemma orgs_loop_ledger : forall items total pd errs w,
  exists pd' errs' w' new,
    orgs_loop total items pd errs w = (Ret (pd', errs', ending items), w')
    /\ trace w' = trace w ++ new
    /\ visited new = due_visits (finished items)
    /\ INPUT_FILE (World.files w') = INPUT_FILE (World.files w)
    /\ OUTPUT_FILE (World.files w') = OUTPUT_FILE (World.files w)
    /\ match finished items with
       | [] => pd' = pd /\ errs' = errs /\ World.files w' = World.files w
       | _ =>
           exists now,
             CHECKPOINT_FILE (World.files w')
             = Doc {| cp_timestamp := now;
                      current_index
                      := fst (last (finished items) (0, [])) + 1;
                      total_organizations := total;
                      organizations_processed := len pd';
                      errors_count := len errs';
                      data := pd' |}
             /\ ERROR_LOG_FILE (World.files w') = Doc errs'
       end.
Proof.
  induction items as [|[i org] items IH]; intros total pd errs w.
  - exists pd, errs, w, []. cbn. rewrite app_nil_r. repeat split.
  - cbn [orgs_loop finished ending fst snd]. unfold url_of.
    destruct (get_or_empty (lit "Manage_URL") org) as [|u0] eqn:Hget.
    { run_kept off_page (fun f : files => f). cbv beta in *.
      exists pd, errs, w0. eexists. split; [reflexivity|].
      split; [exact T|]. split; [reflexivity|].
      split; [now rewrite Kf|]. split; [now rewrite Kf|].
      repeat split. exact Kf. }
    unfold due_visits. cbn [flat_map fst snd].
    fold (due_visits (finished items)). rewrite Hget.
    assert (Hstep : forall pd1 errs1 wc n1 v1 (tail : M files unit),
      World.files wc = World.files w ->
      trace wc = trace w ++ n1 -> visited n1 = v1 ->
      safe off_page tail -> keeps (fun f : files => f) tail ->
      exists pd' errs' w' new,
        (save_checkpoint pd1 (i + 1) errs1 total ;;
         (tail ;; orgs_loop total items pd1 errs1))%py wc
        = (Ret (pd', errs', ending items), w')
        /\ trace w' = trace w ++ new
        /\ visited new = v1 ++ due_visits (finished items)
        /\ INPUT_FILE (World.files w') = INPUT_FILE (World.files w)
        /\ OUTPUT_FILE (World.files w') = OUTPUT_FILE (World.files w)
        /\ exists now,
             CHECKPOINT_FILE (World.files w')
             = Doc {| cp_timestamp := now;
                      current_index
                      := fst (last ((i, org) :: finished items) (0, [])) + 1;
                      total_organizations := total;
                      organizations_processed := len pd';
                      errors_count := len errs';
                      data := pd' |}
             /\ ERROR_LOG_FILE (World.files w') = Doc errs').
    { intros pd1 errs1 wc n1 v1 tail Hf Ht Hv1 St Kt.
      destruct (p6_save_checkpoint_run pd1 (i + 1) errs1 total wc)
        as (now & wd & Es & Ts & Fs).
      rewrite (bind_ret_eq _ _ _ _ _ Es).
      destruct (run_both (fun f : files => f) off_page tail St Kt wd)
        as ([] & we & Ee & Ke & ne & Te & Pe).
      rewrite (bind_ret_eq _ _ _ _ _ Ee). cbv beta in *.
      destruct (IH total pd1 errs1 we)
        as (pd' & errs' & w' & new & Er & Tr & Hv & Hi & Ho & Hc).
      exists pd', errs', w'. exists (n1 ++ [Hst Now] ++ ne ++ new).
      split; [exact Er|]. split.
      { rewrite Tr, Te, Ts, Ht. rewrite <- !app_assoc. reflexivity. }
      split.
      { rewrite !visited_app, (off_page_visited ne Pe), Hv1, Hv.
        reflexivity. }
      split; [rewrite Hi, Ke, Fs; cbn; now rewrite Hf|].
      split; [rewrite Ho, Ke, Fs; cbn; now rewrite Hf|].
      destruct (finished items) as [|it items'].
      - destruct Hc as (-> & -> & Hfw). exists now.
        rewrite Hfw, Ke, Fs. split; reflexivity.
      - destruct Hc as (now' & Hc). exists now'. exact Hc. }
    run_kept off_page (fun f : files => f). cbv beta in *.
    destruct (no_valid_url (PyStr u0)) eqn:Hu.
    + run_kept off_page (fun f : files => f). cbv beta in *.
      match goal with
      | |- context [bind (save_checkpoint ?d _ ?e _) _ ?wc] =>
          destruct (Hstep d e wc
                      ([Hst (Print (ItemHeader (i + 1) total
                          (get_or_unknown (lit "Organization_Name") org)))]
                       ++ n) [] (ret tt))
            as (pd' & errs' & w' & new & Er & Tr & Hv & Hrest);
          [congruence
          | rewrite T0, T; now rewrite <- app_assoc
          | rewrite visited_app, (off_page_visited n P); reflexivity
          | apply safe_ret | apply keeps_ret |]
      end.
      exists pd', errs', w', new.
      split; [exact Er|]. split; [exact Tr|]. split; [|exact Hrest].
      rewrite Hv. reflexivity.
    + assert (Hu' : no_valid_url (url_of org) = false)
        by (unfold url_of; now rewrite Hget).
      destruct (extract_organization_visit org w0 Hu')
        as (u & prof & w1 & n & Hurl & Ex & Tx & Vx & Fx).
      rewrite (bind_ret_eq _ _ _ _ _ Ex).
      unfold url_of in Hurl. rewrite Hget in Hurl.
      injection Hurl as <-.
      assert (Htail : forall pd1 errs1 wc n1,
        World.files wc = World.files w ->
        trace wc = trace w1 ++ n1 ->
        forallb off_page n1 = true ->
        exists pd' errs' w' new,
          (save_checkpoint pd1 (i + 1) errs1 total ;;
           (if ((i + 1) mod BATCH_SIZE =? 0) && (i + 1 <? total)
            then sleep BATCH_PAUSE else ret tt) ;;
           sleep BETWEEN_ORGS_DELAY ;;
           orgs_loop total items pd1 errs1)%py wc
          = (Ret (pd', errs', ending items), w')
          /\ trace w' = trace w ++ new
          /\ visited new = [u0] ++ due_visits (finished items)
          /\ INPUT_FILE (World.files w') = INPUT_FILE (World.files w)
          /\ OUTPUT_FILE (World.files w') = OUTPUT_FILE (World.files w)
          /\ exists now,
               CHECKPOINT_FILE (World.files w')
               = Doc {| cp_timestamp := now;
                        current_index
                        := fst (last ((i, org) :: finished items) (0, [])) + 1;
                        total_organizations := total;
                        organizations_processed := len pd';
                        errors_count := len errs';
                        data := pd' |}
               /\ ERROR_LOG_FILE (World.files w') = Doc errs').
      { intros pd1 errs1 wc n1 Hf Ht Pn.
        destruct (Hstep pd1 errs1 wc
                    ([Hst (Print (ItemHeader (i + 1) total
                        (get_or_unknown (lit "Organization_Name") org)))]
                     ++ n ++ n1) [u0]
                    ((if ((i + 1) mod BATCH_SIZE =? 0) && (i + 1 <? total)
                      then sleep BATCH_PAUSE else ret tt) ;;
                     sleep BETWEEN_ORGS_DELAY)%py)
          as (pd' & errs' & w' & new & Er & Tr & Hv & Hrest);
          [exact Hf
          | rewrite Ht, Tx, T; now rewrite <- !app_assoc
          | cbn [app visited flat_map visit_of];
            fold (visited (n ++ n1));
            rewrite visited_app, Vx, (off_page_visited n1 Pn); reflexivity
          | run_auto | keep_auto |].
        exists pd', errs', w', new.
        split; [|split; [exact Tr | split; [exact Hv | exact Hrest]]].
        rewrite <- Er. unfold bind.
        destruct (save_checkpoint pd1 (i + 1) errs1 total wc)
          as [[[]|e|] wx]; try reflexivity.
        destruct ((if ((i + 1) mod BATCH_SIZE =? 0) && (i + 1 <? total)
                   then sleep BATCH_PAUSE else ret tt) wx)
          as [[[]|e|] wy]; reflexivity. }
      destruct prof as [p|].
      * rewrite (bind_ret_eq (ret (pd ++ [p], errs)) _ w1 _ w1 eq_refl).
        cbv beta iota. apply (Htail _ _ w1 []); [congruence| |reflexivity].
        now rewrite app_nil_r.
      * run_kept off_page (fun f : files => f). cbv beta in *.
        destruct a as [pd1 errs1]. cbv beta iota.
        apply (Htail _ _ _ n0); [congruence | exact T0 | exact P].
Qed.

End Phase6Ledger.

Section EnrichmentFacts.
Import PyStr Text Py World Observe Watch.
Context {E : Env}.
Local Open Scope Z_scope.

(** In the loop of Phase 2 every item, in order, gives exactly one
    profile or one entry of the error list.  An item without a usable
    [Manage_URL] always gives the entry ["No valid Manage URL"]; an item
    with one gives a profile whose [Source_URL] is that address, or the
    entry ["Extraction failed"] with the address.  The loop only appends
    to the profiles and the errors it was given.  The loop of Phase 6
    does the same with the items before the first one whose [Manage_URL]
    is [null]: that one ends the loop with the [TypeError] of [len(url)]
    and gives no profile and no entry, and the items after it are not
    looked at.  With no such item it finishes every item. *)
Theorem enrichment_loops_account_for_every_item :
  (forall items total processed_data errors (w : world Phase2.files),
     exists outcomes,
       fst (Phase2.experts_loop total items processed_data errors w)
       = Ret (processed_data ++ profiles_of outcomes,
              errors ++ errors_of outcomes)
       /\ Forall2 expert_outcome items outcomes)
  /\ (forall items total processed_data errors (w : world Phase6.files),
     exists outcomes,
       fst (Phase6.orgs_loop total items processed_data errors w)
       = Ret (processed_data ++ profiles_of outcomes,
              errors ++ errors_of outcomes, ending items)
       /\ Forall2 organization_outcome (finished items) outcomes)
  /\ (forall items,
        Forall (fun it => url_of (snd it) <> PyNone) items ->
        finished items = items /\ ending items = Phase6.Completed)
  /\ (forall done i org rest,
        Forall (fun it => url_of (snd it) <> PyNone) done ->
        url_of org = PyNone ->
        finished (done ++ (i, org) :: rest) = done
        /\ ending (done ++ (i, org) :: rest) = Phase6.TypeErrorAt i).
Proof.
  split; [|split; [|split]].
  - intros items total pd errs w.
    destruct (experts_loop_visits items total pd errs w)
      as (r & w' & new & Er & _).
    destruct (experts_loop_outcomes items total pd errs _ _ _ Er)
      as (os & -> & HF).
    exists os. rewrite Er. split; [reflexivity | exact HF].
  - intros items total pd errs w.
    destruct (orgs_loop_ledger items total pd errs w)
      as (pd' & errs' & w' & new & Er & _).
    destruct (orgs_loop_outcomes items total pd errs _ _ _ Er)
      as (os & Hr & HF).
    exists os. rewrite Er. split; [cbn [fst]; now rewrite Hr | exact HF].
  - intros items H. destruct (finished_all items H) as (Hf & _ & He).
    now split.
  - intros done i org rest Hd Ho.
    destruct (finished_until done i org rest Hd Ho) as (Hf & _ & He).
    now split.
Qed.

(** The detail pages that the loops of Phases 2 and 6 open are those of
    the items with a usable [Manage_URL], each once and in the order of
    the list: they never open the address of an item whose [Manage_URL]
    is missing, empty or ["Not Found"].  Phase 6 opens those of the items
    before the first one whose [Manage_URL] is [null], and no page after
    that. *)
Theorem enrichment_loops_open_the_due_pages :
  (forall items total processed_data errors (w : world Phase2.files),
     exists r w' new,
       Phase2.experts_loop total items processed_data errors w = (Ret r, w')
       /\ trace w' = trace w ++ new
       /\ visited new = due_visits items)
  /\ (forall items total processed_data errors (w : world Phase6.files),
     exists r w' new,
       Phase6.orgs_loop total items processed_data errors w = (Ret r, w')
       /\ trace w' = trace w ++ new
       /\ visited new = due_visits (finished items)).
Proof.
  split.
  - exact experts_loop_visits.
  - intros items total pd errs w.
    destruct (orgs_loop_ledger items total pd errs w)
      as (pd' & errs' & w' & new & Er & Tr & Hv & _).
    now exists (pd', errs', ending items), w', new.
Qed.

Lemma Forall2_length_sum {A B C} (R : A -> B + C -> Prop) items os :
  Forall2 R items os ->
  (List.length (profiles_of os) + List.length (errors_of os))%nat
  = List.length items.
Proof.
  induction 1 as [|it o items os _ _ IH]; [reflexivity|].
  cbn [profiles_of errors_of flat_map].
  fold (profiles_of os). fold (errors_of os).
  rewrite !length_app. destruct o; cbn [List.length]; lia.
Qed.

(** Phase 6 saves its checkpoint after every item it finishes.  After
    the loop over the organizations, when it has finished one item at
    least (the first one has a [Manage_URL] that is not [null]), the
    checkpoint and the error log on disk are the state of the loop: the
    profiles and the errors returned, and the position after the last
    item finished; the input and the output files are as before; and
    the profiles and the errors have grown, together, by the number of
    items finished. *)
Theorem phase6_checkpoint_after_loop :
  forall items total processed_data errors (w : world Phase6.files),
    finished items <> [] ->
    exists processed_data' errors' w' now,
      Phase6.orgs_loop total items processed_data errors w
      = (Ret (processed_data', errors', ending items), w')
      /\ files w'
         = {| Phase6.INPUT_FILE := Phase6.INPUT_FILE (files w);
              Phase6.CHECKPOINT_FILE :=
                Doc {| Phase6.cp_timestamp := now;
                       Phase6.current_index
                       := fst (last (finished items) (0, [])) + 1;
                       Phase6.total_organizations := total;
                       Phase6.organizations_processed := len processed_data';
                       Phase6.errors_count := len errors';
                       Phase6.data := processed_data' |};
              Phase6.ERROR_LOG_FILE := Doc errors';
              Phase6.OUTPUT_FILE := Phase6.OUTPUT_FILE (files w) |}
      /\ len processed_data' + len errors'
         = len processed_data + len errors + len (finished items).
Proof.
  intros items total pd errs w Hne.
  destruct (orgs_loop_ledger items total pd errs w)
    as (pd' & errs' & w' & new & Er & _ & _ & Hi & Ho & Hc).
  destruct (orgs_loop_outcomes _ total pd errs _ _ _ Er)
    as (os & [= -> ->] & HF).
  pose proof (Forall2_length_sum _ _ _ HF) as Hl.
  destruct (finished items) as [|it done]; [congruence|].
  destruct Hc as (now & Hc & He).
  eexists _, _, w', now. split; [exact Er|]. split.
  - destruct (files w') as [inf cpf errf outf]. cbn in *. now subst.
  - unfold len. rewrite !length_app. cbn [List.length] in *. lia.
Qed.

End EnrichmentFacts.

(* ================================================================== *)
(** * The runs of the enrichment phases                                 *)
(* ================================================================== *)

Section Phase2Main.
Import PyStr Text Py World Observe Watch Phase2.
Context {E : Env}.
Local Open Scope Z_scope.

Lemma experts_loop_returns total items pd errs :
  safe any_event (experts_loop total items pd errs).
Proof.
  intros w. destruct (experts_loop_visits items total pd errs w)
    as (r & w' & new & Er & Tr & _).
  exists r, w', new. repeat split; trivial.
  apply forallb_forall. reflexivity.
Qed.
Hint Resolve experts_loop_returns : runs.

(** The state of the browser after a call that succeeds. *)
Lemma sel_run_state (c : selenium) (w : world files) v s1 :
  browser c (ext w) = (inr v, s1) ->
  sel c w = (Ret v, {| ext := s1; trace := trace w ++ [Sel c];
                       World.files := World.files w |}).
Proof. unfold sel. now intros ->. Qed.

Lemma sel_run_raise (c : selenium) (w : world files) e :
  fst (browser c (ext w)) = inl e ->
  exists w1, sel c w = (Raise e, w1) /\ World.files w1 = World.files w.
Proof.
  unfold sel. destruct (browser c (ext w)) as [r s1]. cbn [fst].
  intros ->. eexists. split; reflexivity.
Qed.

Lemma p2_extract_keeps {V} (view : files -> V) expert :
  keeps view (extract_expert_full_profile expert).
Proof. unfold extract_expert_full_profile. keep_auto. Qed.

Lemma p2_experts_loop_keeps_input : forall items total pd errs,
  keeps INPUT_FILE (experts_loop total items pd errs).
Proof.
  induction items as [|[i expert] items IH]; intros total pd errs;
    cbn [experts_loop].
  - apply keeps_ret.
  - unfold save_checkpoint.
    pose proof (p2_extract_keeps INPUT_FILE expert).
    keep_auto; trivial.
Qed.

Lemma p2_experts_loop_keeps_output : forall items total pd errs,
  keeps OUTPUT_FILE (experts_loop total items pd errs).
Proof.
  induction items as [|[i expert] items IH]; intros total pd errs;
    cbn [experts_loop].
  - apply keeps_ret.
  - unfold save_checkpoint.
    pose proof (p2_extract_keeps OUTPUT_FILE expert).
    keep_auto; trivial.
Qed.

Lemma p2_main_keeps_input : keeps INPUT_FILE main.
Proof.
  unfold main, load_master_list, resume_prompt, load_checkpoint, final_save,
    cleanup_checkpoint.
  pose proof p2_experts_loop_keeps_input.
  keep_auto; trivial.
Qed.

(** [main] of Phase 2 never changes the input list on disk, however it
    ends.  When the input list is missing, is not JSON or is empty, it
    returns at once: no prompt, no call to the browser, no file written.
    When the read of the input fails in another way, or when the browser
    does not start, the exception leaves [main], and no file has been
    written. *)
Theorem phase2_main_spares_the_input :
  (forall w : world files,
     INPUT_FILE (World.files (snd (main w))) = INPUT_FILE (World.files w))
  /\ (forall w : world files,
        (forall c l, INPUT_FILE (World.files w) <> Doc (c :: l)) ->
        INPUT_FILE (World.files w) <> Unreadable ->
        main w = (Ret tt, w))
  /\ (forall w : world files,
        INPUT_FILE (World.files w) = Unreadable ->
        main w = (Raise OtherException, w))
  /\ (forall (w : world files) c l e,
        INPUT_FILE (World.files w) = Doc (c :: l) ->
        fst (browser GetDriver (ext w)) = inl e ->
        fst (main w) = Raise e
        /\ World.files (snd (main w)) = World.files w).
Proof.
  split; [|split; [|split]].
  - exact p2_main_keeps_input.
  - intros w Hin Hun. unfold main, load_master_list, bind, read_files.
    destruct (INPUT_FILE (World.files w)) as [| | |[|c l]] eqn:Hf;
      try reflexivity; [congruence|].
    now destruct (Hin c l).
  - intros w Hun. unfold main, load_master_list, bind, read_files.
    now rewrite Hun.
  - intros w c l e Hin Hdrv. unfold main.
    rewrite (bind_ret_eq load_master_list _ w (Some (c :: l)) w).
    2:{ unfold load_master_list, bind, read_files. now rewrite Hin. }
    cbv beta iota.
    destruct (sel_run_raise GetDriver w e Hdrv) as (w1 & Es & F1).
    assert (Hm : forall (k : unit -> M files unit),
                   bind (sel GetDriver) k w = (Raise e, w1))
      by (intros k; unfold bind; now rewrite Es).
    rewrite Hm. split; [reflexivity | exact F1].
Qed.

(** A run of Phase 2 that starts without a checkpoint, on an input list
    that is not empty, the browser starting and the login page loading:
    every expert of the list, in order, gives one profile or one error;
    the output file holds the profiles, in order; the input is as before;
    with no error there is no checkpoint left at the end, and with errors
    the error log holds them. *)
Theorem phase2_fresh_run :
  forall master_list (w : world files) s1,
    INPUT_FILE (World.files w) = Doc master_list ->
    master_list <> [] ->
    CHECKPOINT_FILE (World.files w) = Absent ->
    browser GetDriver (ext w) = (inr tt, s1) ->
    fst (browser (Navigate LOGIN_URL) s1) = inr tt ->
    exists outcomes w',
      main w = (Ret tt, w')
      /\ Forall2 expert_outcome (loop_items master_list 0) outcomes
      /\ OUTPUT_FILE (World.files w') = Doc (profiles_of outcomes)
      /\ INPUT_FILE (World.files w') = Doc master_list
      /\ (errors_of outcomes = [] ->
          CHECKPOINT_FILE (World.files w') = Absent)
      /\ (errors_of outcomes <> [] ->
          ERROR_LOG_FILE (World.files w') = Doc (errors_of outcomes)).
Proof.
  intros ml w s1 Hin Hne Hcp Hdrv Hnav.
  destruct ml as [|c l]; [congruence|].
  unfold main.
  rewrite (bind_ret_eq load_master_list _ w (Some (c :: l)) w).
  2:{ unfold load_master_list, bind, read_files. now rewrite Hin. }
  cbv beta iota.
  rewrite (bind_ret_eq _ _ _ _ _ (sel_run_state GetDriver w tt s1 Hdrv)).
  set (w0 := {| ext := s1; trace := trace w ++ [Sel GetDriver];
                World.files := World.files w |}).
  rewrite (bind_ret_eq resume_prompt _ w0 ([], [], 0) w0).
  2:{ unfold resume_prompt, load_checkpoint, bind, read_files. cbn [World.files w0].
      now rewrite Hcp. }
  cbv beta iota. unfold try_except.
  destruct (sel_run_files (Navigate LOGIN_URL) w0 tt Hnav) as (w1 & Es & F1).
  rewrite (bind_ret_eq _ _ _ _ _ Es).
  destruct (ask_run_files Input w1) as (answer & w2 & Ea & F2).
  rewrite (bind_ret_eq _ _ _ _ _ Ea).
  match goal with
  | |- context [bind (experts_loop ?t ?its [] []) _ ?wc] =>
      destruct (experts_loop_visits its t [] [] wc)
        as (r & wl & new & Er & _);
      pose proof (p2_experts_loop_keeps_input its t [] [] wc) as Ki;
      pose proof (p2_experts_loop_keeps_output its t [] [] wc) as Ko;
      destruct (experts_loop_outcomes its t [] [] _ _ _ Er)
        as (os & -> & HF);
      rewrite Er in Ki, Ko; cbn [snd World.files] in Ki, Ko;
      rewrite (bind_ret_eq _ _ _ _ _ Er)
  end.
  cbn [app] in *. cbv beta iota.
  exists os.
  unfold final_save, cleanup_checkpoint, bind, write_files, read_files, ret.
  cbn [World.files INPUT_FILE OUTPUT_FILE CHECKPOINT_FILE ERROR_LOG_FILE].
  destruct (file_exists (CHECKPOINT_FILE (World.files wl))
            && (len (errors_of os) =? 0)) eqn:Hdel.
  - eexists. split; [reflexivity|]. cbn [World.files INPUT_FILE OUTPUT_FILE
                                          CHECKPOINT_FILE ERROR_LOG_FILE].
    split; [exact HF|]. split; [reflexivity|].
    split; [now rewrite Ki, F2, F1|]. split; [reflexivity|].
    intros Herr. destruct (errors_of os); [congruence | reflexivity].
  - eexists. split; [reflexivity|]. cbn [World.files INPUT_FILE OUTPUT_FILE
                                          CHECKPOINT_FILE ERROR_LOG_FILE].
    split; [exact HF|]. split; [reflexivity|].
    split; [now rewrite Ki, F2, F1|]. split.
    + intros Herr. rewrite Herr in Hdel. cbn in Hdel.
      rewrite andb_true_r in Hdel.
      now destruct (CHECKPOINT_FILE (World.files wl)).
    + intros Herr. destruct (errors_of os); [congruence | reflexivity].
Qed.

End Phase2Main.

Section Phase6Main.
Import PyStr Text Py World Observe Watch Phase6.
Context {E : Env}.
Local Open Scope Z_scope.

Lemma orgs_loop_returns total items pd errs :
  safe any_event (orgs_loop total items pd errs).
Proof.
  intros w. destruct (orgs_loop_ledger items total pd errs w)
    as (pd' & errs' & w' & new & Er & Tr & _).
  exists (pd', errs', ending items), w', new. repeat split; trivial.
  apply forallb_forall. reflexivity.
Qed.
Hint Resolve orgs_loop_returns : runs.

Lemma p6_extract_keeps {V} (view : files -> V) org :
  keeps view (extract_organization_full_profile org).
Proof. unfold extract_organization_full_profile. keep_auto. Qed.

Lemma p6_orgs_loop_keeps_input : forall items total pd errs,
  keeps INPUT_FILE (orgs_loop total items pd errs).
Proof.
  induction items as [|[i org] items IH]; intros total pd errs;
    cbn [orgs_loop].
  - apply keeps_ret.
  - unfold save_checkpoint.
    pose proof (p6_extract_keeps INPUT_FILE org).
    keep_auto; trivial.
Qed.

Lemma p6_main_keeps_input : keeps INPUT_FILE main.
Proof.
  unfold main, load_master_list, resume_prompt, load_checkpoint, final_save,
    cleanup_checkpoint, save_checkpoint.
  pose proof p6_orgs_loop_keeps_input.
  keep_auto; trivial.
Qed.

Lemma p6_sel_run_state (c : selenium) (w : world files) v s1 :
  browser c (ext w) = (inr v, s1) ->
  sel c w = (Ret v, {| ext := s1; trace := trace w ++ [Sel c];
                       World.files := World.files w |}).
Proof. unfold sel. now intros ->. Qed.

Lemma p6_sel_run_raise (c : selenium) (w : world files) e :
  fst (browser c (ext w)) = inl e ->
  exists w1, sel c w = (Raise e, w1) /\ World.files w1 = World.files w.
Proof.
  unfold sel. destruct (browser c (ext w)) as [r s1]. cbn [fst].
  intros ->. eexists. split; reflexivity.
Qed.

(** [main] of Phase 6 never changes the input list on disk, however it
    ends.  When the input list is missing, is not JSON or is empty, it
    returns at once: no prompt, no call to the browser, no file written.
    When the read of the input fails in another way, or when the browser
    does not start, the exception leaves [main], and no file has been
    written. *)
Theorem phase6_main_spares_the_input :
  (forall w : world files,
     INPUT_FILE (World.files (snd (main w))) = INPUT_FILE (World.files w))
  /\ (forall w : world files,
        (forall c l, INPUT_FILE (World.files w) <> Doc (c :: l)) ->
        INPUT_FILE (World.files w) <> Unreadable ->
        main w = (Ret tt, w))
  /\ (forall w : world files,
        INPUT_FILE (World.files w) = Unreadable ->
        main w = (Raise OtherException, w))
  /\ (forall (w : world files) c l e,
        INPUT_FILE (World.files w) = Doc (c :: l) ->
        fst (browser GetDriver (ext w)) = inl e ->
        fst (main w) = Raise e
        /\ World.files (snd (main w)) = World.files w).
Proof.
  split; [|split; [|split]].
  - exact p6_main_keeps_input.
  - intros w Hin Hun. unfold main, load_master_list, bind, read_files.
    destruct (INPUT_FILE (World.files w)) as [| | |[|c l]] eqn:Hf;
      try reflexivity; [congruence|].
    now destruct (Hin c l).
  - intros w Hun. unfold main, load_master_list, bind, read_files.
    now rewrite Hun.
  - intros w c l e Hin Hdrv. unfold main.
    rewrite (bind_ret_eq load_master_list _ w (Some (c :: l)) w).
    2:{ unfold load_master_list, bind, read_files. now rewrite Hin. }
    cbv beta iota.
    destruct (p6_sel_run_raise GetDriver w e Hdrv) as (w1 & Es & F1).
    assert (Hm : forall (k : unit -> M files unit),
                   bind (sel GetDriver) k w = (Raise e, w1))
      by (intros k; unfold bind; now rewrite Es).
    rewrite Hm. split; [reflexivity | exact F1].
Qed.

Lemma enumerate_last {A} (d : A) : forall (xs : list A) (x : A) k,
  fst (last (enumerate (x :: xs) k) (0, d)) + 1 = k + len (x :: xs).
Proof.
  induction xs as [|y xs IH]; intros x k.
  - cbn. unfold len. cbn. lia.
  - change (enumerate (x :: y :: xs) k)
      with ((k, x) :: enumerate (y :: xs) (k + 1)).
    change (last ((k, x) :: enumerate (y :: xs) (k + 1)) (0, d))
      with (last (enumerate (y :: xs) (k + 1)) (0, d)).
    rewrite IH. unfold len. cbn [List.length]. lia.
Qed.

Lemma loop_items_zero_last {A} (c : A) (l : list A) (d : A) :
  fst (last (loop_items (c :: l) 0) (0, d)) + 1 = len (c :: l).
Proof.
  unfold loop_items, slice_from. cbn [Z.ltb Z.compare Z.to_nat skipn].
  rewrite enumerate_last. lia.
Qed.

Lemma loop_items_zero {A} (xs : list A) : loop_items xs 0 = enumerate xs 0.
Proof. reflexivity. Qed.

Lemma enumerate_app {A} : forall (xs ys : list A) k,
  enumerate (xs ++ ys) k = enumerate xs k ++ enumerate ys (k + len xs).
Proof.
  induction xs as [|x xs IH]; intros ys k.
  - cbn. f_equal. unfold len. cbn. lia.
  - cbn [app enumerate]. rewrite IH. do 3 f_equal.
    unfold len. cbn [List.length]. lia.
Qed.

Lemma enumerate_length {A} : forall (xs : list A) k,
  List.length (enumerate xs k) = List.length xs.
Proof.
  induction xs as [|x xs IH]; intros k; [reflexivity|].
  cbn. f_equal. apply IH.
Qed.

Lemma enumerate_forall {A} (P : A -> Prop) : forall (xs : list A) k,
  Forall P xs -> Forall (fun it => P (snd it)) (enumerate xs k).
Proof.
  induction xs as [|x xs IH]; intros k H; [constructor|].
  inversion H; subst. constructor; [assumption | now apply IH].
Qed.

(** The start of a fresh run of Phase 6, up to the loop. *)
Lemma p6_fresh_start c l (w : world files) s1 :
  INPUT_FILE (World.files w) = Doc (c :: l) ->
  CHECKPOINT_FILE (World.files w) = Absent ->
  browser GetDriver (ext w) = (inr tt, s1) ->
  fst (browser (Navigate Phase2.LOGIN_URL) s1) = inr tt ->
  exists w2,
    World.files w2 = World.files w
    /\ main w
       = try_except
           ('(processed_data, errors, how) <-
               orgs_loop (len (c :: l)) (loop_items (c :: l) 0) [] [] ;;
            match how with
            | Completed =>
                final_save processed_data errors ;;
                cleanup_checkpoint processed_data errors (len (c :: l))
            | TypeErrorAt i =>
                save_checkpoint processed_data (i + 1) errors (len (c :: l))
            end)%py
           (fun _ => save_checkpoint [] 0 [] (len (c :: l))) w2.
Proof.
  intros Hin Hcp Hdrv Hnav. unfold main.
  rewrite (bind_ret_eq load_master_list _ w (Some (c :: l)) w).
  2:{ unfold load_master_list, bind, read_files. now rewrite Hin. }
  cbv beta iota zeta.
  rewrite (bind_ret_eq _ _ _ _ _ (p6_sel_run_state GetDriver w tt s1 Hdrv)).
  set (w0 := {| ext := s1; trace := trace w ++ [Sel GetDriver];
                World.files := World.files w |}).
  rewrite (bind_ret_eq resume_prompt _ w0 ([], [], 0) w0).
  2:{ unfold resume_prompt, load_checkpoint, bind, read_files.
      cbn [World.files w0]. now rewrite Hcp. }
  cbv beta iota. unfold try_except.
  destruct (sel_run_files (Navigate Phase2.LOGIN_URL) w0 tt Hnav)
    as (w1 & Es & F1).
  rewrite (bind_ret_eq _ _ _ _ _ Es).
  destruct (ask_run_files Input w1) as (answer & w2 & Ea & F2).
  rewrite (bind_ret_eq _ _ _ _ _ Ea).
  exists w2. split; [now rewrite F2, F1 | reflexivity].
Qed.

(** A run of Phase 6 that starts without a checkpoint, on an input list
    that is not empty and in which no [Manage_URL] is [null], the browser
    starting and the login page loading: every organization of the list,
    in order, gives one profile or one error; the output file holds the
    profiles, in order; the input is as before; with no error there is no
    checkpoint left at the end; with errors the checkpoint stays, with
    [current_index] the length of the list, and the error log holds the
    errors. *)
Theorem phase6_fresh_run :
  forall master_list (w : world files) s1,
    INPUT_FILE (World.files w) = Doc master_list ->
    master_list <> [] ->
    Forall (fun org => url_of org <> PyNone) master_list ->
    CHECKPOINT_FILE (World.files w) = Absent ->
    browser GetDriver (ext w) = (inr tt, s1) ->
    fst (browser (Navigate Phase2.LOGIN_URL) s1) = inr tt ->
    exists outcomes w',
      main w = (Ret tt, w')
      /\ Forall2 organization_outcome (loop_items master_list 0) outcomes
      /\ OUTPUT_FILE (World.files w') = Doc (profiles_of outcomes)
      /\ INPUT_FILE (World.files w') = Doc master_list
      /\ (errors_of outcomes = [] ->
          CHECKPOINT_FILE (World.files w') = Absent)
      /\ (errors_of outcomes <> [] ->
          ERROR_LOG_FILE (World.files w') = Doc (errors_of outcomes)
          /\ exists now,
               CHECKPOINT_FILE (World.files w')
               = Doc {| cp_timestamp := now;
                        current_index := len master_list;
                        total_organizations := len master_list;
                        organizations_processed
                        := len (profiles_of outcomes);
                        errors_count := len (errors_of outcomes);
                        data := profiles_of outcomes |}).
Proof.
  intros ml w s1 Hin Hne Hurls Hcp Hdrv Hnav.
  destruct ml as [|c l]; [congruence|].
  destruct (p6_fresh_start c l w s1 Hin Hcp Hdrv Hnav) as (w2 & F2 & ->).
  unfold try_except.
  destruct (finished_all (loop_items (c :: l) 0)
              (enumerate_forall (fun org => url_of org <> PyNone) _ 0 Hurls))
    as (Hfin & _ & Hend).
  destruct (orgs_loop_ledger (loop_items (c :: l) 0) (len (c :: l)) [] [] w2)
    as (pd' & errs' & wl & new & Er & _ & _ & Ki & Ko & Hc).
  destruct (orgs_loop_outcomes _ _ [] [] _ _ _ Er) as (os & Hr & HF).
  rewrite Hfin in Hc, HF. rewrite Hend in Er, Hr.
  injection Hr as -> ->.
  rewrite (bind_ret_eq _ _ _ _ _ Er).
  assert (Hitems : exists it its, loop_items (c :: l) 0 = it :: its).
  { unfold loop_items, slice_from. cbn. eauto. }
  destruct Hitems as (it & its & Hits).
  pose proof (loop_items_zero_last c l []) as Hlast.
  rewrite Hits in Hc, Hlast. destruct Hc as (now & Hc & He).
  assert (Hc' : CHECKPOINT_FILE (World.files wl)
                = Doc {| cp_timestamp := now;
                         current_index := len (c :: l);
                         total_organizations := len (c :: l);
                         organizations_processed := len (profiles_of os);
                         errors_count := len (errors_of os);
                         data := profiles_of os |}).
  { rewrite Hc. do 2 f_equal. exact Hlast. }
  clear Hc Hlast. rename Hc' into Hc.
  pose proof (Forall2_length_sum _ _ _ HF) as Hlen.
  assert (Hcount : len (profiles_of os) + len (errors_of os) = len (c :: l)).
  { unfold len. rewrite <- Nat2Z.inj_add, Hlen.
    rewrite loop_items_zero, enumerate_length. reflexivity. }
  cbn [app] in *. cbv beta iota.
  exists os.
  unfold final_save, cleanup_checkpoint, bind, write_files, read_files, ret.
  cbn [World.files INPUT_FILE OUTPUT_FILE CHECKPOINT_FILE ERROR_LOG_FILE].
  rewrite Hc. cbn [Phase2.file_exists andb].
  destruct (errors_of os) as [|e es] eqn:Herrs.
  - assert (Hfull : (len (profiles_of os) =? len (c :: l)) = true).
    { apply Z.eqb_eq.
      change (len (@nil error_entry)) with 0 in Hcount. lia. }
    rewrite Hfull. cbn [len List.length Z.of_nat Z.eqb andb].
    eexists. split; [reflexivity|].
    cbn [World.files INPUT_FILE OUTPUT_FILE CHECKPOINT_FILE ERROR_LOG_FILE].
    split; [exact HF|]. split; [reflexivity|].
    split; [now rewrite Ki, F2|]. split; [reflexivity|].
    congruence.
  - assert (Hsome : (len (e :: es) =? 0) = false).
    { apply Z.eqb_neq. unfold len. cbn [List.length]. lia. }
    rewrite Hsome. cbn [andb].
    eexists. split; [reflexivity|].
    cbn [World.files INPUT_FILE OUTPUT_FILE CHECKPOINT_FILE ERROR_LOG_FILE].
    split; [exact HF|]. split; [reflexivity|].
    split; [now rewrite Ki, F2|]. split; [congruence|].
    intros _. split; [reflexivity|]. exists now. reflexivity.
Qed.

(** The lists that Phase 5 writes have no [null] address: a row without
    a link gives ["Not Found"]. *)
Lemma organization_record_url r now rec :
  Phase5.organization_record r now = Some rec -> url_of rec <> PyNone.
Proof.
  unfold Phase5.organization_record.
  destruct (len (cells r) <? 10); [discriminate|].
  destruct (clean_text (PyStr (nth 3 (cells r) []))); [discriminate|].
  intros [= <-]. discriminate.
Qed.

(** An organization whose [Manage_URL] is [null] ends a run of Phase 6.
    The run started without a checkpoint, the browser starting and the
    login page loading; the organizations [done] before that one have
    addresses that are not [null].  Then [main] returns, the [TypeError]
    having been taken by its handler; each organization of [done] has
    given one profile or one error; the output file is not written; and
    the checkpoint left holds the profiles and [current_index = len(done)
    + 1], the position after the organization that raised, which has
    neither a profile nor an entry in the error log.  No list written by
    Phase 5 has such a record. *)
Theorem phase6_null_address_ends_the_run :
  forall done org rest (w : world files) s1,
    INPUT_FILE (World.files w) = Doc (done ++ org :: rest) ->
    Forall (fun o => url_of o <> PyNone) done ->
    url_of org = PyNone ->
    CHECKPOINT_FILE (World.files w) = Absent ->
    browser GetDriver (ext w) = (inr tt, s1) ->
    fst (browser (Navigate Phase2.LOGIN_URL) s1) = inr tt ->
    (exists outcomes w' now,
       main w = (Ret tt, w')
       /\ Forall2 organization_outcome (loop_items done 0) outcomes
       /\ OUTPUT_FILE (World.files w') = OUTPUT_FILE (World.files w)
       /\ INPUT_FILE (World.files w') = INPUT_FILE (World.files w)
       /\ ERROR_LOG_FILE (World.files w') = Doc (errors_of outcomes)
       /\ CHECKPOINT_FILE (World.files w')
          = Doc {| cp_timestamp := now;
                   current_index := len done + 1;
                   total_organizations := len (done ++ org :: rest);
                   organizations_processed := len (profiles_of outcomes);
                   errors_count := len (errors_of outcomes);
                   data := profiles_of outcomes |})
    /\ (forall r now rec,
          Phase5.organization_record r now = Some rec ->
          url_of rec <> PyNone).
Proof.
  intros done org rest w s1 Hin Hdone Horg Hcp Hdrv Hnav.
  split; [|exact organization_record_url].
  destruct (done ++ org :: rest) as [|c l] eqn:Hml;
    [now destruct done|].
  destruct (p6_fresh_start c l w s1 Hin Hcp Hdrv Hnav) as (w2 & F2 & ->).
  unfold try_except.
  assert (Hitems : loop_items (c :: l) 0
                   = loop_items done 0 ++ (len done, org)
                       :: enumerate rest (len done + 1)).
  { rewrite <- Hml, !loop_items_zero, enumerate_app. cbn [enumerate].
    do 2 f_equal. }
  destruct (finished_until (loop_items done 0) (len done) org
              (enumerate rest (len done + 1))
              (enumerate_forall (fun o => url_of o <> PyNone) _ 0 Hdone) Horg)
    as (Hfin & _ & Hend).
  rewrite <- Hitems in Hfin, Hend.
  destruct (orgs_loop_ledger (loop_items (c :: l) 0) (len (c :: l)) [] [] w2)
    as (pd' & errs' & wl & new & Er & _ & _ & Ki & Ko & Hc).
  destruct (orgs_loop_outcomes _ _ [] [] _ _ _ Er) as (os & Hr & HF).
  rewrite Hfin in Hc, HF. rewrite Hend in Er, Hr.
  injection Hr as -> ->.
  rewrite (bind_ret_eq _ _ _ _ _ Er). cbv beta iota. cbn [app].
  destruct (p6_save_checkpoint_run (profiles_of os) (len done + 1)
              (errors_of os) (len (c :: l)) wl)
    as (now & w' & Es & _ & Fs).
  rewrite Es. exists os, w', now. split; [reflexivity|].
  split; [exact HF|]. rewrite Fs.
  cbn [World.files INPUT_FILE OUTPUT_FILE CHECKPOINT_FILE ERROR_LOG_FILE].
  rewrite Ko, Ki, F2. repeat split.
Qed.

End Phase6Main.

(* ================================================================== *)
(** * Waiting for the rows (Phase 3)                                    *)
(* ================================================================== *)

Section Phase3Retry.
Import PyStr Text Py World Observe Watch Phase3.
Context {E : Env}.
Local Open Scope Z_scope.

Lemma polls_app a b : polls (a ++ b) = (polls a + polls b)%nat.
Proof. unfold polls. now rewrite filter_app, length_app. Qed.

Lemma no_poll_polls n : forallb no_poll n = true -> polls n = 0%nat.
Proof.
  unfold polls, no_poll. induction n as [|e n IH]; [reflexivity|].
  cbn. intros H. apply andb_true_iff in H. destruct H as [He Hn].
  destruct (is_poll e); [discriminate | exact (IH Hn)].
Qed.

Lemma p3_wait_no_poll : safe no_poll wait_for_loading_complete.
Proof. unfold wait_for_loading_complete. run_auto. Qed.
Hint Resolve p3_wait_no_poll : runs.

Lemma p3_parse_no_poll : safe no_poll parse_pagination_info.
Proof. unfold parse_pagination_info. run_auto. Qed.
Hint Resolve p3_parse_no_poll : runs.

(** One poll of the rows. *)
Lemma wait_for_rows_stable_run (w : world files) :
  exists rows w1,
    wait_for_rows_stable w = (Ret rows, w1)
    /\ trace w1 = trace w ++ [Sel RowsStable].
Proof.
  unfold wait_for_rows_stable, try_except, sel.
  destruct (browser RowsStable (ext w)) as [[e|rows] s1]; cbn;
    do 2 eexists; split; reflexivity.
Qed.

Ltac poll_rows :=
  match goal with
  | |- context [bind wait_for_rows_stable ?k ?w] =>
      let rows := fresh "rows" in
      let w1 := fresh "w" in
      let Ep := fresh "Ep" in
      let Tp := fresh "Tp" in
      destruct (wait_for_rows_stable_run w) as (rows & w1 & Ep & Tp);
      rewrite (bind_ret_eq wait_for_rows_stable k w rows w1 Ep); clear Ep
  end.

Ltac count_polls :=
  repeat match goal with
         | H : trace ?w = _ |- context [trace ?w] => rewrite H
         end;
  rewrite <- ?app_assoc.

Lemma retry_rows_bounds : forall attempts w,
  exists rows empty w' new,
    retry_rows attempts w = (Ret (rows, empty), w')
    /\ trace w' = trace w ++ new
    /\ (polls new <= 2 * attempts)%nat
    /\ (empty = false -> (0 < rows)%nat)
    /\ (empty = true -> rows = 0%nat /\ (attempts <= polls new)%nat).
Proof.
  induction attempts as [|k IH]; intros w; cbn [retry_rows].
  - exists 0%nat, true, w, []. rewrite app_nil_r. repeat split; cbn; lia.
  - run_bind_for no_poll. run_bind_for no_poll. poll_rows.
    destruct rows as [|r].
    2:{ exists (S r), false. do 2 eexists. split; [reflexivity|].
        split; [count_polls; reflexivity|].
        rewrite !polls_app, (no_poll_polls _ P), (no_poll_polls _ P0).
        cbn. repeat split; try lia; discriminate. }
    run_bind_for no_poll. destruct a1 as [[start end_] total].
    destruct (total >? 0).
    + run_bind_for no_poll. run_bind_for no_poll. poll_rows.
      destruct rows as [|r].
      2:{ exists (S r), false. do 2 eexists. split; [reflexivity|].
          split; [count_polls; reflexivity|].
          rewrite !polls_app, (no_poll_polls _ P), (no_poll_polls _ P0),
            (no_poll_polls _ P1), (no_poll_polls _ P2), (no_poll_polls _ P3).
          cbn. repeat split; try lia; discriminate. }
      match goal with
      | |- context [retry_rows k ?wc] =>
          destruct (IH wc) as (rows & empty & w' & new & Er & Tr & Hp & Hf & Ht)
      end.
      exists rows, empty, w'. eexists. split; [exact Er|].
      split; [rewrite Tr; count_polls; reflexivity|].
      rewrite !polls_app, (no_poll_polls _ P), (no_poll_polls _ P0),
        (no_poll_polls _ P1), (no_poll_polls _ P2), (no_poll_polls _ P3).
      cbn [polls is_poll filter List.length].
      split; [lia|]. split; [exact Hf|].
      intros He. destruct (Ht He). split; [assumption | lia].
    + match goal with
      | |- context [retry_rows k ?wc] =>
          destruct (IH wc) as (rows & empty & w' & new & Er & Tr & Hp & Hf & Ht)
      end.
      exists rows, empty, w'. eexists. split; [exact Er|].
      split; [rewrite Tr; count_polls; reflexivity|].
      rewrite !polls_app, (no_poll_polls _ P), (no_poll_polls _ P0),
        (no_poll_polls _ P1).
      cbn [polls is_poll filter List.length].
      split; [lia|]. split; [exact Hf|].
      intros He. destruct (Ht He). split; [assumption | lia].
Qed.

(** [wait_for_rows_with_retry] returns after at least one and at most
    seven polls of the rows (one, and at most two in each of the three
    retries).  It returns rows with [declared_empty = False], and only
    then; it declares the page empty only after at least four polls, none
    of which found a row. *)
Theorem rows_are_polled_at_most_seven_times :
  forall w : world files,
    exists rows declared_empty w' new,
      wait_for_rows_with_retry w = (Ret (rows, declared_empty), w')
      /\ trace w' = trace w ++ new
      /\ (1 <= polls new <= 7)%nat
      /\ (declared_empty = false -> (0 < rows)%nat)
      /\ (declared_empty = true -> rows = 0%nat /\ (4 <= polls new)%nat).
Proof.
  intros w. unfold wait_for_rows_with_retry. poll_rows.
  destruct rows as [|r].
  2:{ exists (S r), false. do 2 eexists. split; [reflexivity|].
      split; [exact Tp|]. cbn. repeat split; try lia; discriminate. }
  destruct (retry_rows_bounds EMPTY_MAX_RETRIES w0)
    as (rows & empty & w' & new & Er & Tr & Hp & Hf & Ht).
  exists rows, empty, w'. eexists. split; [exact Er|].
  split; [rewrite Tr, Tp, <- app_assoc; reflexivity|].
  rewrite polls_app. cbn [polls is_poll filter List.length app].
  unfold EMPTY_MAX_RETRIES in *.
  split; [lia|]. split; [exact Hf|].
  intros He. destruct (Ht He). split; [assumption | lia].
Qed.

End Phase3Retry.

(* ================================================================== *)
(** * The names of the institutions                                     *)
(* ================================================================== *)

Section NamesFacts.
Import PyStr Text Py World Observe Watch.
Context {E : Env}.

Lemma rstrip_fix s : ends_nonspace s = true -> rstrip s = s.
Proof.
  induction s as [|c t IH]; intros H; [reflexivity|].
  simpl in *. destruct t as [|d t'].
  - simpl. now destruct (is_space c).
  - rewrite (IH H). reflexivity.
Qed.

Lemma strip_idem s : strip (strip s) = strip s.
Proof.
  destruct (strip_shape s) as [-> | (c & t & -> & Hc & He)]; [reflexivity|].
  unfold strip. cbn [lstrip]. rewrite Hc. now apply rstrip_fix.
Qed.

Lemma keep_name_kept t : keep_name (strip t) = true -> kept_name (strip t).
Proof.
  unfold keep_name, kept_name. destruct (strip t) as [|c r] eqn:Hs;
    [discriminate|].
  intros H. split; [discriminate|]. split.
  - rewrite <- Hs. apply strip_idem.
  - now apply negb_true_iff.
Qed.

Lemma names_of_kept texts : Forall kept_name (names_of texts).
Proof.
  unfold names_of. induction texts as [|t texts IH]; [constructor|].
  cbn [map filter]. destruct (keep_name (strip t)) eqn:Hk; [|exact IH].
  constructor; [now apply keep_name_kept | exact IH].
Qed.

Lemma map_nth_seq (texts : list str) (f : str -> str) : forall pre,
  map (fun i => f (nth i (pre ++ texts) []))
      (seq (List.length pre) (List.length texts))
  = map f texts.
Proof.
  induction texts as [|t texts IH]; intros pre; [reflexivity|].
  cbn [List.length seq map]. rewrite nth_middle. f_equal.
  specialize (IH (pre ++ [t])). rewrite <- app_assoc in IH. cbn in IH.
  rewrite length_app in IH. cbn in IH. rewrite Nat.add_1_r in IH. exact IH.
Qed.

(** What [collect_names] keeps of one text (Phases 1 and 3). *)
Lemma p1_collect_step (t : str) (k : list str -> M Phase1.files (list str))
    names :
  match strip t with
  | [] => k names
  | _ :: _ => if contains (lit "Select HEI") (strip t)
              then k names else k (names ++ [strip t])
  end
  = k (names ++ filter keep_name [strip t]).
Proof.
  unfold keep_name. cbn [filter].
  destruct (strip t) as [|c r]; [now rewrite app_nil_r|].
  destruct (contains _ _); cbn [negb]; [now rewrite app_nil_r | reflexivity].
Qed.

Lemma p3_collect_step (t : str) (k : list str -> M Phase3.files (list str))
    names :
  match strip t with
  | [] => k names
  | _ :: _ => if contains (lit "Select HEI") (strip t)
              then k names else k (names ++ [strip t])
  end
  = k (names ++ filter keep_name [strip t]).
Proof.
  unfold keep_name. cbn [filter].
  destruct (strip t) as [|c r]; [now rewrite app_nil_r|].
  destruct (contains _ _); cbn [negb]; [now rewrite app_nil_r | reflexivity].
Qed.

Lemma p1_collect_names_kept idx : forall names,
  Forall kept_name names ->
  ensures (Forall kept_name) (Phase1.collect_names idx names).
Proof.
  induction idx as [|i idx IH]; intros names Hn; cbn [Phase1.collect_names].
  - now apply ensures_ret.
  - apply ensures_bind. intros t.
    rewrite (p1_collect_step t (Phase1.collect_names idx)).
    apply IH. apply Forall_app. split; [exact Hn|].
    cbn [filter]. destruct (keep_name (strip t)) eqn:Hk; [|constructor].
    constructor; [now apply keep_name_kept | constructor].
Qed.

Lemma p3_collect_names_kept idx : forall names,
  Forall kept_name names ->
  ensures (Forall kept_name) (Phase3.collect_names idx names).
Proof.
  induction idx as [|i idx IH]; intros names Hn; cbn [Phase3.collect_names].
  - now apply ensures_ret.
  - apply ensures_bind. intros t.
    rewrite (p3_collect_step t (Phase3.collect_names idx)).
    apply IH. apply Forall_app. split; [exact Hn|].
    cbn [filter]. destruct (keep_name (strip t)) eqn:Hk; [|constructor].
    constructor; [now apply keep_name_kept | constructor].
Qed.

Section Shown.
Variable texts : list str.
Hypothesis shown : shows_options E texts.

Lemma sel_options_count {F} :
  ensures (F:=F) (fun n => n = List.length texts) (sel FindOptions).
Proof.
  intros w n w' H. pose proof (sel_inv FindOptions w n w' H) as H1.
  rewrite (proj1 shown) in H1. now injection H1.
Qed.

Lemma p1_collect_names_shown idx : forall names,
  ensures (fun r => r = names ++ filter keep_name
                                   (map (fun i => strip (nth i texts [])) idx))
    (Phase1.collect_names idx names).
Proof.
  induction idx as [|i idx IH]; intros names; cbn [Phase1.collect_names].
  - apply ensures_ret. cbn. now rewrite app_nil_r.
  - apply (ensures_bind_with (fun t => t = nth i texts [])).
    + intros w t w' H.
      pose proof (sel_inv (Text (ListOption i)) w t w' H) as H1.
      rewrite (proj2 shown) in H1. now injection H1.
    + intros t ->.
      rewrite (p1_collect_step (nth i texts []) (Phase1.collect_names idx)).
      eapply ensures_weaken; [|apply IH]. cbv beta. intros r ->.
      cbn [map filter]. rewrite <- app_assoc.
      now destruct (keep_name (strip (nth i texts []))).
Qed.

Lemma p3_collect_names_shown idx : forall names,
  ensures (fun r => r = names ++ filter keep_name
                                   (map (fun i => strip (nth i texts [])) idx))
    (Phase3.collect_names idx names).
Proof.
  induction idx as [|i idx IH]; intros names; cbn [Phase3.collect_names].
  - apply ensures_ret. cbn. now rewrite app_nil_r.
  - apply (ensures_bind_with (fun t => t = nth i texts [])).
    + intros w t w' H.
      pose proof (sel_inv (Text (ListOption i)) w t w' H) as H1.
      rewrite (proj2 shown) in H1. now injection H1.
    + intros t ->.
      rewrite (p3_collect_step (nth i texts []) (Phase3.collect_names idx)).
      eapply ensures_weaken; [|apply IH]. cbv beta. intros r ->.
      cbn [map filter]. rewrite <- app_assoc.
      now destruct (keep_name (strip (nth i texts []))).
Qed.

Lemma p1_names_shown :
  ensures (fun names => names = [] \/ names = names_of texts)
    Phase1.get_institution_names.
Proof.
  unfold Phase1.get_institution_names.
  apply ensures_try; [|intros e; apply ensures_ret; now left].
  do 4 (apply ensures_bind; intros ?).
  apply (ensures_bind_with (fun n => n = List.length texts));
    [apply sel_options_count|].
  intros n ->.
  apply (ensures_bind_with (fun r => r = names_of texts)).
  - eapply ensures_weaken; [|apply p1_collect_names_shown].
    cbv beta. intros r ->. cbn [app]. unfold names_of. f_equal.
    exact (map_nth_seq texts strip []).
  - intros names ->. value_auto. now right.
Qed.

Lemma p3_names_shown :
  ensures (fun names => names = [] \/ names = names_of texts)
    Phase3.get_institution_names.
Proof.
  unfold Phase3.get_institution_names.
  apply ensures_try; [|intros e; apply ensures_ret; now left].
  do 4 (apply ensures_bind; intros ?).
  apply (ensures_bind_with (fun n => n = List.length texts));
    [apply sel_options_count|].
  intros n ->.
  apply (ensures_bind_with (fun r => r = names_of texts)).
  - eapply ensures_weaken; [|apply p3_collect_names_shown].
    cbv beta. intros r ->. cbn [app]. unfold names_of. f_equal.
    exact (map_nth_seq texts strip []).
  - intros names ->. value_auto. now right.
Qed.

End Shown.

Lemma p3_get_institution_names_safe :
  safe silent Phase3.get_institution_names.
Proof.
  unfold Phase3.get_institution_names.
  assert (C : forall idx names,
            calm silent (Phase3.collect_names idx names)).
  { induction idx as [|i idx IH]; intros names;
      cbn [Phase3.collect_names]; run_auto. }
  run_auto.
Qed.

Lemma p1_collect_ends idx names (w : world Phase1.files) :
  (exists r w', Phase1.collect_names idx names w = (Ret r, w'))
  \/ (exists e w', Phase1.collect_names idx names w = (Raise e, w')).
Proof.
  destruct (collect_names_calm idx names w) as (D & _).
  destruct (Phase1.collect_names idx names w) as [[r|e|] w'] eqn:Ec;
    [left | right | now elim D]; eauto.
Qed.

Lemma p1_collect_names_run texts (shown : shows_options E texts) idx :
  forall names (w : world Phase1.files),
  exists w' n,
    Phase1.collect_names idx names w
    = (Ret (names ++ filter keep_name
                       (map (fun i => strip (nth i texts [])) idx)), w')
    /\ trace w' = trace w ++ n /\ forallb silent n = true.
Proof.
  induction idx as [|i idx IH]; intros names w; cbn [Phase1.collect_names].
  - exists w, []. cbn. now rewrite !app_nil_r.
  - step_sel.
    2:{ rewrite (proj2 shown) in B. discriminate. }
    rewrite (proj2 shown) in B. injection B as <-.
    rewrite (p1_collect_step (nth i texts []) (Phase1.collect_names idx)).
    destruct (IH (names ++ filter keep_name [strip (nth i texts [])]) w0)
      as (w' & n & Er & Tr & Pr).
    exists w', ([Sel (Text (ListOption i))] ++ n).
    split.
    + rewrite Er. do 2 f_equal. cbn [map filter]. rewrite <- app_assoc.
      now destruct (keep_name (strip (nth i texts []))).
    + split; [rewrite Tr, T; now rewrite <- app_assoc|].
      cbn. exact Pr.
Qed.

Ltac step_ok H :=
  step_sel;
  [ | exfalso;
      match goal with
      | B : fst (browser _ ?s) = inl _ |- _ =>
          first [ destruct (H s) as (? & ? & ?); congruence
                | destruct (H s) as (? & ?); congruence ]
      end ].

(** When the dropdown opens, shows [texts] and closes, the enumeration
    gives the names kept of [texts]. *)
Lemma p1_names_run texts (shown : shows_options E texts)
    (opens : opens_dropdown E) (closes : closes_dropdown E)
    (w : world Phase1.files) :
  exists w' n,
    Phase1.get_institution_names w = (Ret (names_of texts), w')
    /\ trace w' = trace w ++ n /\ forallb silent n = true.
Proof.
  unfold Phase1.get_institution_names, try_except.
  step_ok opens. step_ok opens. step_ok opens. run_sleep.
  step_sel.
  2:{ match goal with
      | H : fst (browser FindOptions _) = inl _ |- _ =>
          rewrite (proj1 shown) in H; discriminate
      end. }
  match goal with
  | H : fst (browser FindOptions _) = inr _ |- _ =>
      rewrite (proj1 shown) in H; injection H as <-
  end.
  match goal with
  | |- context [bind (Phase1.collect_names ?i ?n) ?k ?wx] =>
      destruct (p1_collect_names_run texts shown i n wx)
        as (wc & nc & Ec & Tc & Pc);
      rewrite (bind_ret_eq _ k wx _ wc Ec)
  end.
  step_ok closes. step_ok closes. run_sleep.
  cbn [app]. pose proof (map_nth_seq texts strip []) as Hm.
  cbn [app List.length] in Hm. rewrite Hm.
  fold (names_of texts).
  eexists. eexists. split; [reflexivity|]. split; [trace_chain|].
  rewrite !forallb_app, Pc. reflexivity.
Qed.


Ltac step_fail Hfail :=
  step_sel;
  [ try (exfalso;
         match goal with
         | B : fst (browser _ ?s) = inr _ |- _ =>
             destruct (Hfail s) as (? & ?); congruence
         end)
  | reflexivity ].

(** When one of the calls of the enumeration always raises, the list is
    empty. *)
Lemma p1_names_fail c :
  In c enumeration_calls ->
  (forall s, exists e, fst (browser c s) = inl e) ->
  forall w : world Phase1.files,
    fst (Phase1.get_institution_names w) = Ret [].
Proof.
  intros Hin Hfail w.
  unfold Phase1.get_institution_names, try_except.
  cbn [enumeration_calls In] in Hin.
  destruct Hin as [<-|[<-|[<-|[<-|[<-|[<-|[]]]]]]].
  all: repeat first
    [ step_fail Hfail
    | run_sleep
    | match goal with
      | |- context [bind (Phase1.collect_names ?i ?n) ?k ?wx] =>
          destruct (p1_collect_ends i n wx)
            as [(r & wc & Ec)|(ec & wc & Ec)];
          [ rewrite (bind_ret_eq _ k wx r wc Ec)
          | rewrite (bind_raise_eq _ k wx ec wc Ec); reflexivity ]
      end ].
Qed.

(** When the text of one of the options shown cannot be read, the list is
    empty too. *)
Lemma p1_collect_fails i :
  (forall s, exists e, fst (browser (Text (ListOption i)) s) = inl e) ->
  forall idx, In i idx ->
  forall names (w : world Phase1.files),
    exists e w', Phase1.collect_names idx names w = (Raise e, w').
Proof.
  intros Hfail idx. induction idx as [|j idx IH]; intros Hin names w;
    [destruct Hin|].
  cbn [Phase1.collect_names].
  step_sel; [|eauto].
  rewrite (p1_collect_step v (Phase1.collect_names idx)).
  destruct Hin as [->|Hin]; [|now apply IH].
  destruct (Hfail (ext w)) as (e & He). congruence.
Qed.

Lemma p1_names_unread n i :
  (forall s, fst (browser FindOptions s) = inr n) ->
  (i < n)%nat ->
  (forall s, exists e, fst (browser (Text (ListOption i)) s) = inl e) ->
  forall w : world Phase1.files,
    fst (Phase1.get_institution_names w) = Ret [].
Proof.
  intros Hn Hi Hfail w.
  unfold Phase1.get_institution_names, try_except.
  step_sel; [|reflexivity]. step_sel; [|reflexivity].
  step_sel; [|reflexivity]. run_sleep.
  step_sel; [|reflexivity].
  match goal with
  | H : fst (browser FindOptions _) = inr _ |- _ =>
      rewrite Hn in H; injection H as <-
  end.
  match goal with
  | |- context [bind (Phase1.collect_names ?ix ?ns) ?k ?wx] =>
      destruct (p1_collect_fails i Hfail ix
                  ltac:(apply in_seq; lia) ns wx) as (e & wc & Ec);
      rewrite (bind_raise_eq _ k wx e wc Ec)
  end.
  reflexivity.
Qed.

(** The same for Phase 3. *)
Lemma p3_collect_ends idx names (w : world Phase3.files) :
  (exists r w', Phase3.collect_names idx names w = (Ret r, w'))
  \/ (exists e w', Phase3.collect_names idx names w = (Raise e, w')).
Proof.
  assert (C : forall idx names,
            calm silent (Phase3.collect_names idx names)).
  { clear. induction idx as [|i idx IH]; intros names;
      cbn [Phase3.collect_names]; run_auto. }
  destruct (C idx names w) as (D & _).
  destruct (Phase3.collect_names idx names w) as [[r|e|] w'] eqn:Ec;
    [left | right | now elim D]; eauto.
Qed.

Lemma p3_collect_names_run texts (shown : shows_options E texts) idx :
  forall names (w : world Phase3.files),
  exists w' n,
    Phase3.collect_names idx names w
    = (Ret (names ++ filter keep_name
                       (map (fun i => strip (nth i texts [])) idx)), w')
    /\ trace w' = trace w ++ n /\ forallb silent n = true.
Proof.
  induction idx as [|i idx IH]; intros names w; cbn [Phase3.collect_names].
  - exists w, []. cbn. now rewrite !app_nil_r.
  - step_sel.
    2:{ rewrite (proj2 shown) in B. discriminate. }
    rewrite (proj2 shown) in B. injection B as <-.
    rewrite (p3_collect_step (nth i texts []) (Phase3.collect_names idx)).
    destruct (IH (names ++ filter keep_name [strip (nth i texts [])]) w0)
      as (w' & n & Er & Tr & Pr).
    exists w', ([Sel (Text (ListOption i))] ++ n).
    split.
    + rewrite Er. do 2 f_equal. cbn [map filter]. rewrite <- app_assoc.
      now destruct (keep_name (strip (nth i texts []))).
    + split; [rewrite Tr, T; now rewrite <- app_assoc|].
      cbn. exact Pr.
Qed.

Lemma p3_names_run texts (shown : shows_options E texts)
    (opens : opens_dropdown E) (closes : closes_dropdown E)
    (w : world Phase3.files) :
  exists w' n,
    Phase3.get_institution_names w = (Ret (names_of texts), w')
    /\ trace w' = trace w ++ n /\ forallb silent n = true.
Proof.
  unfold Phase3.get_institution_names, try_except.
  step_ok opens. step_ok opens. step_ok opens. run_sleep.
  step_sel.
  2:{ match goal with
      | H : fst (browser FindOptions _) = inl _ |- _ =>
          rewrite (proj1 shown) in H; discriminate
      end. }
  match goal with
  | H : fst (browser FindOptions _) = inr _ |- _ =>
      rewrite (proj1 shown) in H; injection H as <-
  end.
  match goal with
  | |- context [bind (Phase3.collect_names ?i ?n) ?k ?wx] =>
      destruct (p3_collect_names_run texts shown i n wx)
        as (wc & nc & Ec & Tc & Pc);
      rewrite (bind_ret_eq _ k wx _ wc Ec)
  end.
  step_ok closes. step_ok closes. run_sleep.
  cbn [app]. pose proof (map_nth_seq texts strip []) as Hm.
  cbn [app List.length] in Hm. rewrite Hm.
  fold (names_of texts).
  eexists. eexists. split; [reflexivity|]. split; [trace_chain|].
  rewrite !forallb_app, Pc. reflexivity.
Qed.

Lemma p3_names_fail c :
  In c enumeration_calls ->
  (forall s, exists e, fst (browser c s) = inl e) ->
  forall w : world Phase3.files,
    fst (Phase3.get_institution_names w) = Ret [].
Proof.
  intros Hin Hfail w.
  unfold Phase3.get_institution_names, try_except.
  cbn [enumeration_calls In] in Hin.
  destruct Hin as [<-|[<-|[<-|[<-|[<-|[<-|[]]]]]]].
  all: repeat first
    [ step_fail Hfail
    | run_sleep
    | match goal with
      | |- context [bind (Phase3.collect_names ?i ?n) ?k ?wx] =>
          destruct (p3_collect_ends i n wx)
            as [(r & wc & Ec)|(ec & wc & Ec)];
          [ rewrite (bind_ret_eq _ k wx r wc Ec)
          | rewrite (bind_raise_eq _ k wx ec wc Ec); reflexivity ]
      end ].
Qed.

Lemma p3_collect_fails i :
  (forall s, exists e, fst (browser (Text (ListOption i)) s) = inl e) ->
  forall idx, In i idx ->
  forall names (w : world Phase3.files),
    exists e w', Phase3.collect_names idx names w = (Raise e, w').
Proof.
  intros Hfail idx. induction idx as [|j idx IH]; intros Hin names w;
    [destruct Hin|].
  cbn [Phase3.collect_names].
  step_sel; [|eauto].
  rewrite (p3_collect_step v (Phase3.collect_names idx)).
  destruct Hin as [->|Hin]; [|now apply IH].
  destruct (Hfail (ext w)) as (e & He). congruence.
Qed.

Lemma p3_names_unread n i :
  (forall s, fst (browser FindOptions s) = inr n) ->
  (i < n)%nat ->
  (forall s, exists e, fst (browser (Text (ListOption i)) s) = inl e) ->
  forall w : world Phase3.files,
    fst (Phase3.get_institution_names w) = Ret [].
Proof.
  intros Hn Hi Hfail w.
  unfold Phase3.get_institution_names, try_except.
  step_sel; [|reflexivity]. step_sel; [|reflexivity].
  step_sel; [|reflexivity]. run_sleep.
  step_sel; [|reflexivity].
  match goal with
  | H : fst (browser FindOptions _) = inr _ |- _ =>
      rewrite Hn in H; injection H as <-
  end.
  match goal with
  | |- context [bind (Phase3.collect_names ?ix ?ns) ?k ?wx] =>
      destruct (p3_collect_fails i Hfail ix
                  ltac:(apply in_seq; lia) ns wx) as (e & wc & Ec);
      rewrite (bind_raise_eq _ k wx e wc Ec)
  end.
  reflexivity.
Qed.

(** [get_institution_names] (Phases 1 and 3) always returns a list.  Every
    name in it is a stripped text that is not empty and does not contain
    ["Select HEI"].  When the dropdown shows the options [texts], the list
    is empty or it is exactly the stripped texts that are kept, in the
    order of the dropdown, duplicates included; it is the latter when the
    dropdown opens and closes as asked.  The list is empty when a call of
    the enumeration fails: the wait for the dropdown, the click that opens
    it, the wait for the list, the search of the options, the search or the
    click of the page that closes it, or the read of the text of one of
    the options. *)
Theorem institution_names_are_the_kept_options :
  (forall w : world Phase1.files,
     exists names w',
       Phase1.get_institution_names w = (Ret names, w')
       /\ Forall kept_name names)
  /\ (forall w : world Phase3.files,
     exists names w',
       Phase3.get_institution_names w = (Ret names, w')
       /\ Forall kept_name names)
  /\ (forall texts, shows_options E texts ->
      (forall w : world Phase1.files,
         fst (Phase1.get_institution_names w) = Ret []
         \/ fst (Phase1.get_institution_names w) = Ret (names_of texts))
      /\ (forall w : world Phase3.files,
         fst (Phase3.get_institution_names w) = Ret []
         \/ fst (Phase3.get_institution_names w) = Ret (names_of texts)))
  /\ (forall texts,
      shows_options E texts -> opens_dropdown E -> closes_dropdown E ->
      (forall w : world Phase1.files,
         fst (Phase1.get_institution_names w) = Ret (names_of texts))
      /\ (forall w : world Phase3.files,
         fst (Phase3.get_institution_names w) = Ret (names_of texts)))
  /\ (forall c,
      In c enumeration_calls ->
      (forall s, exists e, fst (browser c s) = inl e) ->
      (forall w : world Phase1.files,
         fst (Phase1.get_institution_names w) = Ret [])
      /\ (forall w : world Phase3.files,
         fst (Phase3.get_institution_names w) = Ret []))
  /\ (forall n i,
      (forall s, fst (browser FindOptions s) = inr n) ->
      (i < n)%nat ->
      (forall s, exists e, fst (browser (Text (ListOption i)) s) = inl e) ->
      (forall w : world Phase1.files,
         fst (Phase1.get_institution_names w) = Ret [])
      /\ (forall w : world Phase3.files,
         fst (Phase3.get_institution_names w) = Ret [])).
Proof.
  split; [|split; [|split; [|split; [|split]]]].
  - intros w.
    destruct (get_institution_names_safe w) as (names & w' & n & Er & _).
    exists names, w'. split; [exact Er|].
    revert Er. generalize w names w'.
    change (ensures (Forall kept_name) Phase1.get_institution_names).
    unfold Phase1.get_institution_names.
    apply ensures_try; [|intros e; now apply ensures_ret].
    do 5 (apply ensures_bind; intros ?).
    apply (ensures_bind_with (Forall kept_name));
      [now apply p1_collect_names_kept|].
    intros r Hr. value_auto. exact Hr.
  - intros w.
    destruct (p3_get_institution_names_safe w) as (names & w' & n & Er & _).
    exists names, w'. split; [exact Er|].
    revert Er. generalize w names w'.
    change (ensures (Forall kept_name) Phase3.get_institution_names).
    unfold Phase3.get_institution_names.
    apply ensures_try; [|intros e; now apply ensures_ret].
    do 5 (apply ensures_bind; intros ?).
    apply (ensures_bind_with (Forall kept_name));
      [now apply p3_collect_names_kept|].
    intros r Hr. value_auto. exact Hr.
  - intros texts Hshown. split.
    + intros w.
      destruct (get_institution_names_safe w) as (names & w' & n & Er & _).
      rewrite Er. cbn [fst].
      destruct (p1_names_shown texts Hshown _ _ _ Er) as [-> | ->]; auto.
    + intros w.
      destruct (p3_get_institution_names_safe w)
        as (names & w' & n & Er & _).
      rewrite Er. cbn [fst].
      destruct (p3_names_shown texts Hshown _ _ _ Er) as [-> | ->]; auto.
  - intros texts Hshown Hopens Hcloses. split; intros w.
    + destruct (p1_names_run texts Hshown Hopens Hcloses w)
        as (w' & n & Er & _).
      now rewrite Er.
    + destruct (p3_names_run texts Hshown Hopens Hcloses w)
        as (w' & n & Er & _).
      now rewrite Er.
  - intros c Hin Hfail. split; intros w.
    + now apply (p1_names_fail c).
    + now apply (p3_names_fail c).
  - intros n i Hn Hi Hfail. split; intros w.
    + now apply (p1_names_unread n i).
    + now apply (p3_names_unread n i).
Qed.

End NamesFacts.

(* ================================================================== *)
(** * Resumed runs (Phases 1 and 2)                                     *)
(* ================================================================== *)

Section ResumedRuns.
Import PyStr Text Py World Observe Watch.
Context {E : Env}.
Local Open Scope Z_scope.

Lemma p1_resume_prompt_run cp (w : world Phase1.files) :
  Phase1.CHECKPOINT_FILE (files w) = Doc cp ->
  says_yes (fst (operator Input (ext w))) = true ->
  exists w1,
    Phase1.resume_prompt w
    = (Ret (Phase1.data cp, Phase1.current_index cp), w1)
    /\ trace w1 = trace w ++ [Hst Input].
Proof.
  intros Hf Hy. unfold Phase1.resume_prompt, Phase1.load_checkpoint.
  unfold bind at 1, bind at 1, read_files. rewrite Hf. cbn [ret].
  destruct (ask_run_trace Input w) as (w1 & Ea & T & _).
  rewrite (bind_ret_eq _ _ _ _ _ Ea), Hy. now exists w1.
Qed.

Lemma p2_resume_prompt_run cp (w : world Phase2.files) :
  Phase2.CHECKPOINT_FILE (files w) = Doc cp ->
  says_yes (fst (operator Input (ext w))) = true ->
  exists errors w1,
    Phase2.resume_prompt w
    = (Ret (Phase2.data cp, errors, Phase2.current_index cp), w1)
    /\ trace w1 = trace w ++ [Hst Input].
Proof.
  intros Hf Hy. unfold Phase2.resume_prompt, Phase2.load_checkpoint.
  unfold bind at 1, bind at 1, read_files. rewrite Hf. cbn [ret].
  destruct (ask_run_trace Input w) as (w1 & Ea & T & _).
  rewrite (bind_ret_eq _ _ _ _ _ Ea), Hy.
  unfold bind, read_files, ret. do 2 eexists. split; [reflexivity | exact T].
Qed.

(** [main] of Phase 1, resumed: the browser starts, the operator answers
    yes, the dropdown shows [texts]. *)
Lemma p1_main_resumed cp texts extra (w : world Phase1.files) :
  obliging E -> opens_dropdown E -> closes_dropdown E ->
  shows_options E texts -> names_of texts <> [] ->
  Phase1.CHECKPOINT_FILE (files w) = Doc cp ->
  exists w' new added,
    Phase1.main (50 + extra) w = (Ret tt, w')
    /\ trace w' = trace w ++ new
    /\ headers new
       = map (fun it => (fst it + 1, PyStr (snd it)))
           (loop_items (names_of texts) (Phase1.current_index cp))
    /\ Phase1.OUTPUT_JSON (files w') = Doc (Phase1.data cp ++ added).
Proof.
  intros (Hdrv & Hnav & Hyes) opens closes shown Hne Hcp.
  unfold Phase1.main.
  step_sel; [|rewrite Hdrv in B; discriminate].
  destruct (p1_resume_prompt_run cp w0) as (w1 & Er & T1);
    [now rewrite K | apply Hyes |].
  rewrite (bind_ret_eq _ _ _ _ _ Er). cbv beta iota.
  unfold try_except.
  step_sel; [|rewrite Hnav in B0; discriminate].
  destruct (ask_run_trace Input w2) as (w3 & Ea & T3 & _).
  rewrite (bind_ret_eq _ _ _ _ _ Ea).
  destruct (p1_names_run texts shown opens closes w3)
    as (w4 & n4 & En & T4 & P4).
  rewrite (bind_ret_eq _ _ _ _ _ En).
  destruct (names_of texts) as [|n0 names] eqn:Hnames; [congruence|].
  set (k := Phase1.current_index cp).
  destruct (institutions_loop_headers (loop_items (n0 :: names) k) extra
              (n0 :: names) (Phase1.data cp) w4)
    as (ml' & w5 & n5 & El & T5 & H5).
  destruct (p1_institutions_loop_ledger (loop_items (n0 :: names) k) extra
              (n0 :: names) (Phase1.data cp) w4)
    as (ml2 & w52 & El2 & (added & Hadd & _) & _).
  rewrite El in El2. injection El2 as <- <-.
  rewrite (bind_ret_eq _ _ _ _ _ El).
  unfold write_files. eexists. eexists. exists added.
  split; [reflexivity|]. cbn [trace files Phase1.OUTPUT_JSON].
  split; [trace_chain|]. split; [|now rewrite Hadd].
  no_headers. rewrite ?app_nil_r. exact H5.
Qed.

(** [main] of Phase 2, resumed on the input list [master]. *)
Lemma p2_main_resumed cp master (w : world Phase2.files) :
  obliging E ->
  Phase2.INPUT_FILE (files w) = Doc master -> master <> [] ->
  Phase2.CHECKPOINT_FILE (files w) = Doc cp ->
  exists w' new outcomes,
    Phase2.main w = (Ret tt, w')
    /\ trace w' = trace w ++ new
    /\ headers new
       = map (fun it => (fst it + 1, get_or_unknown (lit "Name") (snd it)))
           (loop_items master (Phase2.current_index cp))
    /\ Forall2 expert_outcome
         (loop_items master (Phase2.current_index cp)) outcomes
    /\ Phase2.OUTPUT_FILE (files w')
       = Doc (Phase2.data cp ++ profiles_of outcomes).
Proof.
  intros (Hdrv & Hnav & Hyes) Hin Hne Hcp.
  destruct master as [|c l]; [congruence|].
  unfold Phase2.main.
  rewrite (bind_ret_eq Phase2.load_master_list _ w (Some (c :: l)) w).
  2:{ unfold Phase2.load_master_list, bind, read_files. now rewrite Hin. }
  cbv beta iota.
  step_sel; [|rewrite Hdrv in B; discriminate].
  destruct (p2_resume_prompt_run cp w0) as (errs & w1 & Er & T1);
    [now rewrite K | apply Hyes |].
  rewrite (bind_ret_eq _ _ _ _ _ Er). cbv beta iota.
  unfold try_except.
  step_sel; [|rewrite Hnav in B0; discriminate].
  destruct (ask_run_trace Input w2) as (w3 & Ea & T3 & _).
  rewrite (bind_ret_eq _ _ _ _ _ Ea).
  set (k := Phase2.current_index cp).
  destruct (experts_loop_spec (loop_items (c :: l) k) (len (c :: l))
              (Phase2.data cp) errs w3)
    as (r & w4 & n4 & El & T4 & H4 & _).
  destruct (experts_loop_outcomes _ _ _ _ _ _ _ El) as (os & -> & HF).
  rewrite (bind_ret_eq _ _ _ _ _ El). cbv beta iota.
  unfold Phase2.final_save, Phase2.cleanup_checkpoint, bind, write_files,
    read_files, ret.
  cbn [files Phase2.CHECKPOINT_FILE].
  destruct (Phase2.file_exists (Phase2.CHECKPOINT_FILE (files w4))
            && (len (errs ++ errors_of os) =? 0)).
  - eexists. eexists. exists os. split; [reflexivity|].
    cbn [trace files Phase2.OUTPUT_FILE].
    split; [trace_chain|]. split; [|split; [exact HF | reflexivity]].
    no_headers. rewrite ?app_nil_r. exact H4.
  - eexists. eexists. exists os. split; [reflexivity|].
    cbn [trace files Phase2.OUTPUT_FILE].
    split; [trace_chain|]. split; [|split; [exact HF | reflexivity]].
    no_headers. rewrite ?app_nil_r. exact H4.
Qed.

(** Claim C1.  Resuming from a checkpoint whose [current_index] is [k]
    (and [k] is not negative): the resume prompt hands [k] to the loop as
    [start_index] when the operator answers yes (Phases 1 and 2); the loop
    head [enumerate(xs[k:], start=k)] yields, as its [j]-th item, the item
    of 0-based index [k + j] of the list under that index, so it starts at
    index [k] and holds no item of a smaller index; and the loops of Phase 1
    and Phase 2 process exactly these items in order, the header printed
    for each being its 1-based position [i + 1] (the first one [k + 1]).
    So does a whole run of [main]: when the browser starts, the page loads
    and the operator answers yes, [main] of Phase 1 (the dropdown showing
    the institutions) and [main] of Phase 2 (on its input list) return
    having printed the headers of the items of index [k] and later, these
    only and in order, and the output file holds the records of the
    checkpoint followed by what these items gave. *)
Theorem resume_starts_at_checkpoint_index (k : Z) (Hk : 0 <= k) :
  (forall cp (w : world Phase1.files),
      Phase1.CHECKPOINT_FILE (files w) = Doc cp ->
      Phase1.current_index cp = k ->
      says_yes (fst (operator Input (ext w))) = true ->
      fst (Phase1.resume_prompt w) = Ret (Phase1.data cp, k))
  /\ (forall cp (w : world Phase2.files),
      Phase2.CHECKPOINT_FILE (files w) = Doc cp ->
      Phase2.current_index cp = k ->
      says_yes (fst (operator Input (ext w))) = true ->
      exists errors,
        fst (Phase2.resume_prompt w) = Ret (Phase2.data cp, errors, k))
  /\ (forall (A : Type) (xs : list A) (j : nat),
      nth_error (loop_items xs k) j
      = option_map (fun x => (k + Z.of_nat j, x))
          (nth_error xs (Z.to_nat k + j)))
  /\ (forall (A : Type) (xs : list A) i x,
      In (i, x) (loop_items xs k) ->
      k <= i /\ nth_error xs (Z.to_nat i) = Some x)
  /\ (forall extra names master_list (w : world Phase1.files),
      exists master_list' w' new,
        Phase1.institutions_loop (50 + extra) names (loop_items names k)
          master_list w = (Ret master_list', w')
        /\ trace w' = trace w ++ new
        /\ headers new
           = map (fun it => (fst it + 1, PyStr (snd it))) (loop_items names k))
  /\ (forall master processed errors (w : world Phase2.files),
      exists r w' new,
        Phase2.experts_loop (len master) (loop_items master k)
          processed errors w = (Ret r, w')
        /\ trace w' = trace w ++ new
        /\ headers new
           = map (fun it => (fst it + 1,
                             get_or_unknown (lit "Name") (snd it)))
               (loop_items master k))
  /\ (forall cp texts extra (w : world Phase1.files),
      obliging E -> opens_dropdown E -> closes_dropdown E ->
      shows_options E texts -> names_of texts <> [] ->
      Phase1.CHECKPOINT_FILE (files w) = Doc cp ->
      Phase1.current_index cp = k ->
      exists w' new added,
        Phase1.main (50 + extra) w = (Ret tt, w')
        /\ trace w' = trace w ++ new
        /\ headers new
           = map (fun it => (fst it + 1, PyStr (snd it)))
               (loop_items (names_of texts) k)
        /\ Phase1.OUTPUT_JSON (files w') = Doc (Phase1.data cp ++ added))
  /\ (forall cp master (w : world Phase2.files),
      obliging E ->
      Phase2.INPUT_FILE (files w) = Doc master -> master <> [] ->
      Phase2.CHECKPOINT_FILE (files w) = Doc cp ->
      Phase2.current_index cp = k ->
      exists w' new outcomes,
        Phase2.main w = (Ret tt, w')
        /\ trace w' = trace w ++ new
        /\ headers new
           = map (fun it => (fst it + 1,
                             get_or_unknown (lit "Name") (snd it)))
               (loop_items master k)
        /\ Forall2 expert_outcome (loop_items master k) outcomes
        /\ Phase2.OUTPUT_FILE (files w')
           = Doc (Phase2.data cp ++ profiles_of outcomes)).
Proof.
  split; [|split; [|split; [|split; [|split; [|split; [|split]]]]]].
  - intros cp w Hf <- Hy. now apply p1_resume_prompt_yes.
  - intros cp w Hf <- Hy. now apply p2_resume_prompt_yes.
  - intros A xs j. now apply loop_items_nth_error.
  - intros A xs i x Hin. split; eapply loop_items_from; eassumption.
  - intros extra names ml w. apply institutions_loop_headers.
  - intros master pd errs w.
    destruct (experts_loop_spec (loop_items master k) (len master) pd errs w)
      as (r & w' & new & Er & Tr & Hh & _).
    now exists r, w', new.
  - intros cp texts extra w Hobl Hopens Hcloses Hshown Hne Hcp <-.
    now apply (p1_main_resumed cp texts).
  - intros cp master w Hobl Hin Hne Hcp <-.
    now apply p2_main_resumed.
Qed.

End ResumedRuns.

(* ================================================================== *)
(** * No organization twice (Phase 5)                                   *)
(* ================================================================== *)

Section Phase5Distinct.
Import PyStr Text Py World Observe Watch Phase5.
Context {E : Env}.
Local Open Scope Z_scope.

Lemma str_eqb_eq (a b : str) : str_eqb a b = true <-> a = b.
Proof.
  revert b. induction a as [|x a IH]; intros [|y b]; cbn;
    try (split; [discriminate | congruence]); [tauto|].
  rewrite andb_true_iff, N.eqb_eq, IH. split; [intros []|intros [=]];
    subst; auto.
Qed.

Lemma pytext_eqb_eq (a b : pytext) : pytext_eqb a b = true <-> a = b.
Proof.
  destruct a as [|x], b as [|y]; cbn;
    try (split; [discriminate | congruence]); [tauto|].
  rewrite str_eqb_eq. split; congruence.
Qed.

Lemma url_in_iff u urls : url_in u urls = true <-> In u urls.
Proof.
  unfold url_in. rewrite existsb_exists. split.
  - intros (x & Hx & He). apply pytext_eqb_eq in He. now subst.
  - intros H. exists u. split; [exact H | now apply pytext_eqb_eq].
Qed.

Lemma NoDup_snoc {A} (l : list A) (x : A) :
  NoDup l -> ~ In x l -> NoDup (l ++ [x]).
Proof.
  induction 1 as [|y l Hy Hl IH]; intros Hx; cbn.
  - constructor; [tauto | constructor].
  - constructor.
    + rewrite in_app_iff. cbn. intros [H | [H | []]]; [tauto|].
      subst. apply Hx. now left.
    + apply IH. intros H. apply Hx. now right.
Qed.

(** The addresses known cover the records collected. *)
Definition covered (ml : list record) (urls : list pytext) : Prop :=
  forall r, In r ml -> In (url_of r) urls.

Lemma add_new_distinct : forall page ml urls ml' urls',
  NoDup (map url_of ml) -> covered ml urls ->
  add_new page ml urls = (ml', urls') ->
  NoDup (map url_of ml') /\ covered ml' urls'
  /\ (exists added, ml' = ml ++ added /\ incl added page)
  /\ (forall r, In r page -> In (url_of r) (map url_of ml') \/ In (url_of r) urls).
Proof.
  induction page as [|item page IH]; intros ml urls ml' urls' Hnd Hcov H;
    cbn [add_new] in H.
  - injection H as <- <-. repeat split; trivial.
    + exists []. split; [now rewrite app_nil_r | intros x []].
    + intros r [].
  - fold (url_of item) in H.
    destruct (url_in (url_of item) urls) eqn:Hin.
    + destruct (IH _ _ _ _ Hnd Hcov H) as (H1 & H2 & (added & -> & Hinc) & H4).
      repeat split; trivial.
      * exists added. split; [reflexivity|]. intros x Hx. right. now apply Hinc.
      * intros r [<- | Hr]; [right; now apply url_in_iff | now apply H4].
    + assert (Hnew : ~ In (url_of item) urls).
      { intros Hc. apply url_in_iff in Hc. congruence. }
      assert (Hnd' : NoDup (map url_of (ml ++ [item]))).
      { rewrite map_app. cbn [map]. apply NoDup_snoc; [exact Hnd|].
        intros Hc. apply in_map_iff in Hc. destruct Hc as (r & Hr & Hin').
        apply Hnew. rewrite <- Hr. now apply Hcov. }
      assert (Hcov' : covered (ml ++ [item]) (url_of item :: urls)).
      { intros r Hr. apply in_app_or in Hr. destruct Hr as [Hr | [<- | []]].
        - right. now apply Hcov.
        - now left. }
      destruct (IH _ _ _ _ Hnd' Hcov' H)
        as (H1 & H2 & (added & -> & Hinc) & H4).
      repeat split; trivial.
      * exists (item :: added). split; [now rewrite <- app_assoc|].
        intros x [<- | Hx]; [now left | right; now apply Hinc].
      * intros r [<- | Hr].
        -- left. rewrite <- app_assoc, map_app. apply in_or_app. right.
           now left.
        -- destruct (H4 r Hr) as [Hl | [Hl | Hl]]; [now left | | now right].
           left. rewrite <- Hl, <- app_assoc, map_app. apply in_or_app.
           right. now left.
Qed.

Lemma p5_pages_loop_distinct fuel : forall ml urls cp total,
  NoDup (map url_of ml) -> covered ml urls ->
  ensures (fun r => NoDup (map url_of (fst r))
                    /\ exists added, fst r = ml ++ added)
    (pages_loop fuel ml urls cp total).
Proof.
  induction fuel as [|fuel IH]; intros ml urls cp total Hnd Hcov;
    cbn [pages_loop].
  - apply ensures_diverge.
  - apply ensures_bind. intros page.
    destruct (add_new page ml urls) as [ml1 urls1] eqn:Hadd.
    destruct (add_new_distinct _ _ _ _ _ Hnd Hcov Hadd)
      as (Hnd1 & Hcov1 & (added & -> & _) & _).
    assert (Hdone : NoDup (map url_of (ml ++ added))
                    /\ exists added0, ml ++ added = ml ++ added0)
      by (split; [exact Hnd1 | now exists added]).
    value_auto; try exact Hdone.
    eapply ensures_weaken; [|apply (IH _ _ _ _ Hnd1 Hcov1)].
    cbv beta. intros r (Hr & added' & Heq). split; [exact Hr|].
    exists (added ++ added'). rewrite Heq. now rewrite app_assoc.
Qed.

(** The paging loop of Phase 5, started as [main] starts it (with the
    addresses of the records it has as [existing_urls]) on records with
    pairwise different [Manage_URL]: it returns, it only appends records,
    and the [Manage_URL] of the records it returns are pairwise
    different (a row whose address is already there is not added, so of
    the rows without a link, which all read ["Not Found"], one is
    kept). *)
Theorem phase5_collects_no_address_twice :
  forall extra master_list total (w : world files),
    NoDup (map url_of master_list) ->
    exists master_list' current_page w',
      pages_loop (500 + extra) master_list (map url_of master_list) 1 total w
      = (Ret (master_list', current_page), w')
      /\ NoDup (map url_of master_list')
      /\ exists added, master_list' = master_list ++ added.
Proof.
  intros extra ml total w Hnd.
  destruct (p5_pages_loop_spec (500 + extra) ml (map url_of ml) 1 total w
              ltac:(lia) ltac:(lia))
    as (ml' & cp' & w' & new & Er & _).
  exists ml', cp', w'. split; [exact Er|].
  assert (Hcov : covered ml (map url_of ml))
    by (intros r Hr; now apply in_map).
  exact (p5_pages_loop_distinct _ _ _ _ _ Hnd Hcov _ _ _ Er).
Qed.

End Phase5Distinct.

(* ================================================================== *)
(** * More runs on the simulated portal                                 *)
(* ================================================================== *)

Section MoreRuns.
Import PyStr Text Py World Observe Watch.
Local Open Scope Z_scope.
Local Existing Instance Sim.portal_env.

(** Claim C1 at [k = 37]: a checkpoint with [current_index = 37] over forty
    institutions resumes at the 38th one (0-based index 37) and goes on
    with the 39th and the 40th, in the loop and in a whole run of [main] of
    Phase 1; and a run of [main] of Phase 2 over two experts, resumed from
    a checkpoint with [current_index = 1], processes the second only. *)
Lemma resume_at_index_37 :
  0 <= 37
  /\ fst (Phase1.resume_prompt
            (Sim.start (Sim.portal_with Sim.forty_names [] [lit "y"])
               (Sim.p1_files (Doc (Sim.p1_checkpoint_at 37 40)))))
     = Ret ([], 37)
  /\ nth_error (loop_items Sim.forty_names 37) 0
     = Some (37, nth 37 Sim.forty_names [])
  /\ (exists master_list' w' new,
       Phase1.institutions_loop 50 Sim.forty_names
         (loop_items Sim.forty_names 37) []
         (Sim.start (Sim.portal_with Sim.forty_names [] [])
            (Sim.p1_files Absent))
       = (Ret master_list', w')
       /\ trace w' = new
       /\ headers new
          = [ (38, PyStr (nth 37 Sim.forty_names []));
              (39, PyStr (nth 38 Sim.forty_names []));
              (40, PyStr (nth 39 Sim.forty_names [])) ])
  /\ (exists w' new added,
       Phase1.main 50
         (Sim.willing_start Sim.forty_names
            (Sim.p1_files (Doc (Sim.p1_checkpoint_at 37 40))))
       = (Ret tt, w')
       /\ trace w' = new
       /\ headers new
          = [ (38, PyStr (nth 37 Sim.forty_names []));
              (39, PyStr (nth 38 Sim.forty_names []));
              (40, PyStr (nth 39 Sim.forty_names [])) ]
       /\ Phase1.OUTPUT_JSON (files w') = Doc added)
  /\ (exists w' new (outcomes : list (record + Phase2.error_entry)),
       Phase2.main
         (Sim.willing_start [] (Sim.p2_files_at Sim.two_experts 1))
       = (Ret tt, w')
       /\ trace w' = new
       /\ headers new = [ (2, PyStr (lit "Cy")) ]
       /\ Phase2.OUTPUT_FILE (files w') = Doc (profiles_of outcomes)).
Proof.
  assert (Hk : 0 <= 37) by lia.
  assert (Hk1 : 0 <= 1) by lia.
  destruct (@resume_starts_at_checkpoint_index Sim.portal_env 37 Hk)
    as (Hprompt & _ & Hnth & _ & Hloop & _).
  destruct (@resume_starts_at_checkpoint_index
              (Sim.willing_env Sim.forty_names) 37 Hk)
    as (_ & _ & _ & _ & _ & _ & Hmain1 & _).
  destruct (@resume_starts_at_checkpoint_index (Sim.willing_env []) 1 Hk1)
    as (_ & _ & _ & _ & _ & _ & _ & Hmain2).
  split; [exact Hk|]. split; [|split; [|split; [|split]]].
  - exact (Hprompt (Sim.p1_checkpoint_at 37 40)
             (Sim.start (Sim.portal_with Sim.forty_names [] [lit "y"])
                (Sim.p1_files (Doc (Sim.p1_checkpoint_at 37 40))))
             eq_refl eq_refl eq_refl).
  - rewrite Hnth. reflexivity.
  - destruct (Hloop 0%nat Sim.forty_names []
                (Sim.start (Sim.portal_with Sim.forty_names [] [])
                   (Sim.p1_files Absent)))
      as (ml & w' & new & Er & Tr & Hh).
    exists ml, w', new. split; [exact Er|]. split; [exact Tr|].
    rewrite Hh. reflexivity.
  - destruct (Hmain1 (Sim.p1_checkpoint_at 37 40) Sim.forty_names 0%nat
                (Sim.willing_start Sim.forty_names
                   (Sim.p1_files (Doc (Sim.p1_checkpoint_at 37 40)))))
      as (w' & new & added & Er & Tr & Hh & Ho).
    + repeat split.
    + intros s. repeat split.
    + intros s. repeat split.
    + split; intros; reflexivity.
    + discriminate.
    + reflexivity.
    + reflexivity.
    + exists w', new, added. split; [exact Er|]. split; [exact Tr|].
      split; [rewrite Hh; reflexivity | exact Ho].
  - destruct (Hmain2 (Sim.p2_checkpoint_at 1) Sim.two_experts
                (Sim.willing_start [] (Sim.p2_files_at Sim.two_experts 1)))
      as (w' & new & outcomes & Er & Tr & Hh & _ & Ho).
    + repeat split.
    + reflexivity.
    + discriminate.
    + reflexivity.
    + reflexivity.
    + exists w', new, outcomes. split; [exact Er|]. split; [exact Tr|].
      split; [rewrite Hh; reflexivity | exact Ho].
Defined.

(** The [Meta] block of Phase 4 for a row of the facility grid scraped by
    Phase 3: no [Facility_ID], no [Type_From_List]. *)
Lemma facility_meta_example :
  Phase3.facility_record Sim.algoma Sim.facility_row (lit "2026-01-01")
  = Some [ (lit "Institution", PyStr Sim.algoma);
           (lit "Branch", PyStr (lit "ALG"));
           (lit "Facility_Name", PyStr (lit "Soil Lab"));
           (lit "Facility_Type", PyStr (lit "Laboratory"));
           (lit "Manage_URL",
              PyStr (lit "https://www.ocip.express/Facility/Details/7"));
           (lit "Scraped_At", PyStr (lit "2026-01-01")) ]
  /\ Handover.facility_meta
       (PyStr (lit "https://www.ocip.express/Facility/Details/7"))
       (lit "2026-01-02")
       [ (lit "Institution", PyStr Sim.algoma);
         (lit "Branch", PyStr (lit "ALG"));
         (lit "Facility_Name", PyStr (lit "Soil Lab"));
         (lit "Facility_Type", PyStr (lit "Laboratory"));
         (lit "Manage_URL",
            PyStr (lit "https://www.ocip.express/Facility/Details/7"));
         (lit "Scraped_At", PyStr (lit "2026-01-01")) ]
     = [ (lit "Source_URL",
            PyStr (lit "https://www.ocip.express/Facility/Details/7"));
         (lit "Scraped_At", PyStr (lit "2026-01-02"));
         (lit "Institution", PyStr Sim.algoma);
         (lit "Facility_Name_From_List", PyStr (lit "Soil Lab"));
         (lit "Facility_ID", PyStr []);
         (lit "Type_From_List", PyStr []) ]
  /\ get (lit "Facility_ID")
       (Handover.facility_meta
          (PyStr (lit "https://www.ocip.express/Facility/Details/7"))
          (lit "2026-01-02")
          [ (lit "Institution", PyStr Sim.algoma);
            (lit "Branch", PyStr (lit "ALG"));
            (lit "Facility_Name", PyStr (lit "Soil Lab"));
            (lit "Facility_Type", PyStr (lit "Laboratory"));
            (lit "Manage_URL",
               PyStr (lit "https://www.ocip.express/Facility/Details/7"));
            (lit "Scraped_At", PyStr (lit "2026-01-01")) ])
     = Some (PyStr []).
Proof.
  assert (H : Phase3.facility_record Sim.algoma Sim.facility_row
                (lit "2026-01-01")
              = Some [ (lit "Institution", PyStr Sim.algoma);
                       (lit "Branch", PyStr (lit "ALG"));
                       (lit "Facility_Name", PyStr (lit "Soil Lab"));
                       (lit "Facility_Type", PyStr (lit "Laboratory"));
                       (lit "Manage_URL",
                          PyStr (lit "https://www.ocip.express/Facility/Details/7"));
                       (lit "Scraped_At", PyStr (lit "2026-01-01")) ])
    by reflexivity.
  split; [exact H|]. split; [reflexivity|].
  exact (proj1 (proj2 (proj2 (proj2
           (facility_meta_of_phase3_record _ _ _ _
              (PyStr (lit "https://www.ocip.express/Facility/Details/7"))
              (lit "2026-01-02") H))))).
Defined.

(** The checkpoint of Phase 1 after the first of two institutions, whose
    grid has no row: index 1, no record. *)
Lemma phase1_checkpoint_example :
  [(0, Sim.algoma)] <> []
  /\ exists w' now,
       Phase1.institutions_loop 50 [Sim.algoma; Sim.brock]
         [(0, Sim.algoma)] [] Sim.working_grid
       = (Ret [], w')
       /\ Phase1.CHECKPOINT_FILE (files w')
          = Doc {| Phase1.timestamp := now;
                   Phase1.current_index := 1;
                   Phase1.total_institutions := 2;
                   Phase1.experts_collected := 0;
                   Phase1.data := [] |}.
Proof.
  assert (H : [(0, Sim.algoma)] <> []) by discriminate.
  split; [exact H|].
  destruct (phase1_checkpoint_after_loop [(0, Sim.algoma)] 0%nat
              [Sim.algoma; Sim.brock] [] Sim.working_grid H)
    as (ml' & w' & now & Er & Hf).
  change (50 + 0)%nat with 50%nat in Er.
  assert (Hml : ml' = []).
  { assert (Hv : fst (Phase1.institutions_loop 50 [Sim.algoma; Sim.brock]
                        [(0, Sim.algoma)] [] Sim.working_grid) = Ret [])
      by (vm_compute; reflexivity).
    rewrite Er in Hv. now injection Hv. }
  subst ml'. exists w', now. split; [exact Er|]. rewrite Hf. reflexivity.
Defined.

(** The checkpoint of Phase 3 after two institutions without rows: the
    names of the institutions are in it, and both are listed as empty. *)
Lemma phase3_checkpoint_example :
  loop_items [Sim.algoma; Sim.brock] 0 <> []
  /\ exists empties w' now,
       Phase3.institutions_loop 200 [Sim.algoma; Sim.brock]
         (loop_items [Sim.algoma; Sim.brock] 0) [] [] Sim.p3_start
       = (Ret ([], empties), w')
       /\ map Phase3.name empties = [Sim.algoma; Sim.brock]
       /\ Phase3.CHECKPOINT_FILE (files w')
          = Doc {| Phase3.timestamp := now;
                   Phase3.current_index := 2;
                   Phase3.total_institutions := 2;
                   Phase3.facilities_collected := 0;
                   Phase3.institution_names := [Sim.algoma; Sim.brock];
                   Phase3.empty_institutions := empties;
                   Phase3.data := [] |}.
Proof.
  assert (H : loop_items [Sim.algoma; Sim.brock] 0 <> []) by discriminate.
  split; [exact H|].
  destruct (phase3_checkpoint_after_loop
              (loop_items [Sim.algoma; Sim.brock] 0) 0%nat
              [Sim.algoma; Sim.brock] [] [] Sim.p3_start H)
    as (ml' & em' & w' & now & Er & Hf).
  change (200 + 0)%nat with 200%nat in Er.
  assert (Hv : exists em,
             fst (Phase3.institutions_loop 200 [Sim.algoma; Sim.brock]
                    (loop_items [Sim.algoma; Sim.brock] 0) [] [] Sim.p3_start)
             = Ret ([], em)
             /\ map Phase3.name em = [Sim.algoma; Sim.brock]).
  { eexists. split; vm_compute; reflexivity. }
  destruct Hv as (em & Hv & Hn). rewrite Er in Hv.
  injection Hv as -> ->.
  exists em, w', now. split; [exact Er|]. split; [exact Hn|].
  rewrite Hf. reflexivity.
Defined.

(** The checkpoint of Phase 6 after two organizations, the page of the
    second not loading: one profile, one error, index 2. *)
Lemma phase6_checkpoint_example :
  finished (loop_items Sim.two_experts 0) <> []
  /\ exists processed_data errors w' now,
       Phase6.orgs_loop 2 (loop_items Sim.two_experts 0) [] [] Sim.p6_fresh
       = (Ret (processed_data, errors, Phase6.Completed), w')
       /\ len processed_data = 1 /\ len errors = 1
       /\ Phase6.CHECKPOINT_FILE (files w')
          = Doc {| Phase6.cp_timestamp := now;
                   Phase6.current_index := 2;
                   Phase6.total_organizations := 2;
                   Phase6.organizations_processed := 1;
                   Phase6.errors_count := 1;
                   Phase6.data := processed_data |}
       /\ Phase6.ERROR_LOG_FILE (files w') = Doc errors.
Proof.
  assert (H : finished (loop_items Sim.two_experts 0) <> []) by discriminate.
  split; [exact H|].
  destruct (phase6_checkpoint_after_loop (loop_items Sim.two_experts 0) 2
              [] [] Sim.p6_fresh H)
    as (pd' & errs' & w' & now & Er & Hf & Hlen).
  assert (Hv : exists pd errs,
             fst (Phase6.orgs_loop 2 (loop_items Sim.two_experts 0) [] []
                    Sim.p6_fresh) = Ret (pd, errs, Phase6.Completed)
             /\ len pd = 1 /\ len errs = 1).
  { do 2 eexists. split; [vm_compute; reflexivity|].
    split; reflexivity. }
  destruct Hv as (pd & errs & Hv & Hp & He). rewrite Er in Hv.
  injection Hv as -> ->.
  exists pd, errs, w', now. split; [exact Er|].
  split; [exact Hp|]. split; [exact He|].
  rewrite Hf. cbn [Phase6.CHECKPOINT_FILE Phase6.ERROR_LOG_FILE].
  rewrite Hp, He. split; reflexivity.
Defined.

(** A fresh run of Phase 2 over two experts, the page of the second not
    loading: one profile in the output, one error in the log. *)
Lemma phase2_fresh_run_example :
  Phase2.INPUT_FILE (files Sim.p2_fresh) = Doc Sim.two_experts
  /\ Sim.two_experts <> []
  /\ Phase2.CHECKPOINT_FILE (files Sim.p2_fresh) = Absent
  /\ browser GetDriver (ext Sim.p2_fresh) = (inr tt, ext Sim.p2_fresh)
  /\ fst (browser (Navigate Phase2.LOGIN_URL) (ext Sim.p2_fresh)) = inr tt
  /\ exists outcomes w',
       Phase2.main Sim.p2_fresh = (Ret tt, w')
       /\ List.length (profiles_of outcomes) = 1%nat
       /\ List.length (errors_of outcomes) = 1%nat
       /\ Phase2.OUTPUT_FILE (files w') = Doc (profiles_of outcomes)
       /\ Phase2.ERROR_LOG_FILE (files w') = Doc (errors_of outcomes).
Proof.
  assert (H1 : Phase2.INPUT_FILE (files Sim.p2_fresh) = Doc Sim.two_experts)
    by reflexivity.
  assert (H2 : Sim.two_experts <> []) by discriminate.
  assert (H3 : Phase2.CHECKPOINT_FILE (files Sim.p2_fresh) = Absent)
    by reflexivity.
  assert (H0 : browser GetDriver (ext Sim.p2_fresh)
               = (inr tt, ext Sim.p2_fresh)) by reflexivity.
  assert (H4 : fst (browser (Navigate Phase2.LOGIN_URL) (ext Sim.p2_fresh))
               = inr tt) by reflexivity.
  repeat (split; [assumption|]).
  destruct (phase2_fresh_run Sim.two_experts Sim.p2_fresh _ H1 H2 H3 H0 H4)
    as (os & w' & Er & HF & Ho & Hi & Hnone & Hsome).
  assert (Hout : exists pd,
             Phase2.OUTPUT_FILE (files (snd (Phase2.main Sim.p2_fresh)))
             = Doc pd /\ List.length pd = 1%nat).
  { eexists. split; vm_compute; reflexivity. }
  destruct Hout as (pd & Hpd & Hlen). rewrite Er in Hpd. cbn [snd] in Hpd.
  rewrite Ho in Hpd. injection Hpd as <-.
  pose proof (Forall2_length_sum _ _ _ HF) as Hsum.
  change (List.length (loop_items Sim.two_experts 0)) with 2%nat in Hsum.
  assert (He : List.length (errors_of os) = 1%nat) by lia.
  exists os, w'. split; [exact Er|]. split; [exact Hlen|].
  split; [exact He|]. split; [exact Ho|].
  apply Hsome. intros Hc. rewrite Hc in He. discriminate.
Defined.

(** The same for Phase 6: the checkpoint stays, with the index 2. *)
Lemma phase6_fresh_run_example :
  Phase6.INPUT_FILE (files Sim.p6_fresh) = Doc Sim.two_experts
  /\ Sim.two_experts <> []
  /\ Forall (fun org => url_of org <> PyNone) Sim.two_experts
  /\ Phase6.CHECKPOINT_FILE (files Sim.p6_fresh) = Absent
  /\ browser GetDriver (ext Sim.p6_fresh) = (inr tt, ext Sim.p6_fresh)
  /\ fst (browser (Navigate Phase2.LOGIN_URL) (ext Sim.p6_fresh)) = inr tt
  /\ exists outcomes w',
       Phase6.main Sim.p6_fresh = (Ret tt, w')
       /\ Phase6.OUTPUT_FILE (files w') = Doc (profiles_of outcomes)
       /\ List.length (errors_of outcomes) = 1%nat
       /\ Phase6.ERROR_LOG_FILE (files w') = Doc (errors_of outcomes)
       /\ Phase2.file_exists (Phase6.CHECKPOINT_FILE (files w')) = true.
Proof.
  assert (H1 : Phase6.INPUT_FILE (files Sim.p6_fresh) = Doc Sim.two_experts)
    by reflexivity.
  assert (H2 : Sim.two_experts <> []) by discriminate.
  assert (Hu : Forall (fun org => url_of org <> PyNone) Sim.two_experts)
    by (repeat constructor; discriminate).
  assert (H3 : Phase6.CHECKPOINT_FILE (files Sim.p6_fresh) = Absent)
    by reflexivity.
  assert (H0 : browser GetDriver (ext Sim.p6_fresh)
               = (inr tt, ext Sim.p6_fresh)) by reflexivity.
  assert (H4 : fst (browser (Navigate Phase2.LOGIN_URL) (ext Sim.p6_fresh))
               = inr tt) by reflexivity.
  repeat (split; [assumption|]).
  destruct (phase6_fresh_run Sim.two_experts Sim.p6_fresh _ H1 H2 Hu H3 H0 H4)
    as (os & w' & Er & HF & Ho & Hi & Hnone & Hsome).
  assert (Hout : exists pd,
             Phase6.OUTPUT_FILE (files (snd (Phase6.main Sim.p6_fresh)))
             = Doc pd /\ List.length pd = 1%nat).
  { eexists. split; vm_compute; reflexivity. }
  destruct Hout as (pd & Hpd & Hlen). rewrite Er in Hpd. cbn [snd] in Hpd.
  rewrite Ho in Hpd. injection Hpd as <-.
  pose proof (Forall2_length_sum _ _ _ HF) as Hsum.
  change (List.length (loop_items Sim.two_experts 0)) with 2%nat in Hsum.
  assert (He : List.length (errors_of os) = 1%nat) by lia.
  assert (Hne : errors_of os <> []).
  { intros Hc. rewrite Hc in He. discriminate. }
  destruct (Hsome Hne) as (Hlog & now & Hcp).
  exists os, w'. split; [exact Er|]. split; [exact Ho|].
  split; [exact He|]. split; [exact Hlog|]. rewrite Hcp. reflexivity.
Defined.

(** Three organizations, the [Manage_URL] of the second being [null]:
    the run ends there, with one profile in the checkpoint, the index 2
    and no output file. *)
Lemma phase6_null_address_example :
  Phase6.INPUT_FILE (files Sim.p6_null_address)
  = Doc ([Sim.expert] ++ Sim.organization_without_address
           :: [Sim.other_expert])
  /\ Forall (fun o => url_of o <> PyNone) [Sim.expert]
  /\ url_of Sim.organization_without_address = PyNone
  /\ Phase6.CHECKPOINT_FILE (files Sim.p6_null_address) = Absent
  /\ browser GetDriver (ext Sim.p6_null_address)
     = (inr tt, ext Sim.p6_null_address)
  /\ fst (browser (Navigate Phase2.LOGIN_URL) (ext Sim.p6_null_address))
     = inr tt
  /\ exists (outcomes : list (record + Phase6.error_entry)) w' now,
       Phase6.main Sim.p6_null_address = (Ret tt, w')
       /\ List.length (profiles_of outcomes) = 1%nat
       /\ errors_of outcomes = []
       /\ Phase6.OUTPUT_FILE (files w') = Absent
       /\ Phase6.CHECKPOINT_FILE (files w')
          = Doc {| Phase6.cp_timestamp := now;
                   Phase6.current_index := 2;
                   Phase6.total_organizations := 3;
                   Phase6.organizations_processed := 1;
                   Phase6.errors_count := 0;
                   Phase6.data := profiles_of outcomes |}.
Proof.
  assert (H1 : Phase6.INPUT_FILE (files Sim.p6_null_address)
               = Doc ([Sim.expert] ++ Sim.organization_without_address
                        :: [Sim.other_expert])) by reflexivity.
  assert (H2 : Forall (fun o => url_of o <> PyNone) [Sim.expert])
    by (repeat constructor; discriminate).
  assert (H3 : url_of Sim.organization_without_address = PyNone)
    by reflexivity.
  assert (H4 : Phase6.CHECKPOINT_FILE (files Sim.p6_null_address) = Absent)
    by reflexivity.
  assert (H5 : browser GetDriver (ext Sim.p6_null_address)
               = (inr tt, ext Sim.p6_null_address)) by reflexivity.
  assert (H6 : fst (browser (Navigate Phase2.LOGIN_URL)
                      (ext Sim.p6_null_address)) = inr tt) by reflexivity.
  repeat (split; [assumption|]).
  destruct (phase6_null_address_ends_the_run [Sim.expert]
              Sim.organization_without_address [Sim.other_expert]
              Sim.p6_null_address _ H1 H2 H3 H4 H5 H6)
    as ((os & w' & now & Er & HF & Ho & Hi & He & Hc) & _).
  assert (Hv : exists pd,
             Phase6.ERROR_LOG_FILE
               (files (snd (Phase6.main Sim.p6_null_address))) = Doc []
             /\ option_map Phase6.data
                  (match Phase6.CHECKPOINT_FILE
                           (files (snd (Phase6.main Sim.p6_null_address)))
                   with Doc cp => Some cp | _ => None end) = Some pd
             /\ List.length pd = 1%nat).
  { eexists. split; [vm_compute; reflexivity|].
    split; vm_compute; reflexivity. }
  destruct Hv as (pd & Hlog & Hpd & Hlen).
  rewrite Er in Hlog, Hpd. cbn [snd] in Hlog, Hpd.
  rewrite He in Hlog. injection Hlog as Herrs.
  rewrite Hc in Hpd. cbn in Hpd. injection Hpd as <-.
  exists os, w', now. split; [exact Er|]. split; [exact Hlen|].
  split; [exact Herrs|]. split; [rewrite Ho; reflexivity|].
  rewrite Hc. unfold len. rewrite Hlen, Herrs. reflexivity.
Defined.

(** Three rows of the organization grid that have no link: Phase 5 keeps
    the first. *)
Lemma phase5_keeps_one_row_without_link :
  NoDup (map url_of (@nil record))
  /\ exists master_list' current_page w',
       Phase5.pages_loop 500 [] (map url_of (@nil record)) 1 3
         Sim.organizations_grid
       = (Ret (master_list', current_page), w')
       /\ NoDup (map url_of master_list')
       /\ map url_of master_list' = [PyStr (lit "Not Found")]
       /\ pages_scraped (trace w') = 1%nat.
Proof.
  assert (H : NoDup (map url_of (@nil record))) by constructor.
  split; [exact H|].
  destruct (phase5_collects_no_address_twice 0%nat [] 3
              Sim.organizations_grid H)
    as (ml' & cp' & w' & Er & Hnd & _).
  change (500 + 0)%nat with 500%nat in Er.
  exists ml', cp', w'. split; [exact Er|]. split; [exact Hnd|].
  assert (Hv : map url_of
                 (fst (match fst (Phase5.pages_loop 500 []
                                    (map url_of (@nil record)) 1 3
                                    Sim.organizations_grid) with
                       | Ret r => r
                       | _ => ([], 0)
                       end)) = [PyStr (lit "Not Found")]
               /\ pages_scraped
                    (trace (snd (Phase5.pages_loop 500 []
                                   (map url_of (@nil record)) 1 3
                                   Sim.organizations_grid))) = 1%nat).
  { split; vm_compute; reflexivity. }
  rewrite Er in Hv. exact Hv.
Defined.

End MoreRuns.

(* ================================================================== *)
(** * Properties of the readers of Yes/No cells                         *)
(* ================================================================== *)

Section FlagFacts.
Import PyStr Text Flags.
Local Open Scope N_scope.

Lemma starts_with_prefix :
  forall p q a, starts_with (p ++ q) a = true -> starts_with p a = true.
Proof.
  induction p as [|x p IH]; intros q a H; [now destruct a|].
  destruct a as [|y a]; cbn in *; [discriminate|].
  apply andb_true_iff in H. destruct H as [Hx Hp].
  rewrite Hx. cbn. exact (IH q a Hp).
Qed.

(** A string that contains [p ++ q] contains [p]. *)
Lemma contains_prefix :
  forall p q a, contains (p ++ q) a = true -> contains p a = true.
Proof.
  intros p q. induction a as [|y a IH]; intros H.
  - cbn in H. rewrite orb_false_r in H.
    apply starts_with_prefix in H. cbn. now rewrite H.
  - change (contains (p ++ q) (y :: a))
      with (starts_with (p ++ q) (y :: a) || contains (p ++ q) a) in H.
    change (contains p (y :: a))
      with (starts_with p (y :: a) || contains p a).
    apply orb_true_iff in H. apply orb_true_iff.
    destruct H as [H|H]; [left; exact (starts_with_prefix _ _ _ H)|].
    right. exact (IH H).
Qed.

(** The class of an unchecked box has the class name of the tick in it. *)
Lemma checkbox_has_check :
  forall classes,
    contains (lit "k-i-checkbox") classes = true ->
    contains (lit "k-i-check") classes = true.
Proof.
  intros classes H.
  exact (contains_prefix (lit "k-i-check") (lit "box") classes H).
Qed.

(** An icon without a title whose class has [k-i-checkbox] in it, and not
    [k-i-checkbox-checked] (an empty box), is read as "Yes" by Phase 5
    and by Phase 6: their test for [k-i-check] comes first, and every box
    passes it.  Phases 2 and 4 read the same cell as "No". *)
Theorem unchecked_box_icon_reads_yes :
  forall c icon classes,
    cell_icon c = Some icon ->
    truthy (icon_title icon) = false ->
    icon_class icon = Some classes ->
    contains (lit "k-i-checkbox") classes = true ->
    contains (lit "k-i-checkbox-checked") classes = false ->
    P5.parse_yes_no_cell c = lit "Yes"
    /\ P6.parse_yes_no c = lit "Yes"
    /\ P2.parse_yes_no c = lit "No".
Proof.
  intros c icon classes Hi Ht Hc Hbox Hno.
  pose proof (checkbox_has_check classes Hbox) as Hcheck.
  unfold P5.parse_yes_no_cell, P5.read_icon, P6.parse_yes_no,
    P2.parse_yes_no.
  rewrite Hi, Hc. cbn [or_empty].
  destruct (icon_title icon) as [[|ch t]|]; cbn in Ht; try discriminate.
  all: cbn [or_empty]; rewrite Hno, Hcheck, Hbox; cbn [orb]; auto.
Qed.

Lemma lower_empty : forall s, lower s = [] -> s = [].
Proof. intros [|c s] H; [reflexivity | discriminate]. Qed.



(** An empty box, as the grid draws it. *)
Lemma unchecked_box_example :
  P5.parse_yes_no_cell (icon_cell (lit "k-icon k-i-checkbox") [])
  = lit "Yes"
  /\ P6.parse_yes_no (icon_cell (lit "k-icon k-i-checkbox") []) = lit "Yes"
  /\ P2.parse_yes_no (icon_cell (lit "k-icon k-i-checkbox") []) = lit "No".
Proof.
  exact (unchecked_box_icon_reads_yes
           (icon_cell (lit "k-icon k-i-checkbox") [])
           {| icon_class := Some (lit "k-icon k-i-checkbox");
              icon_title := None |}
           (lit "k-icon k-i-checkbox")
           eq_refl eq_refl eq_refl eq_refl eq_refl).
Defined.

End FlagFacts.
